(** * Solar desalination simulator: a shallow embedding and its properties

    This development embeds the thermodynamic core of the simulator
    ([simulacion_desalinizador_modificable.py], [parametros_configurables.py]
    and the statistics of [actualizar_datos_reporte.py]) and proves or
    refutes the properties its specification states.

    Numerical conventions.  Python and numpy floats are idealised as exact
    rationals ([Q]); a float comparison is the comparison of the rationals.
    A Python division raises [ZeroDivisionError] on a zero divisor; a numpy
    or pandas division by zero raises nothing and yields [inf] or [NaN]: the
    model marks such a value as non finite and does not follow it further.
    The transcendental functions and the random generator of numpy are an
    interface ([Numpy]) of which every general theorem is independent; the
    examples run on one instance of it, [numpy_ejemplo].  Printing,
    plotting and file output are not modelled.

    Rounding.  The statements are chosen so that the double-precision
    computation shares them with the rational one: a cell is given by the
    formula the code writes for it, a bound comes from a clip, a maximum, a
    minimum or a sign, an exception from an operand that is exactly zero.
    An identity between two different formulas is not stated.  Where a
    bound on a quotient or on a sum of quotients is exact over the
    rationals only (0.35, 100 %), it is stated with a margin that covers
    the rounding (0.3499, 100 +- 0.01), for operands of moderate size; and
    where the code is claimed to return, the configuration is of moderate
    size ([config_moderada]), so that no product underflows to zero. *)

From Stdlib Require Import ZArith Lia Sorted Reals Lra QArith Qreals Qminmax Qabs Qround Lqa Ascii String.
From stdpp Require Import gmap strings list.

Local Open Scope Q_scope.

(** ** Outcomes of a computation *)

Inductive excepcion : Set :=
  | ZeroDivisionError
  | UnboundLocalError
  | KeyError
  | TypeError
  | ValueError
  | IndexError.

(** [Ok a]: normal return; [Raise e]: a Python exception; [NonFinite]: a numpy
    operation produced [inf] or [NaN] where the rational model cannot follow. *)
Inductive resultado (A : Type) : Type :=
  | Ok (a : A)
  | Raise (e : excepcion)
  | NonFinite.
Arguments Ok {A} a.
Arguments Raise {A} e.
Arguments NonFinite {A}.

#[global] Instance resultado_ret : MRet resultado := fun A a => Ok a.
#[global] Instance resultado_bind : MBind resultado := fun A B f m =>
  match m with
  | Ok a => f a
  | Raise e => Raise e
  | NonFinite => NonFinite
  end.

Fixpoint mapR {A B : Type} (f : A -> resultado B) (l : list A) : resultado (list B) :=
  match l with
  | [] => Ok []
  | x :: l' => y ← f x; ys ← mapR f l'; Ok (y :: ys)
  end.

(** ** Float operations on the rational idealisation *)

Definition Qltb (x y : Q) : bool := negb (Qle_bool y x).
Definition Qgeb (x y : Q) : bool := Qle_bool y x.
Definition Qgtb (x y : Q) : bool := negb (Qle_bool x y).

(** Python [x / y] on floats. *)
Definition py_div (x y : Q) : resultado Q :=
  if Qeq_bool y 0 then Raise ZeroDivisionError else Ok (x / y).

(** numpy [x / y], elementwise or by a scalar. *)
Definition np_div (x y : Q) : resultado Q :=
  if Qeq_bool y 0 then NonFinite else Ok (x / y).

Definition np_minimum (x y : Q) : Q := Qmin x y.
Definition np_maximum (x y : Q) : Q := Qmax x y.
Definition np_clip (x lo hi : Q) : Q := np_minimum (np_maximum x lo) hi.

(** The part of numpy the simulator uses: the global random generator
    ([np.random.seed], [np.random.normal]) and the elementary functions. *)
Class Numpy : Type := {
  rng : Type;
  seed : Z -> rng;
  normal_draws : Q -> Q -> nat -> rng -> list Q * rng;
  normal_draws_length : forall loc scale n g,
    length (fst (normal_draws loc scale n g)) = n;
  np_cos : Q -> Q;
  np_sin : Q -> Q;
  np_exp : Q -> Q;
  np_pi : Q
}.

Definition np_radians `{Numpy} (x : Q) : Q := x * np_pi / 180.

(** ** [parametros_configurables.py] *)

Module params_config.

Record Dimensiones : Type := {
  largo : Q;
  ancho : Q;
  altura : Q
}.

Record PropiedadesTermicas : Type := {
  absorptividad : Q;
  angulo_incidencia : Q;
  material_caja : string
}.

Record PropiedadesAgua : Type := {
  cp_agua : Q;
  calor_latente_vaporizacion : Q;
  temp_inicial : Q;
  temp_ebullicion : Q
}.

Record CondicionesOperacion : Type := {
  horas_radiacion_util : Q;
  masa_agua : Q;
  hemisferio : string;
  ubicacion_latitud : Q
}.

Record ParametrosSimulacion : Type := {
  radiacion_base : Q;
  amplitud_variacion : Q;
  variabilidad_diaria : Q;
  factor_eficiencia_alta : Q;
  factor_eficiencia_media : Q;
  factor_eficiencia_baja : Q;
  factor_eficiencia_minima : Q
}.

Record OpcionesVisualizacion : Type := {
  dpi_graficas : Z;
  mostrar_graficas : bool;
  tema_graficas : string
}.

Record Config : Type := {
  dimensiones : Dimensiones;
  propiedades_termicas : PropiedadesTermicas;
  propiedades_agua : PropiedadesAgua;
  conductividades_termicas : gmap string Q;
  condiciones_operacion : CondicionesOperacion;
  parametros_simulacion : ParametrosSimulacion;
  opciones_visualizacion : OpcionesVisualizacion
}.

Definition DIMENSIONES : Dimensiones :=
  {| largo := 0.45; ancho := 0.25; altura := 0.30 |}.

Definition PROPIEDADES_TERMICAS : PropiedadesTermicas :=
  {| absorptividad := 0.9; angulo_incidencia := 30; material_caja := "aluminio" |}.

Definition PROPIEDADES_AGUA : PropiedadesAgua :=
  {| cp_agua := 4186; calor_latente_vaporizacion := 2.26e6;
     temp_inicial := 293; temp_ebullicion := 368 |}.

Definition CONDUCTIVIDADES_TERMICAS : gmap string Q :=
  <["acero" := 50]> (<["aluminio" := 205]> (<["pvc" := 0.19]> ∅)).

Definition CONDICIONES_OPERACION : CondicionesOperacion :=
  {| horas_radiacion_util := 6; masa_agua := 2;
     hemisferio := "norte"; ubicacion_latitud := 40.0 |}.

Definition PARAMETROS_SIMULACION : ParametrosSimulacion :=
  {| radiacion_base := 500; amplitud_variacion := 350; variabilidad_diaria := 100;
     factor_eficiencia_alta := 0.80; factor_eficiencia_media := 0.70;
     factor_eficiencia_baja := 0.55; factor_eficiencia_minima := 0.35 |}.

Definition OPCIONES_VISUALIZACION : OpcionesVisualizacion :=
  {| dpi_graficas := 300; mostrar_graficas := false;
     tema_graficas := "seaborn-v0_8-darkgrid" |}.

Definition cargar_parametros : Config :=
  {| dimensiones := DIMENSIONES;
     propiedades_termicas := PROPIEDADES_TERMICAS;
     propiedades_agua := PROPIEDADES_AGUA;
     conductividades_termicas := CONDUCTIVIDADES_TERMICAS;
     condiciones_operacion := CONDICIONES_OPERACION;
     parametros_simulacion := PARAMETROS_SIMULACION;
     opciones_visualizacion := OPCIONES_VISUALIZACION |}.

End params_config.

(** ** [ParametrosDesalinizador] *)

Record FactoresEficiencia : Type := {
  alto : Q;
  medio : Q;
  bajo : Q;
  minimo : Q
}.

(** The attributes [ParametrosDesalinizador.__init__] sets, in its order. *)
Record ParametrosDesalinizador : Type := {
  config : params_config.Config;
  largo : Q;
  ancho : Q;
  altura : Q;
  area_captacion : Q;
  volumen : Q;
  volumen_litros : Q;
  area_base : Q;
  area_tapa : Q;
  area_paredes : Q;
  area_total : Q;
  absorptividad : Q;
  emisividad : Q;
  transmisividad_vidrio : Q;
  angulo_incidencia : Q;
  cos_angulo : Q;
  material_caja : string;
  sigma : Q;
  conductividad_material : Q;
  conductividad_aislamiento : Q;
  espesor_material : Q;
  espesor_aislamiento : Q;
  cp_agua : Q;
  calor_latente_vaporizacion : Q;
  temp_inicial : Q;
  temp_ebullicion : Q;
  delta_T : Q;
  masa_agua : Q;
  profundidad_agua : Q;
  horas_radiacion_util : Q;
  segundos_radiacion_util : Q;
  hemisferio : string;
  latitud : Q;
  h_conveccion_natural : Q;
  h_conveccion_agua : Q;
  h_condensacion : Q;
  h_evaporacion : Q;
  R_conduccion : Q;
  R_aislamiento : Q;
  energia_calentamiento : Q;
  energia_evaporacion : Q;
  energia_total_requerida : Q;
  energia_por_kg : Q;
  param_sim : params_config.ParametrosSimulacion;
  factores_eficiencia : FactoresEficiencia
}.

Definition calcular_coef_evaporacion : Q := 25.0.

(** [R = L/(k*A)], a Python division. *)
Definition calcular_R_conduccion (espesor_material conductividad_material area_paredes : Q)
  : resultado Q :=
  py_div espesor_material (conductividad_material * area_paredes).

Definition calcular_R_aislamiento (espesor_aislamiento conductividad_aislamiento area_paredes : Q)
  : resultado Q :=
  py_div espesor_aislamiento (conductividad_aislamiento * area_paredes).

Section Init.
Context `{Numpy}.

(** [ParametrosDesalinizador.__init__(config)]; [None] loads the defaults
    of the configuration module. *)
Definition ParametrosDesalinizador_init (config : option params_config.Config)
  : resultado ParametrosDesalinizador :=
  let config := default params_config.cargar_parametros config in
  let dim := params_config.dimensiones config in
  let largo := params_config.largo dim in
  let ancho := params_config.ancho dim in
  let altura := params_config.altura dim in
  let area_captacion := largo * ancho in
  let volumen := largo * ancho * altura in
  let volumen_litros := volumen * 1000 in
  let area_base := largo * ancho in
  let area_tapa := largo * ancho in
  let area_paredes := 2 * (largo + ancho) * altura in
  let area_total := area_base + area_tapa + area_paredes in
  let prop_term := params_config.propiedades_termicas config in
  let absorptividad := params_config.absorptividad prop_term in
  let emisividad := 0.95 in
  let transmisividad_vidrio := 0.9 in
  let angulo_incidencia := params_config.angulo_incidencia prop_term in
  let cos_angulo := np_cos (np_radians angulo_incidencia) in
  let material_caja := params_config.material_caja prop_term in
  let sigma := 5.67e-8 in
  let cond_term := params_config.conductividades_termicas config in
  let conductividad_material := default 205 (cond_term !! material_caja) in
  let conductividad_aislamiento := 0.04 in
  let espesor_material := 0.0025 in
  let espesor_aislamiento := 0.02 in
  let prop_agua := params_config.propiedades_agua config in
  let cp_agua := params_config.cp_agua prop_agua in
  let calor_latente_vaporizacion := params_config.calor_latente_vaporizacion prop_agua in
  let temp_inicial := params_config.temp_inicial prop_agua in
  let temp_ebullicion := params_config.temp_ebullicion prop_agua in
  let delta_T := temp_ebullicion - temp_inicial in
  let cond_op := params_config.condiciones_operacion config in
  let masa_agua := params_config.masa_agua cond_op in
  profundidad_agua ← py_div masa_agua (1000 * area_base);
  let horas_radiacion_util := params_config.horas_radiacion_util cond_op in
  let segundos_radiacion_util := horas_radiacion_util * 3600 in
  let hemisferio := params_config.hemisferio cond_op in
  let latitud := params_config.ubicacion_latitud cond_op in
  let h_conveccion_natural := 5.0 in
  let h_conveccion_agua := 50.0 in
  let h_condensacion := 8000 in
  let h_evaporacion := calcular_coef_evaporacion in
  R_conduccion ← calcular_R_conduccion espesor_material conductividad_material area_paredes;
  R_aislamiento ← calcular_R_aislamiento espesor_aislamiento conductividad_aislamiento area_paredes;
  let energia_calentamiento := masa_agua * cp_agua * delta_T in
  let energia_evaporacion := masa_agua * calor_latente_vaporizacion in
  let energia_total_requerida := energia_calentamiento + energia_evaporacion in
  energia_por_kg ← py_div energia_total_requerida masa_agua;
  let param_sim := params_config.parametros_simulacion config in
  let factores_eficiencia :=
    {| alto := 0.85; medio := 0.65; bajo := 0.45; minimo := 0.25 |} in
  Ok {| config := config; largo := largo; ancho := ancho; altura := altura;
        area_captacion := area_captacion; volumen := volumen;
        volumen_litros := volumen_litros; area_base := area_base;
        area_tapa := area_tapa; area_paredes := area_paredes;
        area_total := area_total; absorptividad := absorptividad;
        emisividad := emisividad; transmisividad_vidrio := transmisividad_vidrio;
        angulo_incidencia := angulo_incidencia; cos_angulo := cos_angulo;
        material_caja := material_caja; sigma := sigma;
        conductividad_material := conductividad_material;
        conductividad_aislamiento := conductividad_aislamiento;
        espesor_material := espesor_material;
        espesor_aislamiento := espesor_aislamiento; cp_agua := cp_agua;
        calor_latente_vaporizacion := calor_latente_vaporizacion;
        temp_inicial := temp_inicial; temp_ebullicion := temp_ebullicion;
        delta_T := delta_T; masa_agua := masa_agua;
        profundidad_agua := profundidad_agua;
        horas_radiacion_util := horas_radiacion_util;
        segundos_radiacion_util := segundos_radiacion_util;
        hemisferio := hemisferio; latitud := latitud;
        h_conveccion_natural := h_conveccion_natural;
        h_conveccion_agua := h_conveccion_agua;
        h_condensacion := h_condensacion; h_evaporacion := h_evaporacion;
        R_conduccion := R_conduccion; R_aislamiento := R_aislamiento;
        energia_calentamiento := energia_calentamiento;
        energia_evaporacion := energia_evaporacion;
        energia_total_requerida := energia_total_requerida;
        energia_por_kg := energia_por_kg; param_sim := param_sim;
        factores_eficiencia := factores_eficiencia |}.

End Init.

Record Resistencias : Type := {
  R_paredes : Q;
  R_vidrio : Q;
  R_conv_ext : Q;
  R_total : Q
}.

(** [calcular_resistencias_totales]: every quotient is a Python division. *)
Definition calcular_resistencias_totales (self : ParametrosDesalinizador)
  : resultado Resistencias :=
  let R_paredes := R_conduccion self + R_aislamiento self in
  R_vidrio ← py_div 0.01 (1.0 * area_tapa self);
  R_conv_ext ← py_div 1 (h_conveccion_natural self * area_total self);
  inv_paredes ← py_div 1 R_paredes;
  inv_vidrio ← py_div 1 R_vidrio;
  paralelo ← py_div 1 (inv_paredes + inv_vidrio);
  let R_total := paralelo + R_conv_ext in
  Ok {| R_paredes := R_paredes; R_vidrio := R_vidrio;
        R_conv_ext := R_conv_ext; R_total := R_total |}.

(** ** Dates: the part of Python's [datetime] the generator uses

    [datetime(y, m, d) + timedelta(days=i)] goes through the proleptic
    Gregorian ordinal, as the library does. *)

Record datetime : Type := mk_datetime {
  year : Z;
  month : Z;
  day : Z
}.

#[global] Instance datetime_eq_dec : EqDecision datetime.
Proof. solve_decision. Defined.

Definition _is_leap (y : Z) : bool :=
  ((y mod 4 =? 0) && (negb (y mod 100 =? 0) || (y mod 400 =? 0)))%Z.

Definition _DAYS_IN_MONTH : list Z :=
  [31; 28; 31; 30; 31; 30; 31; 31; 30; 31; 30; 31]%Z.

Definition _days_in_month (y m : Z) : Z :=
  if ((m =? 2) && _is_leap y)%Z then 29%Z
  else nth (Z.to_nat (m - 1)) _DAYS_IN_MONTH 0%Z.

(** Days of the year before the first day of month [m], without the leap day. *)
Definition _DAYS_BEFORE_MONTH (m : Z) : Z :=
  fold_right Z.add 0%Z (firstn (Z.to_nat (m - 1)) _DAYS_IN_MONTH).

Definition _days_before_year (y : Z) : Z :=
  (let y := y - 1 in y * 365 + y / 4 - y / 100 + y / 400)%Z.

Definition _days_before_month (y m : Z) : Z :=
  (_DAYS_BEFORE_MONTH m + (if (2 <? m) && _is_leap y then 1 else 0))%Z.

Definition _ymd2ord (y m d : Z) : Z :=
  (_days_before_year y + _days_before_month y m + d)%Z.

Definition _DI400Y : Z := _days_before_year 401.
Definition _DI100Y : Z := _days_before_year 101.
Definition _DI4Y : Z := _days_before_year 5.

Definition _ord2ymd (n : Z) : datetime :=
  (let n := n - 1 in
   let n400 := n / _DI400Y in let n := n mod _DI400Y in
   let y := n400 * 400 + 1 in
   let n100 := n / _DI100Y in let n := n mod _DI100Y in
   let n4 := n / _DI4Y in let n := n mod _DI4Y in
   let n1 := n / 365 in let n := n mod 365 in
   let y := y + n100 * 100 + n4 * 4 + n1 in
   if (n1 =? 4) || (n100 =? 4) then mk_datetime (y - 1) 12 31
   else
     let leapyear := (n1 =? 3) && (negb (n4 =? 24) || (n100 =? 3)) in
     let m := Z.shiftr (n + 50) 5 in
     let preceding := _DAYS_BEFORE_MONTH m + (if (2 <? m) && leapyear then 1 else 0) in
     let '(m, preceding) :=
       if n <? preceding
       then (m - 1,
             preceding - (nth (Z.to_nat (m - 2)) _DAYS_IN_MONTH 0
                          + (if (m - 1 =? 2) && leapyear then 1 else 0)))
       else (m, preceding) in
     mk_datetime y m (n - preceding + 1))%Z.

Definition toordinal (d : datetime) : Z := _ymd2ord (year d) (month d) (day d).

(** [d + timedelta(days=i)] *)
Definition datetime_add_days (d : datetime) (i : Z) : datetime :=
  _ord2ymd (toordinal d + i).

(** [(a - b).days] *)
Definition datetime_sub_days (a b : datetime) : Z := (toordinal a - toordinal b)%Z.

(** The Gregorian calendar itself, stated independently of the ordinal
    arithmetic: the day that follows a date. *)
Definition bisiesto (y : Z) : bool :=
  (if y mod 400 =? 0 then true
   else if y mod 100 =? 0 then false
   else y mod 4 =? 0)%Z.

Definition dias_del_mes (y m : Z) : Z :=
  (if m =? 2 then (if bisiesto y then 29 else 28)
   else if (m =? 4) || (m =? 6) || (m =? 9) || (m =? 11) then 30
   else 31)%Z.

Definition dia_siguiente (d : datetime) : datetime :=
  (if day d <? dias_del_mes (year d) (month d)
   then mk_datetime (year d) (month d) (day d + 1)
   else if month d <? 12 then mk_datetime (year d) (month d + 1) 1
   else mk_datetime (year d + 1) 1 1)%Z.

(** ** Data frames

    A frame is held by rows; a row maps column names to cells.  The
    vectorised statements of the source are elementwise, so a column
    assignment [df[c] = e] computes [e] on every row and stores it under
    [c] in that row. *)

Inductive celda : Type :=
  | Num (q : Q)
  | Ent (z : Z)
  | Txt (s : string)
  | Fecha (d : datetime).

Abbreviation fila := (gmap string celda).
Abbreviation DataFrame := (list (gmap string celda)).

(** The float value of a cell of a numeric column; [df[c]] raises
    [KeyError] when the column is absent. *)
Definition num (r : fila) (c : string) : resultado Q :=
  match r !! c with
  | Some (Num q) => Ok q
  | Some (Ent z) => Ok (inject_Z z)
  | Some _ => Raise TypeError
  | None => Raise KeyError
  end.

(** The value of a numeric cell, 0 when there is none. *)
Definition valor (c : string) (r : fila) : Q :=
  match num r c with Ok q => q | _ => 0 end.

Definition col (r : fila) (c : string) : resultado celda :=
  match r !! c with
  | Some v => Ok v
  | None => Raise KeyError
  end.

(** [pd.DataFrame({c1: v1, ...})]: the columns must have one length. *)
Definition pd_DataFrame (cols : list (string * list celda)) : resultado DataFrame :=
  match cols with
  | [] => Ok []
  | (_, v0) :: _ =>
      let n := length v0 in
      if forallb (fun cv => Nat.eqb (length (snd cv)) n) cols
      then Ok (map (fun i =>
                 list_to_map (omap (fun cv => (fun x => (fst cv, x)) <$> (snd cv !! i)) cols))
               (seq 0 n))
      else Raise ValueError
  end.

(** ** Program state: numpy's global generator and the heap of frames *)

Abbreviation loc := positive.

Section Programa.
Context `{Numpy}.

Record estado : Type := mk_estado {
  np_random : rng;
  heap : gmap loc DataFrame
}.

Definition Prog (A : Type) : Type := estado -> resultado A * estado.

Definition ret {A} (a : A) : Prog A := fun s => (Ok a, s).

Definition bind {A B} (m : Prog A) (f : A -> Prog B) : Prog B := fun s =>
  match m s with
  | (Ok a, s') => f a s'
  | (Raise e, s') => (Raise e, s')
  | (NonFinite, s') => (NonFinite, s')
  end.

Definition lift {A} (r : resultado A) : Prog A := fun s => (r, s).

(** [np.random.seed(n)] *)
Definition np_random_seed (n : Z) : Prog unit := fun s =>
  (Ok tt, mk_estado (seed n) (heap s)).

(** [np.random.normal(loc, scale, size)]; a negative scale is refused. *)
Definition np_random_normal (loc scale : Q) (size : nat) : Prog (list Q) := fun s =>
  if Qltb scale 0 then (Raise ValueError, s)
  else
    let '(v, g) := normal_draws loc scale size (np_random s) in
    (Ok v, mk_estado g (heap s)).

(** A new frame object ([pd.DataFrame(...)], [df.copy()]). *)
Definition nuevo (df : DataFrame) : Prog loc := fun s =>
  let l := fresh (dom (heap s)) in
  (Ok l, mk_estado (np_random s) (<[l := df]> (heap s))).

Definition leer (l : loc) : Prog DataFrame := fun s =>
  match heap s !! l with
  | Some df => (Ok df, s)
  | None => (Raise KeyError, s)
  end.

Definition escribir (l : loc) (df : DataFrame) : Prog unit := fun s =>
  (Ok tt, mk_estado (np_random s) (<[l := df]> (heap s))).

(** [df.copy()] *)
Definition copy (l : loc) : Prog loc :=
  bind (leer l) nuevo.

(** [df[c] = e], in place: the right-hand side is evaluated on every row
    first; the column is stored only if that succeeds. *)
Definition asignar (l : loc) (c : string) (e : fila -> resultado celda) : Prog unit :=
  bind (leer l) (fun df =>
  bind (lift (mapR e df)) (fun vs =>
  escribir l (zip_with (fun r v => <[c := v]> r) df vs))).

End Programa.

Notation "x <- m ;; k" := (bind m (fun x => k))
  (at level 100, m at next level, right associativity).
Notation "m ;;; k" := (bind m (fun _ => k))
  (at level 100, right associativity).

(** ** [ModeloClimatico] *)

Definition ascii_lower (a : ascii) : ascii :=
  let n := nat_of_ascii a in
  if ((65 <=? n) && (n <=? 90))%nat then ascii_of_nat (n + 32) else a.

(** [str.lower] on the ASCII letters. *)
Fixpoint lower (s : string) : string :=
  match s with
  | EmptyString => EmptyString
  | String a s' => String (ascii_lower a) (lower s')
  end.

(** Reading a local variable that no executed statement has bound. *)
Definition leer_local {A} (v : option A) : resultado A :=
  match v with
  | Some x => Ok x
  | None => Raise UnboundLocalError
  end.

Definition range (n : nat) : list Z := map Z.of_nat (seq 0 n).

Record ModeloClimatico : Type := {
  clima_params : ParametrosDesalinizador;
  clima_hemisferio : string;
  clima_latitud : Q;
  clima_param_sim : params_config.ParametrosSimulacion
}.

(** Magnus-Tetens saturation pressure of one day.  At [t = -237.3] the float
    quotient is [-inf], whose exponential is [0.0]. *)
Definition presion_saturacion `{Numpy} (t : Q) : Q :=
  if Qeq_bool (t + 237.3) 0 then 610.78 * 0
  else 610.78 * np_exp (17.27 * t / (t + 237.3)).

Section Clima.
Context `{Numpy}.

(** [ModeloClimatico.__init__]: seeds the global generator. *)
Definition ModeloClimatico_init (params : ParametrosDesalinizador)
  : Prog ModeloClimatico :=
  np_random_seed 42 ;;;
  ret {| clima_params := params;
         clima_hemisferio := hemisferio params;
         clima_latitud := latitud params;
         clima_param_sim := param_sim params |}.

Definition generar_datos_anuales (self : ModeloClimatico) : Prog loc :=
  let fecha_inicio := mk_datetime 2024 1 1 in
  let fechas := map (fun i => datetime_add_days fecha_inicio i) (range 365) in
  let mes := map month fechas in
  let dia_del_año := map (fun fecha => datetime_sub_days fecha fecha_inicio) fechas in
  let norte := String.eqb (lower (clima_hemisferio self)) "norte" in
  let fase_mes :=
    if norte
    then map (fun m => (inject_Z m - 6) * (2 * np_pi / 12)) mes
    else map (fun m => (inject_Z m - 12) * (2 * np_pi / 12)) mes in
  let radiacion_base := params_config.radiacion_base (clima_param_sim self) in
  let amplitud := params_config.amplitud_variacion (clima_param_sim self) in
  let variabilidad := params_config.variabilidad_diaria (clima_param_sim self) in
  let radiacion_media := map (fun f => radiacion_base + amplitud * np_cos f) fase_mes in
  variacion_diaria <- np_random_normal 0 variabilidad (length fechas) ;;
  let radiacion := zip_with Qplus radiacion_media variacion_diaria in
  let radiacion := map (fun x => np_clip x 100 950) radiacion in
  let temp_base := 15 in
  let temp_amplitud := 12 in
  let temp_amb_estacional :=
    if norte
    then map (fun f => temp_base - temp_amplitud * np_cos f) fase_mes
    else map (fun f => temp_base + temp_amplitud * np_cos f) fase_mes in
  variacion_temp_diaria <- np_random_normal 0 3 (length fechas) ;;
  let temp_ambiente := zip_with Qplus temp_amb_estacional variacion_temp_diaria in
  (* [humedad_base] and [humedad_amplitud] are bound in the first branch only *)
  let humedad_base := if norte then Some 60 else None in
  let humedad_amplitud := if norte then Some 20 else None in
  humedad_estacional <-
    lift (if norte
          then b ← leer_local humedad_base; a ← leer_local humedad_amplitud;
               Ok (map (fun f => b + a * np_cos f) fase_mes)
          else b ← leer_local humedad_base; a ← leer_local humedad_amplitud;
               Ok (map (fun f => b - a * np_cos f) fase_mes)) ;;
  variacion_humedad <- np_random_normal 0 10 (length fechas) ;;
  let humedad_relativa := zip_with Qplus humedad_estacional variacion_humedad in
  let humedad_relativa := map (fun x => np_clip x 30 95) humedad_relativa in
  let t_celsius := temp_ambiente in
  let presion_sat := map presion_saturacion t_celsius in
  let presion_vapor := zip_with (fun h ps => h * ps / 100) humedad_relativa presion_sat in
  let viento_base := 2.0 in
  let viento_amplitud := 1.0 in
  let viento_estacional := map (fun f => viento_base + viento_amplitud * np_sin f) fase_mes in
  variacion_viento <- np_random_normal 0 0.8 (length fechas) ;;
  let velocidad_viento := zip_with Qplus viento_estacional variacion_viento in
  let velocidad_viento := map (fun x => np_maximum 0.5 x) velocidad_viento in
  let temp_ambiente_K := map (fun t => t + 273.15) temp_ambiente in
  df <- lift (pd_DataFrame
    [("fecha", Fecha <$> fechas);
     ("mes", Ent <$> mes);
     ("dia", Ent <$> map day fechas);
     ("dia_del_año", Ent <$> dia_del_año);
     ("radiacion_Wm2", Num <$> radiacion);
     ("temp_ambiente_C", Num <$> temp_ambiente);
     ("temp_ambiente_K", Num <$> temp_ambiente_K);
     ("humedad_relativa", Num <$> humedad_relativa);
     ("presion_vapor_Pa", Num <$> presion_vapor);
     ("velocidad_viento", Num <$> velocidad_viento)]) ;;
  nuevo df.

End Clima.

(** ** [ModeloTermico]

    The methods read the model's [params] only; the state attributes that
    [inicializar_estado] sets are never read by them. *)

(** [h = 5.7 + 3.8 * v] *)
Definition calcular_coef_conveccion_viento (velocidad_viento : Q) : Q :=
  5.7 + 3.8 * velocidad_viento.

(** The local array [eficiencia_sistema] of [calcular_masa_evaporada], for
    one day: the band factor selected by the irradiance, scaled by the
    ambient temperature. *)
Definition eficiencia_banda (self : ParametrosDesalinizador) (radiacion : Q) : Q :=
  if Qgeb radiacion 800 then alto (factores_eficiencia self)
  else if Qgeb radiacion 600 then medio (factores_eficiencia self)
  else if Qgeb radiacion 400 then bajo (factores_eficiencia self)
  else minimo (factores_eficiencia self).

Definition factor_temp (temp_ambiente_C : Q) : Q :=
  np_clip ((temp_ambiente_C + 10) / 40) 0.5 1.2.

Definition eficiencia_sistema (self : ParametrosDesalinizador) (r : fila) : resultado Q :=
  radiacion ← num r "radiacion_Wm2";
  let eficiencia_sistema := eficiencia_banda self radiacion in
  temp_ambiente_C ← num r "temp_ambiente_C";
  let eficiencia_sistema := eficiencia_sistema * factor_temp temp_ambiente_C in
  Ok eficiencia_sistema.

Section Termico.
Context `{Numpy}.

Definition calcular_temperatura_sistema (self : ParametrosDesalinizador)
    (datos_climaticos : loc) : Prog loc :=
  df <- copy datos_climaticos ;;
  asignar df "temp_vidrio_K" (fun _ => Ok (Num 0.0)) ;;;
  asignar df "temp_agua_K" (fun _ => Ok (Num 0.0)) ;;;
  asignar df "temp_base_K" (fun _ => Ok (Num 0.0)) ;;;
  let factor_temp_agua := 0.08 in
  asignar df "temp_agua_K" (fun r =>
    amb ← num r "temp_ambiente_K"; rad ← num r "radiacion_Wm2";
    Ok (Num (amb + factor_temp_agua * rad))) ;;;
  asignar df "temp_vidrio_K" (fun r =>
    amb ← num r "temp_ambiente_K"; agua ← num r "temp_agua_K";
    amb' ← num r "temp_ambiente_K";
    Ok (Num (amb + 0.3 * (agua - amb')))) ;;;
  asignar df "temp_base_K" (fun r =>
    agua ← num r "temp_agua_K"; Ok (Num (agua + 2))) ;;;
  asignar df "temp_agua_C" (fun r =>
    agua ← num r "temp_agua_K"; Ok (Num (agua - 273.15))) ;;;
  asignar df "temp_vidrio_C" (fun r =>
    vidrio ← num r "temp_vidrio_K"; Ok (Num (vidrio - 273.15))) ;;;
  asignar df "temp_base_C" (fun r =>
    base ← num r "temp_base_K"; Ok (Num (base - 273.15))) ;;;
  ret df.

Definition calcular_perdidas_termicas (self : ParametrosDesalinizador)
    (df : loc) : Prog loc :=
  asignar df "h_conv_ext" (fun r =>
    v ← num r "velocidad_viento";
    Ok (Num (calcular_coef_conveccion_viento v))) ;;;
  let factor_aislamiento := 0.15 in
  asignar df "perdida_conv_vidrio" (fun r =>
    h ← num r "h_conv_ext"; vidrio ← num r "temp_vidrio_K";
    amb ← num r "temp_ambiente_K";
    Ok (Num (factor_aislamiento * h * area_tapa self * (vidrio - amb)))) ;;;
  asignar df "temp_cielo_K" (fun r =>
    amb ← num r "temp_ambiente_K"; Ok (Num (amb - 6))) ;;;
  asignar df "perdida_rad_vidrio" (fun r =>
    vidrio ← num r "temp_vidrio_K"; cielo ← num r "temp_cielo_K";
    Ok (Num (factor_aislamiento * emisividad self * sigma self * area_tapa self
             * (vidrio ^ 4 - cielo ^ 4)))) ;;;
  asignar df "perdida_conv_paredes" (fun r =>
    h ← num r "h_conv_ext"; agua ← num r "temp_agua_K";
    amb ← num r "temp_ambiente_K";
    Ok (Num (factor_aislamiento * h * area_paredes self * (agua - amb)))) ;;;
  let factor_resistencia := 8.0 in
  resistencias <- lift (calcular_resistencias_totales self) ;;
  let R_total := R_total resistencias * factor_resistencia in
  asignar df "perdida_conduccion" (fun r =>
    agua ← num r "temp_agua_K"; amb ← num r "temp_ambiente_K";
    q ← np_div (factor_aislamiento * (agua - amb)) R_total;
    Ok (Num q)) ;;;
  asignar df "perdida_total" (fun r =>
    a ← num r "perdida_conv_vidrio"; b ← num r "perdida_rad_vidrio";
    c ← num r "perdida_conv_paredes"; d ← num r "perdida_conduccion";
    Ok (Num (a + b + c + d))) ;;;
  ret df.

Definition calcular_masa_evaporada (self : ParametrosDesalinizador)
    (df : loc) : Prog loc :=
  asignar df "energia_solar" (fun r =>
    rad ← num r "radiacion_Wm2";
    Ok (Num (rad * cos_angulo self * absorptividad self
             * area_captacion self * segundos_radiacion_util self))) ;;;
  asignar df "energia_perdida" (fun r =>
    perdida ← num r "perdida_total";
    Ok (Num (perdida * segundos_radiacion_util self))) ;;;
  asignar df "energia_util" (fun r =>
    solar ← num r "energia_solar"; perdida ← num r "energia_perdida";
    solar' ← num r "energia_solar";
    Ok (Num (solar - np_minimum perdida (0.65 * solar')))) ;;;
  asignar df "energia_util" (fun r =>
    util ← num r "energia_util"; Ok (Num (np_maximum 0 util))) ;;;
  (* [radiacion], [eficiencia_sistema]: local arrays, see [eficiencia_sistema] *)
  asignar df "energia_calentamiento" (fun r =>
    agua ← num r "temp_agua_K";
    Ok (Num (masa_agua self * cp_agua self * (agua - temp_inicial self)))) ;;;
  asignar df "energia_evaporacion" (fun r =>
    util ← num r "energia_util"; calentamiento ← num r "energia_calentamiento";
    Ok (Num (np_maximum 0 (util - calentamiento)))) ;;;
  asignar df "masa_evaporada" (fun r =>
    evaporacion ← num r "energia_evaporacion";
    masa_evaporada_teorica ← np_div evaporacion (calor_latente_vaporizacion self);
    eficiencia ← eficiencia_sistema self r;
    Ok (Num (masa_evaporada_teorica * eficiencia))) ;;;
  let max_produccion_diaria := masa_agua self * 0.25 in
  asignar df "masa_evaporada" (fun r =>
    masa ← num r "masa_evaporada";
    Ok (Num (np_minimum masa max_produccion_diaria))) ;;;
  asignar df "masa_evaporada" (fun r =>
    masa ← num r "masa_evaporada";
    Ok (Num (if Qltb masa 0.001 then 0 else masa))) ;;;
  asignar df "produccion_litros" (fun r => col r "masa_evaporada") ;;;
  asignar df "GOR" (fun r =>
    solar ← num r "energia_solar"; evaporacion ← num r "energia_evaporacion";
    Ok (Num (if Qgtb solar 0 then evaporacion / solar else 0))) ;;;
  asignar df "eficiencia_termica" (fun r =>
    solar ← num r "energia_solar"; util ← num r "energia_util";
    Ok (Num (if Qgtb solar 0 then util / solar else 0))) ;;;
  ret df.

(** [simular_desalinizador_anual(params)], without the configuration file
    and the printed summary. *)
Definition simular_desalinizador_anual (params : option ParametrosDesalinizador)
  : Prog loc :=
  params <- match params with
            | Some p => ret p
            | None => lift (ParametrosDesalinizador_init None)
            end ;;
  modelo_clima <- ModeloClimatico_init params ;;
  df_clima <- generar_datos_anuales modelo_clima ;;
  df_temp <- calcular_temperatura_sistema params df_clima ;;
  df_perdidas <- calcular_perdidas_termicas params df_temp ;;
  df_resultados <- calcular_masa_evaporada params df_perdidas ;;
  ret df_resultados.

End Termico.

(** ** A concrete numpy, for evaluating the model

    Truncated Taylor series, rounded to nine decimals, for the elementary
    functions, and a small deterministic stream in place of the Gaussian
    draws. *)

Definition fijar (q : Q) : Q := Qred (inject_Z (Qfloor (q * 1e9)) / 1e9).

Definition cos_taylor (x : Q) : Q :=
  fijar (1 - x^2 / 2 + x^4 / 24 - x^6 / 720 + x^8 / 40320 - x^10 / 3628800
         + x^12 / 479001600 - x^14 / 87178291200).

Definition sin_taylor (x : Q) : Q :=
  fijar (x - x^3 / 6 + x^5 / 120 - x^7 / 5040 + x^9 / 362880 - x^11 / 39916800
         + x^13 / 6227020800).

Definition exp_taylor (x : Q) : Q :=
  let x := fijar x in
  fijar (1 + x + x^2 / 2 + x^3 / 6 + x^4 / 24 + x^5 / 120 + x^6 / 720 + x^7 / 5040
         + x^8 / 40320 + x^9 / 362880 + x^10 / 3628800).

(** The [k]-th deviate of the stream, in [-2, 2]. *)
Definition desviacion (k : nat) : Q :=
  inject_Z ((Z.of_nat k * 7919 + 13) mod 401 - 200) / 100.

Definition normal_ejemplo (loc scale : Q) (n : nat) (g : nat) : list Q * nat :=
  (map (fun k => Qred (loc + scale * desviacion (g + k))) (seq 0 n), (g + n)%nat).

Lemma normal_ejemplo_length loc scale n g :
  length (fst (normal_ejemplo loc scale n g)) = n.
Proof. unfold normal_ejemplo; simpl. rewrite length_map. apply length_seq. Qed.

#[global] Instance numpy_ejemplo : Numpy := {|
  rng := nat;
  seed := Z.to_nat;
  normal_draws := normal_ejemplo;
  normal_draws_length := normal_ejemplo_length;
  np_cos := cos_taylor;
  np_sin := sin_taylor;
  np_exp := exp_taylor;
  np_pi := 3.1416
|}.

(** * Properties *)

(** ** Outcomes and elementwise evaluation *)

Lemma bind_Ok_inv {A B} (m : resultado A) (f : A -> resultado B) (b : B) :
  m ≫= f = Ok b -> exists a, m = Ok a /\ f a = Ok b.
Proof. destruct m as [a| |]; simpl; intros Hm; try discriminate. eauto. Qed.

Lemma mapR_length {A B} (f : A -> resultado B) l l' :
  mapR f l = Ok l' -> length l' = length l.
Proof.
  revert l'. induction l as [|x l IH]; simpl; intros l' Hl.
  - injection Hl as <-. reflexivity.
  - apply bind_Ok_inv in Hl as (y & Hy & Hl).
    apply bind_Ok_inv in Hl as (ys & Hys & Hl).
    injection Hl as <-. simpl. f_equal. auto.
Qed.

Lemma mapR_lookup {A B} (f : A -> resultado B) l l' (i : nat) y :
  mapR f l = Ok l' -> l' !! i = Some y -> exists x, l !! i = Some x /\ f x = Ok y.
Proof.
  revert l' i. induction l as [|x l IH]; simpl; intros l' i Hl Hi.
  - injection Hl as <-. discriminate.
  - apply bind_Ok_inv in Hl as (y0 & Hy & Hl).
    apply bind_Ok_inv in Hl as (ys & Hys & Hl).
    injection Hl as <-. destruct i as [|i]; simpl in *.
    + injection Hi as <-. eauto.
    + eauto.
Qed.

Lemma mapR_lookup_fwd {A B} (f : A -> resultado B) l l' (i : nat) x :
  mapR f l = Ok l' -> l !! i = Some x -> exists y, l' !! i = Some y /\ f x = Ok y.
Proof.
  revert l' i. induction l as [|x0 l IH]; simpl; intros l' i Hl Hi; [discriminate|].
  apply bind_Ok_inv in Hl as (y0 & Hy & Hl).
  apply bind_Ok_inv in Hl as (ys & Hys & Hl).
  injection Hl as <-. destruct i as [|i]; simpl in *.
  - injection Hi as <-. eauto.
  - eauto.
Qed.

Lemma mapR_total {A B} (f : A -> resultado B) l :
  Forall (fun x => exists y, f x = Ok y) l -> exists l', mapR f l = Ok l'.
Proof.
  induction 1 as [|x l [y Hy] _ [l' Hl']]; simpl; [eauto|].
  rewrite Hy; simpl. rewrite Hl'; simpl. eauto.
Qed.

(** Two elementwise passes that succeed are one pass of the composed row
    function, and conversely. *)
Lemma mapR_fuse {A B C} (f : A -> resultado B) (g : B -> resultado C) l l2 :
  (exists l1, mapR f l = Ok l1 /\ mapR g l1 = Ok l2)
  <-> mapR (fun x => f x ≫= g) l = Ok l2.
Proof.
  revert l2. induction l as [|x l IH]; simpl; intros l2.
  - split.
    + intros (l1 & H1 & H2). injection H1 as <-. exact H2.
    + intros H2. exists []. split; [reflexivity | exact H2].
  - split.
    + intros (l1 & H1 & H2).
      apply bind_Ok_inv in H1 as (y & Hy & H1).
      apply bind_Ok_inv in H1 as (ys & Hys & H1). injection H1 as <-.
      simpl in H2.
      apply bind_Ok_inv in H2 as (z & Hz & H2).
      apply bind_Ok_inv in H2 as (zs & Hzs & H2). injection H2 as <-.
      rewrite Hy; simpl. rewrite Hz; simpl.
      assert (Hl : mapR (fun x => f x ≫= g) l = Ok zs) by (apply IH; eauto).
      rewrite Hl. reflexivity.
    + intros H2.
      apply bind_Ok_inv in H2 as (z & Hz & H2).
      apply bind_Ok_inv in H2 as (zs & Hzs & H2). injection H2 as <-.
      apply bind_Ok_inv in Hz as (y & Hy & Hz).
      apply IH in Hzs as (l1 & H1 & H2).
      exists (y :: l1). simpl. rewrite Hy, H1; simpl. rewrite Hz, H2. eauto.
Qed.

(** One column assignment, on a row and on a frame. *)
Definition paso : Type := string * (fila -> resultado celda).

Definition asignar_fila (p : paso) (r : fila) : resultado fila :=
  v ← snd p r; Ok (<[fst p := v]> r).

Definition asignado (p : paso) (df : DataFrame) : resultado DataFrame :=
  vs ← mapR (snd p) df; Ok (zip_with (fun r v => <[fst p := v]> r) df vs).

Lemma mapR_asignar_fila p df vs :
  mapR (snd p) df = Ok vs ->
  mapR (asignar_fila p) df = Ok (zip_with (fun r v => <[fst p := v]> r) df vs).
Proof.
  unfold asignar_fila. revert vs.
  induction df as [|r df IH]; simpl; intros vs Hvs.
  - injection Hvs as <-. reflexivity.
  - apply bind_Ok_inv in Hvs as (v & Hv & Hvs).
    apply bind_Ok_inv in Hvs as (vs' & Hvs' & Hvs). injection Hvs as <-.
    rewrite Hv; simpl. rewrite (IH _ Hvs'). reflexivity.
Qed.

Lemma mapR_asignar_fila_inv p df df' :
  mapR (asignar_fila p) df = Ok df' -> exists vs, mapR (snd p) df = Ok vs.
Proof.
  intros E. apply mapR_total. apply Forall_forall. intros r Hr.
  apply list_elem_of_lookup in Hr as [i Hi].
  destruct (mapR_lookup_fwd _ _ _ _ _ E Hi) as (y & _ & Hy).
  apply bind_Ok_inv in Hy as (v & Hv & _). eauto.
Qed.

Lemma asignado_mapR p df df' :
  asignado p df = Ok df' <-> mapR (asignar_fila p) df = Ok df'.
Proof.
  unfold asignado. split.
  - intros E. apply bind_Ok_inv in E as (vs & Hvs & E). injection E as <-.
    apply mapR_asignar_fila. exact Hvs.
  - intros E. destruct (mapR_asignar_fila_inv _ _ _ E) as [vs Hvs].
    rewrite Hvs; simpl. rewrite (mapR_asignar_fila _ _ _ Hvs) in E. exact E.
Qed.

Lemma mapR_Ok_id {A} (l : list A) : mapR Ok l = Ok l.
Proof. induction l as [|x l IH]; simpl; [reflexivity|]. rewrite IH. reflexivity. Qed.

(** A sequence of column assignments, on a frame and on one row. *)
Fixpoint aplicar (ps : list paso) (df : DataFrame) : resultado DataFrame :=
  match ps with
  | [] => Ok df
  | p :: ps' => df' ← asignado p df; aplicar ps' df'
  end.

Fixpoint aplicar_fila (ps : list paso) (r : fila) : resultado fila :=
  match ps with
  | [] => Ok r
  | p :: ps' => r' ← asignar_fila p r; aplicar_fila ps' r'
  end.

(** The assignments are elementwise: when they succeed, the frame that
    results is the row function applied to each row. *)
Lemma aplicar_mapR ps df df' :
  aplicar ps df = Ok df' <-> mapR (aplicar_fila ps) df = Ok df'.
Proof.
  revert df df'. induction ps as [|p ps IH]; simpl; intros df df'.
  - change (fun r : fila => Ok r) with (@Ok fila). rewrite mapR_Ok_id. tauto.
  - rewrite <- (mapR_fuse (asignar_fila p) (aplicar_fila ps)). split.
    + intros E. apply bind_Ok_inv in E as (d1 & H1 & E).
      exists d1. split; [apply asignado_mapR; exact H1 | apply IH; exact E].
    + intros (d1 & H1 & E). apply asignado_mapR in H1. rewrite H1; simpl.
      apply IH. exact E.
Qed.

Lemma aplicar_length ps df df' : aplicar ps df = Ok df' -> length df' = length df.
Proof. intros E. apply aplicar_mapR in E. eapply mapR_length; eauto. Qed.

Lemma aplicar_lookup ps df df' (i : nat) r' :
  aplicar ps df = Ok df' -> df' !! i = Some r' ->
  exists r, df !! i = Some r /\ aplicar_fila ps r = Ok r'.
Proof. intros E. apply aplicar_mapR in E. eapply mapR_lookup; eauto. Qed.

Section ProgramaFacts.
Context `{Numpy}.

(** The assignments [ps] on the frame at [l], followed by [k]. *)
Fixpoint asignar_seguido {A} (l : loc) (ps : list paso) (k : Prog A) : Prog A :=
  match ps with
  | [] => k
  | p :: ps' => asignar l (fst p) (snd p) ;;; asignar_seguido l ps' k
  end.

(** The state in which the frame at [l] has the value [d]. *)
Definition con_tabla (s : estado) (l : loc) (d : DataFrame) : estado :=
  mk_estado (np_random s) (<[l := d]> (heap s)).

Lemma con_tabla_id (s : estado) l df : heap s !! l = Some df -> con_tabla s l df = s.
Proof.
  intros Hl. destruct s as [g h]; unfold con_tabla; simpl in *.
  f_equal. apply insert_id. exact Hl.
Qed.

Lemma con_tabla_con_tabla (s : estado) l d d' :
  con_tabla (con_tabla s l d) l d' = con_tabla s l d'.
Proof. unfold con_tabla; simpl. f_equal. apply insert_insert_eq. Qed.

Lemma asignar_run (s : estado) l df c e :
  heap s !! l = Some df ->
  asignar l c e s =
    match asignado (c, e) df with
    | Ok df' => (Ok tt, con_tabla s l df')
    | Raise x => (Raise x, s)
    | NonFinite => (NonFinite, s)
    end.
Proof.
  intros Hl. unfold asignar, bind, leer, lift, escribir, asignado; simpl.
  rewrite Hl. destruct (mapR e df); reflexivity.
Qed.

(** Running a sequence of assignments on the frame at [l]: the outcome is
    that of the assignments on the frame's value, and only the frame at
    [l] changes. *)
Lemma asignar_seguido_run {A} ps : forall (s : estado) l df (k : Prog A),
  heap s !! l = Some df ->
  exists d,
    asignar_seguido l ps k s =
      match aplicar ps df with
      | Ok df' => k (con_tabla s l df')
      | Raise x => (Raise x, con_tabla s l d)
      | NonFinite => (NonFinite, con_tabla s l d)
      end.
Proof.
  induction ps as [|[c e] ps IH]; simpl; intros s l df k Hl.
  - exists df. rewrite con_tabla_id by exact Hl. reflexivity.
  - unfold bind at 1. rewrite (asignar_run s l df c e Hl).
    destruct (asignado (c, e) df) as [d1| |] eqn:E1; simpl.
    + destruct (IH (con_tabla s l d1) l d1 k) as [d Hrun].
      { simpl. apply lookup_insert_eq. }
      exists d. rewrite Hrun.
      destruct (aplicar ps d1); rewrite con_tabla_con_tabla; reflexivity.
    + exists df. rewrite con_tabla_id by exact Hl. reflexivity.
    + exists df. rewrite con_tabla_id by exact Hl. reflexivity.
Qed.

End ProgramaFacts.

(** ** The thermal methods as sequences of column assignments *)

Definition pasos_temperatura : list paso :=
  [ ("temp_vidrio_K", fun _ => Ok (Num 0.0));
    ("temp_agua_K", fun _ => Ok (Num 0.0));
    ("temp_base_K", fun _ => Ok (Num 0.0));
    ("temp_agua_K", fun r =>
      amb ← num r "temp_ambiente_K"; rad ← num r "radiacion_Wm2";
      Ok (Num (amb + 0.08 * rad)));
    ("temp_vidrio_K", fun r =>
      amb ← num r "temp_ambiente_K"; agua ← num r "temp_agua_K";
      amb' ← num r "temp_ambiente_K";
      Ok (Num (amb + 0.3 * (agua - amb'))));
    ("temp_base_K", fun r =>
      agua ← num r "temp_agua_K"; Ok (Num (agua + 2)));
    ("temp_agua_C", fun r =>
      agua ← num r "temp_agua_K"; Ok (Num (agua - 273.15)));
    ("temp_vidrio_C", fun r =>
      vidrio ← num r "temp_vidrio_K"; Ok (Num (vidrio - 273.15)));
    ("temp_base_C", fun r =>
      base ← num r "temp_base_K"; Ok (Num (base - 273.15))) ].

Definition pasos_perdidas_1 (self : ParametrosDesalinizador) : list paso :=
  [ ("h_conv_ext", fun r =>
      v ← num r "velocidad_viento";
      Ok (Num (calcular_coef_conveccion_viento v)));
    ("perdida_conv_vidrio", fun r =>
      h ← num r "h_conv_ext"; vidrio ← num r "temp_vidrio_K";
      amb ← num r "temp_ambiente_K";
      Ok (Num (0.15 * h * area_tapa self * (vidrio - amb))));
    ("temp_cielo_K", fun r =>
      amb ← num r "temp_ambiente_K"; Ok (Num (amb - 6)));
    ("perdida_rad_vidrio", fun r =>
      vidrio ← num r "temp_vidrio_K"; cielo ← num r "temp_cielo_K";
      Ok (Num (0.15 * emisividad self * sigma self * area_tapa self
               * (vidrio ^ 4 - cielo ^ 4))));
    ("perdida_conv_paredes", fun r =>
      h ← num r "h_conv_ext"; agua ← num r "temp_agua_K";
      amb ← num r "temp_ambiente_K";
      Ok (Num (0.15 * h * area_paredes self * (agua - amb)))) ].

Definition pasos_perdidas_2 (R_total : Q) : list paso :=
  [ ("perdida_conduccion", fun r =>
      agua ← num r "temp_agua_K"; amb ← num r "temp_ambiente_K";
      q ← np_div (0.15 * (agua - amb)) R_total;
      Ok (Num q));
    ("perdida_total", fun r =>
      a ← num r "perdida_conv_vidrio"; b ← num r "perdida_rad_vidrio";
      c ← num r "perdida_conv_paredes"; d ← num r "perdida_conduccion";
      Ok (Num (a + b + c + d))) ].

Definition pasos_masa_evaporada (self : ParametrosDesalinizador) : list paso :=
  [ ("energia_solar", fun r =>
      rad ← num r "radiacion_Wm2";
      Ok (Num (rad * cos_angulo self * absorptividad self
               * area_captacion self * segundos_radiacion_util self)));
    ("energia_perdida", fun r =>
      perdida ← num r "perdida_total";
      Ok (Num (perdida * segundos_radiacion_util self)));
    ("energia_util", fun r =>
      solar ← num r "energia_solar"; perdida ← num r "energia_perdida";
      solar' ← num r "energia_solar";
      Ok (Num (solar - np_minimum perdida (0.65 * solar'))));
    ("energia_util", fun r =>
      util ← num r "energia_util"; Ok (Num (np_maximum 0 util)));
    ("energia_calentamiento", fun r =>
      agua ← num r "temp_agua_K";
      Ok (Num (masa_agua self * cp_agua self * (agua - temp_inicial self))));
    ("energia_evaporacion", fun r =>
      util ← num r "energia_util"; calentamiento ← num r "energia_calentamiento";
      Ok (Num (np_maximum 0 (util - calentamiento))));
    ("masa_evaporada", fun r =>
      evaporacion ← num r "energia_evaporacion";
      masa_evaporada_teorica ← np_div evaporacion (calor_latente_vaporizacion self);
      eficiencia ← eficiencia_sistema self r;
      Ok (Num (masa_evaporada_teorica * eficiencia)));
    ("masa_evaporada", fun r =>
      masa ← num r "masa_evaporada";
      Ok (Num (np_minimum masa (masa_agua self * 0.25))));
    ("masa_evaporada", fun r =>
      masa ← num r "masa_evaporada";
      Ok (Num (if Qltb masa 0.001 then 0 else masa)));
    ("produccion_litros", fun r => col r "masa_evaporada");
    ("GOR", fun r =>
      solar ← num r "energia_solar"; evaporacion ← num r "energia_evaporacion";
      Ok (Num (if Qgtb solar 0 then evaporacion / solar else 0)));
    ("eficiencia_termica", fun r =>
      solar ← num r "energia_solar"; util ← num r "energia_util";
      Ok (Num (if Qgtb solar 0 then util / solar else 0))) ].

Section Metodos.
Context `{Numpy}.

Lemma calcular_temperatura_sistema_pasos self l (s : estado) :
  calcular_temperatura_sistema self l s
  = (df <- copy l ;; asignar_seguido df pasos_temperatura (ret df)) s.
Proof. reflexivity. Qed.

Lemma calcular_perdidas_termicas_pasos self l (s : estado) :
  calcular_perdidas_termicas self l s
  = asignar_seguido l (pasos_perdidas_1 self)
      (resistencias <- lift (calcular_resistencias_totales self) ;;
       asignar_seguido l (pasos_perdidas_2 (R_total resistencias * 8.0)) (ret l)) s.
Proof. reflexivity. Qed.

Lemma calcular_masa_evaporada_pasos self l (s : estado) :
  calcular_masa_evaporada self l s
  = asignar_seguido l (pasos_masa_evaporada self) (ret l) s.
Proof. reflexivity. Qed.

End Metodos.

(** ** Reading cells of an assigned row *)

Definition celda_num (v : celda) : resultado Q :=
  match v with
  | Num q => Ok q
  | Ent z => Ok (inject_Z z)
  | _ => Raise TypeError
  end.

Lemma num_insert (r : fila) c c' v :
  num (<[c := v]> r) c' = if decide (c = c') then celda_num v else num r c'.
Proof.
  unfold num. destruct (decide (c = c')) as [->|Hne].
  - rewrite lookup_insert_eq. destruct v; reflexivity.
  - rewrite lookup_insert_ne by exact Hne. reflexivity.
Qed.

Lemma col_insert (r : fila) c c' v :
  col (<[c := v]> r) c' = if decide (c = c') then Ok v else col r c'.
Proof.
  unfold col. destruct (decide (c = c')) as [->|Hne].
  - rewrite lookup_insert_eq. reflexivity.
  - rewrite lookup_insert_ne by exact Hne. reflexivity.
Qed.

Lemma num_Ok_lookup (r : fila) c q :
  num r c = Ok q -> exists v, r !! c = Some v /\ celda_num v = Ok q.
Proof.
  unfold num. destruct (r !! c) as [v|]; [|discriminate].
  intros E. exists v. split; [reflexivity|]. destruct v; exact E.
Qed.

Lemma np_div_Ok x y q : np_div x y = Ok q -> ~ y == 0 /\ q = x / y.
Proof.
  unfold np_div. destruct (Qeq_bool y 0) eqn:E; [discriminate|].
  intros Hq. injection Hq as <-. split; [|reflexivity].
  intros Hy. apply Qeq_bool_iff in Hy. congruence.
Qed.

Lemma np_div_nonzero x y : ~ y == 0 -> np_div x y = Ok (x / y).
Proof.
  intros Hy. unfold np_div. destruct (Qeq_bool y 0) eqn:E; [|reflexivity].
  apply Qeq_bool_iff in E. contradiction.
Qed.

Lemma py_div_Ok x y q : py_div x y = Ok q -> ~ y == 0 /\ q = x / y.
Proof.
  unfold py_div. destruct (Qeq_bool y 0) eqn:E; [discriminate|].
  intros Hq. injection Hq as <-. split; [|reflexivity].
  intros Hy. apply Qeq_bool_iff in Hy. congruence.
Qed.

Lemma py_div_nonzero x y : ~ y == 0 -> py_div x y = Ok (x / y).
Proof.
  intros Hy. unfold py_div. destruct (Qeq_bool y 0) eqn:E; [|reflexivity].
  apply Qeq_bool_iff in E. contradiction.
Qed.

Lemma py_div_zero x y : y == 0 -> py_div x y = Raise ZeroDivisionError.
Proof.
  intros Hy. unfold py_div. apply Qeq_bool_iff in Hy. rewrite Hy. reflexivity.
Qed.

Lemma Qltb_true x y : Qltb x y = true <-> x < y.
Proof.
  unfold Qltb. rewrite negb_true_iff. split.
  - intros E. apply Qnot_le_lt. intros Hle. apply Qle_bool_iff in Hle. congruence.
  - intros Hlt. destruct (Qle_bool y x) eqn:E; [|reflexivity].
    apply Qle_bool_iff in E. lra.
Qed.

Lemma Qltb_false x y : Qltb x y = false <-> y <= x.
Proof.
  unfold Qltb. rewrite negb_false_iff. apply Qle_bool_iff.
Qed.

Lemma Qgtb_true x y : Qgtb x y = true <-> y < x.
Proof. apply (Qltb_true y x). Qed.

Lemma Qgtb_false x y : Qgtb x y = false <-> x <= y.
Proof. apply (Qltb_false y x). Qed.

Lemma Qgeb_true x y : Qgeb x y = true <-> y <= x.
Proof. apply Qle_bool_iff. Qed.

Lemma Qgeb_false x y : Qgeb x y = false <-> x < y.
Proof.
  unfold Qgeb. split.
  - intros E. apply Qnot_le_lt. intros Hle. apply Qle_bool_iff in Hle. congruence.
  - intros Hlt. destruct (Qle_bool y x) eqn:E; [|reflexivity].
    apply Qle_bool_iff in E. lra.
Qed.

(** Symbolic execution of the assignments on one row. *)
Ltac traza :=
  repeat match goal with
  | H : aplicar_fila (_ :: _) _ = Ok _ |- _ => simpl in H
  | H : aplicar_fila [] _ = Ok _ |- _ => simpl in H
  | H : asignar_fila _ _ = Ok _ |- _ => unfold asignar_fila in H; simpl in H
  | H : _ ≫= _ = Ok _ |- _ =>
      let x := fresh "x" in let Hx := fresh "Hx" in
      apply bind_Ok_inv in H as (x & Hx & H)
  | H : Ok _ = Ok _ |- _ => injection H as H; try subst
  | H : context [num (<[_ := _]> _) _] |- _ =>
      rewrite num_insert in H; simpl in H
  | H : context [col (<[_ := _]> _) _] |- _ =>
      rewrite col_insert in H; simpl in H
  end.

Ltac busca :=
  repeat (rewrite lookup_insert_eq || (rewrite lookup_insert_ne by discriminate)).

(** ** The quantities of one day *)

Definition dia_energia_solar (self : ParametrosDesalinizador) (rad : Q) : Q :=
  rad * cos_angulo self * absorptividad self * area_captacion self
  * segundos_radiacion_util self.

Definition dia_energia_perdida (self : ParametrosDesalinizador) (perdida_total : Q) : Q :=
  perdida_total * segundos_radiacion_util self.

Definition dia_energia_util (solar perdida : Q) : Q :=
  np_maximum 0 (solar - np_minimum perdida (0.65 * solar)).

Definition dia_energia_calentamiento (self : ParametrosDesalinizador) (agua : Q) : Q :=
  masa_agua self * cp_agua self * (agua - temp_inicial self).

Definition dia_energia_evaporacion (util calentamiento : Q) : Q :=
  np_maximum 0 (util - calentamiento).

(** The evaporated mass before the daily cap and the noise floor. *)
Definition dia_masa_aplicada (self : ParametrosDesalinizador) (evaporacion rad tC : Q) : Q :=
  evaporacion / calor_latente_vaporizacion self
  * (eficiencia_banda self rad * factor_temp tC).

Definition dia_masa_limitada (self : ParametrosDesalinizador) (masa : Q) : Q :=
  np_minimum masa (masa_agua self * 0.25).

Definition dia_masa_evaporada (masa : Q) : Q :=
  if Qltb masa 0.001 then 0 else masa.

Definition dia_razon (solar x : Q) : Q :=
  if Qgtb solar 0 then x / solar else 0.

(** What [calcular_masa_evaporada] leaves in a row, from the four cells it
    reads. *)
Lemma fila_masa_evaporada self (r r' : fila) :
  aplicar_fila (pasos_masa_evaporada self) r = Ok r' ->
  exists rad perdida agua tC,
    num r "radiacion_Wm2" = Ok rad /\ num r "perdida_total" = Ok perdida
    /\ num r "temp_agua_K" = Ok agua /\ num r "temp_ambiente_C" = Ok tC
    /\ ~ calor_latente_vaporizacion self == 0
    /\ let solar := dia_energia_solar self rad in
       let perd := dia_energia_perdida self perdida in
       let util := dia_energia_util solar perd in
       let cal := dia_energia_calentamiento self agua in
       let evap := dia_energia_evaporacion util cal in
       let masa :=
         dia_masa_evaporada (dia_masa_limitada self (dia_masa_aplicada self evap rad tC)) in
       r' !! "energia_solar" = Some (Num solar)
       /\ r' !! "energia_perdida" = Some (Num perd)
       /\ r' !! "energia_util" = Some (Num util)
       /\ r' !! "energia_calentamiento" = Some (Num cal)
       /\ r' !! "energia_evaporacion" = Some (Num evap)
       /\ r' !! "masa_evaporada" = Some (Num masa)
       /\ r' !! "produccion_litros" = Some (Num masa)
       /\ r' !! "GOR" = Some (Num (dia_razon solar evap))
       /\ r' !! "eficiencia_termica" = Some (Num (dia_razon solar util)).
Proof.
  intros E. unfold pasos_masa_evaporada in E. traza.
  unfold eficiencia_sistema in *. traza.
  match goal with H : np_div _ _ = Ok _ |- _ => apply np_div_Ok in H as [Hlat ->] end.
  repeat match goal with
  | H1 : num ?r0 ?c = Ok ?a, H2 : num ?r0 ?c = Ok ?b |- _ =>
      rewrite H1 in H2; injection H2 as <-
  end.
  do 4 eexists. do 4 (split; [eassumption|]).
  split; [exact Hlat|].
  cbv zeta. busca. repeat split; reflexivity.
Qed.

(** ** Bounds on the quantities of one day *)

Ltac minmax_term t spec :=
  destruct spec as [[? ?]|[? ?]]; generalize dependent t; intros.

Ltac minmax :=
  unfold np_clip, np_minimum, np_maximum in *;
  repeat match goal with
  | |- context [Qmax ?a ?b] => minmax_term (Qmax a b) (Q.max_spec a b)
  | |- context [Qmin ?a ?b] => minmax_term (Qmin a b) (Q.min_spec a b)
  | _ : context [Qmax ?a ?b] |- _ => minmax_term (Qmax a b) (Q.max_spec a b)
  | _ : context [Qmin ?a ?b] |- _ => minmax_term (Qmin a b) (Q.min_spec a b)
  end.

Lemma np_clip_bounds x lo hi : lo <= hi -> lo <= np_clip x lo hi /\ np_clip x lo hi <= hi.
Proof. intros Hlh. minmax; lra. Qed.

Lemma dia_energia_util_nonneg solar perd : 0 <= dia_energia_util solar perd.
Proof. unfold dia_energia_util. minmax; lra. Qed.

Lemma dia_energia_util_le solar perd :
  0 <= perd -> 0 <= solar -> dia_energia_util solar perd <= solar.
Proof. intros Hp Hs. unfold dia_energia_util. minmax; lra. Qed.

Lemma dia_energia_evaporacion_nonneg util cal : 0 <= dia_energia_evaporacion util cal.
Proof. unfold dia_energia_evaporacion. minmax; lra. Qed.

Lemma dia_energia_evaporacion_le util cal :
  0 <= cal -> 0 <= util -> dia_energia_evaporacion util cal <= util.
Proof. intros Hc Hu. unfold dia_energia_evaporacion. minmax; lra. Qed.

Lemma dia_razon_nonneg solar x : 0 <= x -> 0 <= dia_razon solar x.
Proof.
  intros Hx. unfold dia_razon. destruct (Qgtb solar 0) eqn:E; [|lra].
  apply Qgtb_true in E. apply Qle_shift_div_l; lra.
Qed.

Lemma dia_razon_le_1 solar x : (0 < solar -> x <= solar) -> dia_razon solar x <= 1.
Proof.
  intros Hx. unfold dia_razon. destruct (Qgtb solar 0) eqn:E; [|lra].
  apply Qgtb_true in E. apply Qle_shift_div_r; [exact E|]. specialize (Hx E). lra.
Qed.

Lemma dia_masa_evaporada_cases masa :
  (masa < 0.001 /\ dia_masa_evaporada masa = 0)
  \/ (0.001 <= masa /\ dia_masa_evaporada masa = masa).
Proof.
  unfold dia_masa_evaporada. destruct (Qltb masa 0.001) eqn:E.
  - left. apply Qltb_true in E. auto.
  - right. apply Qltb_false in E. auto.
Qed.

Lemma dia_masa_limitada_le self masa :
  dia_masa_limitada self masa <= 0.25 * masa_agua self.
Proof. unfold dia_masa_limitada. minmax; lra. Qed.

Lemma num_Num (r : fila) c q : r !! c = Some (Num q) -> num r c = Ok q.
Proof. intros Hr. unfold num. rewrite Hr. reflexivity. Qed.

Lemma num_insert_eq (r : fila) c q : num (<[c := Num q]> r) c = Ok q.
Proof. unfold num. rewrite lookup_insert_eq. reflexivity. Qed.

Lemma num_insert_ne (r : fila) c c' v : c <> c' -> num (<[c := v]> r) c' = num r c'.
Proof. intros Hne. unfold num. rewrite lookup_insert_ne by exact Hne. reflexivity. Qed.

Lemma col_insert_eq (r : fila) c v : col (<[c := v]> r) c = Ok v.
Proof. unfold col. rewrite lookup_insert_eq. reflexivity. Qed.

Lemma bind_Ok {A B} (a : A) (f : A -> resultado B) : Ok a ≫= f = f a.
Proof. reflexivity. Qed.

(** Forward evaluation of the assignments on a row whose cells are known. *)
Ltac avanza :=
  repeat first
    [ rewrite bind_Ok; cbv beta
    | rewrite num_insert_eq
    | rewrite col_insert_eq
    | rewrite num_insert_ne by discriminate
    | match goal with
      | Hc : ?r !! ?c = Some (Num ?q) |- context [num ?r ?c] =>
          rewrite (num_Num r c q Hc)
      end
    | match goal with
      | Hy : ~ ?y == 0 |- context [np_div ?x ?y] =>
          rewrite (np_div_nonzero x y Hy)
      end ].

Section MetodosFacts.
Context `{Numpy}.

Lemma calcular_masa_evaporada_run self l (s s' : estado) df l' :
  heap s !! l = Some df ->
  calcular_masa_evaporada self l s = (Ok l', s') ->
  l' = l /\ exists df', aplicar (pasos_masa_evaporada self) df = Ok df'
                        /\ s' = con_tabla s l df'.
Proof.
  intros Hl. rewrite calcular_masa_evaporada_pasos.
  destruct (asignar_seguido_run (pasos_masa_evaporada self) s l df (ret l) Hl)
    as [d ->].
  destruct (aplicar (pasos_masa_evaporada self) df) as [df'| |];
    try discriminate.
  unfold ret. intros E. injection E as <- <-. eauto.
Qed.

(** [calcular_masa_evaporada] returns whenever every row carries the four
    columns it reads and the latent heat is not zero. *)
Lemma calcular_masa_evaporada_total self l (s : estado) df :
  heap s !! l = Some df ->
  ~ calor_latente_vaporizacion self == 0 ->
  Forall (fun r : fila => exists rad perdida agua tC,
            r !! "radiacion_Wm2" = Some (Num rad)
            /\ r !! "perdida_total" = Some (Num perdida)
            /\ r !! "temp_agua_K" = Some (Num agua)
            /\ r !! "temp_ambiente_C" = Some (Num tC)) df ->
  exists df', calcular_masa_evaporada self l s = (Ok l, con_tabla s l df').
Proof.
  intros Hl Hlat Hdf. rewrite calcular_masa_evaporada_pasos.
  destruct (asignar_seguido_run (pasos_masa_evaporada self) s l df (ret l) Hl)
    as [d ->].
  assert (Hok : exists df', aplicar (pasos_masa_evaporada self) df = Ok df').
  { destruct (mapR_total (aplicar_fila (pasos_masa_evaporada self)) df) as [df' E].
    - eapply Forall_impl; [exact Hdf|]. simpl.
      intros r (rad & perdida & agua & tC & Hr & Hp & Ha & Ht).
      unfold pasos_masa_evaporada, aplicar_fila, asignar_fila, eficiencia_sistema.
      cbn [fst snd]. avanza. eauto.
    - exists df'. apply aplicar_mapR. exact E. }
  destruct Hok as [df' ->]. eauto.
Qed.

End MetodosFacts.

(** ** Deciding closed equalities by evaluation *)

#[global] Instance Q_eq_dec : EqDecision Q.
Proof. solve_decision. Defined.

#[global] Instance celda_eq_dec : EqDecision celda.
Proof. solve_decision. Defined.

#[global] Instance excepcion_eq_dec : EqDecision excepcion.
Proof. solve_decision. Defined.

#[global] Instance resultado_eq_dec {A} `{EqDecision A} : EqDecision (resultado A).
Proof. solve_decision. Defined.

Ltac decidir :=
  match goal with
  | |- ?P => apply (bool_decide_eq_true_1 P); vm_compute; reflexivity
  end.

Lemma par_eq {A B} (x : A * B) a b : fst x = a -> snd x = b -> x = (a, b).
Proof. destruct x; simpl; congruence. Qed.

Ltac decidir_Q :=
  match goal with
  | |- _ <= _ => apply Qle_bool_iff; vm_compute; reflexivity
  | |- _ < _ => apply Qltb_true; vm_compute; reflexivity
  | |- _ == _ => apply Qeq_bool_iff; vm_compute; reflexivity
  end.

(** ** A concrete day, for evaluating the thermal model *)

Definition params_ejemplo : ParametrosDesalinizador :=
  Eval vm_compute in
    (match ParametrosDesalinizador_init (H := numpy_ejemplo) None as r0
           return (match r0 with Ok _ => ParametrosDesalinizador | _ => unit end) with
     | Ok p => p
     | _ => tt
     end).

Lemma params_ejemplo_init :
  ParametrosDesalinizador_init (H := numpy_ejemplo) None = Ok params_ejemplo.
Proof. vm_compute. reflexivity. Qed.

(** A climate record: date, irradiance (W/m2), ambient temperature (C),
    relative humidity (%), vapour pressure (Pa) and wind speed (m/s). *)
Definition dia_clima (fecha : datetime) (rad tC hum pv viento : Q) : fila :=
  list_to_map
    [("fecha", Fecha fecha); ("mes", Ent (month fecha)); ("dia", Ent (day fecha));
     ("dia_del_año", Ent (datetime_sub_days fecha (mk_datetime 2024 1 1)));
     ("radiacion_Wm2", Num rad); ("temp_ambiente_C", Num tC);
     ("temp_ambiente_K", Num (tC + 273.15)); ("humedad_relativa", Num hum);
     ("presion_vapor_Pa", Num pv); ("velocidad_viento", Num viento)].

(** A cold, dim and calm day and a bright mild one: every field is inside
    the range the climate record documents. *)
Definition dia_frio : fila := dia_clima (mk_datetime 2024 1 15) 100 (-10) 60 171.5 0.5.
Definition dia_claro : fila := dia_clima (mk_datetime 2024 6 15) 850 18 45 928.6 2.

Definition estado_ejemplo : @estado numpy_ejemplo :=
  mk_estado (seed 42) {[ 1%positive := [dia_frio; dia_claro] ]}.

(** The thermal model up to the losses, then the evaporated mass. *)
Definition hasta_perdidas : @Prog numpy_ejemplo loc :=
  df_temp <- calcular_temperatura_sistema params_ejemplo 1%positive ;;
  calcular_perdidas_termicas params_ejemplo df_temp.

Definition estado_perdidas : @estado numpy_ejemplo := snd (hasta_perdidas estado_ejemplo).

Definition tabla_perdidas : DataFrame :=
  Eval vm_compute in default [] (heap estado_perdidas !! 2%positive).

Definition estado_resultados : @estado numpy_ejemplo :=
  snd (calcular_masa_evaporada params_ejemplo 2%positive estado_perdidas).

Definition tabla_resultados : DataFrame :=
  Eval vm_compute in default [] (heap estado_resultados !! 2%positive).

Lemma hasta_perdidas_ejemplo :
  hasta_perdidas estado_ejemplo = (Ok 2%positive, estado_perdidas).
Proof.
  apply par_eq; [decidir | reflexivity].
Qed.

Lemma estado_perdidas_tabla : heap estado_perdidas !! 2%positive = Some tabla_perdidas.
Proof. decidir. Qed.

Lemma masa_evaporada_ejemplo :
  calcular_masa_evaporada params_ejemplo 2%positive estado_perdidas
  = (Ok 2%positive, estado_resultados).
Proof.
  apply par_eq; [decidir | reflexivity].
Qed.

Lemma estado_resultados_tabla :
  heap estado_resultados !! 2%positive = Some tabla_resultados.
Proof. decidir. Qed.


(** ** Evaporated mass, efficiency ratios and efficiency bands *)

Section Termodinamica.
Context `{Numpy}.



(** The efficiency that [calcular_masa_evaporada] applies.  On every day
    of the table that it returns, the evaporated mass is the
    evaporation energy over the latent heat times the efficiency of the
    day, then capped and floored; that efficiency is the factor of the band
    the irradiance selects (0.85 from 800 W/m2 on, 0.65 from 600 to below
    800, 0.45 from 400 to below 600, 0.25 below 400) times the
    ambient-temperature factor [clip((C + 10) / 40, 0.5, 1.2)], which lies
    in [0.5, 1.2].  A day of exactly 800 W/m2 is in the band of 0.85, where
    the ranges of the comment on [factores_eficiencia] put it in the band
    of 0.65. *)
Theorem eficiencia_por_bandas :
  forall (cfg : option params_config.Config) (self : ParametrosDesalinizador)
         (l l' : loc) (s s' : estado) (df : DataFrame),
    ParametrosDesalinizador_init cfg = Ok self ->
    heap s !! l = Some df ->
    calcular_masa_evaporada self l s = (Ok l', s') ->
    exists df',
      heap s' !! l' = Some df' /\ length df' = length df
      /\ forall (i : nat) (r' : fila), df' !! i = Some r' ->
         exists (r : fila) rad tC evap banda factor,
           df !! i = Some r
           /\ num r "radiacion_Wm2" = Ok rad /\ num r "temp_ambiente_C" = Ok tC
           /\ r' !! "energia_evaporacion" = Some (Num evap)
           /\ r' !! "masa_evaporada"
              = Some (Num (dia_masa_evaporada
                             (np_minimum
                                (evap / calor_latente_vaporizacion self * (banda * factor))
                                (masa_agua self * 0.25))))
           /\ (800 <= rad -> banda = 0.85)
           /\ (600 <= rad -> rad < 800 -> banda = 0.65)
           /\ (400 <= rad -> rad < 600 -> banda = 0.45)
           /\ (rad < 400 -> banda = 0.25)
           /\ factor = np_clip ((tC + 10) / 40) 0.5 1.2
           /\ 0.5 <= factor /\ factor <= 1.2.
Proof.
  intros cfg self l l' s s' df Hinit Hl Hrun.
  destruct (calcular_masa_evaporada_run self l s s' df l' Hl Hrun)
    as (-> & df' & Hdf' & ->).
  exists df'. split; [simpl; apply lookup_insert_eq|].
  split; [eapply aplicar_length; eauto|].
  intros i r' Hi.
  destruct (aplicar_lookup _ _ _ _ _ Hdf' Hi) as (r & Hr & Hrow).
  destruct (fila_masa_evaporada self r r' Hrow)
    as (rad & perdida & agua & tC & Hrad & _ & _ & HtC & _ & Hcells).
  cbv zeta in Hcells.
  destruct Hcells as (_ & _ & _ & _ & Hevap & Hm & _ & _ & _).
  set (evap := dia_energia_evaporacion _ _) in *.
  exists r, rad, tC, evap, (eficiencia_banda self rad), (factor_temp tC).
  split; [exact Hr|]. split; [exact Hrad|]. split; [exact HtC|].
  split; [exact Hevap|]. split; [exact Hm|].
  assert (Hf : factores_eficiencia self
               = {| alto := 0.85; medio := 0.65; bajo := 0.45; minimo := 0.25 |}).
  { unfold ParametrosDesalinizador_init in Hinit.
    repeat match type of Hinit with
    | _ ≫= _ = Ok _ => apply bind_Ok_inv in Hinit as (? & _ & Hinit)
    end.
    injection Hinit as <-. reflexivity. }
  unfold eficiencia_banda. rewrite Hf; simpl.
  split; [|split; [|split; [|split]]].
  - intros H800. apply Qgeb_true in H800. rewrite H800. reflexivity.
  - intros H600 H800. apply Qgeb_false in H800. apply Qgeb_true in H600.
    rewrite H800, H600. reflexivity.
  - intros H400 H600. assert (H800 : rad < 800) by lra.
    apply Qgeb_false in H800, H600. apply Qgeb_true in H400.
    rewrite H800, H600, H400. reflexivity.
  - intros H400. assert (H600 : rad < 600) by lra. assert (H800 : rad < 800) by lra.
    apply Qgeb_false in H800, H600, H400. rewrite H800, H600, H400. reflexivity.
  - split; [reflexivity|]. apply np_clip_bounds. lra.
Qed.

End Termodinamica.

(** ** The thermal model on the two concrete days *)

(** The three thermal steps of [simular_desalinizador_anual], on a climate
    table that already exists. *)
Definition modelo_termico_sobre `{Numpy} (params : ParametrosDesalinizador)
    (df_clima : loc) : Prog loc :=
  df_temp <- calcular_temperatura_sistema params df_clima ;;
  df_perdidas <- calcular_perdidas_termicas params df_temp ;;
  calcular_masa_evaporada params df_perdidas.

(** Three days for a still that holds half a litre: a dim, hot one, on
    which the computed mass is positive but below the floor; one of exactly
    800 W/m2; and a bright one, on which the computed mass exceeds the
    cap. *)
Definition config_medio_litro : params_config.Config :=
  {| params_config.dimensiones := params_config.DIMENSIONES;
     params_config.propiedades_termicas := params_config.PROPIEDADES_TERMICAS;
     params_config.propiedades_agua := params_config.PROPIEDADES_AGUA;
     params_config.conductividades_termicas := params_config.CONDUCTIVIDADES_TERMICAS;
     params_config.condiciones_operacion :=
       {| params_config.horas_radiacion_util := 6; params_config.masa_agua := 0.5;
          params_config.hemisferio := "norte";
          params_config.ubicacion_latitud := 40.0 |};
     params_config.parametros_simulacion := params_config.PARAMETROS_SIMULACION;
     params_config.opciones_visualizacion := params_config.OPCIONES_VISUALIZACION |}.

Definition params_medio_litro : ParametrosDesalinizador :=
  Eval vm_compute in
    (match ParametrosDesalinizador_init (H := numpy_ejemplo) (Some config_medio_litro) as r0
           return (match r0 with Ok _ => ParametrosDesalinizador | _ => unit end) with
     | Ok p => p
     | _ => tt
     end).

Lemma params_medio_litro_init :
  ParametrosDesalinizador_init (H := numpy_ejemplo) (Some config_medio_litro)
  = Ok params_medio_litro.
Proof. vm_compute. reflexivity. Qed.

Definition dia_calido : fila := dia_clima (mk_datetime 2024 8 1) 100 40 35 2581.4 1.
Definition dia_umbral : fila := dia_clima (mk_datetime 2024 5 20) 800 18 45 928.6 2.
Definition dia_pleno : fila := dia_clima (mk_datetime 2024 6 21) 950 30 35 1485.5 2.

Definition estado_tres_dias : @estado numpy_ejemplo :=
  mk_estado (seed 42) {[ 1%positive := [dia_calido; dia_umbral; dia_pleno] ]}.

Definition estado_tres_perdidas : @estado numpy_ejemplo :=
  snd ((df_temp <- calcular_temperatura_sistema params_medio_litro 1%positive ;;
        calcular_perdidas_termicas params_medio_litro df_temp) estado_tres_dias).

Definition tabla_tres_perdidas : DataFrame :=
  Eval vm_compute in default [] (heap estado_tres_perdidas !! 2%positive).

Definition estado_tres_resultados : @estado numpy_ejemplo :=
  snd (calcular_masa_evaporada params_medio_litro 2%positive estado_tres_perdidas).

Definition tabla_tres_resultados : DataFrame :=
  Eval vm_compute in default [] (heap estado_tres_resultados !! 2%positive).

Lemma estado_tres_perdidas_tabla :
  heap estado_tres_perdidas !! 2%positive = Some tabla_tres_perdidas.
Proof. decidir. Qed.

Lemma masa_evaporada_tres_dias :
  calcular_masa_evaporada params_medio_litro 2%positive estado_tres_perdidas
  = (Ok 2%positive, estado_tres_resultados).
Proof. apply par_eq; [decidir | reflexivity]. Qed.

Lemma estado_tres_resultados_tabla :
  heap estado_tres_resultados !! 2%positive = Some tabla_tres_resultados.
Proof. decidir. Qed.

(** The value the code computes for a day of the three, before the cap. *)
Definition masa_aplicada_dia (i : nat) : Q :=
  match tabla_tres_resultados !! i with
  | Some r =>
      dia_masa_aplicada params_medio_litro (valor "energia_evaporacion" r)
        (valor "radiacion_Wm2" r) (valor "temp_ambiente_C" r)
  | None => 0
  end.

Definition masa_evaporada_dia (i : nat) : Q :=
  match tabla_tres_resultados !! i with
  | Some r => valor "masa_evaporada" r
  | None => 0
  end.

(** On the three days the floor and the cap are both at work: the dim day
    has a computed mass between 0 and 0.001 kg and an evaporated mass of 0;
    the day of 800 W/m2 keeps its computed mass; the bright day has a
    computed mass above the cap of 0.125 kg and an evaporated mass of
    0.125 kg. *)
Lemma masa_evaporada_piso_y_tope :
  0 < masa_aplicada_dia 0 /\ masa_aplicada_dia 0 < 0.001 /\ masa_evaporada_dia 0 == 0
  /\ 0.001 <= masa_aplicada_dia 1 /\ masa_aplicada_dia 1 < 0.125
  /\ masa_evaporada_dia 1 == masa_aplicada_dia 1
  /\ 0.125 < masa_aplicada_dia 2 /\ masa_evaporada_dia 2 == 0.125.
Proof. repeat split; decidir_Q. Qed.



(** The band factor that [calcular_masa_evaporada] applied on a day of the
    three, recovered from the mass it computed. *)
Definition banda_aplicada_dia (i : nat) : Q :=
  match tabla_tres_resultados !! i with
  | Some r =>
      masa_aplicada_dia i
      / (valor "energia_evaporacion" r / calor_latente_vaporizacion params_medio_litro
         * factor_temp (valor "temp_ambiente_C" r))
  | None => 0
  end.

(** The day of exactly 800 W/m2: the mass the code computes is the one of
    the factor 0.85, not the one of the factor 0.65. *)
Lemma eficiencia_en_el_umbral :
  (exists r, tabla_tres_resultados !! 1%nat = Some r
             /\ r !! "radiacion_Wm2" = Some (Num 800))
  /\ banda_aplicada_dia 1 == 0.85
  /\ ~ banda_aplicada_dia 1 == 0.65
  /\ masa_evaporada_dia 1 == masa_aplicada_dia 1.
Proof.
  split; [eexists; split; [reflexivity|decidir]|].
  split; [decidir_Q|]. split; [|decidir_Q].
  intros E. apply Qeq_bool_iff in E. vm_compute in E. discriminate.
Qed.

Lemma eficiencia_por_bandas_witness :
  exists df',
    heap estado_tres_resultados !! 2%positive = Some df'
    /\ length df' = length tabla_tres_perdidas
    /\ forall (i : nat) (r' : fila), df' !! i = Some r' ->
       exists (r : fila) rad tC evap banda factor,
         tabla_tres_perdidas !! i = Some r
         /\ num r "radiacion_Wm2" = Ok rad /\ num r "temp_ambiente_C" = Ok tC
         /\ r' !! "energia_evaporacion" = Some (Num evap)
         /\ r' !! "masa_evaporada"
            = Some (Num (dia_masa_evaporada
                           (np_minimum
                              (evap / calor_latente_vaporizacion params_medio_litro
                               * (banda * factor))
                              (masa_agua params_medio_litro * 0.25))))
         /\ (800 <= rad -> banda = 0.85)
         /\ (600 <= rad -> rad < 800 -> banda = 0.65)
         /\ (400 <= rad -> rad < 600 -> banda = 0.45)
         /\ (rad < 400 -> banda = 0.25)
         /\ factor = np_clip ((tC + 10) / 40) 0.5 1.2
         /\ 0.5 <= factor /\ factor <= 1.2.
Proof.
  apply (eficiencia_por_bandas (Some config_medio_litro) params_medio_litro
           2%positive 2%positive estado_tres_perdidas estado_tres_resultados
           tabla_tres_perdidas).
  - exact params_medio_litro_init.
  - exact estado_tres_perdidas_tabla.
  - exact masa_evaporada_tres_dias.
Defined.

(** ** Construction of the derived parameters *)

(** A configuration with a non-physical parameter: a dimension or the water
    mass is not positive, or the boiling temperature is not above the
    initial one. *)
Definition config_no_fisica (cfg : params_config.Config) : Prop :=
  let dim := params_config.dimensiones cfg in
  let agua := params_config.propiedades_agua cfg in
  params_config.largo dim <= 0 \/ params_config.ancho dim <= 0
  \/ params_config.altura dim <= 0
  \/ params_config.masa_agua (params_config.condiciones_operacion cfg) <= 0
  \/ params_config.temp_ebullicion agua <= params_config.temp_inicial agua.

(** A number of moderate size, at most 10^9 in absolute value: sums and
    products of a few of them stay within the double-precision range. *)
Definition acotado (x : Q) : Prop := -(1000000000) <= x /\ x <= 1000000000.

(** The divisors of [ParametrosDesalinizador.__init__], in its order: water
    depth, conduction and insulation resistances, energy per kilogram. *)
Definition divisores_init (cfg : params_config.Config) : list Q :=
  let dim := params_config.dimensiones cfg in
  let largo := params_config.largo dim in
  let ancho := params_config.ancho dim in
  let altura := params_config.altura dim in
  let area_paredes := 2 * (largo + ancho) * altura in
  let prop_term := params_config.propiedades_termicas cfg in
  let k := default 205 (params_config.conductividades_termicas cfg
                          !! params_config.material_caja prop_term) in
  [ 1000 * (largo * ancho); k * area_paredes; 0.04 * area_paredes;
    params_config.masa_agua (params_config.condiciones_operacion cfg) ].

Definition config_inversion : params_config.Config :=
  {| params_config.dimensiones := params_config.DIMENSIONES;
     params_config.propiedades_termicas := params_config.PROPIEDADES_TERMICAS;
     params_config.propiedades_agua :=
       {| params_config.cp_agua := 4186;
          params_config.calor_latente_vaporizacion := 2.26e6;
          params_config.temp_inicial := 293;
          params_config.temp_ebullicion := 290 |};
     params_config.conductividades_termicas := params_config.CONDUCTIVIDADES_TERMICAS;
     params_config.condiciones_operacion := params_config.CONDICIONES_OPERACION;
     params_config.parametros_simulacion := params_config.PARAMETROS_SIMULACION;
     params_config.opciones_visualizacion := params_config.OPCIONES_VISUALIZACION |}.

Definition config_negativa : params_config.Config :=
  {| params_config.dimensiones :=
       {| params_config.largo := -0.45; params_config.ancho := 0.25;
          params_config.altura := 0.30 |};
     params_config.propiedades_termicas := params_config.PROPIEDADES_TERMICAS;
     params_config.propiedades_agua := params_config.PROPIEDADES_AGUA;
     params_config.conductividades_termicas := params_config.CONDUCTIVIDADES_TERMICAS;
     params_config.condiciones_operacion :=
       {| params_config.horas_radiacion_util := 6; params_config.masa_agua := -2;
          params_config.hemisferio := "norte";
          params_config.ubicacion_latitud := 40.0 |};
     params_config.parametros_simulacion := params_config.PARAMETROS_SIMULACION;
     params_config.opciones_visualizacion := params_config.OPCIONES_VISUALIZACION |}.

Definition es_Ok {A} (r : resultado A) : bool :=
  match r with Ok _ => true | _ => false end.

Definition campo {A} (f : ParametrosDesalinizador -> A) (d : A)
    (r : resultado ParametrosDesalinizador) : A :=
  match r with Ok p => f p | _ => d end.

Section InitFacts.
Context `{Numpy}.

(** A zero divisor is the only way the constructor fails. *)
Lemma init_divisor_nulo (cfg : params_config.Config) :
  Exists (fun d => d == 0) (divisores_init cfg) ->
  ParametrosDesalinizador_init (Some cfg) = Raise ZeroDivisionError.
Proof.
  unfold divisores_init. cbv zeta.
  intros Hex. unfold ParametrosDesalinizador_init, calcular_R_conduccion,
    calcular_R_aislamiento. cbv zeta. simpl default.
  repeat rewrite Exists_cons in Hex. rewrite Exists_nil in Hex.
  match type of Hex with ?d1 == 0 \/ ?d2 == 0 \/ ?d3 == 0 \/ ?d4 == 0 \/ False =>
    destruct (Qeq_dec d1 0) as [Z1|N1];
      [rewrite (py_div_zero _ _ Z1); reflexivity
      |rewrite (py_div_nonzero _ _ N1); simpl];
    destruct (Qeq_dec d2 0) as [Z2|N2];
      [rewrite (py_div_zero _ _ Z2); reflexivity
      |rewrite (py_div_nonzero _ _ N2); simpl];
    destruct (Qeq_dec d3 0) as [Z3|N3];
      [rewrite (py_div_zero _ _ Z3); reflexivity
      |rewrite (py_div_nonzero _ _ N3); simpl];
    destruct (Qeq_dec d4 0) as [Z4|N4];
      [rewrite (py_div_zero _ _ Z4); reflexivity|]
  end.
  exfalso. tauto.
Qed.

(** With no zero divisor the constructor returns, whatever the values. *)
Lemma init_divisores_no_nulos (cfg : params_config.Config) :
  Forall (fun d => ~ d == 0) (divisores_init cfg) ->
  exists p,
    ParametrosDesalinizador_init (Some cfg) = Ok p
    /\ config p = cfg
    /\ largo p = params_config.largo (params_config.dimensiones cfg)
    /\ ancho p = params_config.ancho (params_config.dimensiones cfg)
    /\ altura p = params_config.altura (params_config.dimensiones cfg)
    /\ masa_agua p
       = params_config.masa_agua (params_config.condiciones_operacion cfg)
    /\ delta_T p
       = params_config.temp_ebullicion (params_config.propiedades_agua cfg)
         - params_config.temp_inicial (params_config.propiedades_agua cfg).
Proof.
  unfold divisores_init. cbv zeta. intros Hall.
  repeat rewrite Forall_cons in Hall. destruct Hall as (H1 & H2 & H3 & H4 & _).
  unfold ParametrosDesalinizador_init, calcular_R_conduccion,
    calcular_R_aislamiento. cbv zeta. simpl default.
  rewrite (py_div_nonzero _ _ H1); simpl.
  rewrite (py_div_nonzero _ _ H2); simpl.
  rewrite (py_div_nonzero _ _ H3); simpl.
  rewrite (py_div_nonzero _ _ H4); simpl.
  eexists. split; [reflexivity|]. simpl. repeat split; reflexivity.
Qed.

(** What the constructor stores when it returns: the given values. *)
Lemma init_Ok_campos (cfg : params_config.Config) (p : ParametrosDesalinizador) :
  ParametrosDesalinizador_init (Some cfg) = Ok p ->
  config p = cfg
  /\ largo p = params_config.largo (params_config.dimensiones cfg)
  /\ ancho p = params_config.ancho (params_config.dimensiones cfg)
  /\ altura p = params_config.altura (params_config.dimensiones cfg)
  /\ masa_agua p = params_config.masa_agua (params_config.condiciones_operacion cfg)
  /\ temp_inicial p = params_config.temp_inicial (params_config.propiedades_agua cfg)
  /\ temp_ebullicion p = params_config.temp_ebullicion (params_config.propiedades_agua cfg)
  /\ delta_T p
     = params_config.temp_ebullicion (params_config.propiedades_agua cfg)
       - params_config.temp_inicial (params_config.propiedades_agua cfg).
Proof.
  unfold ParametrosDesalinizador_init. intros Hinit.
  repeat match type of Hinit with
  | _ ≫= _ = Ok _ => apply bind_Ok_inv in Hinit as (? & _ & Hinit)
  end.
  injection Hinit as <-. repeat split; reflexivity.
Qed.

(** Every failure of the constructor is a division by zero. *)
Lemma init_solo_ZeroDivisionError (cfg : params_config.Config) :
  (exists p, ParametrosDesalinizador_init (Some cfg) = Ok p)
  \/ ParametrosDesalinizador_init (Some cfg) = Raise ZeroDivisionError.
Proof.
  destruct (existsb (fun d => Qeq_bool d 0) (divisores_init cfg)) eqn:E.
  - right. apply init_divisor_nulo. apply existsb_exists in E as (d & Hd & Hz).
    apply Exists_exists. exists d.
    split; [apply list_elem_of_In; exact Hd|apply Qeq_bool_iff; exact Hz].
  - left. destruct (init_divisores_no_nulos cfg) as (p & Hp & _); [|eauto].
    apply Forall_forall. intros d Hd Hz.
    assert (Ht : existsb (fun d => Qeq_bool d 0) (divisores_init cfg) = true).
    { apply existsb_exists. exists d.
      split; [apply list_elem_of_In; exact Hd|apply Qeq_bool_iff; exact Hz]. }
    congruence.
Qed.


End InitFacts.


(** ** The climate generator *)

Definition config_sur : params_config.Config :=
  {| params_config.dimensiones := params_config.DIMENSIONES;
     params_config.propiedades_termicas := params_config.PROPIEDADES_TERMICAS;
     params_config.propiedades_agua := params_config.PROPIEDADES_AGUA;
     params_config.conductividades_termicas := params_config.CONDUCTIVIDADES_TERMICAS;
     params_config.condiciones_operacion :=
       {| params_config.horas_radiacion_util := 6; params_config.masa_agua := 2;
          params_config.hemisferio := "sur";
          params_config.ubicacion_latitud := 40.0 |};
     params_config.parametros_simulacion := params_config.PARAMETROS_SIMULACION;
     params_config.opciones_visualizacion := params_config.OPCIONES_VISUALIZACION |}.

Section ClimaFacts.
Context `{Numpy}.

(** The climate model and its annual series, from a configuration. *)
Definition clima_de_config (cfg : params_config.Config) : Prog loc :=
  params <- lift (ParametrosDesalinizador_init (Some cfg)) ;;
  modelo_clima <- ModeloClimatico_init params ;;
  generar_datos_anuales modelo_clima.

(** The annual simulation, from a configuration. *)
Definition simular_con_config (cfg : params_config.Config) : Prog loc :=
  params <- lift (ParametrosDesalinizador_init (Some cfg)) ;;
  simular_desalinizador_anual (Some params).

Lemma np_random_normal_run (s : estado) loc scale n :
  0 <= scale ->
  np_random_normal loc scale n s
  = (Ok (fst (normal_draws loc scale n (np_random s))),
     mk_estado (snd (normal_draws loc scale n (np_random s))) (heap s)).
Proof.
  intros Hs. unfold np_random_normal.
  apply Qltb_false in Hs. rewrite Hs.
  destruct (normal_draws loc scale n (np_random s)); reflexivity.
Qed.

(** Outside the northern hemisphere the humidity statement reads two
    locals that no executed statement has bound. *)
Lemma generar_datos_anuales_no_norte (self : ModeloClimatico) (s : estado) :
  String.eqb (lower (clima_hemisferio self)) "norte" = false ->
  0 <= params_config.variabilidad_diaria (clima_param_sim self) ->
  fst (generar_datos_anuales self s) = Raise UnboundLocalError.
Proof.
  intros Hsur Hvar. unfold generar_datos_anuales. cbv zeta. rewrite Hsur.
  unfold bind at 1. rewrite np_random_normal_run by exact Hvar.
  unfold bind at 1. rewrite np_random_normal_run by (apply Qle_bool_iff; reflexivity).
  reflexivity.
Qed.

(** The configuration with the hemisphere set to "sur" is accepted by the
    constructor, which keeps the hemisphere and the simulation parameters. *)
Lemma init_config_sur :
  exists p,
    ParametrosDesalinizador_init (Some config_sur) = Ok p
    /\ param_sim p = params_config.PARAMETROS_SIMULACION
    /\ hemisferio p = "sur".
Proof.
  destruct (init_divisores_no_nulos config_sur) as (p & Hp & _).
  { unfold divisores_init; simpl. repeat constructor.
    all: intros E; apply Qeq_bool_iff in E; vm_compute in E; discriminate. }
  exists p. split; [exact Hp|].
  unfold ParametrosDesalinizador_init in Hp.
  repeat match type of Hp with
  | _ ≫= _ = Ok _ => apply bind_Ok_inv in Hp as (? & _ & Hp)
  end.
  injection Hp as <-. split; reflexivity.
Qed.

(** The climate model built from parameters of another hemisphere fails in
    its generator, whatever the generator's state. *)
Lemma clima_falla_no_norte (p : ParametrosDesalinizador) (s : estado) :
  String.eqb (lower (hemisferio p)) "norte" = false ->
  0 <= params_config.variabilidad_diaria (param_sim p) ->
  fst ((modelo_clima <- ModeloClimatico_init p ;;
        generar_datos_anuales modelo_clima) s) = Raise UnboundLocalError.
Proof.
  intros Hhem Hvar.
  unfold ModeloClimatico_init, bind, np_random_seed, ret. simpl.
  apply generar_datos_anuales_no_norte; simpl; assumption.
Qed.

(** The annual simulation stops where its climate generator does. *)
Lemma simular_falla_no_norte (p : ParametrosDesalinizador) (s : estado) :
  String.eqb (lower (hemisferio p)) "norte" = false ->
  0 <= params_config.variabilidad_diaria (param_sim p) ->
  fst (simular_desalinizador_anual (Some p) s) = Raise UnboundLocalError.
Proof.
  intros Hhem Hvar. pose proof (clima_falla_no_norte p s Hhem Hvar) as Hgen.
  unfold simular_desalinizador_anual.
  unfold ModeloClimatico_init, bind, np_random_seed, ret in *; simpl in *.
  match type of Hgen with
  | fst ?g = _ => destruct g as [[l| |] s2]; simpl in *; congruence
  end.
Qed.

(** C4, at the failing input: with the default configuration and the
    hemisphere set to "sur", the climate generator raises
    [UnboundLocalError] and returns no series. *)
Theorem generar_datos_anuales_sur_falla :
  forall s : estado, fst (clima_de_config config_sur s) = Raise UnboundLocalError.
Proof.
  intros s. unfold clima_de_config.
  destruct init_config_sur as (p & Hp & Hps & Hhem).
  unfold bind at 1, lift. rewrite Hp.
  apply clima_falla_no_norte.
  - rewrite Hhem. reflexivity.
  - rewrite Hps. apply Qle_bool_iff. reflexivity.
Qed.

(** C2, at the failing input: with the hemisphere set to "sur" the annual
    simulation raises [UnboundLocalError] and returns no record. *)
Theorem simular_sur_falla :
  forall s : estado, fst (simular_con_config config_sur s) = Raise UnboundLocalError.
Proof.
  intros s. unfold simular_con_config.
  destruct init_config_sur as (p & Hp & Hps & Hhem).
  unfold bind at 1, lift. rewrite Hp.
  apply simular_falla_no_norte.
  - rewrite Hhem. reflexivity.
  - rewrite Hps. apply Qle_bool_iff. reflexivity.
Qed.

End ClimaFacts.

(** ** Objects, copies and aliases *)

(** The losses, as a function of the table's value. *)
Definition tabla_perdidas_de (self : ParametrosDesalinizador) (df : DataFrame)
  : resultado DataFrame :=
  d1 ← aplicar (pasos_perdidas_1 self) df;
  resistencias ← calcular_resistencias_totales self;
  aplicar (pasos_perdidas_2 (R_total resistencias * 8.0)) d1.

(** What a caller can observe of a run that returns a table: the value of
    the table, or the way the run failed. *)
Definition tabla_devuelta `{Numpy} (x : resultado loc * estado) : resultado DataFrame :=
  match fst x with
  | Ok l =>
      match heap (snd x) !! l with
      | Some df => Ok df
      | None => Raise KeyError
      end
  | Raise e => Raise e
  | NonFinite => NonFinite
  end.

#[local] Arguments asignar_seguido : simpl never.
#[local] Arguments aplicar : simpl never.

Section Objetos.
Context `{Numpy}.

(** A method that works in place on the table it is given: its outcome is
    that of [F] on the table's value, and it changes that table only. *)
Definition en_sitio (m : loc -> Prog loc) (F : DataFrame -> resultado DataFrame) : Prop :=
  forall (s : estado) l df,
    heap s !! l = Some df ->
    exists d,
      m l s = match F df with
              | Ok df' => (Ok l, con_tabla s l df')
              | Raise x => (Raise x, con_tabla s l d)
              | NonFinite => (NonFinite, con_tabla s l d)
              end.

Lemma calcular_masa_evaporada_en_sitio self :
  en_sitio (calcular_masa_evaporada self) (aplicar (pasos_masa_evaporada self)).
Proof.
  intros s l df Hl. rewrite calcular_masa_evaporada_pasos.
  destruct (asignar_seguido_run (pasos_masa_evaporada self) s l df (ret l) Hl) as [d ->].
  exists d. destruct (aplicar (pasos_masa_evaporada self) df); reflexivity.
Qed.

Lemma calcular_perdidas_termicas_en_sitio self :
  en_sitio (calcular_perdidas_termicas self) (tabla_perdidas_de self).
Proof.
  intros s l df Hl. rewrite calcular_perdidas_termicas_pasos.
  unfold tabla_perdidas_de.
  destruct (asignar_seguido_run (pasos_perdidas_1 self) s l df
              (resistencias <- lift (calcular_resistencias_totales self) ;;
               asignar_seguido l (pasos_perdidas_2 (R_total resistencias * 8.0)) (ret l))
              Hl) as [d ->].
  destruct (aplicar (pasos_perdidas_1 self) df) as [d1| |]; simpl;
    [|exists d; reflexivity..].
  unfold bind at 1, lift.
  destruct (calcular_resistencias_totales self) as [res| |]; simpl;
    [|exists d1; reflexivity..].
  destruct (asignar_seguido_run (pasos_perdidas_2 (R_total res * 8.0))
              (con_tabla s l d1) l d1 (ret l)) as [d2 ->].
  { simpl. apply lookup_insert_eq. }
  exists d2.
  destruct (aplicar (pasos_perdidas_2 (R_total res * 8.0)) d1);
    rewrite con_tabla_con_tabla; reflexivity.
Qed.

Lemma copy_run (s : estado) l df :
  heap s !! l = Some df ->
  copy l s = (Ok (fresh (dom (heap s))), con_tabla s (fresh (dom (heap s))) df).
Proof. intros Hl. unfold copy, bind, leer, nuevo. rewrite Hl. reflexivity. Qed.

(** [calcular_temperatura_sistema] works on a copy, a new object. *)
Lemma calcular_temperatura_sistema_run self (s : estado) l df :
  heap s !! l = Some df ->
  exists d,
    calcular_temperatura_sistema self l s =
      match aplicar pasos_temperatura df with
      | Ok df' => (Ok (fresh (dom (heap s))), con_tabla s (fresh (dom (heap s))) df')
      | Raise x => (Raise x, con_tabla s (fresh (dom (heap s))) d)
      | NonFinite => (NonFinite, con_tabla s (fresh (dom (heap s))) d)
      end.
Proof.
  intros Hl. rewrite calcular_temperatura_sistema_pasos.
  unfold bind at 1. rewrite (copy_run s l df Hl).
  set (l' := fresh (dom (heap s))).
  destruct (asignar_seguido_run pasos_temperatura (con_tabla s l' df) l' df (ret l'))
    as [d ->].
  { simpl. apply lookup_insert_eq. }
  exists d. destruct (aplicar pasos_temperatura df);
    rewrite con_tabla_con_tabla; reflexivity.
Qed.

Lemma fresco_distinto (s : estado) l df :
  heap s !! l = Some df -> fresh (dom (heap s)) <> l.
Proof.
  intros Hl E. apply (is_fresh (dom (heap s))). rewrite E.
  apply elem_of_dom. eauto.
Qed.

(** C10. [calcular_temperatura_sistema] leaves the climate table it receives,
    and every other existing object, as they were, whatever its outcome;
    the table it returns is a new object, with the rows of the input
    extended by the temperature columns. *)
Theorem temperatura_no_modifica_clima :
  forall (self : ParametrosDesalinizador) (s : estado) (l : loc) (df : DataFrame),
    heap s !! l = Some df ->
    heap (snd (calcular_temperatura_sistema self l s)) !! l = Some df
    /\ (forall l0, l0 ∈ dom (heap s) ->
          heap (snd (calcular_temperatura_sistema self l s)) !! l0 = heap s !! l0)
    /\ (forall l', fst (calcular_temperatura_sistema self l s) = Ok l' ->
          l' <> l /\ (l' ∉ dom (heap s))
          /\ exists df',
               heap (snd (calcular_temperatura_sistema self l s)) !! l' = Some df'
               /\ aplicar pasos_temperatura df = Ok df'
               /\ length df' = length df).
Proof.
  intros self s l df Hl.
  destruct (calcular_temperatura_sistema_run self s l df Hl) as [d Hrun].
  pose proof (fresco_distinto s l df Hl) as Hne.
  assert (Hkeep : forall d0 l0, l0 ∈ dom (heap s) ->
            heap (con_tabla s (fresh (dom (heap s))) d0) !! l0 = heap s !! l0).
  { intros d0 l0 Hin. simpl. apply lookup_insert_ne.
    intros E. apply (is_fresh (dom (heap s))). rewrite E. exact Hin. }
  assert (Hin : l ∈ dom (heap s)) by (apply elem_of_dom; eauto).
  rewrite Hrun. destruct (aplicar pasos_temperatura df) as [df'| |] eqn:E; simpl snd; simpl fst.
  - split; [rewrite Hkeep by exact Hin; exact Hl|].
    split; [intros l0 Hl0; apply Hkeep; exact Hl0|].
    intros l' El. injection El as <-.
    split; [exact Hne|]. split; [apply is_fresh|].
    exists df'. split; [simpl; apply lookup_insert_eq|].
    split; [reflexivity|]. eapply aplicar_length; eauto.
  - split; [rewrite Hkeep by exact Hin; exact Hl|].
    split; [intros l0 Hl0; apply Hkeep; exact Hl0|]. intros l'; discriminate.
  - split; [rewrite Hkeep by exact Hin; exact Hl|].
    split; [intros l0 Hl0; apply Hkeep; exact Hl0|]. intros l'; discriminate.
Qed.

End Objetos.

(** ** Reproducibility *)

Section Reproducible.
Context `{Numpy}.

(** Two runs end alike: the generator is in the same state, and the runs
    fail in the same way or return tables of equal value. *)
Definition mismo_resultado (x y : resultado loc * estado) : Prop :=
  np_random (snd x) = np_random (snd y)
  /\ match fst x, fst y with
     | Ok l1, Ok l2 =>
         exists df, heap (snd x) !! l1 = Some df /\ heap (snd y) !! l2 = Some df
     | Raise e1, Raise e2 => e1 = e2
     | NonFinite, NonFinite => True
     | _, _ => False
     end.

(** A computation that never touches the heap and whose result and effect
    on the generator depend on the generator's state only. *)
Definition sin_heap {A} (m : Prog A) : Prop :=
  forall s1 s2 : estado,
    np_random s1 = np_random s2 ->
    fst (m s1) = fst (m s2)
    /\ np_random (snd (m s1)) = np_random (snd (m s2))
    /\ heap (snd (m s1)) = heap s1 /\ heap (snd (m s2)) = heap s2.

(** A computation that returns a table whose value depends on the
    generator's state only. *)
Definition crea_tabla (m : Prog loc) : Prop :=
  forall s1 s2 : estado, np_random s1 = np_random s2 -> mismo_resultado (m s1) (m s2).

Lemma sin_heap_lift {A} (r : resultado A) : sin_heap (lift r).
Proof. intros s1 s2 E. unfold lift; simpl. auto. Qed.

Lemma sin_heap_normal loc scale n : sin_heap (np_random_normal loc scale n).
Proof.
  intros s1 s2 E. unfold np_random_normal. rewrite E.
  destruct (Qltb scale 0); simpl; [auto|].
  destruct (normal_draws loc scale n (np_random s2)); simpl. auto.
Qed.

Lemma crea_tabla_nuevo df : crea_tabla (nuevo df).
Proof.
  intros s1 s2 E. unfold nuevo, mismo_resultado; simpl. split; [exact E|].
  exists df. rewrite !lookup_insert_eq. auto.
Qed.

Lemma crea_tabla_bind {A} (m : Prog A) (f : A -> Prog loc) :
  sin_heap m -> (forall a, crea_tabla (f a)) -> crea_tabla (bind m f).
Proof.
  intros Hm Hf s1 s2 E. destruct (Hm s1 s2 E) as (Hr & Hg & _ & _).
  unfold bind.
  destruct (m s1) as [r1 s1'], (m s2) as [r2 s2']; simpl in *. subst r2.
  destruct r1 as [a| |]; [apply Hf; exact Hg|..];
    unfold mismo_resultado; simpl; auto.
Qed.

Lemma generar_datos_anuales_crea_tabla self : crea_tabla (generar_datos_anuales self).
Proof.
  unfold generar_datos_anuales. cbv zeta.
  repeat first
    [ apply crea_tabla_nuevo
    | apply crea_tabla_bind; [first [apply sin_heap_normal | apply sin_heap_lift]|intros ?] ].
Qed.

(** Chaining a method that works on the table it receives. *)
Lemma mismo_resultado_bind (m1 m2 : Prog loc) (f : loc -> Prog loc) (s1 s2 : estado) :
  mismo_resultado (m1 s1) (m2 s2) ->
  (forall (t1 t2 : estado) l1 l2 df,
     np_random t1 = np_random t2 ->
     heap t1 !! l1 = Some df -> heap t2 !! l2 = Some df ->
     mismo_resultado (f l1 t1) (f l2 t2)) ->
  mismo_resultado (bind m1 f s1) (bind m2 f s2).
Proof.
  intros [Hg Hr] Hf. unfold bind.
  destruct (m1 s1) as [r1 t1], (m2 s2) as [r2 t2]; simpl in *.
  destruct r1 as [l1| |], r2 as [l2| |]; try contradiction.
  - destruct Hr as (df & H1 & H2). eapply Hf; eauto.
  - unfold mismo_resultado; simpl; auto.
  - unfold mismo_resultado; simpl; auto.
Qed.

Lemma en_sitio_mismo_resultado (m : loc -> Prog loc) F (t1 t2 : estado) l1 l2 df :
  en_sitio m F ->
  np_random t1 = np_random t2 ->
  heap t1 !! l1 = Some df -> heap t2 !! l2 = Some df ->
  mismo_resultado (m l1 t1) (m l2 t2).
Proof.
  intros Hm Hg H1 H2.
  destruct (Hm t1 l1 df H1) as [d1 ->], (Hm t2 l2 df H2) as [d2 ->].
  destruct (F df) as [df'| |]; unfold mismo_resultado; simpl; auto.
  split; [exact Hg|]. exists df'. rewrite !lookup_insert_eq. auto.
Qed.

Lemma calcular_temperatura_sistema_mismo_resultado self (t1 t2 : estado) l1 l2 df :
  np_random t1 = np_random t2 ->
  heap t1 !! l1 = Some df -> heap t2 !! l2 = Some df ->
  mismo_resultado (calcular_temperatura_sistema self l1 t1)
                  (calcular_temperatura_sistema self l2 t2).
Proof.
  intros Hg H1 H2.
  destruct (calcular_temperatura_sistema_run self t1 l1 df H1) as [d1 ->].
  destruct (calcular_temperatura_sistema_run self t2 l2 df H2) as [d2 ->].
  destruct (aplicar pasos_temperatura df) as [df'| |]; unfold mismo_resultado; simpl; auto.
  split; [exact Hg|]. exists df'. rewrite !lookup_insert_eq. auto.
Qed.

Lemma mismo_resultado_tabla_devuelta (x y : resultado loc * estado) :
  mismo_resultado x y -> tabla_devuelta x = tabla_devuelta y.
Proof.
  intros [_ Hr]. unfold tabla_devuelta.
  destruct (fst x) as [l1| |], (fst y) as [l2| |]; try contradiction.
  - destruct Hr as (df & -> & ->). reflexivity.
  - congruence.
  - reflexivity.
Qed.

(** C5. The annual simulation reseeds numpy's generator before it draws, so
    its outcome does not depend on the state in which it starts: any two
    runs with the same parameters, and in particular two runs in a row,
    return tables of equal value, or fail in the same way. *)
Theorem simulacion_reproducible :
  forall (params : option ParametrosDesalinizador) (s1 s2 : estado),
    tabla_devuelta (simular_desalinizador_anual params s1)
    = tabla_devuelta (simular_desalinizador_anual params s2)
    /\ tabla_devuelta (simular_desalinizador_anual params s1)
       = tabla_devuelta (simular_desalinizador_anual params
                           (snd (simular_desalinizador_anual params s1))).
Proof.
  assert (Hrel : forall params (s1 s2 : estado),
            tabla_devuelta (simular_desalinizador_anual params s1)
            = tabla_devuelta (simular_desalinizador_anual params s2)).
  { intros params s1 s2. unfold simular_desalinizador_anual.
    assert (Hcont : forall p (t1 t2 : estado),
      mismo_resultado
        ((modelo_clima <- ModeloClimatico_init p ;;
          df_clima <- generar_datos_anuales modelo_clima ;;
          df_temp <- calcular_temperatura_sistema p df_clima ;;
          df_perdidas <- calcular_perdidas_termicas p df_temp ;;
          df_resultados <- calcular_masa_evaporada p df_perdidas ;;
          ret df_resultados) t1)
        ((modelo_clima <- ModeloClimatico_init p ;;
          df_clima <- generar_datos_anuales modelo_clima ;;
          df_temp <- calcular_temperatura_sistema p df_clima ;;
          df_perdidas <- calcular_perdidas_termicas p df_temp ;;
          df_resultados <- calcular_masa_evaporada p df_perdidas ;;
          ret df_resultados) t2)).
    { intros p t1 t2.
      unfold bind at 1 6. unfold ModeloClimatico_init, bind at 1 2, np_random_seed, ret at 1 2.
      simpl.
      apply mismo_resultado_bind.
      { apply generar_datos_anuales_crea_tabla. reflexivity. }
      intros u1 u2 l1 l2 df Hg H1 H2.
      apply mismo_resultado_bind.
      { eapply calcular_temperatura_sistema_mismo_resultado; eauto. }
      clear. intros u1 u2 l1 l2 df Hg H1 H2.
      apply mismo_resultado_bind.
      { eapply en_sitio_mismo_resultado;
          [apply calcular_perdidas_termicas_en_sitio|eauto..]. }
      clear. intros u1 u2 l1 l2 df Hg H1 H2.
      apply mismo_resultado_bind.
      { eapply en_sitio_mismo_resultado;
          [apply calcular_masa_evaporada_en_sitio|eauto..]. }
      clear. intros u1 u2 l1 l2 df Hg H1 H2.
      unfold ret, mismo_resultado; simpl. eauto. }
    destruct params as [p|].
    - unfold bind at 1 7, ret at 1 2.
      apply mismo_resultado_tabla_devuelta, Hcont.
    - unfold bind at 1 7, lift.
      destruct (ParametrosDesalinizador_init None) as [p| |].
      + apply mismo_resultado_tabla_devuelta, Hcont.
      + reflexivity.
      + reflexivity. }
  intros params s1 s2. split; apply Hrel.
Qed.

End Reproducible.

(** ** The annual series in the northern hemisphere *)

Definition fecha_inicio : datetime := mk_datetime 2024 1 1.

(** The dates of the series, as [generar_datos_anuales] builds them. *)
Definition fechas_anuales : list datetime :=
  map (fun i => datetime_add_days fecha_inicio i) (range 365).

(** Row [i] of the frame built from the columns [cols]. *)
Definition fila_de_columnas (cols : list (string * list celda)) (i : nat) : fila :=
  list_to_map (omap (fun cv => (fun x => (fst cv, x)) <$> (snd cv !! i)) cols).

Lemma pd_DataFrame_Ok c0 v0 rest :
  Forall (fun cv => length (snd cv) = length v0) ((c0, v0) :: rest) ->
  pd_DataFrame ((c0, v0) :: rest)
  = Ok (map (fila_de_columnas ((c0, v0) :: rest)) (seq 0 (length v0))).
Proof.
  intros Hlen. unfold pd_DataFrame.
  assert (Hall : forallb (fun cv => Nat.eqb (length (snd cv)) (length v0))
                   ((c0, v0) :: rest) = true).
  { apply forallb_forall. intros cv Hin. apply Nat.eqb_eq.
    rewrite Forall_forall in Hlen. apply Hlen. apply list_elem_of_In. exact Hin. }
  rewrite Hall. reflexivity.
Qed.

Lemma fila_de_columnas_lookup cols (i : nat) c v x :
  NoDup (fst <$> cols) ->
  (c, v) ∈ cols ->
  Forall (fun cv => (i < length (snd cv))%nat) cols ->
  v !! i = Some x ->
  fila_de_columnas cols i !! c = Some x.
Proof.
  intros Hnd Hin Hlen Hx. unfold fila_de_columnas.
  apply elem_of_list_to_map_1.
  - assert (E : fst <$> omap (fun cv => (fun x => (fst cv, x)) <$> (snd cv !! i)) cols
                = fst <$> cols); [|rewrite E; exact Hnd].
    clear Hnd Hin. induction Hlen as [|[c' v'] cols Hi _ IH]; simpl; [reflexivity|].
    simpl in Hi. apply lookup_lt_is_Some in Hi as [y Hy]. rewrite Hy; simpl.
    f_equal. exact IH.
  - apply list_elem_of_omap. exists (c, v). split; [exact Hin|].
    simpl. rewrite Hx. reflexivity.
Qed.

(** The calendar of the series: 365 consecutive days from 1 January 2024,
    all of them in 2024, with months in 1..12. *)
Definition calendario_correcto (fechas : list datetime) : bool :=
  bool_decide (fechas !! 0%nat = Some fecha_inicio)
  && forallb (fun i =>
       match fechas !! i, fechas !! S i with
       | Some d, Some d' => bool_decide (d' = dia_siguiente d)
       | Some d, None => true
       | None, _ => false
       end) (seq 0 (length fechas))
  && forallb (fun d => (year d =? 2024)%Z && (1 <=? month d)%Z && (month d <=? 12)%Z
                       && (1 <=? day d)%Z && (day d <=? dias_del_mes (year d) (month d))%Z)
       fechas.

Lemma fechas_anuales_calendario :
  length fechas_anuales = 365%nat /\ calendario_correcto fechas_anuales = true
  /\ last fechas_anuales = Some (mk_datetime 2024 12 30).
Proof. vm_compute. auto. Qed.

Section Norte.
Context `{Numpy}.

Lemma range_lookup n (i : nat) : (i < n)%nat -> range n !! i = Some (Z.of_nat i).
Proof.
  intros Hi. unfold range. rewrite list_lookup_fmap.
  rewrite lookup_seq_lt by exact Hi. reflexivity.
Qed.

Lemma length_range n : length (range n) = n.
Proof. unfold range. rewrite length_map. apply length_seq. Qed.

Lemma generar_datos_anuales_norte (self : ModeloClimatico) (s : estado) :
  String.eqb (lower (clima_hemisferio self)) "norte" = true ->
  0 <= params_config.variabilidad_diaria (clima_param_sim self) ->
  exists df g',
    generar_datos_anuales self s
    = (Ok (fresh (dom (heap s))),
       mk_estado g' (<[fresh (dom (heap s)) := df]> (heap s)))
    /\ length df = 365%nat
    /\ forall (i : nat) d, fechas_anuales !! i = Some d ->
       exists r rad hum v,
         df !! i = Some r
         /\ r !! "fecha" = Some (Fecha d)
         /\ r !! "mes" = Some (Ent (month d))
         /\ r !! "dia" = Some (Ent (day d))
         /\ r !! "radiacion_Wm2" = Some (Num rad) /\ 100 <= rad /\ rad <= 950
         /\ r !! "humedad_relativa" = Some (Num hum) /\ 30 <= hum /\ hum <= 95
         /\ r !! "velocidad_viento" = Some (Num v) /\ 0.5 <= v.
Proof.
  intros Hnorte Hvar. unfold generar_datos_anuales. cbv zeta. rewrite Hnorte.
  fold fecha_inicio. fold fechas_anuales.
  assert (Hlen : length fechas_anuales = 365%nat) by apply fechas_anuales_calendario.
  rewrite Hlen.
  unfold bind at 1. rewrite np_random_normal_run by exact Hvar.
  pose proof (normal_draws_length 0
    (params_config.variabilidad_diaria (clima_param_sim self)) 365 (np_random s)) as L1.
  destruct (normal_draws 0 (params_config.variabilidad_diaria (clima_param_sim self))
              365 (np_random s)) as [z1 g1]. simpl in L1. cbn [fst snd np_random heap].
  unfold bind at 1. rewrite np_random_normal_run by (apply Qle_bool_iff; reflexivity).
  cbn [fst snd np_random heap].
  pose proof (normal_draws_length 0 3 365 g1) as L2.
  destruct (normal_draws 0 3 365 g1) as [z2 g2]. simpl in L2. cbn [fst snd].
  unfold bind at 1. unfold lift at 1. cbn [leer_local mbind resultado_bind].
  unfold bind at 1. rewrite np_random_normal_run by (apply Qle_bool_iff; reflexivity).
  cbn [fst snd np_random heap].
  pose proof (normal_draws_length 0 10 365 g2) as L3.
  destruct (normal_draws 0 10 365 g2) as [z3 g3]. simpl in L3. cbn [fst snd].
  unfold bind at 1. rewrite np_random_normal_run by (apply Qle_bool_iff; reflexivity).
  cbn [fst snd np_random heap].
  pose proof (normal_draws_length 0 0.8 365 g3) as L4.
  destruct (normal_draws 0 0.8 365 g3) as [z4 g4]. simpl in L4. cbn [fst snd].
  unfold bind at 1. unfold lift at 1.
  rewrite pd_DataFrame_Ok.
  2:{ repeat (apply Forall_cons; split); try apply Forall_nil; cbn [snd];
      rewrite ?length_fmap, ?length_map, ?length_zip_with, ?length_fmap, ?length_map,
        ?length_zip_with, ?length_map, ?L1, ?L2, ?L3, ?L4, ?Hlen; reflexivity. }
  match goal with |- context [fila_de_columnas ?c] => set (cols := c) end.
  rewrite length_fmap, Hlen.
  eexists. exists g4. split; [reflexivity|].
  split; [rewrite length_map; apply length_seq|].
  intros i d Hd.
  assert (Hi : (i < 365)%nat) by (rewrite <- Hlen; eapply lookup_lt_Some; eauto).
  destruct (lookup_lt_is_Some_2 z1 i) as [a1 Ha1]; [rewrite L1; exact Hi|].
  destruct (lookup_lt_is_Some_2 z3 i) as [a3 Ha3]; [rewrite L3; exact Hi|].
  destruct (lookup_lt_is_Some_2 z4 i) as [a4 Ha4]; [rewrite L4; exact Hi|].
  assert (Hnd : NoDup (fst <$> cols)).
  { refine (bool_decide_unpack _ _). vm_compute. exact I. }
  assert (Hlens : Forall (fun cv => (i < length (snd cv))%nat) cols).
  { unfold cols. repeat (apply Forall_cons; split); try apply Forall_nil; cbn [snd];
      repeat (rewrite length_fmap || rewrite length_map || rewrite length_zip_with);
      rewrite ?L1, ?L2, ?L3, ?L4, ?Hlen; repeat apply Nat.min_glb_lt;
      first [exact Hi | exact I]. }
  assert (Hcell : forall c v x, (c, v) ∈ cols -> v !! i = Some x ->
                    fila_de_columnas cols i !! c = Some x).
  { intros c v x Hin Hx. eapply fila_de_columnas_lookup; eauto. }
  assert (Hrad : exists rad, fila_de_columnas cols i !! "radiacion_Wm2" = Some (Num rad)
                             /\ 100 <= rad /\ rad <= 950).
  { eexists. split.
    - eapply Hcell.
      + unfold cols. repeat first [apply list_elem_of_here | apply list_elem_of_further].
      + repeat (rewrite list_lookup_fmap || rewrite lookup_zip_with).
        rewrite Hd, Ha1. reflexivity.
    - apply np_clip_bounds. lra. }
  assert (Hhum : exists hum, fila_de_columnas cols i !! "humedad_relativa" = Some (Num hum)
                             /\ 30 <= hum /\ hum <= 95).
  { eexists. split.
    - eapply Hcell.
      + unfold cols. repeat first [apply list_elem_of_here | apply list_elem_of_further].
      + repeat (rewrite list_lookup_fmap || rewrite lookup_zip_with).
        rewrite Hd, Ha3. reflexivity.
    - apply np_clip_bounds. lra. }
  assert (Hv : exists v, fila_de_columnas cols i !! "velocidad_viento" = Some (Num v)
                         /\ 0.5 <= v).
  { eexists. split.
    - eapply Hcell.
      + unfold cols. repeat first [apply list_elem_of_here | apply list_elem_of_further].
      + repeat (rewrite list_lookup_fmap || rewrite lookup_zip_with).
        rewrite Hd, Ha4. reflexivity.
    - unfold np_maximum. apply Q.le_max_l. }
  destruct Hrad as (rad & Hrad & Hr1 & Hr2), Hhum as (hum & Hhum & Hh1 & Hh2),
    Hv as (v & Hv & Hv1).
  exists (fila_de_columnas cols i), rad, hum, v.
  split.
  { change (map (fila_de_columnas cols) (seq 0 365))
      with (fila_de_columnas cols <$> seq 0 365).
    rewrite list_lookup_fmap, lookup_seq_lt by exact Hi. reflexivity. }
  split.
  { eapply Hcell.
    - unfold cols. repeat first [apply list_elem_of_here | apply list_elem_of_further].
    - rewrite list_lookup_fmap, Hd. reflexivity. }
  split.
  { eapply Hcell.
    - unfold cols. repeat first [apply list_elem_of_here | apply list_elem_of_further].
    - rewrite !list_lookup_fmap, Hd. reflexivity. }
  split.
  { eapply Hcell.
    - unfold cols. repeat first [apply list_elem_of_here | apply list_elem_of_further].
    - rewrite !list_lookup_fmap, Hd. reflexivity. }
  auto 12.
Qed.

End Norte.

Lemma temperatura_no_modifica_clima_witness :
  heap estado_ejemplo !! 1%positive = Some [dia_frio; dia_claro]
  /\ heap (snd (calcular_temperatura_sistema params_ejemplo 1%positive estado_ejemplo))
       !! 1%positive = Some [dia_frio; dia_claro]
  /\ (forall l0, l0 ∈ dom (heap estado_ejemplo) ->
        heap (snd (calcular_temperatura_sistema params_ejemplo 1%positive estado_ejemplo))
          !! l0 = heap estado_ejemplo !! l0)
  /\ (forall l',
        fst (calcular_temperatura_sistema params_ejemplo 1%positive estado_ejemplo) = Ok l' ->
        l' <> 1%positive /\ (l' ∉ dom (heap estado_ejemplo))
        /\ exists df',
             heap (snd (calcular_temperatura_sistema params_ejemplo 1%positive
                          estado_ejemplo)) !! l' = Some df'
             /\ aplicar pasos_temperatura [dia_frio; dia_claro] = Ok df'
             /\ length df' = length [dia_frio; dia_claro]).
Proof.
  assert (H1 : heap estado_ejemplo !! 1%positive = Some [dia_frio; dia_claro])
    by decidir.
  split; [exact H1|].
  exact (temperatura_no_modifica_clima params_ejemplo estado_ejemplo 1%positive
           [dia_frio; dia_claro] H1).
Defined.


(** ** Aggregation: the monthly and seasonal summaries of [visualizar_resultados]

    Only the statements that build [df_mensual] and [df_estacion] are
    modelled; the plots between them are not. *)

Inductive agg : Set := Suma | Media.

Definition suma (vs : list Q) : Q := fold_right Qplus 0 vs.

(** ['sum'] and ['mean'] of a group; the mean of no value is [NaN]. *)
Definition agregar (f : agg) (vs : list Q) : resultado Q :=
  match f with
  | Suma => Ok (suma vs)
  | Media => np_div (suma vs) (inject_Z (Z.of_nat (length vs)))
  end.

(** Group keys are compared as pandas compares them inside one column:
    integers by value, strings by code point. *)
Definition celda_leb (a b : celda) : bool :=
  match a, b with
  | Ent x, Ent y => (x <=? y)%Z
  | Txt x, Txt y => String.leb x y
  | Num x, Num y => Qle_bool x y
  | Ent _, _ => true
  | _, Ent _ => false
  | Num _, _ => true
  | _, Num _ => false
  | Txt _, _ => true
  | _, Txt _ => false
  | Fecha _, Fecha _ => true
  end.

Fixpoint insertar_clave (k : celda) (ks : list celda) : list celda :=
  match ks with
  | [] => [k]
  | k' :: ks' => if celda_leb k k' then k :: ks else k' :: insertar_clave k ks'
  end.

(** The distinct keys, sorted. *)
Definition claves_ordenadas (ks : list celda) : list celda :=
  fold_right (fun k acc => if bool_decide (k ∈ acc) then acc else insertar_clave k acc)
             [] ks.

Definition grupo (clave : string) (k : celda) (df : DataFrame) : DataFrame :=
  filter (fun r : fila => r !! clave = Some k) df.

Definition agregar_columna (g : DataFrame) (cf : string * agg) : resultado (string * celda) :=
  vs ← mapR (fun r => num r (fst cf)) g;
  v ← agregar (snd cf) vs;
  Ok (fst cf, Num v).

(** [df.groupby(clave).agg(spec).reset_index()] *)
Definition groupby_agg (clave : string) (spec : list (string * agg)) (df : DataFrame)
  : resultado DataFrame :=
  ks ← mapR (fun r => col r clave) df;
  mapR (fun k =>
          vals ← mapR (agregar_columna (grupo clave k df)) spec;
          Ok (<[clave := k]> (list_to_map vals : fila)))
       (claves_ordenadas ks).

(** [l[i]] on a Python list: a negative index counts from the end. *)
Definition py_index {A} (l : list A) (i : Z) : resultado A :=
  let n := Z.of_nat (length l) in
  let j := (if i <? 0 then n + i else i)%Z in
  if ((0 <=? j) && (j <? n))%Z
  then match l !! Z.to_nat j with Some x => Ok x | None => Raise IndexError end
  else Raise IndexError.

Definition entero (r : fila) (c : string) : resultado Z :=
  match r !! c with
  | Some (Ent z) => Ok z
  | Some _ => Raise TypeError
  | None => Raise KeyError
  end.

(** [serie.isin(valores)] on one cell. *)
Definition isin (v : celda) (valores : list Z) : bool :=
  match v with
  | Ent z => existsb (Z.eqb z) valores
  | Num q => existsb (fun z => Qeq_bool q (inject_Z z)) valores
  | _ => false
  end.

Definition nombres_meses : list string :=
  ["Enero"; "Febrero"; "Marzo"; "Abril"; "Mayo"; "Junio";
   "Julio"; "Agosto"; "Septiembre"; "Octubre"; "Noviembre"; "Diciembre"].

Definition spec_mensual : list (string * agg) :=
  [("produccion_litros", Suma); ("radiacion_Wm2", Media); ("GOR", Media);
   ("eficiencia_termica", Media); ("perdida_total", Media); ("temp_agua_C", Media);
   ("temp_ambiente_C", Media); ("humedad_relativa", Media);
   ("velocidad_viento", Media); ("energia_solar", Suma); ("energia_util", Suma);
   ("energia_evaporacion", Suma)].

Definition spec_estacion : list (string * agg) :=
  [("produccion_litros", Suma); ("GOR", Media); ("temp_agua_C", Media);
   ("temp_ambiente_C", Media); ("perdida_total", Media); ("energia_solar", Suma);
   ("energia_util", Suma)].

(** [df.loc[df['mes'].isin(meses), 'estacion'] = nombre] *)
Definition marcar_estacion (meses : list Z) (nombre : string) : paso :=
  ("estacion", fun r =>
     m ← col r "mes";
     if isin m meses then Ok (Txt nombre) else col r "estacion").

Definition pasos_estacion : list paso :=
  [ ("estacion", fun _ => Ok (Txt ""));
    marcar_estacion [12; 1; 2]%Z "Invierno";
    marcar_estacion [3; 4; 5]%Z "Primavera";
    marcar_estacion [6; 7; 8]%Z "Verano";
    marcar_estacion [9; 10; 11]%Z "Otoño" ].

Definition estaciones_base : list string :=
  ["Invierno"; "Primavera"; "Verano"; "Otoño"].

(** The row that stands for a season without data. *)
Definition nueva_fila (estacion : string) : fila :=
  list_to_map
    [("estacion", Txt estacion); ("produccion_litros", Num 0.0); ("GOR", Num 0.0);
     ("temp_agua_C", Num 0.0); ("temp_ambiente_C", Num 0.0);
     ("perdida_total", Num 0.0); ("energia_solar", Num 0.0);
     ("energia_util", Num 0.0)].

(** The loop over [estaciones_base]: [estaciones_disponibles] is computed
    once, before the loop. *)
Definition completar_estaciones (estaciones_disponibles : list celda)
    (df_estacion : DataFrame) : DataFrame :=
  fold_left (fun df estacion =>
               if bool_decide (Txt estacion ∈ estaciones_disponibles) then df
               else df ++ [nueva_fila estacion])
            estaciones_base df_estacion.

(** [df_mensual] of [visualizar_resultados], with its season column. *)
Definition resumen_mensual (df_resultados : DataFrame) : resultado DataFrame :=
  df_mensual ← groupby_agg "mes" spec_mensual df_resultados;
  df_mensual ← aplicar
    [("nombre_mes", fun r =>
        x ← entero r "mes"; nombre ← py_index nombres_meses (x - 1); Ok (Txt nombre))]
    df_mensual;
  aplicar pasos_estacion df_mensual.

(** [df_estacion] of [visualizar_resultados]. *)
Definition resumen_estacional (df_mensual : DataFrame) : resultado DataFrame :=
  df_estacion ← groupby_agg "estacion" spec_estacion df_mensual;
  estaciones_disponibles ← mapR (fun r => col r "estacion") df_estacion;
  Ok (completar_estaciones estaciones_disponibles df_estacion).

Definition agregacion_estacional (df_resultados : DataFrame)
  : resultado (DataFrame * DataFrame) :=
  df_mensual ← resumen_mensual df_resultados;
  df_estacion ← resumen_estacional df_mensual;
  Ok (df_mensual, df_estacion).

(** [df[c].sum()] *)
Definition suma_columna (c : string) (df : DataFrame) : resultado Q :=
  vs ← mapR (fun r => num r c) df; Ok (suma vs).

(** [prod_estaciones] and [total_produccion] of [visualizar_resultados]. *)
Definition prod_estaciones (df_estacion : DataFrame) : resultado (list Q) :=
  mapR (fun e =>
          suma_columna "produccion_litros"
            (filter (fun r : fila => r !! "estacion" = Some (Txt e)) df_estacion))
       estaciones_base.

(** ** Sums over groups *)

Lemma suma_app a b : suma (a ++ b) == suma a + suma b.
Proof. induction a as [|x a IH]; simpl; [lra|]. rewrite IH. lra. Qed.

Lemma suma_filter_split {A} (v : A -> Q) (P : A -> Prop) `{forall x, Decision (P x)} l :
  suma (map v l) == suma (map v (filter P l)) + suma (map v (filter (fun x => ~ P x) l)).
Proof.
  induction l as [|x l IH]; simpl; [lra|].
  rewrite !filter_cons. destruct (decide (P x)) as [Hp|Hn].
  - destruct (decide (~ P x)); [contradiction|]. simpl. rewrite IH. lra.
  - destruct (decide (~ P x)); [|contradiction]. simpl. rewrite IH. lra.
Qed.

Lemma suma_map_eq (f g : celda -> Q) ks :
  (forall k, k ∈ ks -> f k == g k) -> suma (map f ks) == suma (map g ks).
Proof.
  induction ks as [|k ks IH]; simpl; intros Hfg; [lra|].
  rewrite (Hfg k) by apply list_elem_of_here.
  rewrite IH; [lra|]. intros k' Hk'. apply Hfg. apply list_elem_of_further. exact Hk'.
Qed.

(** The sums of the groups of a partition by key add up to the sum of the
    whole table. *)
Lemma suma_grupos (clave : string) (v : fila -> Q) ks : forall df : DataFrame,
  NoDup ks ->
  (forall r, r ∈ df -> exists k, k ∈ ks /\ r !! clave = Some k) ->
  suma (map (fun k => suma (map v (grupo clave k df))) ks) == suma (map v df).
Proof.
  induction ks as [|k0 ks IH]; intros df Hnd Hkeys.
  - destruct df as [|r df]; [simpl; lra|].
    destruct (Hkeys r) as (k & Hk & _); [apply list_elem_of_here|].
    apply elem_of_nil in Hk. contradiction.
  - apply NoDup_cons in Hnd as [Hk0 Hnd]. simpl.
    rewrite (suma_filter_split v (fun r : fila => r !! clave = Some k0) df).
    fold (grupo clave k0 df).
    set (resto := filter (fun r : fila => ~ r !! clave = Some k0) df).
    rewrite <- (IH resto Hnd).
    + rewrite (suma_map_eq (fun k => suma (map v (grupo clave k df)))
                 (fun k => suma (map v (grupo clave k resto)))); [lra|].
      intros k Hk. unfold grupo, resto. rewrite list_filter_filter.
      assert (E : filter (fun r : fila => r !! clave = Some k) df
                  = filter (fun r : fila => r !! clave = Some k
                                            /\ ~ r !! clave = Some k0) df).
      { apply list_filter_iff. intros r. split; [|tauto].
        intros Hr. split; [exact Hr|]. intros Hr0. rewrite Hr in Hr0.
        injection Hr0 as ->. contradiction. }
      rewrite E. reflexivity.
    + intros r Hr. unfold resto in Hr. apply list_elem_of_filter in Hr as [Hne Hr].
      destruct (Hkeys r Hr) as (k & Hk & Hrk). exists k. split; [|exact Hrk].
      apply elem_of_cons in Hk as [->|Hk]; [contradiction|exact Hk].
Qed.

(** ** Sorted distinct keys *)

Lemma elem_of_insertar_clave k k' ks : k' ∈ insertar_clave k ks <-> k' = k \/ k' ∈ ks.
Proof.
  induction ks as [|k0 ks IH]; simpl.
  - rewrite elem_of_cons, elem_of_nil. tauto.
  - destruct (celda_leb k k0).
    + rewrite elem_of_cons. tauto.
    + rewrite !elem_of_cons, IH. tauto.
Qed.

Lemma NoDup_insertar_clave k ks : k ∉ ks -> NoDup ks -> NoDup (insertar_clave k ks).
Proof.
  induction ks as [|k0 ks IH]; simpl; intros Hk Hnd.
  - apply NoDup_singleton.
  - destruct (celda_leb k k0).
    + apply NoDup_cons. split; assumption.
    + apply NoDup_cons in Hnd as [Hk0 Hnd].
      apply not_elem_of_cons in Hk as [Hne Hk].
      apply NoDup_cons. split; [|apply IH; assumption].
      rewrite elem_of_insertar_clave. intros [->|Hin]; contradiction.
Qed.

Lemma elem_of_claves_ordenadas k ks : k ∈ claves_ordenadas ks <-> k ∈ ks.
Proof.
  induction ks as [|k0 ks IH]; simpl; [tauto|].
  rewrite elem_of_cons. case_bool_decide as Hin.
  - rewrite IH. split; [tauto|]. intros [->|Hk]; [apply IH; exact Hin|exact Hk].
  - rewrite elem_of_insertar_clave, IH. tauto.
Qed.

Lemma NoDup_claves_ordenadas ks : NoDup (claves_ordenadas ks).
Proof.
  induction ks as [|k0 ks IH]; simpl; [apply NoDup_nil_2|].
  case_bool_decide as Hin; [exact IH|].
  apply NoDup_insertar_clave; assumption.
Qed.

(** ** What [groupby_agg] returns *)

Definition fila_grupo (clave : string) (spec : list (string * agg)) (df : DataFrame)
    (k : celda) : resultado fila :=
  vals ← mapR (agregar_columna (grupo clave k df)) spec;
  Ok (<[clave := k]> (list_to_map vals : fila)).

Lemma mapR_elem_of {A B} (f : A -> resultado B) l l' x :
  mapR f l = Ok l' -> x ∈ l -> exists y, y ∈ l' /\ f x = Ok y.
Proof.
  intros E Hx. apply list_elem_of_lookup in Hx as [i Hi].
  destruct (mapR_lookup_fwd f l l' i x E Hi) as (y & Hy & Hf).
  exists y. split; [|exact Hf]. apply list_elem_of_lookup. eauto.
Qed.

Lemma mapR_elem_of_inv {A B} (f : A -> resultado B) l l' y :
  mapR f l = Ok l' -> y ∈ l' -> exists x, x ∈ l /\ f x = Ok y.
Proof.
  intros E Hy. apply list_elem_of_lookup in Hy as [i Hi].
  destruct (mapR_lookup f l l' i y E Hi) as (x & Hx & Hf).
  exists x. split; [|exact Hf]. apply list_elem_of_lookup. eauto.
Qed.

Lemma mapR_map {A B C} (f : A -> resultado B) (g : B -> C) (h : A -> C) l l' :
  mapR f l = Ok l' ->
  (forall x y, x ∈ l -> f x = Ok y -> g y = h x) ->
  map g l' = map h l.
Proof.
  revert l'. induction l as [|x l IH]; simpl; intros l' E Hgh.
  - injection E as <-. reflexivity.
  - apply bind_Ok_inv in E as (y & Hy & E).
    apply bind_Ok_inv in E as (ys & Hys & E). injection E as <-. simpl.
    f_equal.
    + apply Hgh; [apply list_elem_of_here|exact Hy].
    + apply IH; [exact Hys|]. intros x' y' Hx'. apply Hgh.
      apply list_elem_of_further. exact Hx'.
Qed.

Lemma mapR_num_valor c (l : DataFrame) :
  (forall r, r ∈ l -> exists q, num r c = Ok q) ->
  mapR (fun r => num r c) l = Ok (map (valor c) l).
Proof.
  induction l as [|r l IH]; simpl; intros Hl; [reflexivity|].
  destruct (Hl r) as [q Hq]; [apply list_elem_of_here|].
  unfold valor at 1. rewrite Hq; simpl.
  rewrite IH; [reflexivity|]. intros r' Hr'. apply Hl. apply list_elem_of_further. exact Hr'.
Qed.

Lemma mapR_num_Ok c (l : DataFrame) vs :
  mapR (fun r => num r c) l = Ok vs ->
  vs = map (valor c) l /\ forall r, r ∈ l -> exists q, num r c = Ok q.
Proof.
  intros E.
  assert (Hall : forall r, r ∈ l -> exists q, num r c = Ok q).
  { intros r Hr. destruct (mapR_elem_of _ _ _ _ E Hr) as (q & _ & Hq). eauto. }
  split; [|exact Hall]. rewrite (mapR_num_valor c l Hall) in E. congruence.
Qed.

Lemma agregar_columna_fst g spec vals :
  mapR (agregar_columna g) spec = Ok vals -> fst <$> vals = fst <$> spec.
Proof.
  intros E. change (map fst vals = map fst spec).
  eapply mapR_map; [exact E|]. intros [c f] y _ Hy. unfold agregar_columna in Hy.
  apply bind_Ok_inv in Hy as (vs & _ & Hy). apply bind_Ok_inv in Hy as (v & _ & Hy).
  injection Hy as <-. reflexivity.
Qed.

(** The row of one group: its key, and under each aggregated column the
    aggregate of that column over the rows of the group. *)
Lemma fila_grupo_Ok clave spec df k row :
  fila_grupo clave spec df k = Ok row ->
  row !! clave = Some k
  /\ forall c f, NoDup (fst <$> spec) -> (c, f) ∈ spec -> c <> clave ->
       exists v,
         agregar f (map (valor c) (grupo clave k df)) = Ok v
         /\ row !! c = Some (Num v)
         /\ forall r, r ∈ grupo clave k df -> exists q, num r c = Ok q.
Proof.
  unfold fila_grupo. intros E. apply bind_Ok_inv in E as (vals & Hvals & E).
  injection E as <-. split; [apply lookup_insert_eq|].
  intros c f Hnd Hin Hne.
  destruct (mapR_elem_of _ _ _ _ Hvals Hin) as (y & Hy & Hcol).
  unfold agregar_columna in Hcol. simpl in Hcol.
  apply bind_Ok_inv in Hcol as (vs & Hvs & Hcol).
  apply bind_Ok_inv in Hcol as (v & Hv & Hcol). injection Hcol as <-.
  apply mapR_num_Ok in Hvs as [-> Hall].
  exists v. split; [exact Hv|]. split; [|exact Hall].
  rewrite lookup_insert_ne by congruence.
  apply elem_of_list_to_map_1; [|exact Hy].
  rewrite (agregar_columna_fst _ _ _ Hvals). exact Hnd.
Qed.

Lemma groupby_agg_Ok clave spec df out :
  groupby_agg clave spec df = Ok out ->
  exists ks,
    mapR (fun r => col r clave) df = Ok ks
    /\ mapR (fila_grupo clave spec df) (claves_ordenadas ks) = Ok out
    /\ (forall r, r ∈ df -> exists k, k ∈ claves_ordenadas ks /\ r !! clave = Some k)
    /\ (forall k, k ∈ claves_ordenadas ks -> exists r, r ∈ df /\ r !! clave = Some k)
    /\ map (fun r : fila => r !! clave) out = map Some (claves_ordenadas ks).
Proof.
  unfold groupby_agg. intros E. apply bind_Ok_inv in E as (ks & Hks & E).
  exists ks. split; [exact Hks|]. split; [exact E|].
  assert (Hcol : forall (r : fila) k, col r clave = Ok k <-> r !! clave = Some k).
  { intros r k. unfold col. destruct (r !! clave); split; congruence. }
  split; [|split].
  - intros r Hr. destruct (mapR_elem_of _ _ _ _ Hks Hr) as (k & Hk & Hrk).
    exists k. split; [apply (proj2 (elem_of_claves_ordenadas _ _)); exact Hk
                    |apply Hcol; exact Hrk].
  - intros k Hk. apply (proj1 (elem_of_claves_ordenadas _ _)) in Hk.
    destruct (mapR_elem_of_inv _ _ _ _ Hks Hk) as (r & Hr & Hrk).
    exists r. split; [exact Hr|apply Hcol; exact Hrk].
  - eapply mapR_map; [exact E|]. intros k row _ Hrow.
    apply fila_grupo_Ok in Hrow as [Hk _]. exact Hk.
Qed.

(** Conservation: a column aggregated by ['sum'] has the same total in the
    grouped table as in the table that was grouped. *)
Lemma groupby_agg_suma clave spec df out c :
  NoDup (fst <$> spec) -> (c, Suma) ∈ spec -> c <> clave ->
  groupby_agg clave spec df = Ok out ->
  (forall r, r ∈ out -> exists q, r !! c = Some (Num q))
  /\ (forall r, r ∈ df -> exists q, num r c = Ok q)
  /\ suma (map (valor c) out) == suma (map (valor c) df).
Proof.
  intros Hnd Hin Hne E.
  destruct (groupby_agg_Ok _ _ _ _ E) as (ks & Hks & Hout & Hcover & Hfrom & Hkeys).
  assert (Hrow : forall k row, k ∈ claves_ordenadas ks ->
            fila_grupo clave spec df k = Ok row ->
            row !! c = Some (Num (suma (map (valor c) (grupo clave k df))))
            /\ forall r, r ∈ grupo clave k df -> exists q, num r c = Ok q).
  { intros k row Hk Hrow. apply fila_grupo_Ok in Hrow as [_ Hcols].
    destruct (Hcols c Suma Hnd Hin Hne) as (v & Hv & Hcv & Hall).
    simpl in Hv. injection Hv as <-. auto. }
  split; [|split].
  - intros r Hr. destruct (mapR_elem_of_inv _ _ _ _ Hout Hr) as (k & Hk & Hrow0).
    destruct (Hrow k r Hk Hrow0) as [Hc _]. eauto.
  - intros r Hr. destruct (Hcover r Hr) as (k & Hk & Hrk).
    destruct (mapR_elem_of _ _ _ _ Hout Hk) as (row & _ & Hrow0).
    destruct (Hrow k row Hk Hrow0) as [_ Hall]. apply Hall.
    unfold grupo. apply list_elem_of_filter. auto.
  - rewrite (mapR_map _ (valor c)
               (fun k => suma (map (valor c) (grupo clave k df))) _ _ Hout).
    + apply suma_grupos; [apply NoDup_claves_ordenadas|exact Hcover].
    + intros k row Hk Hrow0. destruct (Hrow k row Hk Hrow0) as [Hc _].
      unfold valor at 1, num. rewrite Hc. reflexivity.
Qed.

(** ** The season of a month *)

Definition etiqueta_estacion (m : Z) : string :=
  if existsb (Z.eqb m) [9; 10; 11]%Z then "Otoño"
  else if existsb (Z.eqb m) [6; 7; 8]%Z then "Verano"
  else if existsb (Z.eqb m) [3; 4; 5]%Z then "Primavera"
  else if existsb (Z.eqb m) [12; 1; 2]%Z then "Invierno"
  else "".

Lemma etiqueta_estacion_base m :
  (1 <= m <= 12)%Z -> etiqueta_estacion m ∈ estaciones_base.
Proof.
  intros Hm.
  assert (Hcases : (m = 1 \/ m = 2 \/ m = 3 \/ m = 4 \/ m = 5 \/ m = 6 \/ m = 7
                    \/ m = 8 \/ m = 9 \/ m = 10 \/ m = 11 \/ m = 12)%Z) by lia.
  unfold estaciones_base.
  repeat destruct Hcases as [->|Hcases]; try subst m; vm_compute etiqueta_estacion;
    repeat first [apply list_elem_of_here | apply list_elem_of_further].
Qed.

Lemma aplicar_fila_cons p ps (r : fila) :
  aplicar_fila (p :: ps) r = asignar_fila p r ≫= aplicar_fila ps.
Proof. reflexivity. Qed.

Lemma marcar_estacion_fila meses nombre (r r' : fila) m e :
  r !! "mes" = Some (Ent m) ->
  r !! "estacion" = Some (Txt e) ->
  asignar_fila (marcar_estacion meses nombre) r = Ok r' ->
  r' = <["estacion" := Txt (if existsb (Z.eqb m) meses then nombre else e)]> r.
Proof.
  intros Hm He. unfold asignar_fila, marcar_estacion; simpl.
  unfold col. rewrite Hm; simpl. rewrite He.
  destruct (existsb (Z.eqb m) meses); simpl; intros E; injection E as <-; reflexivity.
Qed.

(** The two column assignments on [df_mensual] add the month name and the
    season of the month, and leave the other columns as they were. *)
Lemma fila_mensual (r r1 r' : fila) :
  aplicar_fila
    [("nombre_mes", fun r =>
        x ← entero r "mes"; nombre ← py_index nombres_meses (x - 1); Ok (Txt nombre))]
    r = Ok r1 ->
  aplicar_fila pasos_estacion r1 = Ok r' ->
  exists m,
    r !! "mes" = Some (Ent m)
    /\ r' !! "estacion" = Some (Txt (etiqueta_estacion m))
    /\ forall c, c <> "estacion" -> c <> "nombre_mes" -> r' !! c = r !! c.
Proof.
  intros E1 E2. simpl in E1. apply bind_Ok_inv in E1 as (r1' & E1 & Er1).
  injection Er1 as ->. unfold asignar_fila in E1; simpl in E1.
  apply bind_Ok_inv in E1 as (v & Hv & E1). injection E1 as <-.
  apply bind_Ok_inv in Hv as (m & Hm & Hv).
  assert (Hmes : r !! "mes" = Some (Ent m)).
  { unfold entero in Hm. destruct (r !! "mes") as [[]|]; try discriminate. congruence. }
  exists m. split; [exact Hmes|].
  set (r0 := <["nombre_mes" := v]> r) in *.
  assert (Hmes0 : r0 !! "mes" = Some (Ent m)).
  { unfold r0. rewrite lookup_insert_ne by discriminate. exact Hmes. }
  unfold pasos_estacion in E2.
  rewrite aplicar_fila_cons in E2. apply bind_Ok_inv in E2 as (ra & Ea & E2).
  unfold asignar_fila in Ea; simpl in Ea. injection Ea as <-.
  rewrite aplicar_fila_cons in E2. apply bind_Ok_inv in E2 as (rb & Eb & E2).
  eapply marcar_estacion_fila in Eb;
    [|rewrite lookup_insert_ne by discriminate; exact Hmes0|apply lookup_insert_eq].
  rewrite aplicar_fila_cons in E2. apply bind_Ok_inv in E2 as (rc & Ec & E2).
  eapply marcar_estacion_fila in Ec;
    [|rewrite Eb, !lookup_insert_ne by discriminate; exact Hmes0
     |rewrite Eb; apply lookup_insert_eq].
  rewrite aplicar_fila_cons in E2. apply bind_Ok_inv in E2 as (rd & Ed & E2).
  eapply marcar_estacion_fila in Ed;
    [|rewrite Ec, Eb, !lookup_insert_ne by discriminate; exact Hmes0
     |rewrite Ec; apply lookup_insert_eq].
  rewrite aplicar_fila_cons in E2. apply bind_Ok_inv in E2 as (re & Ee & E2).
  eapply marcar_estacion_fila in Ee;
    [|rewrite Ed, Ec, Eb, !lookup_insert_ne by discriminate; exact Hmes0
     |rewrite Ed; apply lookup_insert_eq].
  simpl in E2.
  injection E2 as <-. subst re rd rc rb.
  split.
  - rewrite lookup_insert_eq. unfold etiqueta_estacion.
    destruct (existsb (Z.eqb m) [9; 10; 11]%Z); [reflexivity|].
    destruct (existsb (Z.eqb m) [6; 7; 8]%Z); [reflexivity|].
    destruct (existsb (Z.eqb m) [3; 4; 5]%Z); [reflexivity|].
    destruct (existsb (Z.eqb m) [12; 1; 2]%Z); reflexivity.
  - intros c Hc1 Hc2. rewrite !lookup_insert_ne by congruence.
    unfold r0. rewrite lookup_insert_ne by congruence. reflexivity.
Qed.

Lemma resumen_mensual_Ok df dm :
  resumen_mensual df = Ok dm ->
  exists g,
    groupby_agg "mes" spec_mensual df = Ok g
    /\ length dm = length g
    /\ forall (i : nat) r', dm !! i = Some r' ->
       exists r m,
         g !! i = Some r
         /\ r !! "mes" = Some (Ent m)
         /\ r' !! "estacion" = Some (Txt (etiqueta_estacion m))
         /\ forall c, c <> "estacion" -> c <> "nombre_mes" -> r' !! c = r !! c.
Proof.
  unfold resumen_mensual. intros E.
  apply bind_Ok_inv in E as (g & Hg & E). apply bind_Ok_inv in E as (g1 & Hg1 & E).
  exists g. split; [exact Hg|].
  split; [rewrite (aplicar_length _ _ _ E); eapply aplicar_length; eauto|].
  intros i r' Hi.
  destruct (aplicar_lookup _ _ _ _ _ E Hi) as (r1 & Hr1 & Hrow1).
  destruct (aplicar_lookup _ _ _ _ _ Hg1 Hr1) as (r & Hr & Hrow).
  destruct (fila_mensual r r1 r' Hrow Hrow1) as (m & Hm & Hest & Hsame).
  exists r, m. auto.
Qed.

(** ** The seasonal summary *)

Lemma completar_con (P : string -> Prop) `{forall e, Decision (P e)}
    (f : string -> fila) (l : list string) : forall df : DataFrame,
  fold_left (fun df e => if bool_decide (P e) then df else df ++ [f e]) l df
  = df ++ map f (filter (fun e => ~ P e) l).
Proof.
  induction l as [|e l IH]; intros df; simpl.
  - rewrite app_nil_r. reflexivity.
  - rewrite IH, filter_cons. case_bool_decide as HP.
    + destruct (decide (~ P e)); [contradiction|]. reflexivity.
    + destruct (decide (~ P e)); [|contradiction]. simpl.
      rewrite <- app_assoc. reflexivity.
Qed.

Lemma completar_estaciones_eq disp (ge : DataFrame) :
  completar_estaciones disp ge
  = ge ++ map nueva_fila (filter (fun e => ~ Txt e ∈ disp) estaciones_base).
Proof. unfold completar_estaciones. apply (completar_con (fun e => Txt e ∈ disp)). Qed.

Lemma nueva_fila_estacion e : nueva_fila e !! "estacion" = Some (Txt e).
Proof. unfold nueva_fila. simpl. apply lookup_insert_eq. Qed.

Lemma nueva_fila_produccion e : nueva_fila e !! "produccion_litros" = Some (Num 0.0).
Proof.
  unfold nueva_fila. simpl. rewrite lookup_insert_ne by discriminate.
  apply lookup_insert_eq.
Qed.

Lemma map_ext_lookup {A B} (f : A -> B) (l1 l2 : list A) :
  length l1 = length l2 ->
  (forall (i : nat) x, l1 !! i = Some x -> exists y, l2 !! i = Some y /\ f x = f y) ->
  map f l1 = map f l2.
Proof.
  revert l2. induction l1 as [|x l1 IH]; intros [|y l2] Hlen Hf; simpl in *;
    try discriminate; [reflexivity|].
  f_equal.
  - destruct (Hf 0%nat x eq_refl) as (y' & Hy & E). injection Hy as <-. exact E.
  - apply IH; [congruence|]. intros i x' Hi. apply (Hf (S i) x' Hi).
Qed.

Lemma mapR_col_claves clave (ge : DataFrame) disp ks :
  mapR (fun r => col r clave) ge = Ok disp ->
  map (fun r : fila => r !! clave) ge = map Some ks ->
  disp = ks.
Proof.
  intros Hd Hk.
  assert (E : map Some disp = map (fun r : fila => r !! clave) ge).
  { eapply mapR_map; [exact Hd|]. intros r k _ Hr. unfold col in Hr.
    destruct (r !! clave); congruence. }
  rewrite Hk in E. clear -E. revert ks E.
  induction disp as [|d disp IH]; intros [|k ks] E; simpl in E; try discriminate;
    [reflexivity|].
  injection E as -> E. f_equal. apply IH. exact E.
Qed.

Lemma resumen_estacional_Ok dm de :
  resumen_estacional dm = Ok de ->
  exists ge ks,
    groupby_agg "estacion" spec_estacion dm = Ok ge
    /\ NoDup ks
    /\ map (fun r : fila => r !! "estacion") ge = map Some ks
    /\ (forall k, k ∈ ks -> exists r, r ∈ dm /\ r !! "estacion" = Some k)
    /\ (forall r, r ∈ dm -> exists k, k ∈ ks /\ r !! "estacion" = Some k)
    /\ de = ge ++ map nueva_fila (filter (fun e => ~ Txt e ∈ ks) estaciones_base).
Proof.
  unfold resumen_estacional. intros E.
  apply bind_Ok_inv in E as (ge & Hge & E).
  apply bind_Ok_inv in E as (disp & Hdisp & E). injection E as <-.
  destruct (groupby_agg_Ok _ _ _ _ Hge) as (ks0 & _ & _ & Hcover & Hfrom & Hkeys).
  exists ge, (claves_ordenadas ks0).
  rewrite (mapR_col_claves _ _ _ _ Hdisp Hkeys).
  split; [exact Hge|]. split; [apply NoDup_claves_ordenadas|].
  split; [exact Hkeys|]. split; [exact Hfrom|]. split; [exact Hcover|].
  apply completar_estaciones_eq.
Qed.

#[global] Instance Txt_inj : Inj eq eq Txt.
Proof. intros x y E. injection E as ->. reflexivity. Qed.

Lemma valor_lookup c (r r' : fila) : r' !! c = r !! c -> valor c r' = valor c r.
Proof. intros E. unfold valor, num. rewrite E. reflexivity. Qed.

Lemma suma_ceros (l : list string) :
  suma (map (valor "produccion_litros") (map nueva_fila l)) == 0.
Proof.
  induction l as [|e l IH]; simpl; [lra|]. rewrite IH.
  unfold valor at 1, num. rewrite nueva_fila_produccion. lra.
Qed.

(** Whenever the aggregation returns, the seasonal summary has the four
    named seasons, each once, a season without data is the zero-valued row,
    and the production is conserved. *)
Lemma agregacion_estacional_Ok :
  forall (df dm de : DataFrame),
    Forall (fun r : fila => forall m, r !! "mes" = Some (Ent m) -> (1 <= m <= 12)%Z) df ->
    agregacion_estacional df = Ok (dm, de) ->
    map (fun r : fila => r !! "estacion") de
      ≡ₚ map (fun e => Some (Txt e)) estaciones_base
    /\ (forall e, e ∈ estaciones_base ->
          (forall (r : fila) m, r ∈ df -> r !! "mes" = Some (Ent m) ->
                                etiqueta_estacion m <> e) ->
          nueva_fila e ∈ de)
    /\ exists total_estaciones total_dias,
         suma_columna "produccion_litros" de = Ok total_estaciones
         /\ suma_columna "produccion_litros" df = Ok total_dias
         /\ total_estaciones == total_dias.
Proof.
  intros df dm de Hmes E. unfold agregacion_estacional in E.
  apply bind_Ok_inv in E as (dm0 & Hdm & E).
  apply bind_Ok_inv in E as (de0 & Hde & E). injection E as -> ->.
  destruct (resumen_mensual_Ok _ _ Hdm) as (g & Hg & Hlen & Hrows).
  destruct (resumen_estacional_Ok _ _ Hde)
    as (ge & ks & Hge & Hnd & Hkeys & Hfrom & Hcover & ->).
  destruct (groupby_agg_Ok _ _ _ _ Hg) as (km & _ & _ & _ & Hgfrom & Hgkeys).
  (* every row of the monthly table carries the season of a month of the data *)
  assert (Hlabel : forall r', r' ∈ dm -> exists m,
            r' !! "estacion" = Some (Txt (etiqueta_estacion m))
            /\ (1 <= m <= 12)%Z
            /\ exists r0, r0 ∈ df /\ r0 !! "mes" = Some (Ent m)).
  { intros r' Hr'. apply list_elem_of_lookup in Hr' as [i Hi].
    destruct (Hrows i r' Hi) as (r & m & Hr & Hm & Hest & _).
    exists m. split; [exact Hest|].
    assert (Hkm : Ent m ∈ claves_ordenadas km).
    { assert (Hin : Some (Ent m) ∈ map (fun r : fila => r !! "mes") g).
      { rewrite <- Hm. apply list_elem_of_fmap. exists r. split; [reflexivity|].
        apply list_elem_of_lookup. eauto. }
      rewrite Hgkeys in Hin. apply list_elem_of_fmap in Hin as (k & Ek & Hk).
      injection Ek as ->. exact Hk. }
    destruct (Hgfrom _ Hkm) as (r0 & Hr0 & Hm0).
    split; [|eauto]. rewrite Forall_forall in Hmes. apply (Hmes r0 Hr0 m Hm0). }
  assert (Hsub : forall k, k ∈ ks -> exists e, e ∈ estaciones_base /\ k = Txt e).
  { intros k Hk. destruct (Hfrom k Hk) as (r' & Hr' & Hrk).
    destruct (Hlabel r' Hr') as (m & Hest & Hm & _).
    exists (etiqueta_estacion m). split; [apply etiqueta_estacion_base; exact Hm|].
    congruence. }
  set (faltan := filter (fun e => ~ Txt e ∈ ks) estaciones_base).
  split; [|split].
  - rewrite map_app, Hkeys, map_map.
    change (map (fun x => nueva_fila x !! "estacion") faltan)
      with (map (fun x => nueva_fila x !! "estacion") faltan).
    rewrite (map_ext (fun x => nueva_fila x !! "estacion") (fun e => Some (Txt e)))
      by apply nueva_fila_estacion.
    rewrite <- (map_map Txt Some faltan), <- (map_map Txt Some estaciones_base).
    rewrite <- map_app. apply (fmap_Permutation Some).
    apply NoDup_Permutation.
    + apply NoDup_app. split; [exact Hnd|]. split.
      * intros k Hk Hk'. apply list_elem_of_fmap in Hk' as (e & -> & He).
        unfold faltan in He. apply list_elem_of_filter in He as [Hno _]. contradiction.
      * apply (NoDup_fmap_2 Txt). apply NoDup_filter.
        refine (bool_decide_unpack _ _). vm_compute. exact I.
    + apply (NoDup_fmap_2 Txt). refine (bool_decide_unpack _ _). vm_compute. exact I.
    + intros k. rewrite elem_of_app. split.
      * intros [Hk|Hk].
        -- destruct (Hsub k Hk) as (e & He & ->). apply list_elem_of_fmap. eauto.
        -- apply list_elem_of_fmap in Hk as (e & -> & He). unfold faltan in He.
           apply list_elem_of_filter in He as [_ He]. apply list_elem_of_fmap. eauto.
      * intros Hk. apply list_elem_of_fmap in Hk as (e & -> & He).
        destruct (decide (Txt e ∈ ks)) as [Hin|Hno]; [left; exact Hin|].
        right. apply list_elem_of_fmap. exists e. split; [reflexivity|].
        unfold faltan. apply list_elem_of_filter. auto.
  - intros e He Habs. apply elem_of_app. right.
    apply list_elem_of_fmap. exists e. split; [reflexivity|].
    unfold faltan. apply list_elem_of_filter. split; [|exact He].
    intros Hin. destruct (Hfrom _ Hin) as (r' & Hr' & Hrk).
    destruct (Hlabel r' Hr') as (m & Hest & _ & r0 & Hr0 & Hm0).
    apply (Habs r0 m Hr0 Hm0). congruence.
  - assert (Hnd_m : NoDup (fst <$> spec_mensual))
      by (refine (bool_decide_unpack _ _); vm_compute; exact I).
    assert (Hnd_e : NoDup (fst <$> spec_estacion))
      by (refine (bool_decide_unpack _ _); vm_compute; exact I).
    destruct (groupby_agg_suma "mes" spec_mensual df g "produccion_litros" Hnd_m)
      as (Hg_cells & Hdf_num & Hsum_m); [apply list_elem_of_here|discriminate|exact Hg|].
    destruct (groupby_agg_suma "estacion" spec_estacion dm ge "produccion_litros" Hnd_e)
      as (Hge_cells & Hdm_num & Hsum_e); [apply list_elem_of_here|discriminate|exact Hge|].
    exists (suma (map (valor "produccion_litros") (ge ++ map nueva_fila faltan))),
      (suma (map (valor "produccion_litros") df)).
    split; [|split].
    + unfold suma_columna. rewrite mapR_num_valor; [reflexivity|].
      intros r Hr. apply elem_of_app in Hr as [Hr|Hr].
      * destruct (Hge_cells r Hr) as [q Hq]. exists q. unfold num. rewrite Hq. reflexivity.
      * apply list_elem_of_fmap in Hr as (e & -> & _). exists 0.0.
        unfold num. rewrite nueva_fila_produccion. reflexivity.
    + unfold suma_columna. rewrite mapR_num_valor by exact Hdf_num. reflexivity.
    + rewrite map_app, suma_app, suma_ceros, Hsum_e.
      rewrite (map_ext_lookup (valor "produccion_litros") dm g Hlen).
      * rewrite Hsum_m. lra.
      * intros i r' Hi. destruct (Hrows i r' Hi) as (r & m & Hr & _ & _ & Hsame).
        exists r. split; [exact Hr|]. apply valor_lookup. apply Hsame; discriminate.
Qed.

(** ** The aggregation returns *)

Lemma groupby_agg_total clave spec (df : DataFrame) :
  (forall r, r ∈ df -> exists k, r !! clave = Some k) ->
  (forall r c f, r ∈ df -> (c, f) ∈ spec -> exists q, num r c = Ok q) ->
  exists out, groupby_agg clave spec df = Ok out.
Proof.
  intros Hkey Hnum. unfold groupby_agg.
  destruct (mapR_total (fun r : fila => col r clave) df) as [ks Hks].
  { apply Forall_forall. intros r Hr. destruct (Hkey r Hr) as [k Hk].
    exists k. unfold col. rewrite Hk. reflexivity. }
  rewrite Hks; simpl. apply mapR_total. apply Forall_forall. intros k Hk.
  apply (proj1 (elem_of_claves_ordenadas _ _)) in Hk.
  destruct (mapR_elem_of_inv _ _ _ _ Hks Hk) as (r0 & Hr0 & Hk0).
  assert (Hin0 : r0 ∈ grupo clave k df).
  { unfold grupo. apply list_elem_of_filter. split; [|exact Hr0].
    unfold col in Hk0. destruct (r0 !! clave); congruence. }
  destruct (mapR_total (agregar_columna (grupo clave k df)) spec) as [vals Hvals].
  { apply Forall_forall. intros [c f] Hcf. unfold agregar_columna; simpl.
    rewrite (mapR_num_valor c (grupo clave k df)).
    2:{ intros r Hr. unfold grupo in Hr. apply list_elem_of_filter in Hr as [_ Hr]. eauto. }
    simpl. destruct f; simpl; [eauto|].
    rewrite np_div_nonzero; [simpl; eauto|].
    rewrite length_map. destruct (grupo clave k df) as [|x g]; [inversion Hin0|].
    simpl length. intros E. unfold Qeq in E. simpl in E. lia. }
  rewrite Hvals; simpl. eauto.
Qed.

Lemma py_index_meses m :
  (1 <= m <= 12)%Z -> exists nombre, py_index nombres_meses (m - 1) = Ok nombre.
Proof.
  intros Hm.
  assert (Hcases : (m = 1 \/ m = 2 \/ m = 3 \/ m = 4 \/ m = 5 \/ m = 6 \/ m = 7
                    \/ m = 8 \/ m = 9 \/ m = 10 \/ m = 11 \/ m = 12)%Z) by lia.
  repeat destruct Hcases as [->|Hcases]; try subst m; vm_compute; eauto.
Qed.

Lemma marcar_estacion_total meses nombre (r : fila) m e :
  r !! "mes" = Some (Ent m) ->
  r !! "estacion" = Some (Txt e) ->
  asignar_fila (marcar_estacion meses nombre) r
  = Ok (<["estacion" := Txt (if existsb (Z.eqb m) meses then nombre else e)]> r).
Proof.
  intros Hm He. unfold asignar_fila, marcar_estacion; simpl.
  unfold col. rewrite Hm; simpl. rewrite He.
  destruct (existsb (Z.eqb m) meses); reflexivity.
Qed.

Lemma fila_mensual_total (r : fila) m :
  r !! "mes" = Some (Ent m) -> (1 <= m <= 12)%Z ->
  exists r1 r',
    aplicar_fila
      [("nombre_mes", fun r =>
          x ← entero r "mes"; nombre ← py_index nombres_meses (x - 1); Ok (Txt nombre))]
      r = Ok r1
    /\ aplicar_fila pasos_estacion r1 = Ok r'.
Proof.
  intros Hm Hrange. destruct (py_index_meses m Hrange) as [nombre Hn].
  exists (<["nombre_mes" := Txt nombre]> r). eexists. split.
  - simpl. unfold asignar_fila; simpl. unfold entero. rewrite Hm; simpl.
    rewrite Hn. reflexivity.
  - set (r0 := <["nombre_mes" := Txt nombre]> r).
    assert (Hm0 : r0 !! "mes" = Some (Ent m)).
    { unfold r0. rewrite lookup_insert_ne by discriminate. exact Hm. }
    unfold pasos_estacion. rewrite aplicar_fila_cons.
    unfold asignar_fila at 1; simpl snd; simpl fst. rewrite !bind_Ok.
    rewrite aplicar_fila_cons.
    erewrite marcar_estacion_total;
      [|rewrite lookup_insert_ne by discriminate; exact Hm0|apply lookup_insert_eq].
    rewrite bind_Ok, aplicar_fila_cons.
    erewrite marcar_estacion_total;
      [|rewrite !lookup_insert_ne by discriminate; exact Hm0|apply lookup_insert_eq].
    rewrite bind_Ok, aplicar_fila_cons.
    erewrite marcar_estacion_total;
      [|rewrite !lookup_insert_ne by discriminate; exact Hm0|apply lookup_insert_eq].
    rewrite bind_Ok, aplicar_fila_cons.
    erewrite marcar_estacion_total;
      [|rewrite !lookup_insert_ne by discriminate; exact Hm0|apply lookup_insert_eq].
    rewrite bind_Ok. reflexivity.
Qed.

(** A record of the daily result table, as far as the aggregation reads it:
    a month in 1..12 and a number under each aggregated column. *)
Definition fila_diaria (r : fila) : Prop :=
  (exists m, r !! "mes" = Some (Ent m) /\ (1 <= m <= 12)%Z)
  /\ forall c f, (c, f) ∈ spec_mensual -> exists q, r !! c = Some (Num q).

(** The aggregation returns for every daily series whose rows carry a month
    in 1..12 and a number under each aggregated column. *)
Lemma agregacion_estacional_total (df : DataFrame) :
  Forall fila_diaria df ->
  exists dm de, agregacion_estacional df = Ok (dm, de).
Proof.
  intros Hdf. rewrite Forall_forall in Hdf. unfold fila_diaria in Hdf.
  assert (Hnd_m : NoDup (fst <$> spec_mensual))
    by (refine (bool_decide_unpack _ _); vm_compute; exact I).
  destruct (groupby_agg_total "mes" spec_mensual df) as [g Hg].
  { intros r Hr. destruct (Hdf r Hr) as [(m & Hm & _) _]. eauto. }
  { intros r c f Hr Hcf. destruct (Hdf r Hr) as [_ Hcols].
    destruct (Hcols c f Hcf) as [q Hq]. exists q. unfold num. rewrite Hq. reflexivity. }
  destruct (groupby_agg_Ok _ _ _ _ Hg) as (km & _ & Hout & _ & Hgfrom & _).
  assert (Hgrow : forall r, r ∈ g ->
            (exists m, r !! "mes" = Some (Ent m) /\ (1 <= m <= 12)%Z)
            /\ forall c f, (c, f) ∈ spec_mensual -> c <> "mes" ->
                 exists q, r !! c = Some (Num q)).
  { intros r Hr. destruct (mapR_elem_of_inv _ _ _ _ Hout Hr) as (k & Hk & Hrow).
    apply fila_grupo_Ok in Hrow as [Hkey Hcols]. split.
    - destruct (Hgfrom k Hk) as (r0 & Hr0 & Hk0).
      destruct (Hdf r0 Hr0) as [(m & Hm & Hrange) _].
      exists m. split; [congruence|exact Hrange].
    - intros c f Hcf Hne. destruct (Hcols c f Hnd_m Hcf Hne) as (v & _ & Hv & _). eauto. }
  assert (Hdm : exists dm, resumen_mensual df = Ok dm
            /\ forall r', r' ∈ dm ->
                 (exists e, r' !! "estacion" = Some (Txt e))
                 /\ forall c f, (c, f) ∈ spec_estacion -> exists q, r' !! c = Some (Num q)).
  { unfold resumen_mensual. rewrite Hg; simpl.
    destruct (mapR_total (fun r => aplicar_fila
                [("nombre_mes", fun r =>
                    x ← entero r "mes"; nombre ← py_index nombres_meses (x - 1);
                    Ok (Txt nombre))] r ≫= aplicar_fila pasos_estacion) g) as [dm Hdm].
    { apply Forall_forall. intros r Hr.
      destruct (Hgrow r Hr) as [(m & Hm & Hrange) _].
      destruct (fila_mensual_total r m Hm Hrange) as (r1 & r' & H1 & H2).
      exists r'. rewrite H1. exact H2. }
    apply mapR_fuse in Hdm as (g1 & Hg1 & Hdm).
    apply aplicar_mapR in Hg1. apply aplicar_mapR in Hdm.
    exists dm. rewrite Hg1; simpl. split; [exact Hdm|].
    intros r' Hr'. apply list_elem_of_lookup in Hr' as [i Hi].
    destruct (aplicar_lookup _ _ _ _ _ Hdm Hi) as (r1 & Hr1 & Hrow1).
    destruct (aplicar_lookup _ _ _ _ _ Hg1 Hr1) as (r & Hr & Hrow).
    destruct (fila_mensual r r1 r' Hrow Hrow1) as (m & Hm & Hest & Hsame).
    split; [eauto|]. intros c f Hcf.
    assert (Hr_in : r ∈ g) by (apply list_elem_of_lookup; eauto).
    destruct (Hgrow r Hr_in) as [_ Hcols].
    unfold spec_estacion in Hcf.
    repeat (apply elem_of_cons in Hcf as [Hcf|Hcf]; [injection Hcf as -> ->|]);
      try (apply elem_of_nil in Hcf; contradiction);
      (rewrite Hsame by discriminate; eapply Hcols; [|discriminate];
       unfold spec_mensual;
       repeat first [apply list_elem_of_here | apply list_elem_of_further]). }
  destruct Hdm as (dm & Hdm & Hdmrow).
  destruct (groupby_agg_total "estacion" spec_estacion dm) as [ge Hge].
  { intros r Hr. destruct (Hdmrow r Hr) as [(e & He) _]. eauto. }
  { intros r c f Hr Hcf. destruct (Hdmrow r Hr) as [_ Hcols].
    destruct (Hcols c f Hcf) as [q Hq]. exists q. unfold num. rewrite Hq. reflexivity. }
  destruct (groupby_agg_Ok _ _ _ _ Hge) as (ke & _ & Houte & _ & _ & _).
  destruct (mapR_total (fun r : fila => col r "estacion") ge) as [disp Hdisp].
  { apply Forall_forall. intros r Hr.
    destruct (mapR_elem_of_inv _ _ _ _ Houte Hr) as (k & _ & Hrow).
    apply fila_grupo_Ok in Hrow as [Hkey _]. exists k. unfold col. rewrite Hkey. reflexivity. }
  unfold agregacion_estacional, resumen_estacional.
  rewrite Hdm; simpl. rewrite Hge; simpl. rewrite Hdisp; simpl. eauto.
Qed.

(** C6. For every daily result series (each record with a month in 1..12
    and a number under each aggregated column) the seasonal aggregation
    returns; its seasonal summary has exactly the four named seasons, each
    once; a season without any daily record is present as the explicit
    zero-valued row; and the production summed over the seasonal rows equals
    the production summed over the daily records. *)
Theorem agregacion_estacional_conserva :
  forall df : DataFrame,
    Forall fila_diaria df ->
    exists dm de,
      agregacion_estacional df = Ok (dm, de)
      /\ map (fun r : fila => r !! "estacion") de
           ≡ₚ map (fun e => Some (Txt e)) estaciones_base
      /\ length de = 4%nat
      /\ (forall e, e ∈ estaciones_base ->
            (forall (r : fila) m, r ∈ df -> r !! "mes" = Some (Ent m) ->
                                  etiqueta_estacion m <> e) ->
            nueva_fila e ∈ de)
      /\ exists total_estaciones total_dias,
           suma_columna "produccion_litros" de = Ok total_estaciones
           /\ suma_columna "produccion_litros" df = Ok total_dias
           /\ total_estaciones == total_dias.
Proof.
  intros df Hdf.
  destruct (agregacion_estacional_total df Hdf) as (dm & de & E).
  exists dm, de. split; [exact E|].
  assert (Hmes : Forall (fun r : fila =>
                           forall m, r !! "mes" = Some (Ent m) -> (1 <= m <= 12)%Z) df).
  { eapply Forall_impl; [exact Hdf|]. intros r [(m & Hm & Hrange) _] m' Hm'.
    rewrite Hm in Hm'. injection Hm' as <-. exact Hrange. }
  destruct (agregacion_estacional_Ok df dm de Hmes E) as (Hperm & Hfill & Hsum).
  split; [exact Hperm|]. split; [|split; [exact Hfill|exact Hsum]].
  apply Permutation_length in Hperm. rewrite !length_map in Hperm. exact Hperm.
Qed.

(** The two example days, aggregated. *)
Definition resumenes_ejemplo : DataFrame * DataFrame :=
  Eval vm_compute in
    match agregacion_estacional tabla_resultados with
    | Ok p => p
    | _ => ([], [])
    end.

(** The same, as a check that evaluates. *)
Definition es_fila_diaria (r : fila) : bool :=
  match r !! "mes" with
  | Some (Ent m) => (1 <=? m)%Z && (m <=? 12)%Z
  | _ => false
  end
  && forallb (fun cf : string * agg =>
                match r !! fst cf with Some (Num _) => true | _ => false end)
             spec_mensual.

Lemma es_fila_diaria_true (r : fila) : es_fila_diaria r = true -> fila_diaria r.
Proof.
  unfold es_fila_diaria. intros E. apply andb_true_iff in E as [Em Ec]. split.
  - destruct (r !! "mes") as [[| m | |]|]; try discriminate.
    exists m. split; [reflexivity|]. lia.
  - intros c f Hcf. rewrite forallb_forall in Ec.
    apply list_elem_of_In in Hcf. specialize (Ec _ Hcf). simpl in Ec.
    destruct (r !! c) as [[q| | |]|]; try discriminate. eauto.
Qed.

Lemma tabla_resultados_diaria : Forall fila_diaria tabla_resultados.
Proof.
  apply Forall_forall. intros r Hr. apply es_fila_diaria_true.
  apply list_elem_of_In in Hr. revert r Hr. apply forallb_forall.
  vm_compute. reflexivity.
Qed.

Lemma agregacion_estacional_conserva_witness :
  exists dm de,
    agregacion_estacional tabla_resultados = Ok (dm, de)
    /\ map (fun r : fila => r !! "estacion") de
         ≡ₚ map (fun e => Some (Txt e)) estaciones_base
    /\ length de = 4%nat
    /\ (forall e, e ∈ estaciones_base ->
          (forall (r : fila) m, r ∈ tabla_resultados -> r !! "mes" = Some (Ent m) ->
                                etiqueta_estacion m <> e) ->
          nueva_fila e ∈ de)
    /\ exists total_estaciones total_dias,
         suma_columna "produccion_litros" de = Ok total_estaciones
         /\ suma_columna "produccion_litros" tabla_resultados = Ok total_dias
         /\ total_estaciones == total_dias.
Proof.
  apply (agregacion_estacional_conserva tabla_resultados).
  exact tabla_resultados_diaria.
Defined.

(** On the example the two days fall in winter and summer: spring and autumn
    are the backfilled rows. *)
Lemma agregacion_ejemplo :
  agregacion_estacional tabla_resultados = Ok resumenes_ejemplo
  /\ map (fun r : fila => r !! "estacion") (snd resumenes_ejemplo)
     = [Some (Txt "Invierno"); Some (Txt "Verano");
        Some (Txt "Primavera"); Some (Txt "Otoño")].
Proof. split; decidir. Qed.

(** ** Correlation between irradiance and production

    [Series.corr] is pandas' Pearson correlation, computed by numpy's
    [corrcoef]: the covariance matrix of the two series, divided by the two
    standard deviations and clipped to [-1, 1].  The square root leaves the
    rationals, so this part idealises the floats as real numbers; a division
    by zero yields [inf] or [NaN] and is marked non finite, as elsewhere.
    Over the reals every constant series has a zero standard deviation.  In
    double precision that is certain only when the deviations from the mean
    are exactly zero, as for a series of zeros or of fewer than two values;
    the mean of another constant series may be rounded, and the quotient is
    then a number.  The theorem on the correlation states what both
    computations share. *)

Definition sumaR (xs : list R) : R := fold_right Rplus 0%R xs.

Definition np_true_divide (a b : R) : resultado R :=
  if Req_dec_T b 0 then NonFinite else Ok (a / b)%R.

Definition np_sqrt (x : R) : resultado R :=
  if Rlt_dec x 0 then NonFinite else Ok (sqrt x).

Definition np_dot (xs ys : list R) : R := sumaR (zip_with Rmult xs ys).

Definition np_average (xs : list R) : resultado R :=
  np_true_divide (sumaR xs) (INR (length xs)).

Definition np_clip_R (x lo hi : R) : R := Rmin (Rmax x lo) hi.

(** [np.cov(x, y)]: the entries [c[0,0]], [c[0,1]] and [c[1,1]] of the
    matrix; [ddof] is 1 and a non-positive [fact] is replaced by 0. *)
Definition np_cov (xs ys : list R) : resultado (R * R * R) :=
  avg_x ← np_average xs;
  avg_y ← np_average ys;
  let X := map (fun x => (x - avg_x)%R) xs in
  let Y := map (fun y => (y - avg_y)%R) ys in
  let fact := (INR (length xs) - 1)%R in
  let fact := if Rle_dec fact 0 then 0%R else fact in
  inv ← np_true_divide 1 fact;
  Ok ((np_dot X X * inv)%R, (np_dot X Y * inv)%R, (np_dot Y Y * inv)%R).

(** [np.corrcoef(x, y)[0, 1]] *)
Definition np_corrcoef (xs ys : list R) : resultado R :=
  c ← np_cov xs ys;
  let '(c00, c01, c11) := c in
  stddev_0 ← np_sqrt c00;
  stddev_1 ← np_sqrt c11;
  c01 ← np_true_divide c01 stddev_0;
  c01 ← np_true_divide c01 stddev_1;
  Ok (np_clip_R c01 (-1) 1).

(** [a.corr(b)] on two columns of one table: the inner join on the index
    keeps every row, and the result on no row at all is [NaN]. *)
Definition Series_corr (a b : list Q) : resultado R :=
  if (length a =? 0)%nat then NonFinite
  else np_corrcoef (map Q2R a) (map Q2R b).

(** [df[c1].corr(df[c2])] *)
Definition corr_columnas (df : DataFrame) (c1 c2 : string) : resultado R :=
  a ← mapR (fun r => num r c1) df;
  b ← mapR (fun r => num r c2) df;
  Series_corr a b.

(** [corr_rad_prod] of [mostrar_estadisticas] and [correlacion_rad_prod] of
    [actualizar_datos_reporte]: the value is used as [corr] returns it. *)
Definition corr_rad_prod (df_resultados : DataFrame) : resultado R :=
  corr_columnas df_resultados "radiacion_Wm2" "produccion_litros".

(** A series without two distinct values. *)
Definition constante (xs : list Q) : bool :=
  match xs with
  | [] => true
  | x :: l => forallb (Qeq_bool x) l
  end.

Section RealFacts.
Local Open Scope R_scope.

Lemma np_true_divide_zero a : np_true_divide a 0 = NonFinite.
Proof. unfold np_true_divide. destruct (Req_dec_T 0 0); [reflexivity|contradiction]. Qed.

Lemma np_true_divide_nonzero a b : b <> 0 -> np_true_divide a b = Ok (a / b).
Proof. intros Hb. unfold np_true_divide. destruct (Req_dec_T b 0); [contradiction|reflexivity]. Qed.

Lemma np_sqrt_nonneg x : 0 <= x -> np_sqrt x = Ok (sqrt x).
Proof. intros Hx. unfold np_sqrt. destruct (Rlt_dec x 0); [Lra.lra|reflexivity]. Qed.

Lemma np_dot_nil_l ys : np_dot [] ys = 0.
Proof. reflexivity. Qed.

Lemma np_dot_cons x xs y ys : np_dot (x :: xs) (y :: ys) = x * y + np_dot xs ys.
Proof. reflexivity. Qed.

Lemma np_dot_self_nonneg xs : 0 <= np_dot xs xs.
Proof.
  induction xs as [|x xs IH]; [unfold np_dot; simpl; Lra.lra|].
  rewrite np_dot_cons. pose proof (Rle_0_sqr x) as Hx. unfold Rsqr in Hx. Lra.lra.
Qed.

Lemma np_dot_self_zero xs : np_dot xs xs = 0 -> Forall (fun x => x = 0) xs.
Proof.
  induction xs as [|x xs IH]; intros E; [constructor|].
  rewrite np_dot_cons in E.
  pose proof (np_dot_self_nonneg xs) as Hxs.
  pose proof (Rle_0_sqr x) as Hx. unfold Rsqr in Hx.
  constructor.
  - assert (Hsq : x * x = 0) by Lra.lra.
    apply Rmult_integral in Hsq. tauto.
  - apply IH. Lra.lra.
Qed.

Lemma np_dot_zeros_l xs ys : Forall (fun x => x = 0) xs -> np_dot xs ys = 0.
Proof.
  intros Hxs. revert ys. induction Hxs as [|x xs Hx _ IH]; intros ys; [reflexivity|].
  destruct ys as [|y ys]; [reflexivity|]. rewrite np_dot_cons, IH, Hx. Lra.lra.
Qed.

(** One step of the Cauchy-Schwarz inequality. *)
Lemma cauchy_paso A B C a b :
  0 <= A -> 0 <= B -> C * C <= A * B ->
  (C + a * b) * (C + a * b) <= (A + a * a) * (B + b * b).
Proof.
  intros HA HB HC.
  assert (Hform : 0 <= A * (b * b) - 2 * C * (a * b) + B * (a * a)).
  { destruct (Req_dec_T A 0) as [EA|NA].
    - subst A. assert (EC : C = 0).
      { assert (Hsq : C * C = 0).
        { pose proof (Rle_0_sqr C) as H0. unfold Rsqr in H0. Lra.lra. }
        apply Rmult_integral in Hsq. tauto. }
      subst C. pose proof (Rle_0_sqr a) as Ha. unfold Rsqr in Ha.
      assert (0 <= B * (a * a)) by (apply Rmult_le_pos; assumption). Lra.lra.
    - assert (HApos : 0 < A) by Lra.lra.
      assert (Hmul : 0 <= A * (A * (b * b) - 2 * C * (a * b) + B * (a * a))).
      { replace (A * (A * (b * b) - 2 * C * (a * b) + B * (a * a)))
          with ((A * b - C * a) * (A * b - C * a) + (A * B - C * C) * (a * a))
          by ring.
        pose proof (Rle_0_sqr (A * b - C * a)) as H1. unfold Rsqr in H1.
        pose proof (Rle_0_sqr a) as H2. unfold Rsqr in H2.
        assert (0 <= (A * B - C * C) * (a * a))
          by (apply Rmult_le_pos; [Lra.lra|assumption]).
        Lra.lra. }
      apply (Rmult_le_reg_l A); [exact HApos|]. rewrite Rmult_0_r. exact Hmul. }
  replace ((C + a * b) * (C + a * b))
    with (C * C + 2 * C * (a * b) + a * a * (b * b)) by ring.
  replace ((A + a * a) * (B + b * b))
    with (A * B + A * (b * b) + B * (a * a) + a * a * (b * b)) by ring.
  Lra.lra.
Qed.

Lemma cauchy_schwarz xs ys :
  length xs = length ys ->
  np_dot xs ys * np_dot xs ys <= np_dot xs xs * np_dot ys ys.
Proof.
  revert ys. induction xs as [|x xs IH]; intros [|y ys] Hlen; try discriminate.
  - unfold np_dot; simpl. Lra.lra.
  - rewrite !np_dot_cons.
    pose proof (cauchy_paso (np_dot xs xs) (np_dot ys ys) (np_dot xs ys) x y
                  (np_dot_self_nonneg xs) (np_dot_self_nonneg ys)
                  (IH ys ltac:(simpl in Hlen; congruence))) as Hstep.
    replace (x * y + np_dot xs ys) with (np_dot xs ys + x * y) by ring.
    replace (x * x + np_dot xs xs) with (np_dot xs xs + x * x) by ring.
    replace (y * y + np_dot ys ys) with (np_dot ys ys + y * y) by ring.
    exact Hstep.
Qed.

Lemma sumaR_constante c xs :
  Forall (fun x => x = c) xs -> sumaR xs = INR (length xs) * c.
Proof.
  induction 1 as [|x xs Hx _ IH]; [simpl; Lra.lra|].
  change (sumaR (x :: xs)) with (x + sumaR xs).
  change (length (x :: xs)) with (S (length xs)).
  rewrite S_INR, IH, Hx. ring.
Qed.

Lemma np_clip_R_id x : -1 <= x <= 1 -> np_clip_R x (-1) 1 = x.
Proof.
  intros [Hlo Hhi]. unfold np_clip_R.
  rewrite Rmax_left by exact Hlo. rewrite Rmin_left by exact Hhi. reflexivity.
Qed.

End RealFacts.

Section CorrelacionFacts.
Local Open Scope R_scope.

#[local] Arguments np_true_divide : simpl never.
#[local] Arguments np_sqrt : simpl never.
#[local] Arguments np_average : simpl never.
#[local] Arguments np_dot : simpl never.

(** All the values of the series are [c]. *)
Definition todos_iguales (c : R) (xs : list R) : Prop := Forall (fun x => x = c) xs.

Lemma desviaciones_nulas c xs :
  todos_iguales c xs -> Forall (fun x => x = 0) (map (fun x => x - c) xs).
Proof.
  intros Hxs. apply Forall_map. eapply Forall_impl; [exact Hxs|].
  intros x ->. simpl. ring.
Qed.

Lemma desviaciones_no_nulas m xs :
  (forall c, ~ todos_iguales c xs) ->
  0 < np_dot (map (fun x => x - m) xs) (map (fun x => x - m) xs).
Proof.
  intros Hxs.
  destruct (Rle_lt_or_eq_dec _ _ (np_dot_self_nonneg (map (fun x => x - m) xs)))
    as [Hpos|Hzero]; [exact Hpos|].
  exfalso. apply (Hxs m). symmetry in Hzero. apply np_dot_self_zero in Hzero.
  apply Forall_map in Hzero. eapply Forall_impl; [exact Hzero|].
  intros x Hx. simpl in Hx. Lra.lra.
Qed.

Lemma no_constante_length xs : (forall c, ~ todos_iguales c xs) -> (2 <= length xs)%nat.
Proof.
  intros Hxs. destruct xs as [|x [|y xs]]; simpl; try lia; exfalso.
  - apply (Hxs 0). constructor.
  - apply (Hxs x). repeat constructor.
Qed.

Lemma np_average_constante c xs :
  xs <> [] -> todos_iguales c xs -> np_average xs = Ok c.
Proof.
  intros Hne Hxs. unfold np_average.
  assert (Hn : INR (length xs) <> 0).
  { apply not_0_INR. destruct xs; [contradiction|discriminate]. }
  rewrite np_true_divide_nonzero by exact Hn.
  rewrite (sumaR_constante c xs Hxs). f_equal. field. exact Hn.
Qed.

Lemma np_average_Ok xs :
  xs <> [] -> np_average xs = Ok (sumaR xs / INR (length xs)).
Proof.
  intros Hne. unfold np_average. apply np_true_divide_nonzero.
  apply not_0_INR. destruct xs; [contradiction|discriminate].
Qed.

(** The covariance matrix of two series of at least two values. *)
Lemma np_cov_Ok xs ys :
  (2 <= length xs)%nat -> length xs = length ys ->
  exists avg_x avg_y inv,
    np_average xs = Ok avg_x /\ np_average ys = Ok avg_y /\ 0 < inv
    /\ np_cov xs ys
       = Ok (np_dot (map (fun x => x - avg_x) xs) (map (fun x => x - avg_x) xs) * inv,
             np_dot (map (fun x => x - avg_x) xs) (map (fun y => y - avg_y) ys) * inv,
             np_dot (map (fun y => y - avg_y) ys) (map (fun y => y - avg_y) ys) * inv).
Proof.
  intros Hn Hlen.
  assert (Hx : xs <> []) by (destruct xs; [simpl in Hn; lia|discriminate]).
  assert (Hy : ys <> []) by (destruct ys; [simpl in Hlen; lia|discriminate]).
  exists (sumaR xs / INR (length xs)), (sumaR ys / INR (length ys)),
         (1 / (INR (length xs) - 1)).
  assert (Hfact : 0 < INR (length xs) - 1).
  { apply le_INR in Hn. simpl in Hn. Lra.lra. }
  split; [apply np_average_Ok; exact Hx|].
  split; [apply np_average_Ok; exact Hy|].
  split. { apply Rdiv_lt_0_compat; Lra.lra. }
  unfold np_cov. rewrite (np_average_Ok xs Hx), (np_average_Ok ys Hy). simpl.
  destruct (Rle_dec (INR (length xs) - 1) 0) as [Hle|_]; [Lra.lra|].
  rewrite np_true_divide_nonzero by Lra.lra. reflexivity.
Qed.

Lemma np_average_nil : np_average [] = NonFinite.
Proof. unfold np_average. simpl. apply np_true_divide_zero. Qed.

(** With a series of fewer than two values the covariance is [NaN]. *)
Lemma np_cov_corta xs ys :
  (length xs < 2)%nat -> forall c, np_cov xs ys <> Ok c.
Proof.
  intros Hn c. unfold np_cov.
  destruct xs as [|x [|x' xs]]; [| |simpl in Hn; lia].
  - rewrite np_average_nil. discriminate.
  - destruct (np_average [x]) as [ax| |]; simpl; try discriminate.
    destruct (np_average ys) as [ay| |]; simpl; try discriminate.
    destruct (Rle_dec (1 - 1) 0) as [_|Hgt]; [|exfalso; Lra.lra].
    rewrite np_true_divide_zero. discriminate.
Qed.

(** A constant series on either side: the coefficient is [NaN]. *)
Lemma np_corrcoef_constante xs ys :
  length xs = length ys ->
  (exists c, todos_iguales c xs) \/ (exists c, todos_iguales c ys) ->
  np_corrcoef xs ys = NonFinite.
Proof.
  intros Hlen Hconst. unfold np_corrcoef.
  destruct (le_lt_dec 2 (length xs)) as [Hn|Hn].
  - destruct (np_cov_Ok xs ys Hn Hlen) as (ax & ay & inv & Hax & Hay & Hinv & ->).
    simpl.
    set (X := map (fun x => x - ax) xs). set (Y := map (fun y => y - ay) ys).
    assert (H00 : 0 <= np_dot X X * inv)
      by (apply Rmult_le_pos; [apply np_dot_self_nonneg|Lra.lra]).
    assert (H11 : 0 <= np_dot Y Y * inv)
      by (apply Rmult_le_pos; [apply np_dot_self_nonneg|Lra.lra]).
    rewrite (np_sqrt_nonneg _ H00), (np_sqrt_nonneg _ H11). simpl.
    assert (Hx : xs <> []) by (destruct xs; [simpl in Hn; lia|discriminate]).
    assert (Hy : ys <> []) by (destruct ys; [simpl in Hlen, Hn; lia|discriminate]).
    destruct Hconst as [[c Hc]|[c Hc]].
    + rewrite (np_average_constante c xs Hx Hc) in Hax. injection Hax as <-.
      assert (HX : np_dot X X = 0)
        by (apply np_dot_zeros_l, desviaciones_nulas; exact Hc).
      rewrite HX, Rmult_0_l, sqrt_0, np_true_divide_zero. reflexivity.
    + rewrite (np_average_constante c ys Hy Hc) in Hay. injection Hay as <-.
      assert (HY : np_dot Y Y = 0)
        by (apply np_dot_zeros_l, desviaciones_nulas; exact Hc).
      rewrite HY, Rmult_0_l, sqrt_0.
      destruct (Req_dec_T (sqrt (np_dot X X * inv)) 0) as [E0|N0].
      * rewrite E0, np_true_divide_zero. reflexivity.
      * rewrite (np_true_divide_nonzero _ _ N0). simpl.
        rewrite np_true_divide_zero. reflexivity.
  - pose proof (np_cov_corta xs ys Hn) as Hcov.
    destruct (np_cov xs ys) as [c| |] eqn:E; simpl.
    + exfalso. exact (Hcov c eq_refl).
    + exfalso. unfold np_cov in E.
      destruct (np_average xs) as [ax| |] eqn:Eax; simpl in E;
        [|unfold np_average, np_true_divide in Eax;
          destruct (Req_dec_T _ _); discriminate|discriminate].
      destruct (np_average ys) as [ay| |] eqn:Eay; simpl in E;
        [|unfold np_average, np_true_divide in Eay;
          destruct (Req_dec_T _ _); discriminate|discriminate].
      unfold np_true_divide in E. destruct (Req_dec_T _ _); discriminate.
    + reflexivity.
Qed.

(** Two series that both vary: the coefficient is a number between -1 and 1,
    Pearson's, and the final clip leaves it as it is. *)
Lemma np_corrcoef_Ok xs ys :
  length xs = length ys ->
  (forall c, ~ todos_iguales c xs) -> (forall c, ~ todos_iguales c ys) ->
  exists avg_x avg_y r,
    np_average xs = Ok avg_x /\ np_average ys = Ok avg_y
    /\ np_corrcoef xs ys = Ok r /\ -1 <= r <= 1
    /\ let X := map (fun x => x - avg_x) xs in
       let Y := map (fun y => y - avg_y) ys in
       r * (sqrt (np_dot X X) * sqrt (np_dot Y Y)) = np_dot X Y.
Proof.
  intros Hlen Hxs Hys.
  pose proof (no_constante_length xs Hxs) as Hn.
  destruct (np_cov_Ok xs ys Hn Hlen) as (ax & ay & inv & Hax & Hay & Hinv & Hcov).
  exists ax, ay. unfold np_corrcoef. rewrite Hcov. simpl.
  set (X := map (fun x => x - ax) xs). set (Y := map (fun y => y - ay) ys).
  pose proof (desviaciones_no_nulas ax xs Hxs) as HX. fold X in HX.
  pose proof (desviaciones_no_nulas ay ys Hys) as HY. fold Y in HY.
  assert (HXY : np_dot X Y * np_dot X Y <= np_dot X X * np_dot Y Y).
  { apply cauchy_schwarz. unfold X, Y. rewrite !length_map. exact Hlen. }
  assert (H00 : 0 < np_dot X X * inv) by (apply Rmult_lt_0_compat; assumption).
  assert (H11 : 0 < np_dot Y Y * inv) by (apply Rmult_lt_0_compat; assumption).
  rewrite (np_sqrt_nonneg _ (Rlt_le _ _ H00)), (np_sqrt_nonneg _ (Rlt_le _ _ H11)).
  simpl.
  pose proof (sqrt_lt_R0 _ H00) as Hs0. pose proof (sqrt_lt_R0 _ H11) as Hs1.
  rewrite np_true_divide_nonzero by Lra.lra. simpl.
  rewrite np_true_divide_nonzero by Lra.lra. simpl.
  set (s0 := sqrt (np_dot X X * inv)) in *. set (s1 := sqrt (np_dot Y Y * inv)) in *.
  set (c01 := np_dot X Y * inv).
  assert (Hs0sq : s0 * s0 = np_dot X X * inv) by (apply sqrt_sqrt; Lra.lra).
  assert (Hs1sq : s1 * s1 = np_dot Y Y * inv) by (apply sqrt_sqrt; Lra.lra).
  assert (Hs : 0 < s0 * s1) by (apply Rmult_lt_0_compat; assumption).
  assert (Hc01 : c01 * c01 <= (s0 * s1) * (s0 * s1)).
  { replace ((s0 * s1) * (s0 * s1)) with ((s0 * s0) * (s1 * s1)) by ring.
    rewrite Hs0sq, Hs1sq. unfold c01.
    replace (np_dot X Y * inv * (np_dot X Y * inv))
      with (np_dot X Y * np_dot X Y * (inv * inv)) by ring.
    replace (np_dot X X * inv * (np_dot Y Y * inv))
      with (np_dot X X * np_dot Y Y * (inv * inv)) by ring.
    apply Rmult_le_compat_r; [|exact HXY].
    apply Rmult_le_pos; Lra.lra. }
  assert (Habs : - (s0 * s1) <= c01 <= s0 * s1).
  { split.
    - destruct (Rle_dec (- (s0 * s1)) c01) as [H|H]; [exact H|]. exfalso.
      apply Rnot_le_lt in H.
      assert ((s0 * s1) * (s0 * s1) < c01 * c01).
      { replace (c01 * c01) with ((- c01) * (- c01)) by ring.
        apply Rmult_le_0_lt_compat; Lra.lra. }
      Lra.lra.
    - destruct (Rle_dec c01 (s0 * s1)) as [H|H]; [exact H|]. exfalso.
      apply Rnot_le_lt in H.
      assert ((s0 * s1) * (s0 * s1) < c01 * c01)
        by (apply Rmult_le_0_lt_compat; Lra.lra).
      Lra.lra. }
  assert (Hr : c01 / s0 / s1 = c01 / (s0 * s1)) by (field; split; Lra.lra).
  assert (Hbound : -1 <= c01 / s0 / s1 <= 1).
  { rewrite Hr. split.
    - apply (Rmult_le_reg_r (s0 * s1)); [exact Hs|].
      replace (c01 / (s0 * s1) * (s0 * s1)) with c01 by (field; Lra.lra). Lra.lra.
    - apply (Rmult_le_reg_r (s0 * s1)); [exact Hs|].
      replace (c01 / (s0 * s1) * (s0 * s1)) with c01 by (field; Lra.lra). Lra.lra. }
  exists (c01 / s0 / s1).
  split; [exact Hax|]. split; [exact Hay|].
  split; [rewrite np_clip_R_id by exact Hbound; reflexivity|].
  split; [exact Hbound|]. cbv zeta.
  assert (Hsi : 0 < sqrt inv) by (apply sqrt_lt_R0; exact Hinv).
  unfold s0, s1, c01. rewrite !sqrt_mult by Lra.lra.
  rewrite <- (sqrt_sqrt inv) at 1 by Lra.lra.
  pose proof (sqrt_lt_R0 _ HX) as HsX. pose proof (sqrt_lt_R0 _ HY) as HsY.
  field. repeat split; Lra.lra.
Qed.

End CorrelacionFacts.

Lemma constante_true (xs : list Q) :
  constante xs = true -> exists c, todos_iguales c (map Q2R xs).
Proof.
  destruct xs as [|x l]; [exists 0%R; constructor|].
  simpl. intros E. exists (Q2R x). constructor; [reflexivity|].
  apply Forall_map, Forall_forall. intros y Hy. simpl.
  rewrite forallb_forall in E. apply list_elem_of_In in Hy.
  specialize (E y Hy). apply Qeq_bool_iff in E. symmetry. apply Qeq_eqR. exact E.
Qed.

Lemma constante_false (xs : list Q) :
  constante xs = false -> forall c, ~ todos_iguales c (map Q2R xs).
Proof.
  destruct xs as [|x l]; [discriminate|]. simpl. intros E c Hc.
  apply Forall_cons in Hc as [Hx Hl].
  assert (Hall : forallb (Qeq_bool x) l = true).
  { apply forallb_forall. intros y Hy. apply Qeq_bool_iff, eqR_Qeq.
    apply Forall_map in Hl. rewrite Forall_forall in Hl.
    apply list_elem_of_In in Hy. specialize (Hl y Hy). simpl in Hl. congruence. }
  congruence.
Qed.

Lemma corr_columnas_Ok (df : DataFrame) c1 c2 a b :
  mapR (fun r => num r c1) df = Ok a ->
  mapR (fun r => num r c2) df = Ok b ->
  corr_columnas df c1 c2 = Series_corr a b /\ length a = length b.
Proof.
  intros Ha Hb. unfold corr_columnas. rewrite Ha, Hb. split; [reflexivity|].
  apply mapR_length in Ha, Hb. congruence.
Qed.

(** A constant column on either side: over the reals, [corr] returns
    [NaN]. *)
Lemma Series_corr_constante (a b : list Q) :
  length a = length b ->
  constante a = true \/ constante b = true ->
  Series_corr a b = NonFinite.
Proof.
  intros Hlen Hconst. unfold Series_corr.
  destruct (length a =? 0)%nat; [reflexivity|].
  apply np_corrcoef_constante.
  - rewrite !length_map. exact Hlen.
  - destruct Hconst as [H|H]; [left|right]; apply constante_true; exact H.
Qed.

(** Two columns that both vary: [corr] returns a number between -1 and 1. *)
Lemma Series_corr_acotada (a b : list Q) :
  length a = length b ->
  constante a = false -> constante b = false ->
  exists r, Series_corr a b = Ok r /\ (-1 <= r <= 1)%R.
Proof.
  intros Hlen Ha Hb. unfold Series_corr.
  destruct a as [|x a]; [discriminate|]. simpl Nat.eqb. cbv iota.
  destruct (np_corrcoef_Ok (map Q2R (x :: a)) (map Q2R b))
    as (_ & _ & r & _ & _ & Hr & Hbound & _).
  - rewrite !length_map. exact Hlen.
  - apply constante_false. exact Ha.
  - apply constante_false. exact Hb.
  - exists r. split; [exact Hr|exact Hbound].
Qed.

Lemma ceros_constante (xs : list Q) : Forall (fun x => x == 0) xs -> constante xs = true.
Proof.
  intros Hxs. destruct xs as [|x l]; [reflexivity|]. simpl.
  apply Forall_cons in Hxs as [Hx Hl]. apply forallb_forall. intros y Hy.
  apply Qeq_bool_iff. rewrite Forall_forall in Hl.
  apply list_elem_of_In in Hy. rewrite Hx, (Hl y Hy). reflexivity.
Qed.

Lemma corta_constante (xs : list Q) : (length xs < 2)%nat -> constante xs = true.
Proof.
  destruct xs as [|x [|y l]]; simpl; intros Hlen; [reflexivity|reflexivity|lia].
Qed.


(** Two clear, warm days: the water is heated past the configured boiling
    temperature, the heating energy exceeds the useful energy, and nothing
    is produced on either day. *)
Definition dias_sin_produccion : DataFrame :=
  [ dia_clima (mk_datetime 2024 6 16) 900 25 40 1267.2 1.5;
    dia_clima (mk_datetime 2024 6 17) 950 30 35 1485.5 1 ].

Definition simular_dias (dias : DataFrame) : @Prog numpy_ejemplo loc :=
  df_clima <- nuevo dias ;;
  df_temp <- calcular_temperatura_sistema params_ejemplo df_clima ;;
  df_perdidas <- calcular_perdidas_termicas params_ejemplo df_temp ;;
  calcular_masa_evaporada params_ejemplo df_perdidas.

Definition tabla_sin_produccion : DataFrame :=
  Eval vm_compute in
    match simular_dias dias_sin_produccion (mk_estado (seed 42) ∅) with
    | (Ok l, s) => default [] (heap s !! l)
    | _ => []
    end.

Lemma tabla_sin_produccion_ejemplo :
  (let '(r, s) := simular_dias dias_sin_produccion (mk_estado (seed 42) ∅) in
   l ← r; Ok (heap s !! l)) = Ok (Some tabla_sin_produccion)
  /\ mapR (fun r : fila => num r "radiacion_Wm2") tabla_sin_produccion = Ok [900; 950]
  /\ mapR (fun r : fila => num r "produccion_litros") tabla_sin_produccion = Ok [0; 0].
Proof. split; [decidir|]. split; decidir. Qed.


(** The two series of the example table. *)
Definition radiacion_ejemplo : list Q :=
  Eval vm_compute in
    match mapR (fun r : fila => num r "radiacion_Wm2") tabla_resultados with
    | Ok l => l
    | _ => []
    end.

Definition produccion_ejemplo : list Q :=
  Eval vm_compute in
    match mapR (fun r : fila => num r "produccion_litros") tabla_resultados with
    | Ok l => l
    | _ => []
    end.

Lemma tabla_resultados_series :
  mapR (fun r : fila => num r "radiacion_Wm2") tabla_resultados = Ok radiacion_ejemplo
  /\ mapR (fun r : fila => num r "produccion_litros") tabla_resultados
     = Ok produccion_ejemplo.
Proof. split; decidir. Qed.


(** * Further properties of the simulator *)

(** ** Thermal resistances *)

Lemma cociente_no_nulo a b : ~ a == 0 -> ~ b == 0 -> ~ a / b == 0.
Proof.
  intros Ha Hb E. apply Ha.
  assert (E' : a == a / b * b) by (field; exact Hb).
  rewrite E', E. ring.
Qed.

(** The quantities [calcular_resistencias_totales] divides by, in the order
    of the divisions. *)
Definition divisores_resistencias (self : ParametrosDesalinizador) : list Q :=
  let R_paredes := R_conduccion self + R_aislamiento self in
  let R_vidrio := 0.01 / (1.0 * area_tapa self) in
  [ 1.0 * area_tapa self;
    h_conveccion_natural self * area_total self;
    R_paredes;
    1 / R_paredes + 1 / R_vidrio ].

Lemma calcular_resistencias_totales_Ok (self : ParametrosDesalinizador) :
  Forall (fun d => ~ d == 0) (divisores_resistencias self) ->
  calcular_resistencias_totales self
  = Ok {| R_paredes := R_conduccion self + R_aislamiento self;
          R_vidrio := 0.01 / (1.0 * area_tapa self);
          R_conv_ext := 1 / (h_conveccion_natural self * area_total self);
          R_total := 1 / (1 / (R_conduccion self + R_aislamiento self)
                          + 1 / (0.01 / (1.0 * area_tapa self)))
                     + 1 / (h_conveccion_natural self * area_total self) |}.
Proof.
  unfold divisores_resistencias. cbv zeta. intros Hall.
  repeat rewrite Forall_cons in Hall. destruct Hall as (H1 & H2 & H3 & H4 & _).
  unfold calcular_resistencias_totales. cbv zeta.
  rewrite (py_div_nonzero _ _ H1), bind_Ok.
  rewrite (py_div_nonzero _ _ H2), bind_Ok.
  rewrite (py_div_nonzero _ _ H3), bind_Ok.
  assert (Hv : ~ 0.01 / (1.0 * area_tapa self) == 0).
  { apply cociente_no_nulo; [intros E; discriminate E|exact H1]. }
  rewrite (py_div_nonzero _ _ Hv), bind_Ok.
  rewrite (py_div_nonzero _ _ H4), bind_Ok. reflexivity.
Qed.

Lemma calcular_resistencias_totales_casos (self : ParametrosDesalinizador) :
  Forall (fun d => ~ d == 0) (divisores_resistencias self)
  \/ calcular_resistencias_totales self = Raise ZeroDivisionError.
Proof.
  unfold divisores_resistencias, calcular_resistencias_totales. cbv zeta.
  destruct (Qeq_dec (1.0 * area_tapa self) 0) as [Z1|N1];
    [right; rewrite (py_div_zero _ _ Z1); reflexivity|].
  rewrite (py_div_nonzero _ _ N1), bind_Ok.
  destruct (Qeq_dec (h_conveccion_natural self * area_total self) 0) as [Z2|N2];
    [right; rewrite (py_div_zero _ _ Z2); reflexivity|].
  rewrite (py_div_nonzero _ _ N2), bind_Ok.
  destruct (Qeq_dec (R_conduccion self + R_aislamiento self) 0) as [Z3|N3];
    [right; rewrite (py_div_zero _ _ Z3); reflexivity|].
  rewrite (py_div_nonzero _ _ N3), bind_Ok.
  assert (Hv : ~ 0.01 / (1.0 * area_tapa self) == 0).
  { apply cociente_no_nulo; [intros E; discriminate E|exact N1]. }
  rewrite (py_div_nonzero _ _ Hv), bind_Ok.
  destruct (Qeq_dec (1 / (R_conduccion self + R_aislamiento self)
                     + 1 / (0.01 / (1.0 * area_tapa self))) 0) as [Z4|N4];
    [right; rewrite (py_div_zero _ _ Z4); reflexivity|].
  left. repeat constructor; assumption.
Qed.

(** [calcular_resistencias_totales] fails only with [ZeroDivisionError], and
    it does so when the lid area, the product of the convection coefficient
    and the total area, or the resistance of the walls is zero.  When it
    returns, the four resistances are those of its formulas. *)
Theorem resistencias_division_por_cero :
  forall self : ParametrosDesalinizador,
    (area_tapa self == 0
     \/ h_conveccion_natural self * area_total self == 0
     \/ R_conduccion self + R_aislamiento self == 0 ->
       calcular_resistencias_totales self = Raise ZeroDivisionError)
    /\ (forall e, calcular_resistencias_totales self = Raise e -> e = ZeroDivisionError)
    /\ (forall res, calcular_resistencias_totales self = Ok res ->
          R_paredes res = R_conduccion self + R_aislamiento self
          /\ R_vidrio res = 0.01 / (1.0 * area_tapa self)
          /\ R_conv_ext res = 1 / (h_conveccion_natural self * area_total self)
          /\ R_total res = 1 / (1 / R_paredes res + 1 / R_vidrio res) + R_conv_ext res).
Proof.
  intros self.
  pose proof (calcular_resistencias_totales_casos self) as Hcases.
  split; [|split].
  - intros Hex. destruct Hcases as [Hall|Hr]; [|exact Hr]. exfalso.
    unfold divisores_resistencias in Hall. cbv zeta in Hall.
    repeat rewrite Forall_cons in Hall. destruct Hall as (H1 & H2 & H3 & _).
    destruct Hex as [Hz|[Hz|Hz]].
    + apply H1. rewrite Hz. ring.
    + exact (H2 Hz).
    + exact (H3 Hz).
  - intros e. destruct Hcases as [Hall|Hr];
      [rewrite (calcular_resistencias_totales_Ok self Hall)|rewrite Hr];
      intros E; [discriminate|]. injection E as <-. reflexivity.
  - intros res. destruct Hcases as [Hall|Hr];
      [rewrite (calcular_resistencias_totales_Ok self Hall)|rewrite Hr];
      intros E; [|discriminate]. injection E as <-.
    cbn [R_paredes R_vidrio R_conv_ext R_total]. repeat split; reflexivity.
Qed.

(** Two positive resistances in parallel. *)
Lemma paralelo_cotas (Rp Rv : Q) :
  0 < Rp -> 0 < Rv ->
  0 < 1 / (1 / Rp + 1 / Rv)
  /\ 1 / (1 / Rp + 1 / Rv) < Rp
  /\ 1 / (1 / Rp + 1 / Rv) < Rv
  /\ 1 / (1 / Rp + 1 / Rv) * (Rp + Rv) == Rp * Rv.
Proof.
  intros Hp Hv.
  assert (Hpar : 1 / (1 / Rp + 1 / Rv) == Rp * Rv / (Rp + Rv)).
  { field. repeat split; lra. }
  assert (Hsum : 0 < Rp + Rv) by lra.
  assert (Hprod : 0 < Rp * Rv) by nra.
  rewrite Hpar. split; [apply Qlt_shift_div_l; [exact Hsum|lra]|].
  split; [apply Qlt_shift_div_r; [exact Hsum|nra]|].
  split; [apply Qlt_shift_div_r; [exact Hsum|nra]|].
  field. lra.
Qed.

Lemma divisores_resistencias_positivos (self : ParametrosDesalinizador) :
  0 < area_tapa self -> 0 < area_total self -> 0 < h_conveccion_natural self ->
  0 < R_conduccion self + R_aislamiento self ->
  0 < 0.01 / (1.0 * area_tapa self)
  /\ 0 < 1 / (h_conveccion_natural self * area_total self)
  /\ Forall (fun d => ~ d == 0) (divisores_resistencias self).
Proof.
  intros Htapa Htotal Hh Hp.
  assert (Hd1 : 0 < 1.0 * area_tapa self) by lra.
  assert (Hd2 : 0 < h_conveccion_natural self * area_total self) by nra.
  assert (HRv : 0 < 0.01 / (1.0 * area_tapa self)).
  { apply Qlt_shift_div_l; [exact Hd1|lra]. }
  assert (HRc : 0 < 1 / (h_conveccion_natural self * area_total self)).
  { apply Qlt_shift_div_l; [exact Hd2|lra]. }
  split; [exact HRv|]. split; [exact HRc|].
  assert (Hip : 0 < 1 / (R_conduccion self + R_aislamiento self))
    by (apply Qlt_shift_div_l; [exact Hp|lra]).
  assert (Hiv : 0 < 1 / (0.01 / (1.0 * area_tapa self)))
    by (apply Qlt_shift_div_l; [exact HRv|lra]).
  unfold divisores_resistencias. cbv zeta. repeat constructor; lra.
Qed.

(** What the simulation needs of the resistances. *)
Lemma calcular_resistencias_totales_positivas :
  forall self : ParametrosDesalinizador,
    0 < area_tapa self -> 0 < area_total self -> 0 < h_conveccion_natural self ->
    0 < R_conduccion self + R_aislamiento self ->
    exists res,
      calcular_resistencias_totales self = Ok res
      /\ 0 < R_conv_ext res /\ R_conv_ext res < R_total res.
Proof.
  intros self Htapa Htotal Hh Hp.
  destruct (divisores_resistencias_positivos self Htapa Htotal Hh Hp) as (HRv & HRc & Hdiv).
  destruct (paralelo_cotas _ _ Hp HRv) as (Hq & _).
  eexists. split; [apply calcular_resistencias_totales_Ok; exact Hdiv|].
  cbn [R_conv_ext R_total]. split; [exact HRc|]. lra.
Qed.

(** ** Column assignments: what they leave alone *)

Lemma asignar_fila_otras p (r r' : fila) c :
  asignar_fila p r = Ok r' -> c <> fst p -> r' !! c = r !! c.
Proof.
  unfold asignar_fila. intros E Hne. apply bind_Ok_inv in E as (v & _ & E).
  injection E as <-. apply lookup_insert_ne. congruence.
Qed.

(** A sequence of assignments changes no column that it does not assign. *)
Lemma aplicar_fila_otras ps : forall (r r' : fila) c,
  aplicar_fila ps r = Ok r' -> c ∉ (fst <$> ps) -> r' !! c = r !! c.
Proof.
  induction ps as [|p ps IH]; simpl; intros r r' c E Hc.
  - injection E as <-. reflexivity.
  - apply bind_Ok_inv in E as (r1 & E1 & E).
    rewrite (IH r1 r' c E), (asignar_fila_otras p r r1 c E1); [reflexivity|..].
    + intros ->. apply Hc. apply list_elem_of_here.
    + intros Hin. apply Hc. apply list_elem_of_further. exact Hin.
Qed.

Lemma num_lookup_eq (r r' : fila) c : r' !! c = r !! c -> num r' c = num r c.
Proof. intros E. unfold num. rewrite E. reflexivity. Qed.

(** Forward evaluation on a row, from the values of the cells it reads. *)
Ltac avanza_num :=
  repeat first
    [ rewrite bind_Ok; cbv beta
    | rewrite num_insert_eq
    | rewrite col_insert_eq
    | rewrite num_insert_ne by discriminate
    | match goal with
      | Hc : num ?r ?c = Ok _ |- context [num ?r ?c] => rewrite Hc
      end
    | match goal with
      | Hy : ~ ?y == 0 |- context [np_div ?x ?y] =>
          rewrite (np_div_nonzero x y Hy)
      end ].

(** ** The temperatures of the system *)

Definition columnas_temperatura : list string :=
  ["temp_vidrio_K"; "temp_agua_K"; "temp_base_K";
   "temp_agua_C"; "temp_vidrio_C"; "temp_base_C"].

(** The temperatures of one day. *)
Definition dia_temp_agua (amb rad : Q) : Q := amb + 0.08 * rad.
Definition dia_temp_vidrio (amb rad : Q) : Q := amb + 0.3 * (dia_temp_agua amb rad - amb).
Definition dia_temp_base (amb rad : Q) : Q := dia_temp_agua amb rad + 2.

Lemma fila_temperatura_Ok (r : fila) amb rad :
  num r "temp_ambiente_K" = Ok amb -> num r "radiacion_Wm2" = Ok rad ->
  exists r',
    aplicar_fila pasos_temperatura r = Ok r'
    /\ r' !! "temp_agua_K" = Some (Num (dia_temp_agua amb rad))
    /\ r' !! "temp_vidrio_K" = Some (Num (dia_temp_vidrio amb rad))
    /\ r' !! "temp_base_K" = Some (Num (dia_temp_base amb rad))
    /\ r' !! "temp_agua_C" = Some (Num (dia_temp_agua amb rad - 273.15))
    /\ r' !! "temp_vidrio_C" = Some (Num (dia_temp_vidrio amb rad - 273.15))
    /\ r' !! "temp_base_C" = Some (Num (dia_temp_base amb rad - 273.15)).
Proof.
  intros Hamb Hrad.
  unfold pasos_temperatura, aplicar_fila, asignar_fila. cbn [fst snd].
  avanza_num. eexists. split; [reflexivity|].
  unfold dia_temp_base, dia_temp_vidrio, dia_temp_agua. busca. auto 10.
Qed.

Lemma fila_temperatura (r r' : fila) :
  aplicar_fila pasos_temperatura r = Ok r' ->
  exists amb rad,
    num r "temp_ambiente_K" = Ok amb /\ num r "radiacion_Wm2" = Ok rad
    /\ r' !! "temp_agua_K" = Some (Num (dia_temp_agua amb rad))
    /\ r' !! "temp_vidrio_K" = Some (Num (dia_temp_vidrio amb rad))
    /\ r' !! "temp_base_K" = Some (Num (dia_temp_base amb rad))
    /\ r' !! "temp_agua_C" = Some (Num (dia_temp_agua amb rad - 273.15))
    /\ r' !! "temp_vidrio_C" = Some (Num (dia_temp_vidrio amb rad - 273.15))
    /\ r' !! "temp_base_C" = Some (Num (dia_temp_base amb rad - 273.15))
    /\ forall c, c ∉ columnas_temperatura -> r' !! c = r !! c.
Proof.
  intros E.
  assert (Hnums : exists amb rad,
            num r "temp_ambiente_K" = Ok amb /\ num r "radiacion_Wm2" = Ok rad).
  { pose proof E as E0. unfold pasos_temperatura in E0. traza. eauto. }
  destruct Hnums as (amb & rad & Hamb & Hrad). exists amb, rad.
  destruct (fila_temperatura_Ok r amb rad Hamb Hrad) as (r'' & E' & Hcells).
  rewrite E' in E. injection E as <-.
  split; [exact Hamb|]. split; [exact Hrad|].
  destruct Hcells as (H1 & H2 & H3 & H4 & H5 & H6).
  repeat (split; [assumption|]).
  intros c Hc. apply (aplicar_fila_otras pasos_temperatura r r'' c E').
  intros Hin. apply Hc. unfold columnas_temperatura.
  simpl in Hin. repeat (apply elem_of_cons in Hin as [->|Hin]);
    try (apply elem_of_nil in Hin; contradiction);
    repeat first [apply list_elem_of_here | apply list_elem_of_further].
Qed.

Lemma dia_temperaturas_orden amb rad :
  0 <= rad ->
  amb <= dia_temp_vidrio amb rad
  /\ dia_temp_vidrio amb rad <= dia_temp_agua amb rad
  /\ dia_temp_agua amb rad < dia_temp_base amb rad.
Proof. intros Hr. unfold dia_temp_base, dia_temp_vidrio, dia_temp_agua. lra. Qed.

Section Temperaturas.
Context `{Numpy}.

(** Every row of the table that [calcular_temperatura_sistema] returns has
    the water at the ambient temperature plus 0.08 K per W/m2, the glass
    three tenths of the way from the ambient to the water, and the base 2 K
    above the water; with a non-negative irradiance the four temperatures
    are ordered; the Celsius columns are the Kelvin columns minus 273.15;
    and every column of the climate table is kept. *)
Theorem temperaturas_del_sistema :
  forall (self : ParametrosDesalinizador) (s s' : estado) (l l' : loc) (df : DataFrame),
    heap s !! l = Some df ->
    calcular_temperatura_sistema self l s = (Ok l', s') ->
    exists df',
      heap s' !! l' = Some df' /\ length df' = length df
      /\ forall (i : nat) (r' : fila), df' !! i = Some r' ->
         exists (r : fila) amb rad agua vidrio base,
           df !! i = Some r
           /\ num r "temp_ambiente_K" = Ok amb /\ num r "radiacion_Wm2" = Ok rad
           /\ r' !! "temp_agua_K" = Some (Num agua)
           /\ r' !! "temp_vidrio_K" = Some (Num vidrio)
           /\ r' !! "temp_base_K" = Some (Num base)
           /\ r' !! "temp_agua_C" = Some (Num (agua - 273.15))
           /\ r' !! "temp_vidrio_C" = Some (Num (vidrio - 273.15))
           /\ r' !! "temp_base_C" = Some (Num (base - 273.15))
           /\ agua == amb + 0.08 * rad
           /\ vidrio == amb + 0.3 * (agua - amb)
           /\ base == agua + 2
           /\ (0 <= rad -> amb <= vidrio /\ vidrio <= agua /\ agua < base)
           /\ forall c, c ∉ columnas_temperatura -> r' !! c = r !! c.
Proof.
  intros self s s' l l' df Hl Hrun.
  destruct (calcular_temperatura_sistema_run self s l df Hl) as [d Hrun'].
  rewrite Hrun' in Hrun.
  destruct (aplicar pasos_temperatura df) as [df'| |] eqn:E; try discriminate.
  injection Hrun as <- <-. exists df'.
  split; [simpl; apply lookup_insert_eq|].
  split; [eapply aplicar_length; eauto|].
  intros i r' Hi.
  destruct (aplicar_lookup _ _ _ _ _ E Hi) as (r & Hr & Hrow).
  destruct (fila_temperatura r r' Hrow)
    as (amb & rad & Hamb & Hrad & Ha & Hv & Hb & HaC & HvC & HbC & Hotras).
  exists r, amb, rad, (dia_temp_agua amb rad), (dia_temp_vidrio amb rad),
    (dia_temp_base amb rad).
  repeat (split; [eassumption|]).
  split; [reflexivity|]. split; [reflexivity|]. split; [reflexivity|].
  split; [apply dia_temperaturas_orden|exact Hotras].
Qed.

End Temperaturas.

Lemma temperaturas_del_sistema_witness :
  exists df',
    heap (snd (calcular_temperatura_sistema params_ejemplo 1%positive estado_ejemplo))
      !! 2%positive = Some df'
    /\ length df' = length [dia_frio; dia_claro]
    /\ forall (i : nat) (r' : fila), df' !! i = Some r' ->
       exists (r : fila) amb rad agua vidrio base,
         [dia_frio; dia_claro] !! i = Some r
         /\ num r "temp_ambiente_K" = Ok amb /\ num r "radiacion_Wm2" = Ok rad
         /\ r' !! "temp_agua_K" = Some (Num agua)
         /\ r' !! "temp_vidrio_K" = Some (Num vidrio)
         /\ r' !! "temp_base_K" = Some (Num base)
         /\ r' !! "temp_agua_C" = Some (Num (agua - 273.15))
         /\ r' !! "temp_vidrio_C" = Some (Num (vidrio - 273.15))
         /\ r' !! "temp_base_C" = Some (Num (base - 273.15))
         /\ agua == amb + 0.08 * rad
         /\ vidrio == amb + 0.3 * (agua - amb)
         /\ base == agua + 2
         /\ (0 <= rad -> amb <= vidrio /\ vidrio <= agua /\ agua < base)
         /\ forall c, c ∉ columnas_temperatura -> r' !! c = r !! c.
Proof.
  apply (temperaturas_del_sistema params_ejemplo estado_ejemplo
           (snd (calcular_temperatura_sistema params_ejemplo 1%positive estado_ejemplo))
           1%positive 2%positive [dia_frio; dia_claro]).
  - decidir.
  - apply par_eq; [decidir|reflexivity].
Defined.

(** ** Heat losses *)

Definition columnas_perdidas : list string :=
  ["h_conv_ext"; "perdida_conv_vidrio"; "temp_cielo_K"; "perdida_rad_vidrio";
   "perdida_conv_paredes"; "perdida_conduccion"; "perdida_total"].

(** The losses of one day, from the wind speed and the temperatures. *)
Definition dia_perdida_conv_vidrio (self : ParametrosDesalinizador) (v vidrio amb : Q) : Q :=
  0.15 * calcular_coef_conveccion_viento v * area_tapa self * (vidrio - amb).

Definition dia_perdida_rad_vidrio (self : ParametrosDesalinizador) (vidrio amb : Q) : Q :=
  0.15 * emisividad self * sigma self * area_tapa self * (vidrio ^ 4 - (amb - 6) ^ 4).

Definition dia_perdida_conv_paredes (self : ParametrosDesalinizador) (v agua amb : Q) : Q :=
  0.15 * calcular_coef_conveccion_viento v * area_paredes self * (agua - amb).

Definition dia_perdida_conduccion (R_total agua amb : Q) : Q :=
  0.15 * (agua - amb) / R_total.

Definition dia_perdida_total (self : ParametrosDesalinizador) (R_total v vidrio agua amb : Q)
  : Q :=
  dia_perdida_conv_vidrio self v vidrio amb + dia_perdida_rad_vidrio self vidrio amb
  + dia_perdida_conv_paredes self v agua amb + dia_perdida_conduccion R_total agua amb.

Lemma fila_perdidas_Ok self R (r : fila) v vidrio agua amb :
  num r "velocidad_viento" = Ok v -> num r "temp_vidrio_K" = Ok vidrio ->
  num r "temp_agua_K" = Ok agua -> num r "temp_ambiente_K" = Ok amb ->
  ~ R == 0 ->
  exists r1 r2,
    aplicar_fila (pasos_perdidas_1 self) r = Ok r1
    /\ aplicar_fila (pasos_perdidas_2 R) r1 = Ok r2
    /\ r2 !! "h_conv_ext" = Some (Num (calcular_coef_conveccion_viento v))
    /\ r2 !! "temp_cielo_K" = Some (Num (amb - 6))
    /\ r2 !! "perdida_conv_vidrio" = Some (Num (dia_perdida_conv_vidrio self v vidrio amb))
    /\ r2 !! "perdida_rad_vidrio" = Some (Num (dia_perdida_rad_vidrio self vidrio amb))
    /\ r2 !! "perdida_conv_paredes"
       = Some (Num (dia_perdida_conv_paredes self v agua amb))
    /\ r2 !! "perdida_conduccion" = Some (Num (dia_perdida_conduccion R agua amb))
    /\ r2 !! "perdida_total" = Some (Num (dia_perdida_total self R v vidrio agua amb)).
Proof.
  intros Hv Hvid Hagua Hamb HR.
  unfold pasos_perdidas_1, pasos_perdidas_2, aplicar_fila, asignar_fila. cbn [fst snd].
  avanza_num. eexists. eexists. split; [reflexivity|].
  avanza_num. split; [reflexivity|].
  unfold dia_perdida_total, dia_perdida_conv_vidrio, dia_perdida_rad_vidrio,
    dia_perdida_conv_paredes, dia_perdida_conduccion.
  busca. auto 10.
Qed.

Lemma fila_perdidas self R (r r1 r2 : fila) :
  aplicar_fila (pasos_perdidas_1 self) r = Ok r1 ->
  aplicar_fila (pasos_perdidas_2 R) r1 = Ok r2 ->
  exists v vidrio agua amb,
    num r "velocidad_viento" = Ok v /\ num r "temp_vidrio_K" = Ok vidrio
    /\ num r "temp_agua_K" = Ok agua /\ num r "temp_ambiente_K" = Ok amb
    /\ ~ R == 0
    /\ r2 !! "h_conv_ext" = Some (Num (calcular_coef_conveccion_viento v))
    /\ r2 !! "temp_cielo_K" = Some (Num (amb - 6))
    /\ r2 !! "perdida_conv_vidrio" = Some (Num (dia_perdida_conv_vidrio self v vidrio amb))
    /\ r2 !! "perdida_rad_vidrio" = Some (Num (dia_perdida_rad_vidrio self vidrio amb))
    /\ r2 !! "perdida_conv_paredes"
       = Some (Num (dia_perdida_conv_paredes self v agua amb))
    /\ r2 !! "perdida_conduccion" = Some (Num (dia_perdida_conduccion R agua amb))
    /\ r2 !! "perdida_total" = Some (Num (dia_perdida_total self R v vidrio agua amb))
    /\ forall c, c ∉ columnas_perdidas -> r2 !! c = r !! c.
Proof.
  intros E1 E2.
  assert (Hnums : exists v vidrio agua amb,
            num r "velocidad_viento" = Ok v /\ num r "temp_vidrio_K" = Ok vidrio
            /\ num r "temp_agua_K" = Ok agua /\ num r "temp_ambiente_K" = Ok amb).
  { pose proof E1 as E0. unfold pasos_perdidas_1 in E0. traza. eauto 10. }
  destruct Hnums as (v & vidrio & agua & amb & Hv & Hvid & Hagua & Hamb).
  assert (HR : ~ R == 0).
  { pose proof E2 as E0. unfold pasos_perdidas_2 in E0. traza.
    match goal with H : np_div _ _ = Ok _ |- _ => apply np_div_Ok in H as [HR _] end.
    exact HR. }
  exists v, vidrio, agua, amb.
  destruct (fila_perdidas_Ok self R r v vidrio agua amb Hv Hvid Hagua Hamb HR)
    as (r1' & r2' & E1' & E2' & Hcells).
  rewrite E1' in E1. injection E1 as <-. rewrite E2' in E2. injection E2 as <-.
  destruct Hcells as (H1 & H2 & H3 & H4 & H5 & H6 & H7).
  repeat (split; [assumption|]).
  intros c Hc.
  rewrite (aplicar_fila_otras (pasos_perdidas_2 R) r1' r2' c E2'),
    (aplicar_fila_otras (pasos_perdidas_1 self) r r1' c E1'); [reflexivity|..];
    intros Hin; apply Hc; unfold columnas_perdidas; simpl in Hin;
    repeat (apply elem_of_cons in Hin as [->|Hin]);
    try (apply elem_of_nil in Hin; contradiction);
    repeat first [apply list_elem_of_here | apply list_elem_of_further].
Qed.

Lemma cuarta_potencia_monotona a b : 0 <= a -> a <= b -> a ^ 4 <= b ^ 4.
Proof.
  intros Ha Hab.
  assert (E : forall x : Q, x ^ 4 == (x * x) * (x * x)) by (intros x; simpl; ring).
  rewrite !E.
  assert (H2 : a * a <= b * b) by nra.
  assert (H0 : 0 <= a * a) by nra.
  nra.
Qed.

Lemma coef_conveccion_no_negativo v :
  -1.5 <= v -> 0 <= calcular_coef_conveccion_viento v.
Proof. unfold calcular_coef_conveccion_viento. lra. Qed.

Lemma producto_no_negativo a b : 0 <= a -> 0 <= b -> 0 <= a * b.
Proof. intros Ha Hb. nra. Qed.

(** With non-negative areas, emissivity and Stefan-Boltzmann constant and a
    positive resistance, no loss of a day is negative when the glass and the
    water are not colder than the ambient and the sky is not below 0 K. *)
Lemma dia_perdidas_no_negativas self R v vidrio agua amb :
  0 <= area_tapa self -> 0 <= area_paredes self ->
  0 <= emisividad self -> 0 <= sigma self -> 0 < R ->
  -1.5 <= v -> 6 <= amb -> amb <= vidrio -> amb <= agua ->
  0 <= dia_perdida_conv_vidrio self v vidrio amb
  /\ 0 <= dia_perdida_rad_vidrio self vidrio amb
  /\ 0 <= dia_perdida_conv_paredes self v agua amb
  /\ 0 <= dia_perdida_conduccion R agua amb
  /\ 0 <= dia_perdida_total self R v vidrio agua amb.
Proof.
  intros Htapa Hpar Hem Hsig HR Hv Hamb Hvid Hagua.
  pose proof (coef_conveccion_no_negativo v Hv) as Hh.
  assert (H1 : 0 <= dia_perdida_conv_vidrio self v vidrio amb).
  { unfold dia_perdida_conv_vidrio.
    repeat apply producto_no_negativo; lra. }
  assert (H2 : 0 <= dia_perdida_rad_vidrio self vidrio amb).
  { unfold dia_perdida_rad_vidrio.
    pose proof (cuarta_potencia_monotona (amb - 6) vidrio ltac:(lra) ltac:(lra)) as Hp.
    repeat apply producto_no_negativo; lra. }
  assert (H3 : 0 <= dia_perdida_conv_paredes self v agua amb).
  { unfold dia_perdida_conv_paredes.
    repeat apply producto_no_negativo; lra. }
  assert (H4 : 0 <= dia_perdida_conduccion R agua amb).
  { unfold dia_perdida_conduccion. apply Qle_shift_div_l; [exact HR|lra]. }
  unfold dia_perdida_total. repeat split; try assumption. lra.
Qed.

Section Perdidas.
Context `{Numpy}.

Lemma calcular_perdidas_termicas_run self (s s' : estado) l l' df :
  heap s !! l = Some df ->
  calcular_perdidas_termicas self l s = (Ok l', s') ->
  l' = l /\ exists df', tabla_perdidas_de self df = Ok df' /\ s' = con_tabla s l df'.
Proof.
  intros Hl Hrun.
  destruct (calcular_perdidas_termicas_en_sitio self s l df Hl) as [d Hrun'].
  rewrite Hrun' in Hrun.
  destruct (tabla_perdidas_de self df) as [df'| |]; try discriminate.
  injection Hrun as <- <-. eauto.
Qed.

Lemma tabla_perdidas_de_Ok self df df' :
  tabla_perdidas_de self df = Ok df' ->
  exists res,
    calcular_resistencias_totales self = Ok res
    /\ length df' = length df
    /\ forall (i : nat) r', df' !! i = Some r' ->
       exists r r1,
         df !! i = Some r
         /\ aplicar_fila (pasos_perdidas_1 self) r = Ok r1
         /\ aplicar_fila (pasos_perdidas_2 (R_total res * 8.0)) r1 = Ok r'.
Proof.
  unfold tabla_perdidas_de. intros E.
  apply bind_Ok_inv in E as (d1 & H1 & E).
  apply bind_Ok_inv in E as (res & Hres & E).
  exists res. split; [exact Hres|].
  split.
  { rewrite (aplicar_length _ _ _ E). eapply aplicar_length; eauto. }
  intros i r' Hi.
  destruct (aplicar_lookup _ _ _ _ _ E Hi) as (r1 & Hr1 & Hrow2).
  destruct (aplicar_lookup _ _ _ _ _ H1 Hr1) as (r & Hr & Hrow1).
  eauto.
Qed.

(** [calcular_perdidas_termicas] works on the table it receives and returns
    that same object.  Each row gets the convection coefficient
    [5.7 + 3.8 v], the sky temperature 6 K below the ambient, the four
    losses and their sum; the other columns are kept.  For a box with
    non-negative areas and a positive total resistance, on a day whose
    glass and water are not colder than the ambient (at least 6 K) and
    whose wind is not below -1.5 m/s, no loss is negative. *)
Theorem perdidas_termicas_no_negativas :
  forall (self : ParametrosDesalinizador) (s s' : estado) (l l' : loc) (df : DataFrame),
    heap s !! l = Some df ->
    calcular_perdidas_termicas self l s = (Ok l', s') ->
    0 <= area_tapa self -> 0 <= area_paredes self ->
    0 <= emisividad self -> 0 <= sigma self ->
    exists res df',
      calcular_resistencias_totales self = Ok res
      /\ l' = l /\ heap s' !! l = Some df' /\ length df' = length df
      /\ forall (i : nat) (r' : fila), df' !! i = Some r' ->
         exists (r : fila) v vidrio agua amb conv_vidrio rad_vidrio conv_paredes conduccion,
           df !! i = Some r
           /\ num r "velocidad_viento" = Ok v /\ num r "temp_vidrio_K" = Ok vidrio
           /\ num r "temp_agua_K" = Ok agua /\ num r "temp_ambiente_K" = Ok amb
           /\ r' !! "h_conv_ext" = Some (Num (5.7 + 3.8 * v))
           /\ r' !! "temp_cielo_K" = Some (Num (amb - 6))
           /\ r' !! "perdida_conv_vidrio" = Some (Num conv_vidrio)
           /\ r' !! "perdida_rad_vidrio" = Some (Num rad_vidrio)
           /\ r' !! "perdida_conv_paredes" = Some (Num conv_paredes)
           /\ r' !! "perdida_conduccion" = Some (Num conduccion)
           /\ r' !! "perdida_total"
              = Some (Num (conv_vidrio + rad_vidrio + conv_paredes + conduccion))
           /\ (forall c, c ∉ columnas_perdidas -> r' !! c = r !! c)
           /\ (0 < R_total res -> -1.5 <= v -> 6 <= amb -> amb <= vidrio -> amb <= agua ->
               0 <= conv_vidrio /\ 0 <= rad_vidrio /\ 0 <= conv_paredes
               /\ 0 <= conduccion
               /\ 0 <= conv_vidrio + rad_vidrio + conv_paredes + conduccion).
Proof.
  intros self s s' l l' df Hl Hrun Htapa Hpar Hem Hsig.
  destruct (calcular_perdidas_termicas_run self s s' l l' df Hl Hrun)
    as (-> & df' & Htabla & ->).
  destruct (tabla_perdidas_de_Ok self df df' Htabla) as (res & Hres & Hlen & Hrows).
  exists res, df'. split; [exact Hres|]. split; [reflexivity|].
  split; [simpl; apply lookup_insert_eq|]. split; [exact Hlen|].
  intros i r' Hi. destruct (Hrows i r' Hi) as (r & r1 & Hr & E1 & E2).
  destruct (fila_perdidas self _ r r1 r' E1 E2)
    as (v & vidrio & agua & amb & Hv & Hvid & Hagua & Hamb & HR
        & Hh & Hcielo & H1 & H2 & H3 & H4 & H5 & Hotras).
  exists r, v, vidrio, agua, amb, (dia_perdida_conv_vidrio self v vidrio amb),
    (dia_perdida_rad_vidrio self vidrio amb),
    (dia_perdida_conv_paredes self v agua amb),
    (dia_perdida_conduccion (R_total res * 8.0) agua amb).
  do 5 (split; [assumption|]).
  split; [exact Hh|]. split; [exact Hcielo|].
  do 4 (split; [assumption|]).
  split; [exact H5|]. split; [exact Hotras|].
  intros HRpos Hv0 Hamb0 Hvid0 Hagua0.
  apply dia_perdidas_no_negativas; try assumption. lra.
Qed.

End Perdidas.

(** The example table after the temperature step. *)
Definition estado_temperaturas : @estado numpy_ejemplo :=
  snd (calcular_temperatura_sistema params_ejemplo 1%positive estado_ejemplo).

Definition tabla_temperaturas : DataFrame :=
  Eval vm_compute in default [] (heap estado_temperaturas !! 2%positive).

Lemma perdidas_termicas_no_negativas_witness :
  exists res df',
    calcular_resistencias_totales params_ejemplo = Ok res
    /\ 2%positive = 2%positive
    /\ heap estado_perdidas !! 2%positive = Some df'
    /\ length df' = length tabla_temperaturas
    /\ forall (i : nat) (r' : fila), df' !! i = Some r' ->
       exists (r : fila) v vidrio agua amb conv_vidrio rad_vidrio conv_paredes conduccion,
         tabla_temperaturas !! i = Some r
         /\ num r "velocidad_viento" = Ok v /\ num r "temp_vidrio_K" = Ok vidrio
         /\ num r "temp_agua_K" = Ok agua /\ num r "temp_ambiente_K" = Ok amb
         /\ r' !! "h_conv_ext" = Some (Num (5.7 + 3.8 * v))
         /\ r' !! "temp_cielo_K" = Some (Num (amb - 6))
         /\ r' !! "perdida_conv_vidrio" = Some (Num conv_vidrio)
         /\ r' !! "perdida_rad_vidrio" = Some (Num rad_vidrio)
         /\ r' !! "perdida_conv_paredes" = Some (Num conv_paredes)
         /\ r' !! "perdida_conduccion" = Some (Num conduccion)
         /\ r' !! "perdida_total"
            = Some (Num (conv_vidrio + rad_vidrio + conv_paredes + conduccion))
         /\ (forall c, c ∉ columnas_perdidas -> r' !! c = r !! c)
         /\ (0 < R_total res -> -1.5 <= v -> 6 <= amb -> amb <= vidrio -> amb <= agua ->
             0 <= conv_vidrio /\ 0 <= rad_vidrio /\ 0 <= conv_paredes
             /\ 0 <= conduccion
             /\ 0 <= conv_vidrio + rad_vidrio + conv_paredes + conduccion).
Proof.
  apply (perdidas_termicas_no_negativas params_ejemplo estado_temperaturas estado_perdidas
           2%positive 2%positive tabla_temperaturas).
  - decidir.
  - apply par_eq; [decidir|reflexivity].
  - vm_compute; discriminate.
  - vm_compute; discriminate.
  - vm_compute; discriminate.
  - vm_compute; discriminate.
Defined.

(** ** The thermal model as a whole *)

(** The three thermal steps, as a function of the climate table's value. *)
Definition tabla_modelo_termico (self : ParametrosDesalinizador) (df : DataFrame)
  : resultado DataFrame :=
  d1 ← aplicar pasos_temperatura df;
  d2 ← tabla_perdidas_de self d1;
  aplicar (pasos_masa_evaporada self) d2.

Section ModeloTermicoFacts.
Context `{Numpy}.

Lemma en_sitio_run (m : loc -> Prog loc) F (s : estado) l df :
  en_sitio m F -> heap s !! l = Some df ->
  exists d,
    m l s = match F df with
            | Ok df' => (Ok l, con_tabla s l df')
            | Raise x => (Raise x, con_tabla s l d)
            | NonFinite => (NonFinite, con_tabla s l d)
            end.
Proof. intros Hm Hl. exact (Hm s l df Hl). Qed.

(** The thermal model creates one object, the copy that the temperature
    step makes, and works on it to the end. *)
Lemma modelo_termico_sobre_run self (s : estado) l df :
  heap s !! l = Some df ->
  exists d,
    modelo_termico_sobre self l s =
      match tabla_modelo_termico self df with
      | Ok d3 => (Ok (fresh (dom (heap s))), con_tabla s (fresh (dom (heap s))) d3)
      | Raise x => (Raise x, con_tabla s (fresh (dom (heap s))) d)
      | NonFinite => (NonFinite, con_tabla s (fresh (dom (heap s))) d)
      end.
Proof.
  intros Hl. unfold modelo_termico_sobre, tabla_modelo_termico.
  set (l' := fresh (dom (heap s))).
  unfold bind at 1.
  destruct (calcular_temperatura_sistema_run self s l df Hl) as [d0 ->]. fold l'.
  destruct (aplicar pasos_temperatura df) as [d1| |]; simpl;
    [|exists d0; reflexivity..].
  unfold bind at 1.
  destruct (en_sitio_run _ _ (con_tabla s l' d1) l' d1
              (calcular_perdidas_termicas_en_sitio self)) as [d1' ->].
  { simpl. apply lookup_insert_eq. }
  destruct (tabla_perdidas_de self d1) as [d2| |]; simpl;
    [|exists d1'; rewrite con_tabla_con_tabla; reflexivity..].
  destruct (en_sitio_run _ _ (con_tabla (con_tabla s l' d1) l' d2) l' d2
              (calcular_masa_evaporada_en_sitio self)) as [d2' ->].
  { simpl. apply lookup_insert_eq. }
  exists d2'.
  destruct (aplicar (pasos_masa_evaporada self) d2);
    rewrite !con_tabla_con_tabla; reflexivity.
Qed.

(** The thermal model allocates exactly one table, the one it returns:
    [df_temp], [df_perdidas] and [df_resultados] are one object.  Whatever
    the outcome, the climate table and every other existing object are as
    they were. *)
Theorem modelo_termico_un_objeto :
  forall (self : ParametrosDesalinizador) (s : estado) (l : loc) (df : DataFrame),
    heap s !! l = Some df ->
    let fin := snd (modelo_termico_sobre self l s) in
    let nuevo_objeto := fresh (dom (heap s)) in
    dom (heap fin) = {[ nuevo_objeto ]} ∪ dom (heap s)
    /\ (nuevo_objeto ∉ dom (heap s))
    /\ heap fin !! l = Some df
    /\ (forall l0, l0 ∈ dom (heap s) -> heap fin !! l0 = heap s !! l0)
    /\ np_random fin = np_random s
    /\ (forall l', fst (modelo_termico_sobre self l s) = Ok l' -> l' = nuevo_objeto).
Proof.
  intros self s l df Hl. cbv zeta.
  destruct (modelo_termico_sobre_run self s l df Hl) as [d Hrun].
  assert (Hfin : exists d', snd (modelo_termico_sobre self l s)
                            = con_tabla s (fresh (dom (heap s))) d').
  { rewrite Hrun. destruct (tabla_modelo_termico self df); simpl; eauto. }
  destruct Hfin as [d' Hfin]. rewrite Hfin.
  assert (Hkeep : forall l0, l0 ∈ dom (heap s) ->
            heap (con_tabla s (fresh (dom (heap s))) d') !! l0 = heap s !! l0).
  { intros l0 Hin. simpl. apply lookup_insert_ne.
    intros E. apply (is_fresh (dom (heap s))). rewrite E. exact Hin. }
  split; [simpl; apply dom_insert_L|].
  split; [apply is_fresh|].
  split. { rewrite Hkeep; [exact Hl|]. apply elem_of_dom. eauto. }
  split; [exact Hkeep|]. split; [reflexivity|].
  intros l'. rewrite Hrun. destruct (tabla_modelo_termico self df); simpl;
    intros E; try discriminate. injection E as <-. reflexivity.
Qed.

End ModeloTermicoFacts.

Lemma modelo_termico_un_objeto_witness :
  let fin := snd (modelo_termico_sobre params_ejemplo 1%positive estado_ejemplo) in
  let nuevo_objeto := fresh (dom (heap estado_ejemplo)) in
  dom (heap fin) = {[ nuevo_objeto ]} ∪ dom (heap estado_ejemplo)
  /\ (nuevo_objeto ∉ dom (heap estado_ejemplo))
  /\ heap fin !! 1%positive = Some [dia_frio; dia_claro]
  /\ (forall l0, l0 ∈ dom (heap estado_ejemplo) ->
        heap fin !! l0 = heap estado_ejemplo !! l0)
  /\ np_random fin = np_random estado_ejemplo
  /\ (forall l', fst (modelo_termico_sobre params_ejemplo 1%positive estado_ejemplo) = Ok l' ->
        l' = nuevo_objeto).
Proof.
  apply (modelo_termico_un_objeto params_ejemplo estado_ejemplo 1%positive
           [dia_frio; dia_claro]).
  decidir.
Defined.

(** ** Energy accounting of one day *)

(** At most 65 % of the solar energy counts as lost. *)
Lemma dia_energia_util_minima solar perd :
  0 <= solar -> 0.35 * solar <= dia_energia_util solar perd.
Proof. intros Hs. unfold dia_energia_util. minmax; lra. Qed.

Lemma dia_razon_minima solar x k :
  0 < solar -> k * solar <= x -> k <= dia_razon solar x.
Proof.
  intros Hs Hx. unfold dia_razon.
  destruct (Qgtb solar 0) eqn:E; [|apply Qgtb_false in E; lra].
  apply Qle_shift_div_l; [exact Hs|exact Hx].
Qed.

Lemma dia_razon_sin_sol solar x : solar <= 0 -> dia_razon solar x = 0.
Proof.
  intros Hs. unfold dia_razon.
  destruct (Qgtb solar 0) eqn:E; [apply Qgtb_true in E; lra|reflexivity].
Qed.

Lemma dia_razon_cero solar x : x == 0 -> dia_razon solar x == 0.
Proof.
  intros Hx. unfold dia_razon. destruct (Qgtb solar 0); [|reflexivity].
  rewrite Hx. unfold Qdiv. ring.
Qed.

Lemma dia_energia_evaporacion_cero util cal :
  util <= cal -> dia_energia_evaporacion util cal == 0.
Proof. intros Hle. unfold dia_energia_evaporacion. minmax; lra. Qed.

(** Without energy left for evaporation nothing is produced. *)
Lemma dia_sin_evaporacion self evap rad tC :
  evap == 0 ->
  dia_masa_evaporada (dia_masa_limitada self (dia_masa_aplicada self evap rad tC)) = 0.
Proof.
  intros Hevap.
  assert (Hap : dia_masa_aplicada self evap rad tC == 0).
  { unfold dia_masa_aplicada. rewrite Hevap. unfold Qdiv. ring. }
  assert (Hlim : dia_masa_limitada self (dia_masa_aplicada self evap rad tC) <= 0).
  { unfold dia_masa_limitada. minmax; lra. }
  unfold dia_masa_evaporada.
  destruct (Qltb _ 0.001) eqn:E; [reflexivity|].
  apply Qltb_false in E. lra.
Qed.

Section Energia.
Context `{Numpy}.


End Energia.


(** ** One day through the three thermal steps *)

Definition columnas_masa_evaporada : list string :=
  ["energia_solar"; "energia_perdida"; "energia_util"; "energia_calentamiento";
   "energia_evaporacion"; "masa_evaporada"; "produccion_litros"; "GOR";
   "eficiencia_termica"].

(** The columns the thermal model adds to the climate table. *)
Definition columnas_modelo_termico : list string :=
  columnas_temperatura ++ columnas_perdidas ++ columnas_masa_evaporada.

Ltac no_esta :=
  let Hin := fresh "Hin" in
  intros Hin; vm_compute in Hin;
  repeat (apply elem_of_cons in Hin as [Hin|Hin]; [discriminate Hin|]);
  apply elem_of_nil in Hin; exact Hin.

Ltac esta_en H :=
  simpl in H;
  repeat (apply elem_of_cons in H as [->|H]);
  try (apply elem_of_nil in H; contradiction);
  vm_compute;
  repeat first [apply list_elem_of_here | apply list_elem_of_further].

Lemma fila_masa_evaporada_otras self (r r' : fila) c :
  aplicar_fila (pasos_masa_evaporada self) r = Ok r' ->
  c ∉ columnas_masa_evaporada -> r' !! c = r !! c.
Proof.
  intros E Hc. apply (aplicar_fila_otras _ _ _ _ E).
  intros Hin. apply Hc. esta_en Hin.
Qed.

Lemma fila_masa_evaporada_Ok self (r : fila) rad perdida agua tC :
  num r "radiacion_Wm2" = Ok rad -> num r "perdida_total" = Ok perdida ->
  num r "temp_agua_K" = Ok agua -> num r "temp_ambiente_C" = Ok tC ->
  ~ calor_latente_vaporizacion self == 0 ->
  exists r', aplicar_fila (pasos_masa_evaporada self) r = Ok r'.
Proof.
  intros Hrad Hperd Hagua HtC Hlat.
  unfold pasos_masa_evaporada, aplicar_fila, asignar_fila, eficiencia_sistema.
  cbn [fst snd]. avanza_num. eauto.
Qed.

(** The rows of one day along the thermal model. *)
Definition cadena_termica (self : ParametrosDesalinizador) (R : Q) (r r3 : fila) : Prop :=
  exists r1 r1' r2 : fila,
    aplicar_fila pasos_temperatura r = Ok r1
    /\ aplicar_fila (pasos_perdidas_1 self) r1 = Ok r1'
    /\ aplicar_fila (pasos_perdidas_2 R) r1' = Ok r2
    /\ aplicar_fila (pasos_masa_evaporada self) r2 = Ok r3.

Lemma cadena_termica_Ok self R (r : fila) amb rad v tC :
  num r "temp_ambiente_K" = Ok amb -> num r "radiacion_Wm2" = Ok rad ->
  num r "velocidad_viento" = Ok v -> num r "temp_ambiente_C" = Ok tC ->
  ~ R == 0 -> ~ calor_latente_vaporizacion self == 0 ->
  exists r3, cadena_termica self R r r3.
Proof.
  intros Hamb Hrad Hv HtC HR Hlat.
  destruct (fila_temperatura_Ok r amb rad Hamb Hrad) as (r1 & E1 & Ha & Hvid & _).
  assert (Hsame1 : forall c, c ∉ columnas_temperatura -> num r1 c = num r c).
  { intros c Hc. apply num_lookup_eq. apply (aplicar_fila_otras _ _ _ _ E1).
    intros Hin. apply Hc. esta_en Hin. }
  destruct (fila_perdidas_Ok self R r1 v (dia_temp_vidrio amb rad) (dia_temp_agua amb rad) amb)
    as (r1' & r2 & E2 & E3 & Hcells).
  { rewrite Hsame1 by no_esta. exact Hv. }
  { apply num_Num. exact Hvid. }
  { apply num_Num. exact Ha. }
  { rewrite Hsame1 by no_esta. exact Hamb. }
  { exact HR. }
  assert (Hsame2 : forall c, c ∉ columnas_perdidas -> r2 !! c = r1 !! c).
  { intros c Hc.
    rewrite (aplicar_fila_otras _ _ _ c E3), (aplicar_fila_otras _ _ _ c E2);
      [reflexivity|..]; intros Hin; apply Hc; esta_en Hin. }
  destruct (fila_masa_evaporada_Ok self r2 rad
              (dia_perdida_total self R v (dia_temp_vidrio amb rad)
                 (dia_temp_agua amb rad) amb)
              (dia_temp_agua amb rad) tC) as [r3 E4].
  { rewrite (num_lookup_eq r1 r2), Hsame1 by first [no_esta | apply Hsame2; no_esta].
    exact Hrad. }
  { destruct Hcells as (_ & _ & _ & _ & _ & _ & Ht). apply num_Num. exact Ht. }
  { rewrite (num_lookup_eq r1 r2) by (apply Hsame2; no_esta). apply num_Num. exact Ha. }
  { rewrite (num_lookup_eq r1 r2), Hsame1 by first [no_esta | apply Hsame2; no_esta].
    exact HtC. }
  { exact Hlat. }
  exists r3, r1, r1', r2. auto.
Qed.

(** What the thermal model leaves in the row of one day, from the four
    climate values it reads. *)
Lemma cadena_termica_fila self R (r r3 : fila) :
  cadena_termica self R r r3 ->
  exists amb rad v tC,
    num r "temp_ambiente_K" = Ok amb /\ num r "radiacion_Wm2" = Ok rad
    /\ num r "velocidad_viento" = Ok v /\ num r "temp_ambiente_C" = Ok tC
    /\ ~ R == 0 /\ ~ calor_latente_vaporizacion self == 0
    /\ let agua := dia_temp_agua amb rad in
       let vidrio := dia_temp_vidrio amb rad in
       let perdida := dia_perdida_total self R v vidrio agua amb in
       let solar := dia_energia_solar self rad in
       let perd := dia_energia_perdida self perdida in
       let util := dia_energia_util solar perd in
       let cal := dia_energia_calentamiento self agua in
       let evap := dia_energia_evaporacion util cal in
       let masa :=
         dia_masa_evaporada (dia_masa_limitada self (dia_masa_aplicada self evap rad tC)) in
       r3 !! "temp_agua_K" = Some (Num agua)
       /\ r3 !! "perdida_total" = Some (Num perdida)
       /\ r3 !! "energia_solar" = Some (Num solar)
       /\ r3 !! "energia_util" = Some (Num util)
       /\ r3 !! "energia_evaporacion" = Some (Num evap)
       /\ r3 !! "produccion_litros" = Some (Num masa)
       /\ r3 !! "GOR" = Some (Num (dia_razon solar evap))
       /\ r3 !! "eficiencia_termica" = Some (Num (dia_razon solar util))
       /\ forall c, c ∉ columnas_modelo_termico -> r3 !! c = r !! c.
Proof.
  intros (r1 & r1' & r2 & E1 & E2 & E3 & E4).
  destruct (fila_temperatura r r1 E1)
    as (amb & rad & Hamb & Hrad & Ha & Hvid & _ & _ & _ & _ & Hsame1).
  destruct (fila_perdidas self R r1 r1' r2 E2 E3)
    as (v & vidrio & agua & amb' & Hv & Hvid' & Hagua' & Hamb' & HR
        & _ & _ & _ & _ & _ & _ & Hptotal & Hsame2).
  rewrite (num_Num _ _ _ Hvid) in Hvid'. injection Hvid' as Ev. subst vidrio.
  rewrite (num_Num _ _ _ Ha) in Hagua'. injection Hagua' as Ea. subst agua.
  rewrite (num_lookup_eq r r1) in Hamb' by (apply Hsame1; no_esta).
  rewrite Hamb in Hamb'. injection Hamb' as Eamb. subst amb'.
  rewrite (num_lookup_eq r r1) in Hv by (apply Hsame1; no_esta).
  destruct (fila_masa_evaporada self r2 r3 E4)
    as (rad' & perdida & agua' & tC & Hrad' & Hperd & Hagua' & HtC & Hlat & Hcells).
  rewrite (num_lookup_eq r1 r2), (num_lookup_eq r r1) in Hrad'
    by first [apply Hsame1; no_esta | apply Hsame2; no_esta].
  rewrite Hrad in Hrad'. injection Hrad' as Er. subst rad'.
  rewrite (num_Num _ _ _ Hptotal) in Hperd. injection Hperd as Ep. subst perdida.
  rewrite (num_lookup_eq r1 r2) in Hagua' by (apply Hsame2; no_esta).
  rewrite (num_Num _ _ _ Ha) in Hagua'. injection Hagua' as Ea. subst agua'.
  rewrite (num_lookup_eq r1 r2), (num_lookup_eq r r1) in HtC
    by first [apply Hsame1; no_esta | apply Hsame2; no_esta].
  exists amb, rad, v, tC.
  do 6 (split; [assumption|]). cbv zeta in Hcells |- *.
  destruct Hcells as (Hsolar & _ & Hutil & _ & Hevap & _ & Hprod & Hgor & Hef).
  split.
  { rewrite (fila_masa_evaporada_otras self r2 r3 _ E4) by no_esta.
    rewrite Hsame2 by no_esta. exact Ha. }
  split.
  { rewrite (fila_masa_evaporada_otras self r2 r3 _ E4) by no_esta. exact Hptotal. }
  do 6 (split; [assumption|]).
  intros c Hc.
  rewrite (fila_masa_evaporada_otras self r2 r3 c E4), Hsame2, Hsame1; [reflexivity|..];
    intros Hin; apply Hc; unfold columnas_modelo_termico;
    repeat rewrite elem_of_app; auto.
Qed.

Lemma tabla_modelo_termico_Ok self df d3 :
  tabla_modelo_termico self df = Ok d3 ->
  exists res,
    calcular_resistencias_totales self = Ok res
    /\ length d3 = length df
    /\ forall (i : nat) r3, d3 !! i = Some r3 ->
       exists r, df !! i = Some r /\ cadena_termica self (R_total res * 8.0) r r3.
Proof.
  unfold tabla_modelo_termico. intros E.
  apply bind_Ok_inv in E as (d1 & H1 & E).
  apply bind_Ok_inv in E as (d2 & H2 & E).
  destruct (tabla_perdidas_de_Ok self d1 d2 H2) as (res & Hres & Hlen2 & Hrows2).
  exists res. split; [exact Hres|]. split.
  { rewrite (aplicar_length _ _ _ E), Hlen2. eapply aplicar_length; eauto. }
  intros i r3 Hi.
  destruct (aplicar_lookup _ _ _ _ _ E Hi) as (r2 & Hr2 & E4).
  destruct (Hrows2 i r2 Hr2) as (r1 & r1' & Hr1 & E2 & E3).
  destruct (aplicar_lookup _ _ _ _ _ H1 Hr1) as (r & Hr & E1).
  exists r. split; [exact Hr|]. exists r1, r1', r2. auto.
Qed.

Lemma aplicar_total ps (df : DataFrame) :
  Forall (fun r => exists r', aplicar_fila ps r = Ok r') df ->
  exists df', aplicar ps df = Ok df'.
Proof.
  intros Hdf. destruct (mapR_total (aplicar_fila ps) df Hdf) as [df' E].
  exists df'. apply aplicar_mapR. exact E.
Qed.

(** The thermal model returns on every table whose rows carry the four
    climate values it reads, when the resistances can be computed and
    neither the total resistance nor the latent heat is zero. *)
Lemma tabla_modelo_termico_total self res df :
  calcular_resistencias_totales self = Ok res ->
  ~ R_total res * 8.0 == 0 -> ~ calor_latente_vaporizacion self == 0 ->
  Forall (fun r : fila => exists amb rad v tC,
            num r "temp_ambiente_K" = Ok amb /\ num r "radiacion_Wm2" = Ok rad
            /\ num r "velocidad_viento" = Ok v /\ num r "temp_ambiente_C" = Ok tC) df ->
  exists d3, tabla_modelo_termico self df = Ok d3.
Proof.
  intros Hres HR Hlat Hdf. rewrite Forall_forall in Hdf.
  assert (Hchain : forall r, r ∈ df -> exists r3, cadena_termica self (R_total res * 8.0) r r3).
  { intros r Hr. destruct (Hdf r Hr) as (amb & rad & v & tC & Ha & Hr' & Hv & Ht).
    eapply cadena_termica_Ok; eauto. }
  unfold tabla_modelo_termico, tabla_perdidas_de.
  destruct (aplicar_total pasos_temperatura df) as [d1 E1].
  { apply Forall_forall. intros r Hr.
    destruct (Hchain r Hr) as (r3 & r1 & _ & _ & E & _). eauto. }
  rewrite E1, bind_Ok.
  assert (Hd1 : forall r1, r1 ∈ d1 -> exists r, r ∈ df /\ aplicar_fila pasos_temperatura r = Ok r1).
  { intros r1 Hr1. apply list_elem_of_lookup in Hr1 as [i Hi].
    destruct (aplicar_lookup _ _ _ _ _ E1 Hi) as (r & Hr & E).
    exists r. split; [apply list_elem_of_lookup; eauto|exact E]. }
  destruct (aplicar_total (pasos_perdidas_1 self) d1) as [d1' E2].
  { apply Forall_forall. intros r1 Hr1. destruct (Hd1 r1 Hr1) as (r & Hr & E).
    destruct (Hchain r Hr) as (r3 & r1a & r1' & _ & Ea & Eb & _).
    rewrite E in Ea. injection Ea as <-. eauto. }
  rewrite E2, bind_Ok, Hres, bind_Ok.
  assert (Hd1' : forall r1', r1' ∈ d1' ->
            exists r r1, r ∈ df /\ aplicar_fila pasos_temperatura r = Ok r1
                         /\ aplicar_fila (pasos_perdidas_1 self) r1 = Ok r1').
  { intros r1' Hr1'. apply list_elem_of_lookup in Hr1' as [i Hi].
    destruct (aplicar_lookup _ _ _ _ _ E2 Hi) as (r1 & Hr1 & E).
    destruct (Hd1 r1) as (r & Hr & E'); [apply list_elem_of_lookup; eauto|].
    eauto. }
  destruct (aplicar_total (pasos_perdidas_2 (R_total res * 8.0)) d1') as [d2 E3].
  { apply Forall_forall. intros r1' Hr1'. destruct (Hd1' r1' Hr1') as (r & r1 & Hr & Ea & Eb).
    destruct (Hchain r Hr) as (r3 & r1a & r1a' & r2 & Ea' & Eb' & Ec & _).
    rewrite Ea in Ea'. injection Ea' as <-. rewrite Eb in Eb'. injection Eb' as <-. eauto. }
  rewrite E3, bind_Ok.
  apply aplicar_total. apply Forall_forall. intros r2 Hr2.
  apply list_elem_of_lookup in Hr2 as [i Hi].
  destruct (aplicar_lookup _ _ _ _ _ E3 Hi) as (r1' & Hr1' & Ec).
  destruct (Hd1' r1') as (r & r1 & Hr & Ea & Eb); [apply list_elem_of_lookup; eauto|].
  destruct (Hchain r Hr) as (r3 & r1a & r1a' & r2a & Ea' & Eb' & Ec' & Ed).
  rewrite Ea in Ea'. injection Ea' as <-. rewrite Eb in Eb'. injection Eb' as <-.
  rewrite Ec in Ec'. injection Ec' as <-. eauto.
Qed.

Section ModeloTermicoEficiencia.
Context `{Numpy}.

Lemma modelo_termico_sobre_Ok self (s s' : estado) l l' df :
  heap s !! l = Some df ->
  modelo_termico_sobre self l s = (Ok l', s') ->
  l' = fresh (dom (heap s))
  /\ exists d3, tabla_modelo_termico self df = Ok d3 /\ s' = con_tabla s l' d3.
Proof.
  intros Hl Hrun. destruct (modelo_termico_sobre_run self s l df Hl) as [d Hrun'].
  rewrite Hrun' in Hrun.
  destruct (tabla_modelo_termico self df) as [d3| |]; try discriminate.
  injection Hrun as <- <-. eauto.
Qed.


End ModeloTermicoEficiencia.


(** ** The derived parameters *)

Section Derivados.
Context `{Numpy}.

(** The fields that [ParametrosDesalinizador.__init__] sets, when it
    returns. *)
Lemma init_campos (cfg : params_config.Config) (p : ParametrosDesalinizador) :
  ParametrosDesalinizador_init (Some cfg) = Ok p ->
  let dim := params_config.dimensiones cfg in
  let l := params_config.largo dim in
  let a := params_config.ancho dim in
  let h := params_config.altura dim in
  let agua := params_config.propiedades_agua cfg in
  let term := params_config.propiedades_termicas cfg in
  let op := params_config.condiciones_operacion cfg in
  let k := default 205 (params_config.conductividades_termicas cfg
                          !! params_config.material_caja term) in
  Forall (fun d => ~ d == 0) (divisores_init cfg)
  /\ config p = cfg
  /\ area_captacion p = l * a /\ area_base p = l * a /\ area_tapa p = l * a
  /\ area_paredes p = 2 * (l + a) * h
  /\ area_total p = l * a + l * a + 2 * (l + a) * h
  /\ volumen p = l * a * h /\ volumen_litros p = l * a * h * 1000
  /\ absorptividad p = params_config.absorptividad term
  /\ emisividad p = 0.95 /\ sigma p = 5.67e-8
  /\ cos_angulo p = np_cos (np_radians (params_config.angulo_incidencia term))
  /\ conductividad_material p = k
  /\ R_conduccion p = 0.0025 / (k * (2 * (l + a) * h))
  /\ R_aislamiento p = 0.02 / (0.04 * (2 * (l + a) * h))
  /\ h_conveccion_natural p = 5.0
  /\ cp_agua p = params_config.cp_agua agua
  /\ calor_latente_vaporizacion p = params_config.calor_latente_vaporizacion agua
  /\ temp_inicial p = params_config.temp_inicial agua
  /\ delta_T p = params_config.temp_ebullicion agua - params_config.temp_inicial agua
  /\ masa_agua p = params_config.masa_agua op
  /\ profundidad_agua p = params_config.masa_agua op / (1000 * (l * a))
  /\ segundos_radiacion_util p = params_config.horas_radiacion_util op * 3600
  /\ hemisferio p = params_config.hemisferio op
  /\ latitud p = params_config.ubicacion_latitud op
  /\ energia_por_kg p
     = (params_config.masa_agua op * params_config.cp_agua agua
        * (params_config.temp_ebullicion agua - params_config.temp_inicial agua)
        + params_config.masa_agua op * params_config.calor_latente_vaporizacion agua)
       / params_config.masa_agua op
  /\ param_sim p = params_config.parametros_simulacion cfg
  /\ factores_eficiencia p = {| alto := 0.85; medio := 0.65; bajo := 0.45; minimo := 0.25 |}.
Proof.
  intros Hp. cbv zeta.
  unfold ParametrosDesalinizador_init, calcular_R_conduccion, calcular_R_aislamiento in Hp.
  cbv zeta in Hp. simpl default in Hp.
  apply bind_Ok_inv in Hp as (prof & H1 & Hp). apply py_div_Ok in H1 as [N1 ->].
  apply bind_Ok_inv in Hp as (Rc & H2 & Hp). apply py_div_Ok in H2 as [N2 ->].
  apply bind_Ok_inv in Hp as (Ra & H3 & Hp). apply py_div_Ok in H3 as [N3 ->].
  apply bind_Ok_inv in Hp as (epk & H4 & Hp). apply py_div_Ok in H4 as [N4 ->].
  injection Hp as <-. cbn.
  split. { unfold divisores_init. cbv zeta. repeat constructor; assumption. }
  repeat split; reflexivity.
Qed.


End Derivados.


(** ** The climate of the year, column by column *)

Lemma dias_del_año_anuales :
  map (fun fecha => datetime_sub_days fecha fecha_inicio) fechas_anuales = range 365.
Proof. vm_compute. reflexivity. Qed.

Definition columnas_clima : list string :=
  ["fecha"; "mes"; "dia"; "dia_del_año"; "radiacion_Wm2"; "temp_ambiente_C";
   "temp_ambiente_K"; "humedad_relativa"; "presion_vapor_Pa"; "velocidad_viento"].

Lemma fila_de_columnas_dom cols (i : nat) :
  Forall (fun cv : string * list celda => (i < length (snd cv))%nat) cols ->
  dom (fila_de_columnas cols i) = list_to_set (fst <$> cols).
Proof.
  intros Hlen. unfold fila_de_columnas. rewrite dom_list_to_map_L. f_equal.
  induction Hlen as [|[c v] cols Hi _ IH]; simpl; [reflexivity|].
  simpl in Hi. apply lookup_lt_is_Some in Hi as [y Hy]. rewrite Hy; simpl.
  f_equal. exact IH.
Qed.

Section ClimaNorte.
Context `{Numpy}.

(** One row of the climate table. *)
Definition fila_clima (d : datetime) (i : nat) (r : fila) : Prop :=
  exists rad t hum v,
    r !! "fecha" = Some (Fecha d)
    /\ r !! "mes" = Some (Ent (month d))
    /\ r !! "dia" = Some (Ent (day d))
    /\ r !! "dia_del_año" = Some (Ent (Z.of_nat i))
    /\ r !! "radiacion_Wm2" = Some (Num rad) /\ 100 <= rad /\ rad <= 950
    /\ r !! "temp_ambiente_C" = Some (Num t)
    /\ r !! "temp_ambiente_K" = Some (Num (t + 273.15))
    /\ r !! "humedad_relativa" = Some (Num hum) /\ 30 <= hum /\ hum <= 95
    /\ r !! "presion_vapor_Pa" = Some (Num (hum * presion_saturacion t / 100))
    /\ r !! "velocidad_viento" = Some (Num v) /\ 0.5 <= v
    /\ dom r = list_to_set columnas_clima.

Lemma generar_datos_anuales_norte_filas (self : ModeloClimatico) (s : estado) :
  String.eqb (lower (clima_hemisferio self)) "norte" = true ->
  0 <= params_config.variabilidad_diaria (clima_param_sim self) ->
  exists df g',
    generar_datos_anuales self s
    = (Ok (fresh (dom (heap s))),
       mk_estado g' (<[fresh (dom (heap s)) := df]> (heap s)))
    /\ length df = 365%nat
    /\ forall (i : nat) d, fechas_anuales !! i = Some d ->
       exists r, df !! i = Some r /\ fila_clima d i r.
Proof.
  intros Hnorte Hvar. unfold generar_datos_anuales. cbv zeta. rewrite Hnorte.
  fold fecha_inicio. fold fechas_anuales. rewrite dias_del_año_anuales.
  assert (Hlen : length fechas_anuales = 365%nat) by apply fechas_anuales_calendario.
  rewrite Hlen.
  unfold bind at 1. rewrite np_random_normal_run by exact Hvar.
  pose proof (normal_draws_length 0
    (params_config.variabilidad_diaria (clima_param_sim self)) 365 (np_random s)) as L1.
  destruct (normal_draws 0 (params_config.variabilidad_diaria (clima_param_sim self))
              365 (np_random s)) as [z1 g1]. simpl in L1. cbn [fst snd np_random heap].
  unfold bind at 1. rewrite np_random_normal_run by (apply Qle_bool_iff; reflexivity).
  cbn [fst snd np_random heap].
  pose proof (normal_draws_length 0 3 365 g1) as L2.
  destruct (normal_draws 0 3 365 g1) as [z2 g2]. simpl in L2. cbn [fst snd].
  unfold bind at 1. unfold lift at 1. cbn [leer_local mbind resultado_bind].
  unfold bind at 1. rewrite np_random_normal_run by (apply Qle_bool_iff; reflexivity).
  cbn [fst snd np_random heap].
  pose proof (normal_draws_length 0 10 365 g2) as L3.
  destruct (normal_draws 0 10 365 g2) as [z3 g3]. simpl in L3. cbn [fst snd].
  unfold bind at 1. rewrite np_random_normal_run by (apply Qle_bool_iff; reflexivity).
  cbn [fst snd np_random heap].
  pose proof (normal_draws_length 0 0.8 365 g3) as L4.
  destruct (normal_draws 0 0.8 365 g3) as [z4 g4]. simpl in L4. cbn [fst snd].
  unfold bind at 1. unfold lift at 1.
  rewrite pd_DataFrame_Ok.
  2:{ repeat (apply Forall_cons; split); try apply Forall_nil; cbn [snd];
      rewrite ?length_fmap, ?length_map, ?length_zip_with, ?length_fmap, ?length_map,
        ?length_zip_with, ?length_map, ?length_range, ?L1, ?L2, ?L3, ?L4, ?Hlen;
      reflexivity. }
  match goal with |- context [fila_de_columnas ?c] => set (cols := c) end.
  rewrite length_fmap, Hlen.
  eexists. exists g4. split; [reflexivity|].
  split; [rewrite length_map; apply length_seq|].
  intros i d Hd.
  assert (Hi : (i < 365)%nat) by (rewrite <- Hlen; eapply lookup_lt_Some; eauto).
  destruct (lookup_lt_is_Some_2 z1 i) as [a1 Ha1]; [rewrite L1; exact Hi|].
  destruct (lookup_lt_is_Some_2 z2 i) as [a2 Ha2]; [rewrite L2; exact Hi|].
  destruct (lookup_lt_is_Some_2 z3 i) as [a3 Ha3]; [rewrite L3; exact Hi|].
  destruct (lookup_lt_is_Some_2 z4 i) as [a4 Ha4]; [rewrite L4; exact Hi|].
  assert (Hnd : NoDup (fst <$> cols)).
  { refine (bool_decide_unpack _ _). vm_compute. exact I. }
  assert (Hlens : Forall (fun cv => (i < length (snd cv))%nat) cols).
  { unfold cols. repeat (apply Forall_cons; split); try apply Forall_nil; cbn [snd];
      repeat (rewrite length_fmap || rewrite length_map || rewrite length_zip_with
              || rewrite length_range);
      rewrite ?L1, ?L2, ?L3, ?L4, ?Hlen; repeat apply Nat.min_glb_lt;
      first [exact Hi | exact I]. }
  assert (Hcell : forall c v x, (c, v) ∈ cols -> v !! i = Some x ->
                    fila_de_columnas cols i !! c = Some x).
  { intros c v x Hin Hx. eapply fila_de_columnas_lookup; eauto. }
  exists (fila_de_columnas cols i). split.
  { change (map (fila_de_columnas cols) (seq 0 365))
      with (fila_de_columnas cols <$> seq 0 365).
    rewrite list_lookup_fmap, lookup_seq_lt by exact Hi. reflexivity. }
  unfold fila_clima. do 4 eexists.
  split.
  { eapply Hcell.
    - unfold cols. repeat first [apply list_elem_of_here | apply list_elem_of_further].
    - rewrite list_lookup_fmap, Hd. reflexivity. }
  split.
  { eapply Hcell.
    - unfold cols. repeat first [apply list_elem_of_here | apply list_elem_of_further].
    - rewrite !list_lookup_fmap, Hd. reflexivity. }
  split.
  { eapply Hcell.
    - unfold cols. repeat first [apply list_elem_of_here | apply list_elem_of_further].
    - rewrite !list_lookup_fmap, Hd. reflexivity. }
  split.
  { eapply Hcell.
    - unfold cols. repeat first [apply list_elem_of_here | apply list_elem_of_further].
    - rewrite list_lookup_fmap, range_lookup by exact Hi. reflexivity. }
  split.
  { eapply Hcell.
    - unfold cols. repeat first [apply list_elem_of_here | apply list_elem_of_further].
    - repeat (rewrite list_lookup_fmap || rewrite lookup_zip_with).
      rewrite Hd, Ha1. reflexivity. }
  split; [apply np_clip_bounds; lra|]. split; [apply np_clip_bounds; lra|].
  split.
  { eapply Hcell.
    - unfold cols. repeat first [apply list_elem_of_here | apply list_elem_of_further].
    - repeat (rewrite list_lookup_fmap || rewrite lookup_zip_with).
      rewrite Hd, Ha2. reflexivity. }
  split.
  { eapply Hcell.
    - unfold cols. repeat first [apply list_elem_of_here | apply list_elem_of_further].
    - repeat (rewrite list_lookup_fmap || rewrite lookup_zip_with).
      rewrite Hd, Ha2. reflexivity. }
  split.
  { eapply Hcell.
    - unfold cols. repeat first [apply list_elem_of_here | apply list_elem_of_further].
    - repeat (rewrite list_lookup_fmap || rewrite lookup_zip_with).
      rewrite Hd, Ha3. reflexivity. }
  split; [apply np_clip_bounds; lra|]. split; [apply np_clip_bounds; lra|].
  split.
  { eapply Hcell.
    - unfold cols. repeat first [apply list_elem_of_here | apply list_elem_of_further].
    - repeat (rewrite list_lookup_fmap || rewrite lookup_zip_with).
      rewrite Hd, Ha2, Ha3. reflexivity. }
  split.
  { eapply Hcell.
    - unfold cols. repeat first [apply list_elem_of_here | apply list_elem_of_further].
    - repeat (rewrite list_lookup_fmap || rewrite lookup_zip_with).
      rewrite Hd, Ha4. reflexivity. }
  split; [unfold np_maximum; apply Q.le_max_l|].
  rewrite (fila_de_columnas_dom cols i Hlens). reflexivity.
Qed.

(** The phase of the month of a date, in the northern hemisphere. *)
Definition fase_norte (d : datetime) : Q :=
  (inject_Z (month d) - 6) * (2 * np_pi / 12).

(** The irradiance and the ambient temperature of each day, from the draws
    of the generator. *)
Lemma generar_datos_anuales_norte_valores (self : ModeloClimatico) (s : estado)
    (w1 w2 w3 w4 : list Q) (h1 h2 h3 h4 : rng) :
  String.eqb (lower (clima_hemisferio self)) "norte" = true ->
  0 <= params_config.variabilidad_diaria (clima_param_sim self) ->
  normal_draws 0 (params_config.variabilidad_diaria (clima_param_sim self)) 365
    (np_random s) = (w1, h1) ->
  normal_draws 0 3 365 h1 = (w2, h2) ->
  normal_draws 0 10 365 h2 = (w3, h3) ->
  normal_draws 0 0.8 365 h3 = (w4, h4) ->
  exists df g',
    generar_datos_anuales self s
    = (Ok (fresh (dom (heap s))),
       mk_estado g' (<[fresh (dom (heap s)) := df]> (heap s)))
    /\ forall (i : nat) d a1 a2 a4,
         fechas_anuales !! i = Some d ->
         w1 !! i = Some a1 -> w2 !! i = Some a2 -> w4 !! i = Some a4 ->
         exists r : fila,
           df !! i = Some r
           /\ r !! "radiacion_Wm2"
              = Some (Num (np_clip
                             (params_config.radiacion_base (clima_param_sim self)
                              + params_config.amplitud_variacion (clima_param_sim self)
                                * np_cos (fase_norte d) + a1) 100 950))
           /\ r !! "temp_ambiente_C" = Some (Num (15 - 12 * np_cos (fase_norte d) + a2))
           /\ r !! "temp_ambiente_K"
              = Some (Num (15 - 12 * np_cos (fase_norte d) + a2 + 273.15))
           /\ r !! "velocidad_viento"
              = Some (Num (np_maximum 0.5 (2.0 + 1.0 * np_sin (fase_norte d) + a4))).
Proof.
  intros Hnorte Hvar Hz1 Hz2 Hz3 Hz4. unfold generar_datos_anuales. cbv zeta. rewrite Hnorte.
  fold fecha_inicio. fold fechas_anuales. rewrite dias_del_año_anuales.
  assert (Hlen : length fechas_anuales = 365%nat) by apply fechas_anuales_calendario.
  rewrite Hlen.
  unfold bind at 1. rewrite np_random_normal_run by exact Hvar.
  pose proof (normal_draws_length 0
    (params_config.variabilidad_diaria (clima_param_sim self)) 365 (np_random s)) as L1.
  destruct (normal_draws 0 (params_config.variabilidad_diaria (clima_param_sim self))
              365 (np_random s)) as [z1 g1]. simpl in L1. cbn [fst snd np_random heap].
  injection Hz1 as E1 E2. subst w1 h1.
  unfold bind at 1. rewrite np_random_normal_run by (apply Qle_bool_iff; reflexivity).
  cbn [fst snd np_random heap].
  pose proof (normal_draws_length 0 3 365 g1) as L2.
  destruct (normal_draws 0 3 365 g1) as [z2 g2]. simpl in L2. cbn [fst snd].
  injection Hz2 as E1 E2. subst w2 h2.
  unfold bind at 1. unfold lift at 1. cbn [leer_local mbind resultado_bind].
  unfold bind at 1. rewrite np_random_normal_run by (apply Qle_bool_iff; reflexivity).
  cbn [fst snd np_random heap].
  pose proof (normal_draws_length 0 10 365 g2) as L3.
  destruct (normal_draws 0 10 365 g2) as [z3 g3]. simpl in L3. cbn [fst snd].
  injection Hz3 as E1 E2. subst w3 h3.
  unfold bind at 1. rewrite np_random_normal_run by (apply Qle_bool_iff; reflexivity).
  cbn [fst snd np_random heap].
  pose proof (normal_draws_length 0 0.8 365 g3) as L4.
  destruct (normal_draws 0 0.8 365 g3) as [z4 g4]. simpl in L4. cbn [fst snd].
  injection Hz4 as E1 E2. subst w4 h4.
  unfold bind at 1. unfold lift at 1.
  rewrite pd_DataFrame_Ok.
  2:{ repeat (apply Forall_cons; split); try apply Forall_nil; cbn [snd];
      rewrite ?length_fmap, ?length_map, ?length_zip_with, ?length_fmap, ?length_map,
        ?length_zip_with, ?length_map, ?length_range, ?L1, ?L2, ?L3, ?L4, ?Hlen;
      reflexivity. }
  match goal with |- context [fila_de_columnas ?c] => set (cols := c) end.
  rewrite length_fmap, Hlen.
  eexists. exists g4. split; [reflexivity|].
  intros i d a1 a2 a4 Hd Ha1 Ha2 Ha4.
  assert (Hi : (i < 365)%nat) by (rewrite <- Hlen; eapply lookup_lt_Some; eauto).
  destruct (lookup_lt_is_Some_2 z3 i) as [a3 Ha3]; [rewrite L3; exact Hi|].
  assert (Hnd : NoDup (fst <$> cols)).
  { refine (bool_decide_unpack _ _). vm_compute. exact I. }
  assert (Hlens : Forall (fun cv => (i < length (snd cv))%nat) cols).
  { unfold cols. repeat (apply Forall_cons; split); try apply Forall_nil; cbn [snd];
      repeat (rewrite length_fmap || rewrite length_map || rewrite length_zip_with
              || rewrite length_range);
      rewrite ?L1, ?L2, ?L3, ?L4, ?Hlen; repeat apply Nat.min_glb_lt;
      first [exact Hi | exact I]. }
  assert (Hcell : forall c v x, (c, v) ∈ cols -> v !! i = Some x ->
                    fila_de_columnas cols i !! c = Some x).
  { intros c v x Hin Hx. eapply fila_de_columnas_lookup; eauto. }
  exists (fila_de_columnas cols i). split.
  { change (map (fila_de_columnas cols) (seq 0 365))
      with (fila_de_columnas cols <$> seq 0 365).
    rewrite list_lookup_fmap, lookup_seq_lt by exact Hi. reflexivity. }
  split.
  { eapply Hcell.
    - unfold cols. repeat first [apply list_elem_of_here | apply list_elem_of_further].
    - repeat (rewrite list_lookup_fmap || rewrite lookup_zip_with).
      rewrite Hd, Ha1. reflexivity. }
  split.
  { eapply Hcell.
    - unfold cols. repeat first [apply list_elem_of_here | apply list_elem_of_further].
    - repeat (rewrite list_lookup_fmap || rewrite lookup_zip_with).
      rewrite Hd, Ha2. reflexivity. }
  split.
  { eapply Hcell.
    - unfold cols. repeat first [apply list_elem_of_here | apply list_elem_of_further].
    - repeat (rewrite list_lookup_fmap || rewrite lookup_zip_with).
      rewrite Hd, Ha2. reflexivity. }
  eapply Hcell.
  - unfold cols. repeat first [apply list_elem_of_here | apply list_elem_of_further].
  - repeat (rewrite list_lookup_fmap || rewrite lookup_zip_with).
    rewrite Hd, Ha4. reflexivity.
Qed.

End ClimaNorte.

(** ** The annual simulation in the northern hemisphere *)

(** A configuration of moderate size: the dimensions between a millimetre
    and a kilometre, the water mass and the conductivity of the box between
    10^-3 and 10^6, a latent heat that is not zero, a daily variability that
    is not negative, and no number above 10^9 in absolute value among those
    the simulation reads.  Within these bounds no product or quotient of the
    simulation leaves the range of the double-precision numbers. *)
Definition config_moderada (cfg : params_config.Config) : Prop :=
  let dim := params_config.dimensiones cfg in
  let term := params_config.propiedades_termicas cfg in
  let agua := params_config.propiedades_agua cfg in
  let op := params_config.condiciones_operacion cfg in
  let sim := params_config.parametros_simulacion cfg in
  let k := default 205 (params_config.conductividades_termicas cfg
                          !! params_config.material_caja term) in
  (1 # 1000 <= params_config.largo dim /\ params_config.largo dim <= 1000)
  /\ (1 # 1000 <= params_config.ancho dim /\ params_config.ancho dim <= 1000)
  /\ (1 # 1000 <= params_config.altura dim /\ params_config.altura dim <= 1000)
  /\ (1 # 1000 <= params_config.masa_agua op /\ params_config.masa_agua op <= 1000000)
  /\ (1 # 1000 <= k /\ k <= 1000000)
  /\ ~ params_config.calor_latente_vaporizacion agua == 0
  /\ 0 <= params_config.variabilidad_diaria sim
  /\ Forall acotado
       [ params_config.absorptividad term; params_config.angulo_incidencia term;
         params_config.cp_agua agua; params_config.calor_latente_vaporizacion agua;
         params_config.temp_inicial agua; params_config.temp_ebullicion agua;
         params_config.horas_radiacion_util op; params_config.radiacion_base sim;
         params_config.amplitud_variacion sim; params_config.variabilidad_diaria sim ].

Section SimulacionNorte.
Context `{Numpy}.

(** The simulation is the climate model followed by the thermal model. *)
Lemma simular_desalinizador_anual_run (p : ParametrosDesalinizador) (s : estado) :
  simular_desalinizador_anual (Some p) s
  = (modelo_clima <- ModeloClimatico_init p ;;
     df_clima <- generar_datos_anuales modelo_clima ;;
     modelo_termico_sobre p df_clima) s.
Proof.
  unfold simular_desalinizador_anual, modelo_termico_sobre.
  unfold bind at 1. unfold ret at 1.
  unfold bind at 1. unfold bind at 5.
  destruct (ModeloClimatico_init p s) as [[m| |] s0]; [|reflexivity..].
  unfold bind at 1. unfold bind at 4.
  destruct (generar_datos_anuales m s0) as [[l1| |] s1]; [|reflexivity..].
  unfold bind at 1. unfold bind at 3.
  destruct (calcular_temperatura_sistema p l1 s1) as [[l2| |] s2]; [|reflexivity..].
  unfold bind at 1. unfold bind at 2.
  destruct (calcular_perdidas_termicas p l2 s2) as [[l3| |] s3]; [|reflexivity..].
  unfold bind, ret.
  destruct (calcular_masa_evaporada p l3 s3) as [[l4| |] s4]; reflexivity.
Qed.

Lemma ModeloClimatico_init_run (p : ParametrosDesalinizador) (s : estado) :
  ModeloClimatico_init p s
  = (Ok {| clima_params := p; clima_hemisferio := hemisferio p;
           clima_latitud := latitud p; clima_param_sim := param_sim p |},
     mk_estado (seed 42) (heap s)).
Proof. reflexivity. Qed.

(** The basic bounds of one day of the thermal model. *)
Lemma cadena_termica_cotas self R (r r3 : fila) :
  cadena_termica self R r r3 -> 0 <= masa_agua self ->
  exists m ef gor,
    r3 !! "produccion_litros" = Some (Num m)
    /\ r3 !! "eficiencia_termica" = Some (Num ef)
    /\ r3 !! "GOR" = Some (Num gor)
    /\ 0 <= m /\ m <= 0.25 * masa_agua self /\ 0 <= ef /\ 0 <= gor
    /\ forall c, c ∉ columnas_modelo_termico -> r3 !! c = r !! c.
Proof.
  intros Hchain Hmasa.
  destruct (cadena_termica_fila self R r r3 Hchain)
    as (amb & rad & v & tC & _ & _ & _ & _ & _ & _ & Hcells).
  cbv zeta in Hcells.
  destruct Hcells as (_ & _ & _ & _ & _ & Hprod & Hgor & Hef & Hsame).
  do 3 eexists. split; [exact Hprod|]. split; [exact Hef|]. split; [exact Hgor|].
  match goal with |- 0 <= dia_masa_evaporada (dia_masa_limitada _ ?a) /\ _ =>
    pose proof (dia_masa_limitada_le self a) as Hcap;
    destruct (dia_masa_evaporada_cases (dia_masa_limitada self a)) as [[Hlt ->]|[Hge ->]]
  end.
  - split; [lra|]. split; [lra|].
    split; [apply dia_razon_nonneg, dia_energia_util_nonneg|].
    split; [apply dia_razon_nonneg, dia_energia_evaporacion_nonneg|exact Hsame].
  - split; [lra|]. split; [exact Hcap|].
    split; [apply dia_razon_nonneg, dia_energia_util_nonneg|].
    split; [apply dia_razon_nonneg, dia_energia_evaporacion_nonneg|exact Hsame].
Qed.

(** The simulation in the northern hemisphere, once the parameters and the
    resistances are there: the climate table, then the table of the thermal
    model, whose rows are those of the climate taken through the thermal
    chain. *)
Lemma simulacion_norte_filas (cfg : params_config.Config) (s : estado)
    (p : ParametrosDesalinizador) (res : Resistencias) :
  ParametrosDesalinizador_init (Some cfg) = Ok p ->
  calcular_resistencias_totales p = Ok res ->
  ~ R_total res * 8.0 == 0 ->
  ~ calor_latente_vaporizacion p == 0 ->
  String.eqb (lower (hemisferio p)) "norte" = true ->
  0 <= params_config.variabilidad_diaria (param_sim p) ->
  let s0 := mk_estado (seed 42) (heap s) in
  let modelo := {| clima_params := p; clima_hemisferio := hemisferio p;
                   clima_latitud := latitud p; clima_param_sim := param_sim p |} in
  let l1 := fresh (dom (heap s0)) in
  exists (dfc d3 : DataFrame) g',
    let s1 := mk_estado g' (<[l1 := dfc]> (heap s0)) in
    let l2 := fresh (dom (heap s1)) in
    generar_datos_anuales modelo s0 = (Ok l1, s1)
    /\ simular_con_config cfg s = (Ok l2, con_tabla s1 l2 d3)
    /\ length dfc = 365%nat /\ length d3 = 365%nat
    /\ forall (i : nat) (d : datetime), fechas_anuales !! i = Some d ->
       exists r0 r3 : fila,
         dfc !! i = Some r0 /\ fila_clima d i r0
         /\ d3 !! i = Some r3 /\ cadena_termica p (R_total res * 8.0) r0 r3.
Proof.
  intros Hp Hres HR8 Hlatp' Hnorte Hvar s0 modelo l1.
  destruct (generar_datos_anuales_norte_filas modelo s0 Hnorte Hvar)
    as (dfc & g' & Hgen & Hlenc & Hrowsc).
  fold l1 in Hgen.
  assert (Hlenf : length fechas_anuales = 365%nat) by apply fechas_anuales_calendario.
  destruct (tabla_modelo_termico_total p res dfc Hres HR8 Hlatp') as [d3 Hd3].
  { apply Forall_forall. intros r Hr. apply list_elem_of_lookup in Hr as [i Hi].
    assert (Hi' : (i < length fechas_anuales)%nat).
    { rewrite Hlenf, <- Hlenc. eapply lookup_lt_Some; eauto. }
    apply lookup_lt_is_Some_2 in Hi' as [d Hd].
    destruct (Hrowsc i d Hd) as (r0 & Hr0 & Hfila).
    rewrite Hi in Hr0. injection Hr0 as <-.
    destruct Hfila as (rad & t & hum & v & _ & _ & _ & _ & Hrad & _ & _ & Ht & HtK
                       & _ & _ & _ & _ & Hv & _).
    exists (t + 273.15), rad, v, t.
    repeat split; apply num_Num; assumption. }
  exists dfc, d3, g'. cbv zeta.
  set (s1 := mk_estado g' (<[l1 := dfc]> (heap s0))) in *.
  assert (Hl1 : heap s1 !! l1 = Some dfc) by (simpl; apply lookup_insert_eq).
  split; [exact Hgen|]. split.
  { unfold simular_con_config. unfold bind at 1, lift. rewrite Hp.
    rewrite simular_desalinizador_anual_run.
    unfold bind at 1. rewrite ModeloClimatico_init_run.
    fold modelo. fold s0. unfold bind at 1. rewrite Hgen.
    destruct (modelo_termico_sobre_run p s1 l1 dfc Hl1) as [d0 Hrun].
    rewrite Hd3 in Hrun. exact Hrun. }
  destruct (tabla_modelo_termico_Ok p dfc d3 Hd3) as (res' & Hres' & Hlen3 & Hrows3).
  rewrite Hres in Hres'. injection Hres' as <-.
  split; [exact Hlenc|]. split; [rewrite Hlen3; exact Hlenc|].
  intros i d Hd.
  destruct (Hrowsc i d Hd) as (r0 & Hr0 & Hfila).
  assert (Hi3 : (i < length d3)%nat).
  { rewrite Hlen3. eapply lookup_lt_Some; eauto. }
  apply lookup_lt_is_Some_2 in Hi3 as [r3 Hr3].
  destruct (Hrows3 i r3 Hr3) as (r0' & Hr0' & Hchain).
  rewrite Hr0 in Hr0'. injection Hr0' as <-.
  exists r0, r3. auto.
Qed.

(** For a configuration of moderate size whose hemisphere is "norte" (in
    any case of the letters), the annual simulation returns a new table of
    365 records, one for each consecutive day from 1 January 2024, with the
    month and the day of its date, an irradiance between 100 and 950 W/m2,
    a production between 0 and a quarter of the water mass, and a
    non-negative thermal efficiency and GOR; no table that existed before
    is changed. *)
Theorem simulacion_norte_completa :
  forall (cfg : params_config.Config) (s : estado),
    let op := params_config.condiciones_operacion cfg in
    config_moderada cfg ->
    String.eqb (lower (params_config.hemisferio op)) "norte" = true ->
    exists (l : loc) (df : DataFrame) (s' : estado),
      simular_con_config cfg s = (Ok l, s')
      /\ heap s' !! l = Some df
      /\ (l ∉ dom (heap s))
      /\ (forall l0, l0 ∈ dom (heap s) -> heap s' !! l0 = heap s !! l0)
      /\ length df = 365%nat
      /\ forall (i : nat) (d : datetime), fechas_anuales !! i = Some d ->
         exists (r : fila) rad m ef gor,
           df !! i = Some r
           /\ r !! "fecha" = Some (Fecha d)
           /\ r !! "mes" = Some (Ent (month d))
           /\ r !! "dia" = Some (Ent (day d))
           /\ r !! "radiacion_Wm2" = Some (Num rad) /\ 100 <= rad /\ rad <= 950
           /\ r !! "produccion_litros" = Some (Num m)
           /\ 0 <= m /\ m <= 0.25 * params_config.masa_agua op
           /\ r !! "eficiencia_termica" = Some (Num ef) /\ 0 <= ef
           /\ r !! "GOR" = Some (Num gor) /\ 0 <= gor.
Proof.
  intros cfg s op Hmod Hnorte.
  unfold config_moderada in Hmod. cbv zeta in Hmod. fold op in Hmod.
  destruct Hmod as ([Hl _] & [Ha _] & [Hh _] & [Hm _] & [Hk _] & Hlat & Hvar & _).
  set (dim := params_config.dimensiones cfg) in *.
  set (l := params_config.largo dim) in *. set (a := params_config.ancho dim) in *.
  set (h := params_config.altura dim) in *.
  set (k := default 205 _) in *.
  assert (Hlp : 0 < l) by lra. assert (Hap : 0 < a) by lra.
  assert (Hhp : 0 < h) by lra. assert (Hkp : 0 < k) by lra.
  assert (Hparedes : 0 < 2 * (l + a) * h) by nra.
  assert (Hla : 0 < l * a) by nra.
  destruct (init_divisores_no_nulos cfg) as (p & Hp & _).
  { unfold divisores_init. cbv zeta. fold dim l a h op. fold k.
    repeat constructor; first [nra | lra]. }
  pose proof (init_campos cfg p Hp) as Hcampos. cbv zeta in Hcampos.
  fold dim l a h op in Hcampos. fold k in Hcampos.
  destruct Hcampos as (_ & _ & _ & _ & Htapa & Hpar & Htotal & _ & _ & _ & _ & _ & _ & _
                       & HRc & HRa & Hhc & _ & Hlatp & _ & _ & Hmasa & _ & _ & Hhem & _
                       & _ & Hps & _).
  destruct (calcular_resistencias_totales_positivas p)
    as (res & Hres & HRcv & HRt).
  { rewrite Htapa. exact Hla. }
  { rewrite Htotal. lra. }
  { rewrite Hhc. reflexivity. }
  { rewrite HRc, HRa.
    assert (0 < 0.0025 / (k * (2 * (l + a) * h)))
      by (apply Qlt_shift_div_l; [nra|lra]).
    assert (0 < 0.02 / (0.04 * (2 * (l + a) * h)))
      by (apply Qlt_shift_div_l; [nra|lra]).
    lra. }
  assert (HR8 : ~ R_total res * 8.0 == 0) by lra.
  assert (Hlatp' : ~ calor_latente_vaporizacion p == 0) by (rewrite Hlatp; exact Hlat).
  destruct (simulacion_norte_filas cfg s p res Hp Hres HR8 Hlatp')
    as (dfc & d3 & g' & Hgen & Hsim & Hlenc & Hlen3 & Hrows).
  { rewrite Hhem. exact Hnorte. }
  { rewrite Hps. exact Hvar. }
  cbv zeta in Hsim, Hgen.
  set (s0 := mk_estado (seed 42) (heap s)) in *.
  set (l1 := fresh (dom (heap s0))) in *.
  set (s1 := mk_estado g' (<[l1 := dfc]> (heap s0))) in *.
  set (l2 := fresh (dom (heap s1))) in *.
  exists l2, d3, (con_tabla s1 l2 d3).
  split; [exact Hsim|].
  split; [simpl; apply lookup_insert_eq|].
  assert (Hsub : forall l0, l0 ∈ dom (heap s) -> l0 ∈ dom (heap s1)).
  { intros l0 Hl0. simpl. rewrite dom_insert. apply elem_of_union_r. exact Hl0. }
  assert (Hnew2 : l2 ∉ dom (heap s)).
  { intros Hin. apply (is_fresh (dom (heap s1))). apply Hsub. exact Hin. }
  assert (Hnew1 : l1 ∉ dom (heap s)) by (apply (is_fresh (dom (heap s0)))).
  split; [exact Hnew2|].
  split.
  { intros l0 Hl0. simpl.
    rewrite lookup_insert_ne by (intros E; apply Hnew2; rewrite E; exact Hl0).
    rewrite lookup_insert_ne by (intros E; apply Hnew1; rewrite E; exact Hl0).
    reflexivity. }
  split; [exact Hlen3|].
  intros i d Hd.
  destruct (Hrows i d Hd) as (r0 & r3 & Hr0 & Hfila & Hr3 & Hchain).
  destruct (cadena_termica_cotas p _ r0 r3 Hchain)
    as (m & ef & gor & Hprod & Hef & Hgor & Hm0 & Hm1 & Hef0 & Hgor0 & Hsame).
  { rewrite Hmasa. lra. }
  destruct Hfila as (rad & t & hum & v & Hfecha & Hmes & Hdia & _ & Hrad & Hr1 & Hr2 & _).
  exists r3, rad, m, ef, gor.
  split; [exact Hr3|].
  split; [rewrite Hsame by no_esta; exact Hfecha|].
  split; [rewrite Hsame by no_esta; exact Hmes|].
  split; [rewrite Hsame by no_esta; exact Hdia|].
  split; [rewrite Hsame by no_esta; exact Hrad|].
  split; [exact Hr1|]. split; [exact Hr2|].
  split; [exact Hprod|]. split; [exact Hm0|].
  split; [rewrite <- Hmasa; exact Hm1|].
  auto.
Qed.

End SimulacionNorte.

Definition estado_vacio : @estado numpy_ejemplo := mk_estado (seed 0) ∅.

Lemma simulacion_norte_completa_witness :
  exists (l : loc) (df : DataFrame) (s' : estado),
    simular_con_config params_config.cargar_parametros estado_vacio = (Ok l, s')
    /\ heap s' !! l = Some df
    /\ (l ∉ dom (heap estado_vacio))
    /\ (forall l0, l0 ∈ dom (heap estado_vacio) -> heap s' !! l0 = heap estado_vacio !! l0)
    /\ length df = 365%nat
    /\ forall (i : nat) (d : datetime), fechas_anuales !! i = Some d ->
       exists (r : fila) rad m ef gor,
         df !! i = Some r
         /\ r !! "fecha" = Some (Fecha d)
         /\ r !! "mes" = Some (Ent (month d))
         /\ r !! "dia" = Some (Ent (day d))
         /\ r !! "radiacion_Wm2" = Some (Num rad) /\ 100 <= rad /\ rad <= 950
         /\ r !! "produccion_litros" = Some (Num m)
         /\ 0 <= m
         /\ m <= 0.25 * params_config.masa_agua
                          (params_config.condiciones_operacion params_config.cargar_parametros)
         /\ r !! "eficiencia_termica" = Some (Num ef) /\ 0 <= ef
         /\ r !! "GOR" = Some (Num gor) /\ 0 <= gor.
Proof.
  apply (simulacion_norte_completa (H := numpy_ejemplo)
           params_config.cargar_parametros estado_vacio).
  - unfold config_moderada. cbv zeta.
    do 5 (split; [split; decidir_Q|]).
    split; [intros E; apply Qeq_bool_iff in E; vm_compute in E; discriminate|].
    split; [decidir_Q|].
    repeat (apply Forall_cons; split; [split; decidir_Q|]). apply Forall_nil_2.
  - vm_compute; reflexivity.
Defined.

(** ** Days of the simulated year *)

Section DiaSimulado.
Context `{Numpy}.

(** One day of the simulated year in the northern hemisphere, from the
    draws of the generator: its date, irradiance and temperature, and what
    the thermal model leaves in its row. *)
Lemma simulacion_norte_dia (cfg : params_config.Config) (s : estado)
    (p : ParametrosDesalinizador) (res : Resistencias)
    (w1 w2 w3 w4 : list Q) (h1 h2 h3 h4 : rng) (i : nat) (d : datetime) (a1 a2 a4 : Q) :
  ParametrosDesalinizador_init (Some cfg) = Ok p ->
  calcular_resistencias_totales p = Ok res ->
  ~ R_total res * 8.0 == 0 ->
  ~ calor_latente_vaporizacion p == 0 ->
  String.eqb (lower (hemisferio p)) "norte" = true ->
  0 <= params_config.variabilidad_diaria (param_sim p) ->
  normal_draws 0 (params_config.variabilidad_diaria (param_sim p)) 365 (seed 42)
  = (w1, h1) ->
  normal_draws 0 3 365 h1 = (w2, h2) ->
  normal_draws 0 10 365 h2 = (w3, h3) ->
  normal_draws 0 0.8 365 h3 = (w4, h4) ->
  fechas_anuales !! i = Some d ->
  w1 !! i = Some a1 -> w2 !! i = Some a2 -> w4 !! i = Some a4 ->
  let rad := np_clip (params_config.radiacion_base (param_sim p)
                      + params_config.amplitud_variacion (param_sim p)
                        * np_cos (fase_norte d) + a1) 100 950 in
  let tC := 15 - 12 * np_cos (fase_norte d) + a2 in
  let amb := tC + 273.15 in
  let v := np_maximum 0.5 (2.0 + 1.0 * np_sin (fase_norte d) + a4) in
  let agua := dia_temp_agua amb rad in
  let vidrio := dia_temp_vidrio amb rad in
  let perdida := dia_perdida_total p (R_total res * 8.0) v vidrio agua amb in
  let solar := dia_energia_solar p rad in
  let util := dia_energia_util solar (dia_energia_perdida p perdida) in
  let evap := dia_energia_evaporacion util (dia_energia_calentamiento p agua) in
  exists (l : loc) (s' : estado) (df : DataFrame) (r : fila),
    simular_con_config cfg s = (Ok l, s')
    /\ heap s' !! l = Some df /\ length df = 365%nat
    /\ df !! i = Some r
    /\ r !! "fecha" = Some (Fecha d)
    /\ r !! "radiacion_Wm2" = Some (Num rad)
    /\ r !! "temp_ambiente_C" = Some (Num tC)
    /\ r !! "energia_evaporacion" = Some (Num evap)
    /\ r !! "masa_evaporada"
       = Some (Num (dia_masa_evaporada
                      (dia_masa_limitada p (dia_masa_aplicada p evap rad tC))))
    /\ r !! "produccion_litros"
       = Some (Num (dia_masa_evaporada
                      (dia_masa_limitada p (dia_masa_aplicada p evap rad tC))))
    /\ r !! "GOR" = Some (Num (dia_razon solar evap))
    /\ r !! "eficiencia_termica" = Some (Num (dia_razon solar util)).
Proof.
  intros Hp Hres HR8 Hlat Hnorte Hvar Hz1 Hz2 Hz3 Hz4 Hd Ha1 Ha2 Ha4.
  destruct (simulacion_norte_filas cfg s p res Hp Hres HR8 Hlat Hnorte Hvar)
    as (dfc & d3 & g' & Hgen & Hsim & _ & Hlen3 & Hrows).
  cbv zeta in Hgen, Hsim.
  set (s0 := mk_estado (seed 42) (heap s)) in *.
  set (modelo := {| clima_params := p; clima_hemisferio := hemisferio p;
                    clima_latitud := latitud p; clima_param_sim := param_sim p |}) in *.
  destruct (generar_datos_anuales_norte_valores modelo s0 w1 w2 w3 w4 h1 h2 h3 h4
              Hnorte Hvar Hz1 Hz2 Hz3 Hz4) as (df' & g'' & Hgen' & Hvals).
  rewrite Hgen in Hgen'. injection Hgen' as _ Hheap.
  assert (Hdf : dfc = df').
  { apply (f_equal (fun m => m !! fresh (dom (heap s0)))) in Hheap.
    rewrite !lookup_insert_eq in Hheap. congruence. }
  subst df'.
  destruct (Hrows i d Hd) as (r0 & r3 & Hr0 & Hfila & Hr3 & Hchain).
  destruct (Hvals i d a1 a2 a4 Hd Ha1 Ha2 Ha4) as (r0' & Hr0' & Hrad & HtC & HtK & Hv).
  rewrite Hr0 in Hr0'. injection Hr0' as <-.
  assert (Hmasa : exists m, r3 !! "masa_evaporada" = Some (Num m)
                            /\ r3 !! "produccion_litros" = Some (Num m)).
  { destruct Hchain as (r1 & r1' & r2 & _ & _ & _ & E4).
    destruct (fila_masa_evaporada p r2 r3 E4)
      as (rad' & perdida' & agua' & tC' & _ & _ & _ & _ & _ & Hcells').
    cbv zeta in Hcells'.
    destruct Hcells' as (_ & _ & _ & _ & _ & Hm' & Hp' & _).
    eexists. split; [exact Hm'|exact Hp']. }
  destruct Hmasa as (m & Hm & Hpm).
  destruct (cadena_termica_fila p _ r0 r3 Hchain)
    as (amb & rad & v & tC & Hamb & Hradn & Hvn & HtCn & _ & _ & Hcells).
  rewrite (num_Num _ _ _ HtK) in Hamb. injection Hamb as <-.
  rewrite (num_Num _ _ _ Hrad) in Hradn. injection Hradn as <-.
  rewrite (num_Num _ _ _ Hv) in Hvn. injection Hvn as <-.
  rewrite (num_Num _ _ _ HtC) in HtCn. injection HtCn as <-.
  cbv zeta in Hcells.
  destruct Hcells as (_ & _ & _ & _ & Hevap & Hprod & Hgor & Hef & Hsame).
  do 4 eexists. split; [exact Hsim|].
  split; [simpl; apply lookup_insert_eq|]. split; [exact Hlen3|].
  split; [exact Hr3|].
  destruct Hfila as (? & ? & ? & ? & Hfecha & _).
  split; [rewrite Hsame by no_esta; exact Hfecha|].
  split; [rewrite Hsame by no_esta; exact Hrad|].
  split; [rewrite Hsame by no_esta; exact HtC|].
  split; [exact Hevap|].
  split; [rewrite Hpm in Hprod; injection Hprod as <-; exact Hm|].
  split; [exact Hprod|].
  split; [exact Hgor|exact Hef].
Qed.

End DiaSimulado.

(** Feed water at 360 K, below the boiling temperature of 368 K, and 30 kg
    of it. *)
Definition config_agua_caliente : params_config.Config :=
  {| params_config.dimensiones := params_config.DIMENSIONES;
     params_config.propiedades_termicas := params_config.PROPIEDADES_TERMICAS;
     params_config.propiedades_agua :=
       {| params_config.cp_agua := 4186;
          params_config.calor_latente_vaporizacion := 2.26e6;
          params_config.temp_inicial := 360;
          params_config.temp_ebullicion := 368 |};
     params_config.conductividades_termicas := params_config.CONDUCTIVIDADES_TERMICAS;
     params_config.condiciones_operacion :=
       {| params_config.horas_radiacion_util := 6; params_config.masa_agua := 30;
          params_config.hemisferio := "norte";
          params_config.ubicacion_latitud := 40.0 |};
     params_config.parametros_simulacion := params_config.PARAMETROS_SIMULACION;
     params_config.opciones_visualizacion := params_config.OPCIONES_VISUALIZACION |}.

(** The default box with the height -0.30 m, which the constructor accepts:
    the walls count as a negative area. *)
Definition config_altura_negativa : params_config.Config :=
  {| params_config.dimensiones :=
       {| params_config.largo := 0.45; params_config.ancho := 0.25;
          params_config.altura := -0.30 |};
     params_config.propiedades_termicas := params_config.PROPIEDADES_TERMICAS;
     params_config.propiedades_agua := params_config.PROPIEDADES_AGUA;
     params_config.conductividades_termicas := params_config.CONDUCTIVIDADES_TERMICAS;
     params_config.condiciones_operacion := params_config.CONDICIONES_OPERACION;
     params_config.parametros_simulacion := params_config.PARAMETROS_SIMULACION;
     params_config.opciones_visualizacion := params_config.OPCIONES_VISUALIZACION |}.

Definition params_de (cfg : params_config.Config) : ParametrosDesalinizador :=
  match ParametrosDesalinizador_init (H := numpy_ejemplo) (Some cfg) with
  | Ok p => p
  | _ => params_ejemplo
  end.

Definition params_agua_caliente : ParametrosDesalinizador :=
  Eval vm_compute in params_de config_agua_caliente.

Definition params_altura_negativa : ParametrosDesalinizador :=
  Eval vm_compute in params_de config_altura_negativa.

Definition resistencias_de (p : ParametrosDesalinizador) : Resistencias :=
  match calcular_resistencias_totales p with
  | Ok res => res
  | _ => {| R_paredes := 0; R_vidrio := 0; R_conv_ext := 0; R_total := 0 |}
  end.

Definition resistencias_agua_caliente : Resistencias :=
  Eval vm_compute in resistencias_de params_agua_caliente.

Definition resistencias_altura_negativa : Resistencias :=
  Eval vm_compute in resistencias_de params_altura_negativa.

(** The draws of the example generator for the year, after [seed 42]: the
    irradiance with the daily variability of the configuration, then the
    temperature, the humidity and the wind. *)
Definition sorteo_radiacion (variabilidad : Q) : list Q * nat :=
  normal_ejemplo 0 variabilidad 365 42.
Definition sorteo_temperatura : list Q * nat := normal_ejemplo 0 3 365 407.
Definition sorteo_humedad : list Q * nat := normal_ejemplo 0 10 365 772.
Definition sorteo_viento : list Q * nat := normal_ejemplo 0 0.8 365 1137.

Definition a2_enero : Q := Eval vm_compute in default 0 (fst sorteo_temperatura !! 0%nat).
Definition a4_enero : Q := Eval vm_compute in default 0 (fst sorteo_viento !! 0%nat).

(** What the simulation leaves in the row of 1 January 2024, in the year
    the example generator gives, for parameters [p] and the first draw [a1]
    of the irradiance. *)
Record DiaSimulado : Type := {
  ds_radiacion : Q;
  ds_temp_ambiente_C : Q;
  ds_energia_evaporacion : Q;
  ds_produccion : Q;
  ds_GOR : Q;
  ds_eficiencia_termica : Q
}.

Definition primero_de_enero (p : ParametrosDesalinizador) (res : Resistencias) (a1 : Q)
  : DiaSimulado :=
  let d := mk_datetime 2024 1 1 in
  let rad := np_clip (params_config.radiacion_base (param_sim p)
                      + params_config.amplitud_variacion (param_sim p)
                        * np_cos (fase_norte d) + a1) 100 950 in
  let tC := 15 - 12 * np_cos (fase_norte d) + a2_enero in
  let amb := tC + 273.15 in
  let v := np_maximum 0.5 (2.0 + 1.0 * np_sin (fase_norte d) + a4_enero) in
  let agua := dia_temp_agua amb rad in
  let vidrio := dia_temp_vidrio amb rad in
  let perdida := dia_perdida_total p (R_total res * 8.0) v vidrio agua amb in
  let solar := dia_energia_solar p rad in
  let util := dia_energia_util solar (dia_energia_perdida p perdida) in
  let evap := dia_energia_evaporacion util (dia_energia_calentamiento p agua) in
  {| ds_radiacion := rad; ds_temp_ambiente_C := tC;
     ds_energia_evaporacion := evap;
     ds_produccion :=
       dia_masa_evaporada (dia_masa_limitada p (dia_masa_aplicada p evap rad tC));
     ds_GOR := dia_razon solar evap;
     ds_eficiencia_termica := dia_razon solar util |}.

Lemma simulacion_primero_de_enero (cfg : params_config.Config)
    (p : ParametrosDesalinizador) (res : Resistencias) (a1 : Q) :
  ParametrosDesalinizador_init (H := numpy_ejemplo) (Some cfg) = Ok p ->
  calcular_resistencias_totales p = Ok res ->
  ~ R_total res * 8.0 == 0 ->
  ~ calor_latente_vaporizacion p == 0 ->
  String.eqb (lower (hemisferio p)) "norte" = true ->
  0 <= params_config.variabilidad_diaria (param_sim p) ->
  fst (sorteo_radiacion (params_config.variabilidad_diaria (param_sim p))) !! 0%nat
  = Some a1 ->
  exists (l : loc) (s' : estado) (df : DataFrame) (r : fila),
    simular_con_config cfg estado_vacio = (Ok l, s')
    /\ heap s' !! l = Some df /\ length df = 365%nat
    /\ df !! 0%nat = Some r
    /\ r !! "fecha" = Some (Fecha (mk_datetime 2024 1 1))
    /\ r !! "radiacion_Wm2" = Some (Num (ds_radiacion (primero_de_enero p res a1)))
    /\ r !! "temp_ambiente_C" = Some (Num (ds_temp_ambiente_C (primero_de_enero p res a1)))
    /\ r !! "energia_evaporacion"
       = Some (Num (ds_energia_evaporacion (primero_de_enero p res a1)))
    /\ r !! "masa_evaporada" = Some (Num (ds_produccion (primero_de_enero p res a1)))
    /\ r !! "produccion_litros" = Some (Num (ds_produccion (primero_de_enero p res a1)))
    /\ r !! "GOR" = Some (Num (ds_GOR (primero_de_enero p res a1)))
    /\ r !! "eficiencia_termica"
       = Some (Num (ds_eficiencia_termica (primero_de_enero p res a1))).
Proof.
  intros Hp Hres HR8 Hlat Hnorte Hvar Ha1.
  apply (simulacion_norte_dia (H := numpy_ejemplo) cfg estado_vacio p res
           (fst (sorteo_radiacion (params_config.variabilidad_diaria (param_sim p))))
           (fst sorteo_temperatura) (fst sorteo_humedad) (fst sorteo_viento)
           407%nat 772%nat 1137%nat 1502%nat 0%nat (mk_datetime 2024 1 1)
           a1 a2_enero a4_enero Hp Hres HR8 Hlat Hnorte Hvar).
  - reflexivity.
  - reflexivity.
  - reflexivity.
  - reflexivity.
  - vm_compute. reflexivity.
  - exact Ha1.
  - vm_compute. reflexivity.
  - vm_compute. reflexivity.
Qed.

(** Every day at 800 W/m2, the value the comments on the efficiency
    factors leave to the middle band, and half a kilogram of water. *)
Definition config_umbral : params_config.Config :=
  {| params_config.dimensiones := params_config.DIMENSIONES;
     params_config.propiedades_termicas := params_config.PROPIEDADES_TERMICAS;
     params_config.propiedades_agua := params_config.PROPIEDADES_AGUA;
     params_config.conductividades_termicas := params_config.CONDUCTIVIDADES_TERMICAS;
     params_config.condiciones_operacion :=
       {| params_config.horas_radiacion_util := 6; params_config.masa_agua := 1;
          params_config.hemisferio := "norte";
          params_config.ubicacion_latitud := 40.0 |};
     params_config.parametros_simulacion :=
       {| params_config.radiacion_base := 800; params_config.amplitud_variacion := 0;
          params_config.variabilidad_diaria := 0;
          params_config.factor_eficiencia_alta := 0.80;
          params_config.factor_eficiencia_media := 0.70;
          params_config.factor_eficiencia_baja := 0.55;
          params_config.factor_eficiencia_minima := 0.35 |};
     params_config.opciones_visualizacion := params_config.OPCIONES_VISUALIZACION |}.

Definition params_umbral : ParametrosDesalinizador :=
  Eval vm_compute in params_de config_umbral.

Definition resistencias_umbral : Resistencias :=
  Eval vm_compute in resistencias_de params_umbral.

(** C9, at the failing input.  In the simulated year of [config_umbral]
    every day has the base irradiance, and 1 January has exactly 800 W/m2.
    Its evaporated mass (and its production, equal to it) is the
    evaporation energy over the latent heat times 0.85 times the
    temperature factor [clip((C + 10) / 40, 0.5, 1.2)]: the code applies
    the factor of the high band, where the ranges of the comment on
    [factores_eficiencia] (above 800 W/m2 for 0.85, from 600 to 800 W/m2
    for 0.65) give the day the factor 0.65. *)
Theorem eficiencia_en_el_umbral_simulado :
  exists (l : loc) (s' : estado) (df : DataFrame) (r : fila) rad tC evap m,
    simular_con_config config_umbral estado_vacio = (Ok l, s')
    /\ heap s' !! l = Some df /\ length df = 365%nat
    /\ df !! 0%nat = Some r
    /\ r !! "fecha" = Some (Fecha (mk_datetime 2024 1 1))
    /\ r !! "radiacion_Wm2" = Some (Num rad) /\ rad == 800
    /\ r !! "temp_ambiente_C" = Some (Num tC)
    /\ r !! "energia_evaporacion" = Some (Num evap)
    /\ r !! "masa_evaporada" = Some (Num m)
    /\ r !! "produccion_litros" = Some (Num m)
    /\ m == evap / calor_latente_vaporizacion params_umbral
            * (0.85 * np_clip ((tC + 10) / 40) 0.5 1.2)
    /\ ~ m == evap / calor_latente_vaporizacion params_umbral
              * (0.65 * np_clip ((tC + 10) / 40) 0.5 1.2).
Proof.
  destruct (simulacion_primero_de_enero config_umbral params_umbral resistencias_umbral 0)
    as (l & s' & df & r & Hsim & Hdf & Hlen & Hr & Hfecha & Hrad & HtC & Hevap
        & Hmasa & Hprod & _).
  - vm_compute. reflexivity.
  - vm_compute. reflexivity.
  - intros E. apply Qeq_bool_iff in E. vm_compute in E. discriminate.
  - intros E. apply Qeq_bool_iff in E. vm_compute in E. discriminate.
  - reflexivity.
  - apply Qle_bool_iff. reflexivity.
  - vm_compute. reflexivity.
  - do 8 eexists.
    do 5 (split; [eassumption|]). split; [exact Hrad|]. split; [decidir_Q|].
    split; [exact HtC|]. split; [exact Hevap|]. split; [exact Hmasa|].
    split; [exact Hprod|]. split; [decidir_Q|].
    intros E. apply Qeq_bool_iff in E. vm_compute in E. discriminate.
Qed.


Section ClimaTeoremas.
Context `{Numpy}.


(** A negative daily variability is refused by numpy's generator: the
    simulation raises [ValueError] in either hemisphere, before any table is
    created; only the generator has been reseeded. *)
Theorem variabilidad_negativa_ValueError :
  forall (p : ParametrosDesalinizador) (s : estado),
    params_config.variabilidad_diaria (param_sim p) < 0 ->
    simular_desalinizador_anual (Some p) s
    = (Raise ValueError, mk_estado (seed 42) (heap s)).
Proof.
  intros p s Hvar. rewrite simular_desalinizador_anual_run.
  unfold bind at 1. rewrite ModeloClimatico_init_run.
  unfold generar_datos_anuales. cbv zeta.
  unfold bind at 1. unfold np_random_normal. cbn [clima_param_sim].
  apply Qltb_true in Hvar. rewrite Hvar. reflexivity.
Qed.

End ClimaTeoremas.

Definition modelo_clima_ejemplo : ModeloClimatico :=
  {| clima_params := params_ejemplo; clima_hemisferio := "Norte";
     clima_latitud := latitud params_ejemplo;
     clima_param_sim := param_sim params_ejemplo |}.


(** The default parameters with a negative daily variability. *)
Definition params_variabilidad_negativa : ParametrosDesalinizador :=
  Eval vm_compute in
    (match ParametrosDesalinizador_init (H := numpy_ejemplo)
             (Some {| params_config.dimensiones := params_config.DIMENSIONES;
                      params_config.propiedades_termicas := params_config.PROPIEDADES_TERMICAS;
                      params_config.propiedades_agua := params_config.PROPIEDADES_AGUA;
                      params_config.conductividades_termicas :=
                        params_config.CONDUCTIVIDADES_TERMICAS;
                      params_config.condiciones_operacion :=
                        params_config.CONDICIONES_OPERACION;
                      params_config.parametros_simulacion :=
                        {| params_config.radiacion_base := 500;
                           params_config.amplitud_variacion := 350;
                           params_config.variabilidad_diaria := -100;
                           params_config.factor_eficiencia_alta := 0.80;
                           params_config.factor_eficiencia_media := 0.70;
                           params_config.factor_eficiencia_baja := 0.55;
                           params_config.factor_eficiencia_minima := 0.35 |};
                      params_config.opciones_visualizacion :=
                        params_config.OPCIONES_VISUALIZACION |}) as r0
           return (match r0 with Ok _ => ParametrosDesalinizador | _ => unit end) with
     | Ok p => p
     | _ => tt
     end).

Lemma variabilidad_negativa_ValueError_witness :
  simular_desalinizador_anual (Some params_variabilidad_negativa) estado_vacio
  = (Raise ValueError, mk_estado (seed 42) (heap estado_vacio)).
Proof.
  apply (variabilidad_negativa_ValueError (H := numpy_ejemplo)
           params_variabilidad_negativa estado_vacio).
  vm_compute; reflexivity.
Defined.

(** ** What the simulation does not read *)

(** Two configurations that agree on everything but the efficiency factors
    of [parametros_simulacion], the latitude and the display options. *)
Definition misma_fisica (c1 c2 : params_config.Config) : Prop :=
  params_config.dimensiones c1 = params_config.dimensiones c2
  /\ params_config.propiedades_termicas c1 = params_config.propiedades_termicas c2
  /\ params_config.propiedades_agua c1 = params_config.propiedades_agua c2
  /\ params_config.conductividades_termicas c1 = params_config.conductividades_termicas c2
  /\ params_config.horas_radiacion_util (params_config.condiciones_operacion c1)
     = params_config.horas_radiacion_util (params_config.condiciones_operacion c2)
  /\ params_config.masa_agua (params_config.condiciones_operacion c1)
     = params_config.masa_agua (params_config.condiciones_operacion c2)
  /\ params_config.hemisferio (params_config.condiciones_operacion c1)
     = params_config.hemisferio (params_config.condiciones_operacion c2)
  /\ params_config.radiacion_base (params_config.parametros_simulacion c1)
     = params_config.radiacion_base (params_config.parametros_simulacion c2)
  /\ params_config.amplitud_variacion (params_config.parametros_simulacion c1)
     = params_config.amplitud_variacion (params_config.parametros_simulacion c2)
  /\ params_config.variabilidad_diaria (params_config.parametros_simulacion c1)
     = params_config.variabilidad_diaria (params_config.parametros_simulacion c2).

Section SinEfecto.
Context `{Numpy}.

Lemma init_casos (cfg : params_config.Config) :
  (exists p, ParametrosDesalinizador_init (Some cfg) = Ok p)
  \/ ParametrosDesalinizador_init (Some cfg) = Raise ZeroDivisionError.
Proof.
  unfold ParametrosDesalinizador_init, calcular_R_conduccion, calcular_R_aislamiento,
    py_div. cbv zeta.
  repeat match goal with
  | |- context [if Qeq_bool ?d 0 then _ else _] =>
      destruct (Qeq_bool d 0); cbn [mbind resultado_bind]; [right; reflexivity|]
  end.
  left. eauto.
Qed.

Lemma generar_datos_anuales_ext (m1 m2 : ModeloClimatico) :
  clima_hemisferio m1 = clima_hemisferio m2 ->
  params_config.radiacion_base (clima_param_sim m1)
  = params_config.radiacion_base (clima_param_sim m2) ->
  params_config.amplitud_variacion (clima_param_sim m1)
  = params_config.amplitud_variacion (clima_param_sim m2) ->
  params_config.variabilidad_diaria (clima_param_sim m1)
  = params_config.variabilidad_diaria (clima_param_sim m2) ->
  generar_datos_anuales m1 = generar_datos_anuales m2.
Proof.
  intros Hh Hb Ha Hv. unfold generar_datos_anuales. rewrite Hh, Hb, Ha, Hv. reflexivity.
Qed.

Lemma modelo_termico_sobre_ext (p1 p2 : ParametrosDesalinizador) :
  area_tapa p1 = area_tapa p2 -> area_paredes p1 = area_paredes p2 ->
  area_total p1 = area_total p2 -> area_captacion p1 = area_captacion p2 ->
  emisividad p1 = emisividad p2 -> sigma p1 = sigma p2 ->
  R_conduccion p1 = R_conduccion p2 -> R_aislamiento p1 = R_aislamiento p2 ->
  h_conveccion_natural p1 = h_conveccion_natural p2 ->
  cos_angulo p1 = cos_angulo p2 -> absorptividad p1 = absorptividad p2 ->
  segundos_radiacion_util p1 = segundos_radiacion_util p2 ->
  masa_agua p1 = masa_agua p2 -> cp_agua p1 = cp_agua p2 ->
  temp_inicial p1 = temp_inicial p2 ->
  calor_latente_vaporizacion p1 = calor_latente_vaporizacion p2 ->
  factores_eficiencia p1 = factores_eficiencia p2 ->
  modelo_termico_sobre p1 = modelo_termico_sobre p2.
Proof.
  intros E1 E2 E3 E4 E5 E6 E7 E8 E9 E10 E11 E12 E13 E14 E15 E16 E17.
  unfold modelo_termico_sobre, calcular_temperatura_sistema, calcular_perdidas_termicas,
    calcular_masa_evaporada, calcular_resistencias_totales, eficiencia_sistema,
    eficiencia_banda.
  rewrite E1, E2, E3, E4, E5, E6, E7, E8, E9, E10, E11, E12, E13, E14, E15, E16, E17.
  reflexivity.
Qed.

(** The efficiency factors of the configuration, the latitude and the
    display options have no effect on the simulation: two configurations
    that differ in nothing else give the same outcome and the same final
    state, from any state. *)
Theorem configuracion_sin_efecto :
  forall (c1 c2 : params_config.Config) (s : estado),
    misma_fisica c1 c2 ->
    simular_con_config c1 s = simular_con_config c2 s.
Proof.
  intros c1 c2 s (Hd & Ht & Ha & Hc & Hh & Hm & Hhem & Hrb & Hav & Hvd).
  assert (Hdiv : divisores_init c1 = divisores_init c2).
  { unfold divisores_init. rewrite Hd, Ht, Hc, Hm. reflexivity. }
  unfold simular_con_config. unfold bind, lift.
  destruct (init_casos c1) as [[p1 Hp1]|Hr1], (init_casos c2) as [[p2 Hp2]|Hr2].
  - rewrite Hp1, Hp2.
    pose proof (init_campos c1 p1 Hp1) as F1. pose proof (init_campos c2 p2 Hp2) as F2.
    cbv zeta in F1, F2.
    destruct F1 as (_ & _ & A1 & A2 & A3 & A4 & A5 & A6 & A7 & A8 & A9 & A10 & A11 & A12
                    & A13 & A14 & A15 & A16 & A17 & A18 & A19 & A20 & A21 & A22 & A23
                    & A24 & A25 & A26 & A27).
    destruct F2 as (_ & _ & B1 & B2 & B3 & B4 & B5 & B6 & B7 & B8 & B9 & B10 & B11 & B12
                    & B13 & B14 & B15 & B16 & B17 & B18 & B19 & B20 & B21 & B22 & B23
                    & B24 & B25 & B26 & B27).
    rewrite !simular_desalinizador_anual_run.
    unfold bind at 1. unfold bind at 2. rewrite !ModeloClimatico_init_run.
    rewrite (generar_datos_anuales_ext
               {| clima_params := p1; clima_hemisferio := hemisferio p1;
                  clima_latitud := latitud p1; clima_param_sim := param_sim p1 |}
               {| clima_params := p2; clima_hemisferio := hemisferio p2;
                  clima_latitud := latitud p2; clima_param_sim := param_sim p2 |})
      by (cbn [clima_hemisferio clima_param_sim]; congruence).
    rewrite (modelo_termico_sobre_ext p1 p2) by congruence.
    reflexivity.
  - exfalso. pose proof (init_campos c1 p1 Hp1) as F1. cbv zeta in F1.
    destruct F1 as (Hnz & _). rewrite Hdiv in Hnz.
    destruct (init_divisores_no_nulos c2 Hnz) as (p2 & Hp2 & _). congruence.
  - exfalso. pose proof (init_campos c2 p2 Hp2) as F2. cbv zeta in F2.
    destruct F2 as (Hnz & _). rewrite <- Hdiv in Hnz.
    destruct (init_divisores_no_nulos c1 Hnz) as (p1 & Hp1 & _). congruence.
  - rewrite Hr1, Hr2. reflexivity.
Qed.

End SinEfecto.

(** The default configuration with other efficiency factors, another
    latitude and other display options. *)
Definition config_otros_factores : params_config.Config :=
  {| params_config.dimensiones := params_config.DIMENSIONES;
     params_config.propiedades_termicas := params_config.PROPIEDADES_TERMICAS;
     params_config.propiedades_agua := params_config.PROPIEDADES_AGUA;
     params_config.conductividades_termicas := params_config.CONDUCTIVIDADES_TERMICAS;
     params_config.condiciones_operacion :=
       {| params_config.horas_radiacion_util := 6; params_config.masa_agua := 2;
          params_config.hemisferio := "norte";
          params_config.ubicacion_latitud := -33.5 |};
     params_config.parametros_simulacion :=
       {| params_config.radiacion_base := 500;
          params_config.amplitud_variacion := 350;
          params_config.variabilidad_diaria := 100;
          params_config.factor_eficiencia_alta := 0.10;
          params_config.factor_eficiencia_media := 0.10;
          params_config.factor_eficiencia_baja := 0.10;
          params_config.factor_eficiencia_minima := 0.10 |};
     params_config.opciones_visualizacion :=
       {| params_config.dpi_graficas := 72; params_config.mostrar_graficas := true;
          params_config.tema_graficas := "default" |} |}.

Lemma configuracion_sin_efecto_witness :
  simular_con_config params_config.cargar_parametros estado_vacio
  = simular_con_config config_otros_factores estado_vacio.
Proof.
  apply (configuracion_sin_efecto (H := numpy_ejemplo)
           params_config.cargar_parametros config_otros_factores estado_vacio).
  unfold misma_fisica. repeat split; reflexivity.
Defined.

(** ** A configuration that is accepted and fails later *)

Section FallaDespues.
Context `{Numpy}.

Lemma tabla_modelo_termico_sin_resistencias self df e :
  calcular_resistencias_totales self = Raise e ->
  Forall (fun r : fila => exists amb rad v,
            num r "temp_ambiente_K" = Ok amb /\ num r "radiacion_Wm2" = Ok rad
            /\ num r "velocidad_viento" = Ok v) df ->
  tabla_modelo_termico self df = Raise e.
Proof.
  intros Hres Hdf. rewrite Forall_forall in Hdf.
  unfold tabla_modelo_termico, tabla_perdidas_de.
  destruct (aplicar_total pasos_temperatura df) as [d1 E1].
  { apply Forall_forall. intros r Hr. destruct (Hdf r Hr) as (amb & rad & v & Ha & Hr' & _).
    destruct (fila_temperatura_Ok r amb rad Ha Hr') as (r1 & E & _). eauto. }
  rewrite E1, bind_Ok.
  destruct (aplicar_total (pasos_perdidas_1 self) d1) as [d1' E2].
  { apply Forall_forall. intros r1 Hr1. apply list_elem_of_lookup in Hr1 as [i Hi].
    destruct (aplicar_lookup _ _ _ _ _ E1 Hi) as (r & Hr & E).
    destruct (Hdf r) as (amb & rad & v & Ha & Hr' & Hv);
      [apply list_elem_of_lookup; eauto|].
    destruct (fila_temperatura r r1 E)
      as (amb' & rad' & Ha' & Hrad' & Hagua & Hvid & _ & _ & _ & _ & Hsame).
    destruct (fila_perdidas_Ok self 1 r1 v (dia_temp_vidrio amb' rad')
                (dia_temp_agua amb' rad') amb) as (r1' & _ & E' & _).
    - rewrite (num_lookup_eq r r1) by (apply Hsame; no_esta). exact Hv.
    - apply num_Num. exact Hvid.
    - apply num_Num. exact Hagua.
    - rewrite (num_lookup_eq r r1) by (apply Hsame; no_esta). exact Ha.
    - intros E0. discriminate E0.
    - eauto. }
  rewrite E2, bind_Ok, Hres. reflexivity.
Qed.

(** With no zero among the divisors of the constructor and faces that add
    up to a zero total area, the constructor returns and the simulation
    fails in the heat losses, after the climate and the temperatures. *)
Lemma area_total_nula_falla :
  forall (cfg : params_config.Config) (s : estado),
    let dim := params_config.dimensiones cfg in
    let l := params_config.largo dim in
    let a := params_config.ancho dim in
    let h := params_config.altura dim in
    Forall (fun d => ~ d == 0) (divisores_init cfg) ->
    l * a + l * a + 2 * (l + a) * h == 0 ->
    String.eqb (lower (params_config.hemisferio (params_config.condiciones_operacion cfg)))
               "norte" = true ->
    0 <= params_config.variabilidad_diaria (params_config.parametros_simulacion cfg) ->
    (exists p, ParametrosDesalinizador_init (Some cfg) = Ok p)
    /\ fst (simular_con_config cfg s) = Raise ZeroDivisionError
    /\ exists l1 l2 dfc d,
         l1 <> l2 /\ (l1 ∉ dom (heap s)) /\ (l2 ∉ dom (heap s))
         /\ heap (snd (simular_con_config cfg s)) = <[l2 := d]> (<[l1 := dfc]> (heap s))
         /\ length dfc = 365%nat.
Proof.
  intros cfg s dim l a h Hdiv Harea Hnorte Hvar.
  destruct (init_divisores_no_nulos cfg Hdiv) as (p & Hp & _).
  split; [eauto|].
  pose proof (init_campos cfg p Hp) as Hcampos. cbv zeta in Hcampos.
  fold dim l a h in Hcampos.
  destruct Hcampos as (_ & _ & _ & _ & Htapa & Hpar & Htotal & _ & _ & _ & _ & _ & _ & _
                       & HRc & HRa & Hhc & _ & _ & _ & _ & _ & _ & _ & Hhem & _
                       & _ & Hps & _).
  assert (Hres : calcular_resistencias_totales p = Raise ZeroDivisionError).
  { destruct (calcular_resistencias_totales_casos p) as [Hall|Hr]; [|exact Hr].
    exfalso. unfold divisores_resistencias in Hall. cbv zeta in Hall.
    apply Forall_cons in Hall as [_ Hall]. apply Forall_cons in Hall as [Hn _].
    apply Hn. rewrite Htotal, Harea. ring. }
  assert (Hsim : exists g' dfc d,
            simular_con_config cfg s
            = (Raise ZeroDivisionError,
               mk_estado g' (<[fresh (dom (<[fresh (dom (heap s)) := dfc]> (heap s))) := d]>
                               (<[fresh (dom (heap s)) := dfc]> (heap s))))
            /\ length dfc = 365%nat).
  { unfold simular_con_config. unfold bind at 1, lift. rewrite Hp.
    rewrite simular_desalinizador_anual_run.
    unfold bind at 1. rewrite ModeloClimatico_init_run.
    set (modelo := {| clima_params := p; clima_hemisferio := hemisferio p;
                      clima_latitud := latitud p; clima_param_sim := param_sim p |}).
    set (s0 := mk_estado (seed 42) (heap s)).
    destruct (generar_datos_anuales_norte_filas modelo s0)
      as (dfc & g' & Hgen & Hlenc & Hrowsc).
    { simpl. rewrite Hhem. exact Hnorte. }
    { simpl. rewrite Hps. exact Hvar. }
    unfold bind at 1. rewrite Hgen.
    set (l1 := fresh (dom (heap s0))) in *.
    set (s1 := mk_estado g' (<[l1 := dfc]> (heap s0))) in *.
    assert (Hl1 : heap s1 !! l1 = Some dfc) by (simpl; apply lookup_insert_eq).
    assert (Hlenf : length fechas_anuales = 365%nat) by apply fechas_anuales_calendario.
    assert (Htabla : tabla_modelo_termico p dfc = Raise ZeroDivisionError).
    { apply tabla_modelo_termico_sin_resistencias; [exact Hres|].
      apply Forall_forall. intros r Hr. apply list_elem_of_lookup in Hr as [i Hi].
      assert (Hi' : (i < length fechas_anuales)%nat).
      { rewrite Hlenf, <- Hlenc. eapply lookup_lt_Some; eauto. }
      apply lookup_lt_is_Some_2 in Hi' as [d Hd].
      destruct (Hrowsc i d Hd) as (r0 & Hr0 & Hfila).
      rewrite Hi in Hr0. injection Hr0 as <-.
      destruct Hfila as (rad & t & hum & v & _ & _ & _ & _ & Hrad & _ & _ & Ht & HtK
                         & _ & _ & _ & _ & Hv & _).
      exists (t + 273.15), rad, v. repeat split; apply num_Num; assumption. }
    destruct (modelo_termico_sobre_run p s1 l1 dfc Hl1) as [d Hrun].
    rewrite Htabla in Hrun. rewrite Hrun.
    exists g', dfc, d. split; [reflexivity|exact Hlenc]. }
  destruct Hsim as (g' & dfc & d & Hsim & Hlenc). rewrite Hsim. cbn [fst snd heap].
  split; [reflexivity|].
  set (l1 := fresh (dom (heap s))).
  set (l2 := fresh (dom (<[l1 := dfc]> (heap s)))).
  exists l1, l2, dfc, d.
  assert (Hin1 : l1 ∈ dom (<[l1 := dfc]> (heap s))).
  { rewrite dom_insert. apply elem_of_union_l, elem_of_singleton. reflexivity. }
  split. { intros E. apply (is_fresh (dom (<[l1 := dfc]> (heap s)))). fold l2.
           rewrite <- E. exact Hin1. }
  split; [apply is_fresh|].
  split.
  { intros Hin. apply (is_fresh (dom (<[l1 := dfc]> (heap s)))). fold l2.
    rewrite dom_insert. apply elem_of_union_r. exact Hin. }
  split; [reflexivity|exact Hlenc].
Qed.

(** A square box whose height is minus half its side (the side between a
    millimetre and a kilometre, a conductivity between 10^-3 and 10^6 and a
    water mass that is not zero) has walls that count as minus the base and
    the lid together: the total area is zero, in double precision as well,
    since twice the square of the side is subtracted from itself.  The
    constructor accepts the configuration; the simulation then generates
    the climate and the temperatures, and fails with [ZeroDivisionError] in
    the heat losses, where the exterior convection resistance divides by
    the total area. *)
Theorem configuracion_aceptada_falla_despues :
  forall (cfg : params_config.Config) (s : estado),
    let dim := params_config.dimensiones cfg in
    let l := params_config.largo dim in
    let a := params_config.ancho dim in
    let h := params_config.altura dim in
    let k := default 205 (params_config.conductividades_termicas cfg
                            !! params_config.material_caja
                                 (params_config.propiedades_termicas cfg)) in
    1 # 1000 <= l -> l <= 1000 -> a == l -> h == - (l / 2) ->
    1 # 1000 <= k -> k <= 1000000 ->
    ~ params_config.masa_agua (params_config.condiciones_operacion cfg) == 0 ->
    String.eqb (lower (params_config.hemisferio (params_config.condiciones_operacion cfg)))
               "norte" = true ->
    0 <= params_config.variabilidad_diaria (params_config.parametros_simulacion cfg) ->
    (exists p, ParametrosDesalinizador_init (Some cfg) = Ok p)
    /\ fst (simular_con_config cfg s) = Raise ZeroDivisionError
    /\ exists l1 l2 dfc d,
         l1 <> l2 /\ (l1 ∉ dom (heap s)) /\ (l2 ∉ dom (heap s))
         /\ heap (snd (simular_con_config cfg s)) = <[l2 := d]> (<[l1 := dfc]> (heap s))
         /\ length dfc = 365%nat.
Proof.
  intros cfg s dim l a h k Hl0 Hl1 Ha Hh Hk0 Hk1 Hm Hnorte Hvar.
  assert (Hll : 0 < l * l) by nra.
  assert (Hparedes : 2 * (l + a) * h == - (2 * (l * l))).
  { rewrite Ha, Hh. field. }
  apply area_total_nula_falla; [|fold dim l a h|exact Hnorte|exact Hvar].
  - unfold divisores_init. cbv zeta. fold dim l a h k.
    apply Forall_cons. split; [rewrite Ha; lra|].
    apply Forall_cons. split; [rewrite Hparedes; nra|].
    apply Forall_cons. split; [rewrite Hparedes; lra|].
    apply Forall_cons. split; [exact Hm|]. apply Forall_nil_2.
  - rewrite Hparedes, Ha. ring.
Qed.

End FallaDespues.

(** A box of 1 m by 1 m with the height -0.5 m: the walls count as -2 m2 and
    the total area is zero. *)
Definition config_area_nula : params_config.Config :=
  {| params_config.dimensiones :=
       {| params_config.largo := 1; params_config.ancho := 1;
          params_config.altura := -0.5 |};
     params_config.propiedades_termicas := params_config.PROPIEDADES_TERMICAS;
     params_config.propiedades_agua := params_config.PROPIEDADES_AGUA;
     params_config.conductividades_termicas := params_config.CONDUCTIVIDADES_TERMICAS;
     params_config.condiciones_operacion := params_config.CONDICIONES_OPERACION;
     params_config.parametros_simulacion := params_config.PARAMETROS_SIMULACION;
     params_config.opciones_visualizacion := params_config.OPCIONES_VISUALIZACION |}.

Lemma configuracion_aceptada_falla_despues_witness :
  (exists p, ParametrosDesalinizador_init (H := numpy_ejemplo) (Some config_area_nula) = Ok p)
  /\ fst (simular_con_config config_area_nula estado_vacio) = Raise ZeroDivisionError
  /\ exists l1 l2 dfc d,
       l1 <> l2 /\ (l1 ∉ dom (heap estado_vacio)) /\ (l2 ∉ dom (heap estado_vacio))
       /\ heap (snd (simular_con_config config_area_nula estado_vacio))
          = <[l2 := d]> (<[l1 := dfc]> (heap estado_vacio))
       /\ length dfc = 365%nat.
Proof.
  apply (configuracion_aceptada_falla_despues (H := numpy_ejemplo)
           config_area_nula estado_vacio).
  - decidir_Q.
  - decidir_Q.
  - vm_compute; reflexivity.
  - vm_compute; reflexivity.
  - decidir_Q.
  - decidir_Q.
  - intros E; apply Qeq_bool_iff in E; vm_compute in E; discriminate.
  - vm_compute; reflexivity.
  - vm_compute; discriminate.
Defined.

(** ** The monthly summary *)

(** The order of the groups of a key column of integers. *)
Definition clave_menor (a b : celda) : Prop :=
  match a, b with
  | Ent x, Ent y => (x < y)%Z
  | _, _ => False
  end.

Definition es_entero (k : celda) : Prop := exists z, k = Ent z.

Lemma insertar_clave_ordenada z ks :
  Forall es_entero ks -> StronglySorted clave_menor ks -> Ent z ∉ ks ->
  StronglySorted clave_menor (insertar_clave (Ent z) ks).
Proof.
  intros Hent Hsorted. induction Hsorted as [|k0 ks Hs IH Hk0]; intros Hz; simpl.
  - repeat constructor.
  - apply Forall_cons in Hent as [[y ->] Hent].
    apply not_elem_of_cons in Hz as [Hne Hz].
    simpl. destruct (z <=? y)%Z eqn:E.
    + apply Z.leb_le in E. assert (Hlt : (z < y)%Z) by (destruct (Z.eq_dec z y); [congruence|lia]).
      constructor; [constructor; assumption|].
      constructor; [exact Hlt|].
      rewrite Forall_forall in Hk0, Hent. apply Forall_forall. intros k Hk.
      destruct (Hent k Hk) as [y' ->]. specialize (Hk0 _ Hk). simpl in *. lia.
    + apply Z.leb_gt in E. constructor; [apply IH; assumption|].
      apply Forall_forall. intros k Hk. apply elem_of_insertar_clave in Hk as [->|Hk].
      * exact E.
      * rewrite Forall_forall in Hk0. apply Hk0. exact Hk.
Qed.

Lemma claves_ordenadas_ordenadas ks :
  Forall es_entero ks -> StronglySorted clave_menor (claves_ordenadas ks).
Proof.
  induction 1 as [|k ks [z ->] Hent IH]; simpl; [constructor|].
  case_bool_decide as Hin; [exact IH|].
  apply insertar_clave_ordenada; [|exact IH|exact Hin].
  apply Forall_forall. intros k Hk.
  apply (proj1 (elem_of_claves_ordenadas k ks)) in Hk.
  rewrite Forall_forall in Hent. apply Hent. exact Hk.
Qed.

Definition entero_de (k : celda) : Z := match k with Ent z => z | _ => 0%Z end.

Lemma enteros_ordenados ks :
  Forall es_entero ks -> StronglySorted clave_menor ks ->
  ks = map Ent (map entero_de ks) /\ StronglySorted Z.lt (map entero_de ks).
Proof.
  intros Hent Hs. induction Hs as [|k ks Hs IH Hk]; simpl; [split; [reflexivity|constructor]|].
  apply Forall_cons in Hent as [[z ->] Hent]. destruct (IH Hent) as [E Hs'].
  split; [simpl; f_equal; exact E|].
  constructor; [exact Hs'|]. apply Forall_forall. intros y Hy.
  apply list_elem_of_fmap in Hy as (k & -> & Hk').
  rewrite Forall_forall in Hk, Hent. destruct (Hent k Hk') as [y' ->].
  specialize (Hk _ Hk'). exact Hk.
Qed.

Lemma py_index_meses_Ok (i : Z) nombre :
  py_index nombres_meses i = Ok nombre ->
  (-12 <= i < 12)%Z /\ nombres_meses !! Z.to_nat (i mod 12) = Some nombre.
Proof.
  unfold py_index. change (Z.of_nat (length nombres_meses)) with 12%Z. cbv zeta.
  destruct (i <? 0)%Z eqn:Hneg.
  - apply Z.ltb_lt in Hneg.
    destruct ((0 <=? 12 + i) && (12 + i <? 12))%Z eqn:Hr; [|discriminate].
    apply andb_true_iff in Hr as [H0 H1]. apply Z.leb_le in H0. apply Z.ltb_lt in H1.
    replace (i mod 12)%Z with (12 + i)%Z
      by (apply (Z.mod_unique_pos i 12 (-1) (12 + i)); lia).
    destruct (nombres_meses !! Z.to_nat (12 + i)) as [x|]; [|discriminate].
    intros E. injection E as <-. split; [lia|reflexivity].
  - apply Z.ltb_ge in Hneg.
    destruct ((0 <=? i) && (i <? 12))%Z eqn:Hr; [|discriminate].
    apply andb_true_iff in Hr as [H0 H1]. apply Z.leb_le in H0. apply Z.ltb_lt in H1.
    rewrite Z.mod_small by lia.
    destruct (nombres_meses !! Z.to_nat i) as [x|]; [|discriminate].
    intros E. injection E as <-. split; [lia|reflexivity].
Qed.

Lemma fila_mensual_nombre (r r1 r' : fila) :
  aplicar_fila
    [("nombre_mes", fun r =>
        x ← entero r "mes"; nombre ← py_index nombres_meses (x - 1); Ok (Txt nombre))]
    r = Ok r1 ->
  aplicar_fila pasos_estacion r1 = Ok r' ->
  exists m nombre,
    r !! "mes" = Some (Ent m)
    /\ py_index nombres_meses (m - 1) = Ok nombre
    /\ r' !! "nombre_mes" = Some (Txt nombre).
Proof.
  intros E1 E2. simpl in E1. apply bind_Ok_inv in E1 as (r1' & E1 & Er1).
  injection Er1 as ->. unfold asignar_fila in E1; simpl in E1.
  apply bind_Ok_inv in E1 as (v & Hv & E1). injection E1 as <-.
  apply bind_Ok_inv in Hv as (m & Hm & Hv).
  apply bind_Ok_inv in Hv as (nombre & Hn & Hv). injection Hv as <-.
  assert (Hmes : r !! "mes" = Some (Ent m)).
  { unfold entero in Hm. destruct (r !! "mes") as [[]|]; try discriminate. congruence. }
  exists m, nombre. split; [exact Hmes|]. split; [exact Hn|].
  rewrite (aplicar_fila_otras pasos_estacion _ r' "nombre_mes" E2).
  - apply lookup_insert_eq.
  - intros Hin. vm_compute in Hin.
    repeat (apply elem_of_cons in Hin as [Hin|Hin]; [discriminate Hin|]).
    apply elem_of_nil in Hin. exact Hin.
Qed.

Lemma agregar_Suma vs v : agregar Suma vs = Ok v -> v = suma vs.
Proof. simpl. intros E. injection E as <-. reflexivity. Qed.

Lemma agregar_Media vs v :
  agregar Media vs = Ok v ->
  vs <> [] /\ v = suma vs / inject_Z (Z.of_nat (length vs)).
Proof.
  simpl. intros E. apply np_div_Ok in E as [Hn ->]. split; [|reflexivity].
  intros ->. apply Hn. reflexivity.
Qed.

Lemma resumen_mensual_meses_y_total (df dm : DataFrame) :
  resumen_mensual df = Ok dm ->
  (forall r' : fila, r' ∈ dm ->
     exists m (r0 : fila),
       r' !! "mes" = Some (Ent m) /\ r0 ∈ df /\ r0 !! "mes" = Some (Ent m))
  /\ suma (map (valor "produccion_litros") dm)
     == suma (map (valor "produccion_litros") df).
Proof.
  intros E.
  destruct (resumen_mensual_Ok _ _ E) as (g & Hg & Hlen & Hrows).
  destruct (groupby_agg_Ok _ _ _ _ Hg) as (km & _ & _ & _ & Hgfrom & Hgkeys).
  split.
  - intros r' Hr'. apply list_elem_of_lookup in Hr' as [i Hi].
    destruct (Hrows i r' Hi) as (r & m & Hr & Hm & _ & Hsame).
    assert (Hkm : Ent m ∈ claves_ordenadas km).
    { assert (Hin : Some (Ent m) ∈ map (fun r : fila => r !! "mes") g).
      { rewrite <- Hm. apply list_elem_of_fmap. exists r. split; [reflexivity|].
        apply list_elem_of_lookup. eauto. }
      rewrite Hgkeys in Hin. apply list_elem_of_fmap in Hin as (k & Ek & Hk).
      injection Ek as ->. exact Hk. }
    destruct (Hgfrom _ Hkm) as (r0 & Hr0 & Hm0).
    exists m, r0. split; [rewrite Hsame by discriminate; exact Hm|]. split; assumption.
  - destruct (groupby_agg_suma "mes" spec_mensual df g "produccion_litros")
      as (_ & _ & Hsum);
      [refine (bool_decide_unpack _ _); vm_compute; exact I
      |vm_compute; apply list_elem_of_here|discriminate|exact Hg|].
    rewrite <- Hsum.
    assert (Hval : forall i, map (valor "produccion_litros") dm !! i
                             = map (valor "produccion_litros") g !! i).
    { intros i.
      change (map (valor "produccion_litros") dm) with (valor "produccion_litros" <$> dm).
      change (map (valor "produccion_litros") g) with (valor "produccion_litros" <$> g).
      rewrite !list_lookup_fmap.
      destruct (dm !! i) as [r'|] eqn:Hi.
      - destruct (Hrows i r' Hi) as (r & m & Hr & _ & _ & Hsame).
        rewrite Hr. simpl. f_equal. apply valor_lookup. apply Hsame; discriminate.
      - apply lookup_ge_None in Hi. rewrite Hlen in Hi.
        rewrite (proj2 (lookup_ge_None g i)) by lia. reflexivity. }
    apply list_eq in Hval. rewrite Hval. reflexivity.
Qed.

(** The months of the monthly summary are the months of the daily table,
    each once and in increasing order.  The row of a month has the sum of
    the month's daily production and the mean of its daily irradiance; its
    name is taken from the list of the twelve names at the month minus one,
    as Python indexes a list, so a month from -11 to 0 is named from the end
    of the list (0 is "Diciembre") and has the empty season. *)
Theorem resumen_mensual_por_mes :
  forall (df dm : DataFrame),
    resumen_mensual df = Ok dm ->
    exists meses : list Z,
      map (fun r : fila => r !! "mes") dm = map (fun m => Some (Ent m)) meses
      /\ StronglySorted Z.lt meses
      /\ (forall m, m ∈ meses <-> exists r : fila, r ∈ df /\ r !! "mes" = Some (Ent m))
      /\ (forall r : fila, r ∈ df -> exists m, r !! "mes" = Some (Ent m))
      /\ (forall (i : nat) (r' : fila) m,
            dm !! i = Some r' -> meses !! i = Some m ->
            exists nombre,
              (-11 <= m <= 12)%Z
              /\ nombres_meses !! Z.to_nat ((m - 1) mod 12) = Some nombre
              /\ r' !! "nombre_mes" = Some (Txt nombre)
              /\ r' !! "estacion" = Some (Txt (etiqueta_estacion m))
              /\ grupo "mes" (Ent m) df <> []
              /\ r' !! "produccion_litros"
                 = Some (Num (suma (map (valor "produccion_litros")
                                        (grupo "mes" (Ent m) df))))
              /\ r' !! "radiacion_Wm2"
                 = Some (Num (suma (map (valor "radiacion_Wm2") (grupo "mes" (Ent m) df))
                              / inject_Z (Z.of_nat (length (grupo "mes" (Ent m) df)))))).
Proof.
  intros df dm E.
  assert (Hnd : NoDup (fst <$> spec_mensual))
    by (refine (bool_decide_unpack _ _); vm_compute; exact I).
  pose proof E as E0. unfold resumen_mensual in E0.
  apply bind_Ok_inv in E0 as (g & Hg & E0). apply bind_Ok_inv in E0 as (g1 & Hg1 & E2).
  destruct (groupby_agg_Ok _ _ _ _ Hg) as (ks & Hks & Hout & Hcover & Hfrom & Hkeys).
  assert (Hlen : length dm = length g).
  { rewrite (aplicar_length _ _ _ E2). eapply aplicar_length; eauto. }
  (* the rows of the summary, from the rows of the groups *)
  assert (Hrow : forall (i : nat) r', dm !! i = Some r' ->
            exists r r1, g !! i = Some r
              /\ aplicar_fila
                   [("nombre_mes", fun r =>
                       x ← entero r "mes"; nombre ← py_index nombres_meses (x - 1);
                       Ok (Txt nombre))] r = Ok r1
              /\ aplicar_fila pasos_estacion r1 = Ok r').
  { intros i r' Hi.
    destruct (aplicar_lookup _ _ _ _ _ E2 Hi) as (r1 & Hr1 & Hrow1).
    destruct (aplicar_lookup _ _ _ _ _ Hg1 Hr1) as (r & Hr & Hrow0). eauto. }
  (* every key is an integer *)
  assert (Hent : Forall es_entero (claves_ordenadas ks)).
  { apply Forall_forall. intros k Hk.
    apply list_elem_of_lookup in Hk as [i Hi].
    assert (Hgi : exists r, g !! i = Some r /\ r !! "mes" = Some k).
    { assert (Hm : map (fun r : fila => r !! "mes") g !! i = Some (Some k)).
      { rewrite Hkeys. change (map Some) with (fmap (M := list) (@Some celda)).
        rewrite list_lookup_fmap, Hi. reflexivity. }
      change (map (fun r : fila => r !! "mes") g)
        with ((fun r : fila => r !! "mes") <$> g) in Hm.
      rewrite list_lookup_fmap in Hm.
      destruct (g !! i) as [r|]; [|discriminate]. simpl in Hm. injection Hm as Hm. eauto. }
    destruct Hgi as (r & Hr & Hrk).
    assert (Hi' : (i < length dm)%nat) by (rewrite Hlen; eapply lookup_lt_Some; eauto).
    apply lookup_lt_is_Some_2 in Hi' as [r' Hr'].
    destruct (Hrow i r' Hr') as (r0 & r1 & Hr0 & Ea & Eb).
    rewrite Hr in Hr0. injection Hr0 as <-.
    destruct (fila_mensual_nombre r r1 r' Ea Eb) as (m & _ & Hm & _).
    exists m. congruence. }
  assert (Hent0 : Forall es_entero ks).
  { apply Forall_forall. intros k Hk. rewrite Forall_forall in Hent. apply Hent.
    apply (proj2 (elem_of_claves_ordenadas k ks)). exact Hk. }
  destruct (enteros_ordenados _ Hent (claves_ordenadas_ordenadas _ Hent0)) as [Eks Hs].
  set (meses := map entero_de (claves_ordenadas ks)) in *.
  exists meses.
  assert (Hmes_dm : map (fun r : fila => r !! "mes") dm = map (fun m => Some (Ent m)) meses).
  { apply list_eq. intros i.
    change (map (fun r : fila => r !! "mes") dm) with ((fun r : fila => r !! "mes") <$> dm).
    change (map (fun m => Some (Ent m)) meses) with ((fun m => Some (Ent m)) <$> meses).
    rewrite !list_lookup_fmap.
    destruct (dm !! i) as [r'|] eqn:Hi.
    - destruct (Hrow i r' Hi) as (r & r1 & Hr & Ea & Eb).
      destruct (fila_mensual r r1 r' Ea Eb) as (m & Hm & _ & Hsame).
      assert (Hk : map (fun r : fila => r !! "mes") g !! i = Some (Some (Ent m))).
      { change (map (fun r : fila => r !! "mes") g)
          with ((fun r : fila => r !! "mes") <$> g).
        rewrite list_lookup_fmap, Hr. simpl. rewrite Hm. reflexivity. }
      rewrite Hkeys, Eks in Hk.
      change (map Some (map Ent meses)) with (Some <$> (Ent <$> meses)) in Hk.
      rewrite !list_lookup_fmap in Hk.
      destruct (meses !! i) as [m'|]; [|discriminate]. simpl in Hk |- *.
      injection Hk as <-. rewrite Hsame by discriminate. rewrite Hm. reflexivity.
    - apply lookup_ge_None in Hi. rewrite Hlen in Hi.
      assert (Hlm : length meses = length g).
      { apply (f_equal length) in Hkeys. rewrite !length_map in Hkeys.
        unfold meses. rewrite length_map. symmetry. exact Hkeys. }
      rewrite (proj2 (lookup_ge_None meses i)) by lia. reflexivity. }
  split; [exact Hmes_dm|]. split; [exact Hs|].
  assert (Hmem : forall m, m ∈ meses <-> Ent m ∈ claves_ordenadas ks).
  { intros m. rewrite Eks. split.
    - intros Hm. apply list_elem_of_fmap. eauto.
    - intros Hm. apply list_elem_of_fmap in Hm as (m' & Em & Hm'). injection Em as ->.
      exact Hm'. }
  split.
  { intros m. rewrite Hmem. split.
    - intros Hk. apply Hfrom. exact Hk.
    - intros (r & Hr & Hm). destruct (Hcover r Hr) as (k & Hk & Hrk). congruence. }
  split.
  { intros r Hr. destruct (Hcover r Hr) as (k & Hk & Hrk).
    rewrite Forall_forall in Hent. destruct (Hent k Hk) as [m ->]. eauto. }
  intros i r' m Hi Hm.
  { destruct (Hrow i r' Hi) as (r & r1 & Hr & Ea & Eb).
    destruct (fila_mensual r r1 r' Ea Eb) as (m0 & Hm0 & Hest & Hsame).
    destruct (fila_mensual_nombre r r1 r' Ea Eb) as (m1 & nombre & Hm1 & Hn & Hnom).
    assert (m0 = m).
    { assert (Hk : map (fun r : fila => r !! "mes") dm !! i = Some (Some (Ent m0))).
      { change (map (fun r : fila => r !! "mes") dm)
          with ((fun r : fila => r !! "mes") <$> dm).
        rewrite list_lookup_fmap, Hi. simpl. rewrite Hsame by discriminate.
        rewrite Hm0. reflexivity. }
      rewrite Hmes_dm in Hk.
      change (map (fun m => Some (Ent m)) meses) with ((fun m => Some (Ent m)) <$> meses) in Hk.
      rewrite list_lookup_fmap, Hm in Hk. simpl in Hk. congruence. }
    subst m0. assert (m1 = m) by congruence. subst m1.
    apply py_index_meses_Ok in Hn as [Hrange Hname].
    exists nombre. split; [lia|]. split; [exact Hname|]. split; [exact Hnom|].
    split; [exact Hest|].
    assert (Hk : Ent m ∈ claves_ordenadas ks).
    { apply Hmem. apply list_elem_of_lookup. eauto. }
    assert (Hfila : fila_grupo "mes" spec_mensual df (Ent m) = Ok r).
    { destruct (mapR_elem_of_inv _ _ _ _ Hout (proj2 (list_elem_of_lookup g r) (ex_intro _ i Hr)))
        as (k & Hk' & Hrow').
      pose proof (fila_grupo_Ok _ _ _ _ _ Hrow') as [Hkey _].
      rewrite Hm0 in Hkey. injection Hkey as <-. exact Hrow'. }
    apply fila_grupo_Ok in Hfila as [_ Hcols].
    split.
    { destruct (Hfrom _ Hk) as (r0 & Hr0 & Hm0').
      intros Hnil. assert (Hin : r0 ∈ grupo "mes" (Ent m) df).
      { unfold grupo. apply list_elem_of_filter. auto. }
      rewrite Hnil in Hin. apply elem_of_nil in Hin. exact Hin. }
    split.
    - destruct (Hcols "produccion_litros" Suma Hnd) as (v & Hv & Hcell & _);
        [vm_compute; apply list_elem_of_here|discriminate|].
      apply agregar_Suma in Hv. subst v. rewrite Hsame by discriminate. exact Hcell.
    - destruct (Hcols "radiacion_Wm2" Media Hnd) as (v & Hv & Hcell & _);
        [vm_compute; apply list_elem_of_further, list_elem_of_here|discriminate|].
      apply agregar_Media in Hv as [_ ->]. rewrite length_map in Hcell.
      rewrite Hsame by discriminate. exact Hcell. }
Qed.

Lemma resumen_mensual_ejemplo :
  resumen_mensual tabla_resultados = Ok (fst resumenes_ejemplo).
Proof. decidir. Qed.

Lemma resumen_mensual_por_mes_witness :
  exists meses : list Z,
    map (fun r : fila => r !! "mes") (fst resumenes_ejemplo)
    = map (fun m => Some (Ent m)) meses
    /\ StronglySorted Z.lt meses
    /\ (forall m, m ∈ meses <->
                  exists r : fila, r ∈ tabla_resultados /\ r !! "mes" = Some (Ent m))
    /\ (forall r : fila, r ∈ tabla_resultados -> exists m, r !! "mes" = Some (Ent m))
    /\ (forall (i : nat) (r' : fila) m,
          fst resumenes_ejemplo !! i = Some r' -> meses !! i = Some m ->
          exists nombre,
            (-11 <= m <= 12)%Z
            /\ nombres_meses !! Z.to_nat ((m - 1) mod 12) = Some nombre
            /\ r' !! "nombre_mes" = Some (Txt nombre)
            /\ r' !! "estacion" = Some (Txt (etiqueta_estacion m))
            /\ grupo "mes" (Ent m) tabla_resultados <> []
            /\ r' !! "produccion_litros"
               = Some (Num (suma (map (valor "produccion_litros")
                                      (grupo "mes" (Ent m) tabla_resultados))))
            /\ r' !! "radiacion_Wm2"
               = Some (Num (suma (map (valor "radiacion_Wm2")
                                      (grupo "mes" (Ent m) tabla_resultados))
                            / inject_Z (Z.of_nat (length (grupo "mes" (Ent m)
                                                            tabla_resultados)))))).
Proof.
  apply (resumen_mensual_por_mes tabla_resultados (fst resumenes_ejemplo)).
  exact resumen_mensual_ejemplo.
Defined.

(** ** The seasonal distribution *)

(** [total_produccion] and [porcentajes] of [visualizar_resultados], from
    [prod_estaciones]. *)
Definition porcentajes_estaciones (prod_estaciones : list Q) : list Q :=
  let total_produccion := suma prod_estaciones in
  let total_produccion :=
    if Qle_bool total_produccion 0 then 1.0 else total_produccion in
  map (fun p => if Qgtb total_produccion 0 then 100 * p / total_produccion else 0.0)
      prod_estaciones.

Lemma suma_escala (f : Q -> Q) k ps :
  (forall p, f p == k * p) -> suma (map f ps) == k * suma ps.
Proof.
  intros Hf. induction ps as [|p ps IH]; simpl; [ring|]. rewrite IH, Hf. ring.
Qed.

Lemma suma_no_negativa ps : Forall (fun p => 0 <= p) ps -> 0 <= suma ps.
Proof. induction 1 as [|p ps Hp _ IH]; simpl; lra. Qed.

Lemma elemento_le_suma ps p : Forall (fun p => 0 <= p) ps -> p ∈ ps -> p <= suma ps.
Proof.
  intros Hps. induction Hps as [|q ps Hq Hps IH]; intros Hin.
  - apply elem_of_nil in Hin. contradiction.
  - pose proof (suma_no_negativa ps Hps) as H0.
    apply elem_of_cons in Hin as [->|Hin]; simpl; [lra|]. specialize (IH Hin). lra.
Qed.

Lemma prod_estaciones_Ok (de : DataFrame) total :
  suma_columna "produccion_litros" de = Ok total ->
  prod_estaciones de
  = Ok (map (fun e => suma (map (valor "produccion_litros")
                                (grupo "estacion" (Txt e) de))) estaciones_base).
Proof.
  unfold suma_columna. intros E. apply bind_Ok_inv in E as (vs & Hvs & _).
  apply mapR_num_Ok in Hvs as [_ Hall].
  unfold prod_estaciones.
  assert (Hcada : forall e,
            suma_columna "produccion_litros"
              (filter (fun r : fila => r !! "estacion" = Some (Txt e)) de)
            = Ok (suma (map (valor "produccion_litros") (grupo "estacion" (Txt e) de)))).
  { intros e. unfold suma_columna, grupo. rewrite mapR_num_valor; [reflexivity|].
    intros r Hr. apply list_elem_of_filter in Hr as [_ Hr]. apply Hall. exact Hr. }
  induction estaciones_base as [|e l IH]; simpl; [reflexivity|].
  rewrite Hcada; simpl. rewrite IH. reflexivity.
Qed.

Lemma suma_de_ceros ps : Forall (fun p => p == 0) ps -> suma ps == 0.
Proof. induction 1 as [|p ps Hp _ IH]; simpl; [reflexivity|]. rewrite Hp, IH. ring. Qed.

(** With a positive total the percentages are the productions over it. *)
Lemma porcentajes_estaciones_positivo ps :
  0 < suma ps ->
  porcentajes_estaciones ps = map (fun p => 100 * p / suma ps) ps.
Proof.
  intros Hpos. unfold porcentajes_estaciones. cbv zeta.
  assert (Hle : Qle_bool (suma ps) 0 = false).
  { destruct (Qle_bool (suma ps) 0) eqn:Hb; [|reflexivity].
    apply Qle_bool_iff in Hb. lra. }
  rewrite Hle. rewrite (proj2 (Qgtb_true (suma ps) 0) Hpos). reflexivity.
Qed.

(** The bar chart of the seasons has four productions and four
    percentages.  When the four productions are zero, so are the four
    percentages (the total is replaced by 1.0).  When no seasonal
    production is negative or above 10^9 and they add up to at least
    0.001 litres, every percentage lies between 0 and 100 and the four add
    up to 100, up to the rounding of the quotients: within 0.01 of it. *)
Theorem distribucion_estacional :
  forall (df dm de : DataFrame),
    Forall (fun r : fila => forall m, r !! "mes" = Some (Ent m) -> (1 <= m <= 12)%Z) df ->
    agregacion_estacional df = Ok (dm, de) ->
    exists ps,
      prod_estaciones de = Ok ps
      /\ length ps = 4%nat /\ length (porcentajes_estaciones ps) = 4%nat
      /\ (Forall (fun p => p == 0) ps ->
          Forall (fun q => q == 0) (porcentajes_estaciones ps))
      /\ (Forall (fun p => 0 <= p /\ p <= 1000000000) ps -> 1 # 1000 <= suma ps ->
          Forall (fun q => 0 <= q /\ q <= 100.01) (porcentajes_estaciones ps)
          /\ 99.99 <= suma (porcentajes_estaciones ps)
          /\ suma (porcentajes_estaciones ps) <= 100.01).
Proof.
  intros df dm de Hmes E.
  destruct (agregacion_estacional_Ok df dm de Hmes E)
    as (Hperm & _ & te & td & Hte & Htd & Heq).
  rewrite (prod_estaciones_Ok de te Hte). eexists. split; [reflexivity|].
  set (ps := map _ estaciones_base).
  split; [reflexivity|]. split; [unfold porcentajes_estaciones; rewrite length_map; reflexivity|].
  split.
  - intros Hz. pose proof (suma_de_ceros ps Hz) as Hs.
    unfold porcentajes_estaciones. cbv zeta.
    assert (Hb : Qle_bool (suma ps) 0 = true) by (apply Qle_bool_iff; lra).
    rewrite Hb. apply Forall_forall. intros q Hq.
    apply list_elem_of_fmap in Hq as (p & -> & Hp).
    rewrite Forall_forall in Hz. specialize (Hz p Hp).
    change (Qgtb 1.0 0) with true. cbv iota. rewrite Hz. reflexivity.
  - intros Hps Htot. assert (Hpos : 0 < suma ps) by lra.
    assert (Hps0 : Forall (fun p => 0 <= p) ps).
    { eapply Forall_impl; [exact Hps|]. intros p [Hp _]. exact Hp. }
    rewrite (porcentajes_estaciones_positivo ps Hpos).
    assert (Hsuma : suma (map (fun p => 100 * p / suma ps) ps) == 100).
    { rewrite (suma_escala _ (100 / suma ps)); [field; lra|].
      intros p. field. lra. }
    split; [|rewrite Hsuma; split; lra].
    apply Forall_forall. intros q Hq.
    apply list_elem_of_fmap in Hq as (p & -> & Hp).
    pose proof (elemento_le_suma ps p Hps0 Hp) as Hple.
    rewrite Forall_forall in Hps0. specialize (Hps0 p Hp).
    split.
    + apply Qle_shift_div_l; [exact Hpos|]. nra.
    + apply Qle_shift_div_r; [exact Hpos|]. nra.
Qed.

Lemma tabla_resultados_meses :
  Forall (fun r : fila => forall m, r !! "mes" = Some (Ent m) -> (1 <= m <= 12)%Z)
         tabla_resultados.
Proof.
  eapply Forall_impl; [exact tabla_resultados_diaria|].
  intros r [(m & Hm & Hrange) _] m' Hm'. rewrite Hm in Hm'. injection Hm' as <-.
  exact Hrange.
Qed.

Lemma agregacion_estacional_ejemplo :
  agregacion_estacional tabla_resultados
  = Ok (fst resumenes_ejemplo, snd resumenes_ejemplo).
Proof. decidir. Qed.

Lemma distribucion_estacional_witness :
  exists ps,
    prod_estaciones (snd resumenes_ejemplo) = Ok ps
    /\ length ps = 4%nat /\ length (porcentajes_estaciones ps) = 4%nat
    /\ (Forall (fun p => p == 0) ps ->
        Forall (fun q => q == 0) (porcentajes_estaciones ps))
    /\ (Forall (fun p => 0 <= p /\ p <= 1000000000) ps -> 1 # 1000 <= suma ps ->
        Forall (fun q => 0 <= q /\ q <= 100.01) (porcentajes_estaciones ps)
        /\ 99.99 <= suma (porcentajes_estaciones ps)
        /\ suma (porcentajes_estaciones ps) <= 100.01).
Proof.
  apply (distribucion_estacional tabla_resultados (fst resumenes_ejemplo)
           (snd resumenes_ejemplo)).
  - exact tabla_resultados_meses.
  - exact agregacion_estacional_ejemplo.
Defined.

(** ** Days of high and low production *)

(** [len(df[df[c] > x])], with [x] the mean of the column or a fraction of
    it: a comparison with [NaN] is false on every row. *)
Definition contar (cond : Q -> bool) (vs : list Q) : nat :=
  length (List.filter cond vs).

(** [dias_alta_produccion] and [dias_baja_produccion] of
    [mostrar_estadisticas] and of [actualizar_datos_reporte]. *)
Definition dias_produccion (df : DataFrame) : resultado (nat * nat) :=
  prod ← mapR (fun r => num r "produccion_litros") df;
  let produccion_media_diaria := agregar Media prod in
  let dias_alta_produccion :=
    match produccion_media_diaria with
    | Ok m => contar (fun p => Qgtb p m) prod
    | _ => 0%nat
    end in
  let dias_baja_produccion :=
    match produccion_media_diaria with
    | Ok m => contar (fun p => Qltb p (m / 2)) prod
    | _ => 0%nat
    end in
  Ok (dias_alta_produccion, dias_baja_produccion).

Lemma contar_le cond vs : (contar cond vs <= length vs)%nat.
Proof. unfold contar. apply List.filter_length_le. Qed.

Lemma contar_todos cond vs :
  contar cond vs = length vs -> forall v, v ∈ vs -> cond v = true.
Proof.
  unfold contar. induction vs as [|x vs IH]; simpl; intros E v Hv.
  - apply elem_of_nil in Hv. contradiction.
  - pose proof (List.filter_length_le cond vs) as Hle.
    destruct (cond x) eqn:Hx; simpl in E; [|lia].
    apply elem_of_cons in Hv as [->|Hv]; [exact Hx|]. apply IH; [lia|exact Hv].
Qed.

Lemma contar_disjuntos c1 c2 vs :
  (forall v, v ∈ vs -> c1 v = true -> c2 v = false) ->
  (contar c1 vs + contar c2 vs <= length vs)%nat.
Proof.
  unfold contar. induction vs as [|x vs IH]; simpl; intros H; [lia|].
  assert (IH' : (length (List.filter c1 vs) + length (List.filter c2 vs)
                 <= length vs)%nat).
  { apply IH. intros v Hv. apply H. apply list_elem_of_further. exact Hv. }
  specialize (H x (list_elem_of_here _ _)).
  destruct (c1 x); [rewrite H by reflexivity|destruct (c2 x)]; simpl; lia.
Qed.

Lemma suma_longitud_cons (x : Q) vs :
  inject_Z (Z.of_nat (length (x :: vs))) == inject_Z (Z.of_nat (length vs)) + 1.
Proof.
  change (length (x :: vs)) with (S (length vs)).
  rewrite Nat2Z.inj_succ. unfold Z.succ. rewrite inject_Z_plus. reflexivity.
Qed.

Lemma suma_cota_inferior m vs :
  (forall v, v ∈ vs -> m <= v) -> inject_Z (Z.of_nat (length vs)) * m <= suma vs.
Proof.
  induction vs as [|x vs IH]; intros H.
  - change (0 * m <= 0). lra.
  - rewrite suma_longitud_cons. change (suma (x :: vs)) with (x + suma vs).
    assert (m <= x) by (apply H; apply list_elem_of_here).
    assert (inject_Z (Z.of_nat (length vs)) * m <= suma vs).
    { apply IH. intros v Hv. apply H. apply list_elem_of_further. exact Hv. }
    lra.
Qed.

Lemma suma_cota_superior m vs :
  (forall v, v ∈ vs -> v <= m) -> suma vs <= inject_Z (Z.of_nat (length vs)) * m.
Proof.
  induction vs as [|x vs IH]; intros H.
  - change (0 <= 0 * m). lra.
  - rewrite suma_longitud_cons. change (suma (x :: vs)) with (x + suma vs).
    assert (x <= m) by (apply H; apply list_elem_of_here).
    assert (suma vs <= inject_Z (Z.of_nat (length vs)) * m).
    { apply IH. intros v Hv. apply H. apply list_elem_of_further. exact Hv. }
    lra.
Qed.

Lemma suma_menor m vs :
  vs <> [] -> (forall v, v ∈ vs -> v < m) ->
  suma vs < inject_Z (Z.of_nat (length vs)) * m.
Proof.
  destruct vs as [|x vs]; [congruence|]. intros _ H.
  rewrite suma_longitud_cons. change (suma (x :: vs)) with (x + suma vs).
  assert (x < m) by (apply H; apply list_elem_of_here).
  assert (suma vs <= inject_Z (Z.of_nat (length vs)) * m).
  { apply suma_cota_superior. intros v Hv. apply Qlt_le_weak. apply H.
    apply list_elem_of_further. exact Hv. }
  lra.
Qed.

Lemma longitud_positiva {A} (l : list A) :
  l <> [] -> 0 < inject_Z (Z.of_nat (length l)).
Proof.
  intros H. destruct l as [|x l]; [congruence|].
  change 0 with (inject_Z 0). rewrite <- Zlt_Qlt. simpl length. lia.
Qed.

Lemma media_Ok vs :
  vs <> [] ->
  exists m, agregar Media vs = Ok m
            /\ inject_Z (Z.of_nat (length vs)) * m == suma vs.
Proof.
  intros H. pose proof (longitud_positiva vs H) as Hn.
  exists (suma vs / inject_Z (Z.of_nat (length vs))). split.
  - simpl. unfold np_div.
    destruct (Qeq_bool _ 0) eqn:Hz; [|reflexivity].
    apply Qeq_bool_iff in Hz. lra.
  - field. lra.
Qed.

Lemma contar_ninguno cond vs :
  (forall v, v ∈ vs -> cond v = false) -> contar cond vs = 0%nat.
Proof.
  unfold contar. induction vs as [|x vs IH]; simpl; intros H; [reflexivity|].
  rewrite (H x (list_elem_of_here _ _)). apply IH.
  intros v Hv. apply H. apply list_elem_of_further. exact Hv.
Qed.

(** The counts of days above the mean production and below half of it: on
    an empty table the mean is [NaN] and both counts are 0; on a table
    without any production the mean is 0 and both counts are 0; and if no
    day has a negative production or one above 10^9, no day is counted in
    both and at least one day is not below half the mean. *)
Theorem dias_alta_y_baja_produccion :
  forall (df : DataFrame) alta baja,
    dias_produccion df = Ok (alta, baja) ->
    (df = [] -> alta = 0%nat /\ baja = 0%nat)
    /\ (Forall (fun r => valor "produccion_litros" r == 0) df ->
        alta = 0%nat /\ baja = 0%nat)
    /\ (Forall (fun r => 0 <= valor "produccion_litros" r
                         /\ valor "produccion_litros" r <= 1000000000) df ->
        (alta + baja <= length df)%nat /\ (df <> [] -> (baja < length df)%nat)).
Proof.
  intros df alta baja. unfold dias_produccion. intros E.
  apply bind_Ok_inv in E as (prod & Hprod & E).
  pose proof (mapR_length _ _ _ Hprod) as Hlen.
  apply mapR_num_Ok in Hprod as [Hvs _].
  split.
  { intros ->. simpl in Hvs. subst prod. simpl in E. injection E as <- <-. auto. }
  destruct df as [|r0 df0] eqn:Edf.
  { simpl in Hvs. subst prod. simpl in E. injection E as <- <-.
    split; [auto|]. intros _. simpl. split; [lia|congruence]. }
  rewrite <- Edf in *. assert (Hne : df <> []) by (rewrite Edf; discriminate).
  assert (Hpne : prod <> []).
  { intros ->. simpl in Hlen. rewrite Edf in Hlen. simpl in Hlen. lia. }
  destruct (media_Ok prod Hpne) as (m & Hm & Hnm).
  rewrite Hm in E. injection E as <- <-.
  pose proof (longitud_positiva prod Hpne) as Hn.
  split.
  { intros Hz.
    assert (Hpz : Forall (fun p => p == 0) prod).
    { subst prod. apply Forall_forall. intros q Hq.
      apply list_elem_of_fmap in Hq as (r & -> & Hr).
      rewrite Forall_forall in Hz. apply Hz. exact Hr. }
    pose proof (suma_de_ceros prod Hpz) as Hs.
    assert (Hm0 : m == 0) by nra.
    rewrite Forall_forall in Hpz.
    split; apply contar_ninguno; intros v Hv; specialize (Hpz v Hv).
    - apply Qgtb_false. lra.
    - apply Qltb_false. rewrite Hm0, Hpz. apply Qle_bool_iff. reflexivity. }
  intros Hcotas.
  assert (Hpos : Forall (fun r => 0 <= valor "produccion_litros" r) df).
  { eapply Forall_impl; [exact Hcotas|]. intros r [Hr _]. exact Hr. }
  assert (Hsum : 0 <= suma prod).
  { subst prod. apply suma_no_negativa. apply Forall_forall. intros q Hq.
    apply list_elem_of_fmap in Hq as (r & -> & Hr).
    rewrite Forall_forall in Hpos. apply Hpos. exact Hr. }
  assert (Hm0 : 0 <= m) by nra.
  split.
  - rewrite <- Hlen. apply contar_disjuntos. intros v _ Hv.
    apply Qgtb_true in Hv. apply Qltb_false.
    apply Qle_shift_div_r; [lra|]. lra.
  - intros _. rewrite <- Hlen.
    pose proof (contar_le (fun p => Qltb p (m / 2)) prod) as Hle.
    destruct (decide (contar (fun p => Qltb p (m / 2)) prod = length prod)) as [Hall|]; [|lia].
    exfalso. pose proof (contar_todos _ _ Hall) as Hlt.
    assert (H : suma prod < inject_Z (Z.of_nat (length prod)) * (m / 2)).
    { apply suma_menor; [exact Hpne|]. intros v Hv. apply Qltb_true. apply Hlt. exact Hv. }
    assert (Hhalf : inject_Z (Z.of_nat (length prod)) * (m / 2) == suma prod / 2).
    { rewrite <- Hnm. field. }
    rewrite Hhalf in H.
    assert (suma prod / 2 <= suma prod) by (apply Qle_shift_div_r; lra). lra.
Qed.

Definition dias_ejemplo : nat * nat :=
  Eval vm_compute in
    match dias_produccion tabla_resultados with Ok d => d | _ => (0%nat, 0%nat) end.

Lemma dias_produccion_ejemplo :
  dias_produccion tabla_resultados = Ok (fst dias_ejemplo, snd dias_ejemplo).
Proof. vm_compute. reflexivity. Qed.

Lemma dias_alta_y_baja_produccion_witness :
  (tabla_resultados = [] -> fst dias_ejemplo = 0%nat /\ snd dias_ejemplo = 0%nat)
  /\ (Forall (fun r => valor "produccion_litros" r == 0) tabla_resultados ->
      fst dias_ejemplo = 0%nat /\ snd dias_ejemplo = 0%nat)
  /\ (Forall (fun r => 0 <= valor "produccion_litros" r
                       /\ valor "produccion_litros" r <= 1000000000) tabla_resultados ->
      (fst dias_ejemplo + snd dias_ejemplo <= length tabla_resultados)%nat
      /\ (tabla_resultados <> [] -> (snd dias_ejemplo < length tabla_resultados)%nat)).
Proof.
  apply (dias_alta_y_baja_produccion tabla_resultados).
  exact dias_produccion_ejemplo.
Defined.

(** ** The seasons of the report *)

(** One entry of [datos_estacionales] in [actualizar_datos_reporte]; the
    mean GOR is [NonFinite] when it is [NaN]. *)
Record DatosEstacion : Type := mk_datos_estacion {
  de_produccion : Q;
  de_gor : resultado Q;
  de_porcentaje : Q }.

(** The dict [estaciones], in the order of its keys. *)
Definition estaciones_reporte : list (string * list Z) :=
  [("Invierno", [12; 1; 2]%Z); ("Primavera", [3; 4; 5]%Z);
   ("Verano", [6; 7; 8]%Z); ("Otoño", [9; 10; 11]%Z)].

(** [df[df['mes'].isin(meses)]] *)
Definition filas_de_meses (meses : list Z) (df : DataFrame) : DataFrame :=
  List.filter (fun r : fila =>
                 match r !! "mes" with Some c => isin c meses | None => false end) df.

(** The seasonal statistics of [actualizar_datos_reporte], from the two
    tables read from the CSV files.  A column is looked up in the whole
    monthly table, also when no month of the season is in it. *)
Definition datos_estacionales (df_anual df_mensual : DataFrame)
  : resultado (list (string * DatosEstacion)) :=
  produccion_total ← suma_columna "produccion_litros" df_anual;
  mapR (fun em : string * list Z =>
          _ ← mapR (fun r => col r "mes") df_mensual;
          let datos_estacion := filas_de_meses (snd em) df_mensual in
          _ ← mapR (fun r => col r "produccion_litros") df_mensual;
          produccion_estacion ← suma_columna "produccion_litros" datos_estacion;
          _ ← mapR (fun r => col r "GOR") df_mensual;
          gs ← mapR (fun r => num r "GOR") datos_estacion;
          let gor_estacion := agregar Media gs in
          let porcentaje_estacion :=
            if Qgtb produccion_total 0
            then produccion_estacion / produccion_total * 100 else 0 in
          Ok (fst em,
              mk_datos_estacion produccion_estacion gor_estacion porcentaje_estacion))
       estaciones_reporte.

(** What an entry holds when the loop returns. *)
Definition dato_estacion (produccion_total : Q) (df_mensual : DataFrame)
    (em : string * list Z) : string * DatosEstacion :=
  let datos_estacion := filas_de_meses (snd em) df_mensual in
  let produccion_estacion := suma (map (valor "produccion_litros") datos_estacion) in
  (fst em,
   mk_datos_estacion produccion_estacion
     (agregar Media (map (valor "GOR") datos_estacion))
     (if Qgtb produccion_total 0
      then produccion_estacion / produccion_total * 100 else 0)).

Lemma datos_estacionales_Ok df_anual df_mensual ds :
  datos_estacionales df_anual df_mensual = Ok ds ->
  suma_columna "produccion_litros" df_anual
  = Ok (suma (map (valor "produccion_litros") df_anual))
  /\ ds = map (dato_estacion (suma (map (valor "produccion_litros") df_anual)) df_mensual)
              estaciones_reporte.
Proof.
  unfold datos_estacionales. intros E.
  apply bind_Ok_inv in E as (total & Htotal & E).
  assert (Ht : total = suma (map (valor "produccion_litros") df_anual)).
  { unfold suma_columna in Htotal. apply bind_Ok_inv in Htotal as (vs & Hvs & Ht).
    apply mapR_num_Ok in Hvs as [-> _]. congruence. }
  subst total. split; [exact Htotal|].
  rewrite <- (map_id ds). eapply mapR_map; [exact E|].
  intros em d _ Hd.
  apply bind_Ok_inv in Hd as (? & _ & Hd). apply bind_Ok_inv in Hd as (? & _ & Hd).
  apply bind_Ok_inv in Hd as (p & Hp & Hd). apply bind_Ok_inv in Hd as (? & _ & Hd).
  apply bind_Ok_inv in Hd as (gs & Hgs & Hd).
  unfold suma_columna in Hp. apply bind_Ok_inv in Hp as (vs & Hvs & Hp).
  apply mapR_num_Ok in Hvs as [-> _]. apply mapR_num_Ok in Hgs as [-> _].
  injection Hp as <-. injection Hd as <-. reflexivity.
Qed.

Lemma filas_de_meses_cons meses (r : fila) df :
  filas_de_meses meses (r :: df)
  = if match r !! "mes" with Some c => isin c meses | None => false end
    then r :: filas_de_meses meses df else filas_de_meses meses df.
Proof. reflexivity. Qed.

(** Every month from 1 to 12 is in one season of the report, and in one only. *)
Lemma estaciones_reporte_particion (v : fila -> Q) (df : DataFrame) :
  Forall (fun r : fila => exists m, r !! "mes" = Some (Ent m) /\ (1 <= m <= 12)%Z) df ->
  suma (map v (filas_de_meses [12; 1; 2]%Z df))
  + suma (map v (filas_de_meses [3; 4; 5]%Z df))
  + suma (map v (filas_de_meses [6; 7; 8]%Z df))
  + suma (map v (filas_de_meses [9; 10; 11]%Z df))
  == suma (map v df).
Proof.
  induction 1 as [|r df (m & Hm & Hrange) _ IH]; [reflexivity|].
  rewrite !filas_de_meses_cons, Hm.
  assert (Hcasos : (m = 1 \/ m = 2 \/ m = 3 \/ m = 4 \/ m = 5 \/ m = 6 \/ m = 7
                   \/ m = 8 \/ m = 9 \/ m = 10 \/ m = 11 \/ m = 12)%Z) by lia.
  change (suma (map v (r :: df))) with (v r + suma (map v df)).
  destruct Hcasos as [->|[->|[->|[->|[->|[->|[->|[->|[->|[->|[->| ->]]]]]]]]]]];
    cbn [isin existsb Z.eqb Pos.eqb orb];
    change (suma (map v (r :: ?l))) with (v r + suma (map v l));
    rewrite <- IH; ring.
Qed.

Lemma dias_a_meses (df dm : DataFrame) :
  Forall (fun r : fila => forall m, r !! "mes" = Some (Ent m) -> (1 <= m <= 12)%Z) df ->
  resumen_mensual df = Ok dm ->
  Forall (fun r : fila => exists m, r !! "mes" = Some (Ent m) /\ (1 <= m <= 12)%Z) dm
  /\ suma (map (valor "produccion_litros") dm)
     == suma (map (valor "produccion_litros") df).
Proof.
  intros Hdf E.
  destruct (resumen_mensual_meses_y_total df dm E) as [Hmeses Hsum].
  split; [|exact Hsum].
  apply Forall_forall. intros r' Hr'.
  destruct (Hmeses r' Hr') as (m & r0 & Hm & Hr0 & Hm0).
  exists m. split; [exact Hm|].
  rewrite Forall_forall in Hdf. exact (Hdf r0 Hr0 m Hm0).
Qed.

Lemma suma_de_unos {A} (l : list A) :
  suma (map (fun _ => 1) l) == inject_Z (Z.of_nat (length l)).
Proof.
  induction l as [|x l IH]; [reflexivity|].
  change (1 + suma (map (fun _ : A => 1) l) == inject_Z (Z.of_nat (S (length l)))).
  rewrite IH, Nat2Z.inj_succ. unfold Z.succ. rewrite inject_Z_plus. ring.
Qed.

(** The seasonal block of the report: one entry per season, in the order
    Invierno, Primavera, Verano, Otoño; an entry's production is the sum
    over the rows of the monthly table with a month of the season, its mean
    GOR is [NaN] exactly when there is no such row, and its percentage is
    the production over the annual production times 100 when the annual
    production is positive, and 0 otherwise.  When every month of the
    monthly table is between 1 and 12, every monthly row is in the rows of
    one season and of one only.  When the monthly table is the monthly
    summary of an annual table whose daily productions are neither negative
    nor above 10^9 and add up to at least 0.001 litres, the four
    percentages add up to 100, up to the rounding of the sums and of the
    quotients: within 0.01 of it. *)
Theorem reporte_porcentajes_estacionales :
  forall (df_anual df_mensual : DataFrame) ds,
    datos_estacionales df_anual df_mensual = Ok ds ->
    exists produccion_total,
      suma_columna "produccion_litros" df_anual = Ok produccion_total
      /\ map fst ds = ["Invierno"; "Primavera"; "Verano"; "Otoño"]
      /\ (forall e d, (e, d) ∈ ds ->
            exists meses, (e, meses) ∈ estaciones_reporte
              /\ de_produccion d
                 = suma (map (valor "produccion_litros") (filas_de_meses meses df_mensual))
              /\ (de_gor d = NonFinite <-> filas_de_meses meses df_mensual = [])
              /\ de_porcentaje d
                 = if Qgtb produccion_total 0
                   then de_produccion d / produccion_total * 100 else 0)
      /\ (Forall (fun r : fila =>
                    exists m, r !! "mes" = Some (Ent m) /\ (1 <= m <= 12)%Z) df_mensual ->
          (length (filas_de_meses [12; 1; 2]%Z df_mensual)
           + length (filas_de_meses [3; 4; 5]%Z df_mensual)
           + length (filas_de_meses [6; 7; 8]%Z df_mensual)
           + length (filas_de_meses [9; 10; 11]%Z df_mensual) = length df_mensual)%nat)
      /\ (produccion_total <= 0 -> forall e d, (e, d) ∈ ds -> de_porcentaje d = 0)
      /\ (Forall (fun r : fila => 0 <= valor "produccion_litros" r
                                  /\ valor "produccion_litros" r <= 1000000000) df_anual ->
          1 # 1000 <= produccion_total ->
          Forall (fun r : fila =>
                    forall m, r !! "mes" = Some (Ent m) -> (1 <= m <= 12)%Z) df_anual ->
          resumen_mensual df_anual = Ok df_mensual ->
          99.99 <= suma (map (fun d => de_porcentaje (snd d)) ds)
          /\ suma (map (fun d => de_porcentaje (snd d)) ds) <= 100.01).
Proof.
  intros df_anual df_mensual ds E.
  destruct (datos_estacionales_Ok _ _ _ E) as [Htotal ->].
  set (total := suma (map (valor "produccion_litros") df_anual)) in *.
  exists total. split; [exact Htotal|]. split; [reflexivity|].
  assert (Hpart : Forall (fun r : fila =>
                     exists m, r !! "mes" = Some (Ent m) /\ (1 <= m <= 12)%Z) df_mensual ->
                  suma (map (fun d => de_produccion (snd d))
                            (map (dato_estacion total df_mensual) estaciones_reporte))
                  == suma (map (valor "produccion_litros") df_mensual)).
  { intros Hm. rewrite <- (estaciones_reporte_particion _ _ Hm).
    unfold estaciones_reporte, dato_estacion. simpl. ring. }
  split.
  { intros e d Hd. apply list_elem_of_fmap in Hd as ([e' meses] & Hd & Hin).
    unfold dato_estacion in Hd. cbn [fst snd] in Hd. injection Hd as -> ->.
    exists meses. split; [exact Hin|]. split; [reflexivity|].
    split; [|reflexivity]. cbn [de_gor].
    destruct (filas_de_meses meses df_mensual) as [|r l] eqn:Hf.
    - split; [reflexivity|]. intros _. reflexivity.
    - destruct (media_Ok (map (valor "GOR") (r :: l))) as (m & Hm & _); [discriminate|].
      change (agregar Media (map (valor "GOR") (r :: l)) = NonFinite <-> r :: l = []).
      rewrite Hm. split; discriminate. }
  split.
  { intros Hm.
    pose proof (estaciones_reporte_particion (fun _ => 1) df_mensual Hm) as Hunos.
    rewrite !suma_de_unos in Hunos. rewrite <- !inject_Z_plus in Hunos.
    unfold Qeq, inject_Z in Hunos. cbn [Qnum Qden] in Hunos. lia. }
  split.
  { intros Hle e d Hd. apply list_elem_of_fmap in Hd as ([e' meses] & Hd & _).
    unfold dato_estacion in Hd. injection Hd as -> ->. simpl.
    rewrite (proj2 (Qgtb_false total 0) Hle). reflexivity. }
  intros _ Htot Hdf Hdm. assert (Hpos : 0 < total) by lra.
  destruct (dias_a_meses _ _ Hdf Hdm) as [Hmeses Hsum].
  specialize (Hpart Hmeses). rewrite Hsum in Hpart. fold total in Hpart.
  revert Hpart. unfold estaciones_reporte, dato_estacion. simpl.
  rewrite (proj2 (Qgtb_true total 0) Hpos). simpl. intros Hpart.
  set (a := suma (map _ (filas_de_meses [12; 1; 2]%Z df_mensual))) in *.
  set (b := suma (map _ (filas_de_meses [3; 4; 5]%Z df_mensual))) in *.
  set (c := suma (map _ (filas_de_meses [6; 7; 8]%Z df_mensual))) in *.
  set (d := suma (map _ (filas_de_meses [9; 10; 11]%Z df_mensual))) in *.
  assert (Hs : a + b + c + d == total) by (rewrite <- Hpart; ring).
  assert (Hcien : a / total * 100 + (b / total * 100 + (c / total * 100
                    + (d / total * 100 + 0))) == 100).
  { transitivity ((a + b + c + d) / total * 100); [field; lra|].
    rewrite Hs. field. lra. }
  rewrite Hcien. split; lra.
Qed.

Definition datos_estacionales_ejemplo : list (string * DatosEstacion) :=
  Eval vm_compute in
    match datos_estacionales tabla_resultados (fst resumenes_ejemplo) with
    | Ok ds => ds
    | _ => []
    end.

Lemma datos_estacionales_ejemplo_Ok :
  datos_estacionales tabla_resultados (fst resumenes_ejemplo)
  = Ok datos_estacionales_ejemplo.
Proof. vm_compute. reflexivity. Qed.

Lemma reporte_porcentajes_estacionales_witness :
  exists produccion_total,
    suma_columna "produccion_litros" tabla_resultados = Ok produccion_total
    /\ map fst datos_estacionales_ejemplo = ["Invierno"; "Primavera"; "Verano"; "Otoño"]
    /\ (forall e d, (e, d) ∈ datos_estacionales_ejemplo ->
          exists meses, (e, meses) ∈ estaciones_reporte
            /\ de_produccion d
               = suma (map (valor "produccion_litros") (filas_de_meses meses (fst resumenes_ejemplo)))
            /\ (de_gor d = NonFinite <-> filas_de_meses meses (fst resumenes_ejemplo) = [])
            /\ de_porcentaje d
               = if Qgtb produccion_total 0
                 then de_produccion d / produccion_total * 100 else 0)
    /\ (Forall (fun r : fila =>
                  exists m, r !! "mes" = Some (Ent m) /\ (1 <= m <= 12)%Z) (fst resumenes_ejemplo) ->
        (length (filas_de_meses [12; 1; 2]%Z (fst resumenes_ejemplo))
         + length (filas_de_meses [3; 4; 5]%Z (fst resumenes_ejemplo))
         + length (filas_de_meses [6; 7; 8]%Z (fst resumenes_ejemplo))
         + length (filas_de_meses [9; 10; 11]%Z (fst resumenes_ejemplo)) = length (fst resumenes_ejemplo))%nat)
    /\ (produccion_total <= 0 -> forall e d, (e, d) ∈ datos_estacionales_ejemplo -> de_porcentaje d = 0)
    /\ (Forall (fun r : fila => 0 <= valor "produccion_litros" r
                                /\ valor "produccion_litros" r <= 1000000000) tabla_resultados ->
        1 # 1000 <= produccion_total ->
        Forall (fun r : fila =>
                  forall m, r !! "mes" = Some (Ent m) -> (1 <= m <= 12)%Z) tabla_resultados ->
        resumen_mensual tabla_resultados = Ok (fst resumenes_ejemplo) ->
        99.99 <= suma (map (fun d => de_porcentaje (snd d)) datos_estacionales_ejemplo)
        /\ suma (map (fun d => de_porcentaje (snd d)) datos_estacionales_ejemplo) <= 100.01).
Proof.
  apply (reporte_porcentajes_estacionales tabla_resultados (fst resumenes_ejemplo)).
  exact datos_estacionales_ejemplo_Ok.
Defined.

(** ** The annual energy ratios *)

(** [gor_total] and [eficiencia_termica] of [mostrar_estadisticas]: each is
    a quotient of two column sums, [NonFinite] when the annual solar energy
    is zero. *)
Definition razones_anuales (df_resultados : DataFrame)
  : resultado (resultado Q * resultado Q) :=
  energia_solar_total ← suma_columna "energia_solar" df_resultados;
  energia_evaporacion ← suma_columna "energia_evaporacion" df_resultados;
  energia_util ← suma_columna "energia_util" df_resultados;
  let gor_total := np_div energia_evaporacion energia_solar_total in
  let eficiencia_termica := np_div energia_util energia_solar_total in
  Ok (gor_total, eficiencia_termica).

Lemma suma_por_filas {A} (k : Q) (f g : A -> Q) (l : list A) :
  (forall x, x ∈ l -> k * f x <= g x) ->
  k * suma (map f l) <= suma (map g l).
Proof.
  induction l as [|x l IH]; intros H.
  - simpl. lra.
  - change (k * (f x + suma (map f l)) <= g x + suma (map g l)).
    assert (k * f x <= g x) by (apply H; apply list_elem_of_here).
    assert (k * suma (map f l) <= suma (map g l)).
    { apply IH. intros y Hy. apply H. apply list_elem_of_further. exact Hy. }
    lra.
Qed.

Lemma valor_Num c (r : fila) q : r !! c = Some (Num q) -> valor c r = q.
Proof. intros E. unfold valor, num. rewrite E. reflexivity. Qed.

Lemma suma_columna_Num c (df : DataFrame) :
  (forall r, r ∈ df -> exists q, r !! c = Some (Num q)) ->
  suma_columna c df = Ok (suma (map (valor c) df)).
Proof.
  intros H. unfold suma_columna. rewrite mapR_num_valor; [reflexivity|].
  intros r Hr. destruct (H r Hr) as [q Hq]. exists q. unfold num. rewrite Hq. reflexivity.
Qed.


